(* ===== verification/_CoqProject ===== *)
-Q . S2P
Core.v
Backend.v
StudyTimer.v
RoomJoin.v
StudyRooms.v
Chat.v
StudyPresence.v
WatchRoom.v
WatchLobby.v
AiService.v
Gemini.v
AiText.v
AiChat.v
Profile.v
Home.v
Settings.v
ProUpgrade.v
Auth.v
