(* ===== verification/Core.v ===== *)
(** * StudyRoomix: a verification development of the app's handlers

    This library models the TypeScript sources of the StudyRoomix mobile app
    (src/proje) as Rocq definitions and proves what its handlers do.  The
    app is a React Native client over a hosted row store and a hosted
    generative API: every screen keeps React state, calls the store through
    [supabase.from(..)], refetches when the store's change feed reports a
    row change, and the AI coach screen asks the API for answers.

    ** Files, in dependency order, and the code they model

    - [Core.v] (this file): the handler monad, JS built-ins on UTF-8 text
      ([trim], [includes], [split], [toLowerCase], UTF-16 [length] and
      [substring], [join], [String(n)]), shared list and map lemmas, and
      three proof libraries: [stable P c] (a handler keeps [P] on every
      path), [total c] (a handler never throws), with their hint databases
      [stable] and [total] and the tactics [stable_auto], [total_auto].
    - [Backend.v]: the store.  Its sixteen tables are [gmap]s in a [db]
      record ([table] gives each a getter and setter); a [world] adds the
      clock, the id generator, the signed-in user, a fault schedule (a call
      may answer with an error object) and the change log.  [select_single],
      [select_maybe], [select_where], [insert_at], [insert_fresh],
      [select_count], [update_where], [upsert] and [delete_where] are the
      supabase-js calls,
      returning the [{data, error}] pair as [resp]; they never throw.
    - [StudyTimer.v] (hooks/useStudyTimer.ts): the timer record and its
      callbacks; [reachable] is the step relation of its callbacks.
    - [RoomJoin.v]: the join logic useStudyRooms.ts and useChat.ts share
      line for line, written once against the class [RoomTable] (which
      tables, how a room says it is private), with its theorems proved
      against the class; [StudyRooms.v] and [Chat.v] give the instances.
    - [StudyRooms.v] (hooks/useStudyRooms.ts, components/Study/*Modal.tsx,
      app/(tabs)/study.tsx): create, join, leave, delete, the modals.
    - [Chat.v] (hooks/useChat.ts, components/Chat/ChatRoom.tsx,
      app/(tabs)/chat.tsx): the chat hook, the room screen with its loads,
      subscriptions, send and message bubbles, and the list screen with its
      search, sections, pro room and join/delete callbacks.
    - [StudyPresence.v] (components/Study/StudyRoom.tsx): the member timer
      map, the one-second merge, [formatTime], [handleTimerAction].  One
      second of the room ([room_second]) runs the timer's tick and, only
      when the local count did not change, the room's interval: its effect
      depends on [elapsedTime], so each tick re-creates it before it can
      fire.
    - [WatchRoom.v], [WatchLobby.v] (components/Watch/*.tsx,
      app/(tabs)/watch.tsx): playback state with the creator as the only
      writer, the followers' merge of remote updates, [getEmbedUrl], the
      chat, the list screen with [RoomCard]'s creator-only trash button,
      and its modals.
    - [AiService.v] (lib/aiChatService.ts): the AI coach's store calls.
    - [Gemini.v] (lib/gemini.ts): the API client over an oracle [api] that
      answers the n-th request with its n-th [reply] and records requests;
      the coach instructions, the extended prompt, the one-shot stream.
    - [AiText.v]: the text tests of ai-chat.tsx's profile extraction, each
      regular expression written as the matcher it denotes.
    - [AiChat.v] (app/ai-chat.tsx): the AI coach screen over
      [(screen * (world * api))]: history load, send with its retry loop,
      stream reading, profile extraction, clear, assignment toggle.
    - [Profile.v] (app/(tabs)/profile.tsx): the profile tab's statistics,
      achievements with their streak loop, change-feed callbacks that run
      the handlers of the render whose effect subscribed them, the settings
      items and the rendered view; it requires [StudyTimer.v] to compose
      the timer's recorded sessions with the achievement test.
    - [Home.v] (app/(tabs)/index.tsx): the home tab's row load, its
      [USER_DATA_UPDATED] listener, the delayed feature-card navigation and
      the AI card.
    - [Settings.v] (app/account-settings.tsx, lib/eventEmitter.ts): the
      account settings handlers over [settings_screen * (home_screen *
      world)]; the emitter runs the home tab's listener, so a saved name
      reaches the home screen through the shared store.
    - [ProUpgrade.v] (app/pro-upgrade.tsx): the upgrade and promotion-code
      handlers over [pro_screen * (home_screen * world)], emitting to the
      same listener.
    - [Auth.v] (app/(auth)/sign-in.tsx, sign-up.tsx): the form validation,
      with the e-mail expression as an automaton over UTF-8 characters and
      its language [email_lang], and the sign-in and sign-up handlers over
      the outcome of AuthContext's calls, with the rate-limit cooldown.

    ** Effects

    Handlers are [async] functions that await calls, set React state and
    may throw.  They are modelled in the monad [M S A]: a state [S] (the
    component's React state paired with the [world], and the API for the
    coach) and an [outcome] that is a value or a thrown JS exception; the
    state reached before a throw is kept, as in JavaScript.  Each handler
    runs to completion as one step: the interleaving of two handlers'
    awaits is modelled only where a theorem is about it, as an explicit
    sequence of events ([run_events], [run_room_events], [run_hook_calls]).
    Values a handler captured from the render it started in (the draft, the
    messages, the profile) are passed as that render's state.

    ** What the theorems show (by group)

    - the AI coach: a send always ends with exactly one answer and one API
      call (the retry loop never runs); the stream's fallbacks are dead
      code; the history loads the oldest 50 messages; an empty answer is
      shown as the JSON text of the chunk; clearing stores two greetings;
      the request's length bound;
    - chat: a private room opens without password only as the pro room; a message
      read by the load and delivered by the feed is listed twice; the hook's
      error is never cleared;
    - the timer: the recorded duration equals the ticks; pause/resume
      double counts in a study room; a failed insert leaves an unstoppable
      timer; every reachable timer state satisfies the invariant;
    - membership: join is idempotent, a wrong or missing password never
      adds a member row, a missing room is an error, a private room created
      with an empty password cannot be joined;
    - presence: the other members' counts are exact while the local timer
      is stopped and frozen at the last fetch while it runs; a public
      room's session is invisible; [formatTime]'s parts;
    - watch rooms: only the creator writes the playback state, a follower
      ends on the last row delivered, embed URLs, draft kept on failure;
      from the list a user deletes only rooms they created;
    - profile: BOOKWORM is never unlocked (the captured study time is 0);
      ten minutes on the timer unlock the ten-hour STUDY_MASTER; the streak
      loop equals a declarative reference (it counts 24-hour periods, not
      calendar days); the unlocked list is always well formed (type); the
      statistics shown equal the store's; a Pro user is never sent to the
      upgrade screen;
    - home and settings: a user who is not Pro never reaches the tutor
      from the home tab; a saved name reaches the home tab's greeting; the
      settings handlers always end with loading off; the upgrade button
      grants Pro with no payment step, and the home tab sees it;
    - sign-in and sign-up: the e-mail test is exactly the language of
      [\S+@\S+\.\S+] over the text's characters; a rate-limit refusal
      throws out of the [catch] when its message has no number, and
      otherwise starts a cooldown during which [signUp] is never called.

    ** Bounds and fuel

    [for_await] (AiChat.v) iterates the stream's iterator with fuel; the
    handler gives it 2, and [for_await_one_chunk] proves that 2 suffices and
    that more fuel gives the same result.  [js_split_all_l], [skip_ws],
    [trim_end] and the e-mail automaton [nfa_run] take the text's byte
    count as fuel, which bounds their number of steps: each step drops at
    least a byte ([nfa_run_fold] proves the automaton reads every
    character).
    [retry_loop] is structural in its retry count, 2 as [maxRetries].
    Timestamps are [Z] milliseconds, durations [Z] seconds and exam scores
    [Z], as JavaScript numbers below 2^53; no property depends on that
    bound.  String lengths are UTF-16 code units computed from UTF-8 bytes;
    [substring] drops a four-byte character it would cut in half.

    ** Not modelled

    Screen layout, navigation, animation, fonts and theming
    (components/UI/*, app/_layout.tsx, constants/Theme.ts), the typing
    animation and scrolling of the coach screen; the AuthContext module and
    the chat modals, which are not part of the repository (the signed-in
    user is a parameter); row-level security and cascades on the server;
    console logs; the random digits of [generateUUID] (a counter); the
    bodies of storage uploads, [fetch] and the auth service, which are
    requests that may fail and nothing more.  The welcome screen only
    redirects and animates, and the notification and help screens hold
    local toggles and links with no store call; they
    are listed in PROJECT.json as not modelled. *)

From stdpp Require Export base gmap strings list.
From Stdlib Require Export ZArith Lia.

Declare Scope app_scope.
Delimit Scope app_scope with app.
Open Scope app_scope.

(** ** JavaScript values a handler can throw *)

(** The error object a store call returns: a transient failure, the
    "no rows" error of [.single()] on an empty result, a unique-key
    violation of an insert, or a NOT NULL column written without a value. *)
Inductive dberr := DbUnavailable | DbNoRows | DbConflict | DbNotNull.

(** A thrown value: a store error rethrown by [if (error) throw error], an
    [Error] built with a message, or a [TypeError] of the runtime. *)
Inductive exn :=
  | ExnDb (e : dberr)
  | ExnMsg (msg : string)
  | ExnType (msg : string).

Definition dberr_message (e : dberr) : string :=
  match e with
  | DbUnavailable => "Failed to fetch"
  | DbNoRows => "JSON object requested, multiple (or no) rows returned"
  | DbConflict => "duplicate key value violates unique constraint"
  | DbNotNull => "null value in column violates not-null constraint"
  end.

(** [err.message] of a caught value. *)
Definition exn_message (e : exn) : string :=
  match e with
  | ExnDb d => dberr_message d
  | ExnMsg m => m
  | ExnType m => m
  end.

(** ** The handler monad: state passing with JS exceptions *)

Inductive outcome (A : Type) := Ok (a : A) | Thrown (e : exn).
Arguments Ok {A} a.
Arguments Thrown {A} e.

Definition M (S A : Type) : Type := S -> outcome A * S.

#[export] Instance M_ret S : MRet (M S) := fun A a s => (Ok a, s).
#[export] Instance M_bind S : MBind (M S) := fun A B k c s =>
  match c s with
  | (Ok a, s') => k a s'
  | (Thrown e, s') => (Thrown e, s')
  end.

(** Bind with the computation first, so that the continuation's binder is
    typed from it; [c ;; k] is stdpp's sequencing. *)
Definition bindM {S A B} (c : M S A) (k : A -> M S B) : M S B := mbind k c.

Notation "x <- c1 ;; c2" := (bindM c1 (fun x => c2))
  (at level 100, c1 at next level, right associativity) : app_scope.

Section Monad.
Context {S : Type}.

Definition get : M S S := fun s => (Ok s, s).
Definition put (s : S) : M S unit := fun _ => (Ok tt, s).
Definition modify (f : S -> S) : M S unit := fun s => (Ok tt, f s).
Definition gets {A} (f : S -> A) : M S A := fun s => (Ok (f s), s).
Definition throw {A} (e : exn) : M S A := fun s => (Thrown e, s).

(** [try { c } catch (e) { h e }]: the state reached by [c] is kept. *)
Definition try_catch {A} (c : M S A) (h : exn -> M S A) : M S A := fun s =>
  match c s with
  | (Ok a, s') => (Ok a, s')
  | (Thrown e, s') => h e s'
  end.

(** [try { c } finally { f }]: [f] runs on both paths. *)
Definition try_finally {A} (c : M S A) (f : M S unit) : M S A := fun s =>
  match c s with
  | (r, s') => match f s' with
               | (Ok _, s'') => (r, s'')
               | (Thrown e, s'') => (Thrown e, s'')
               end
  end.

(** [if (cond) throw new Error(msg)] *)
Definition guard_msg (cond : bool) (msg : string) : M S unit :=
  if cond then throw (ExnMsg msg) else mret tt.
End Monad.

Notation "'try!' c 'catch!' x '=>' h" := (try_catch c (fun x => h))
  (at level 10, c at level 100, x name, h at level 200) : app_scope.
Notation "'when!' b 'then' c" := (if b then c else mret tt)
  (at level 10, b at level 100, c at level 200) : app_scope.

(** ** Lenses: a handler that works on part of the state *)

Section Zoom.
Context {S T : Type} (view : S -> T) (upd : T -> S -> S).

Definition zoom {A} (c : M T A) : M S A := fun s =>
  let (r, t') := c (view s) in (r, upd t' s).
End Zoom.

(** Component state paired with the world: run a world action, or read and
    change the component's own part. *)
Definition on_snd {L W A} (c : M W A) : M (L * W) A :=
  zoom snd (fun w p => (fst p, w)) c.
Definition on_fst {L W A} (c : M L A) : M (L * W) A :=
  zoom fst (fun l p => (l, snd p)) c.
Definition setL {L W} (f : L -> L) : M (L * W) unit := modify (fun p => (f (fst p), snd p)).
Definition getL {L W} : M (L * W) L := gets fst.

(** ** JavaScript string built-ins *)

(** Truthiness of a string: only [""] is falsy. *)
Definition js_truthy (s : string) : bool := negb (String.eqb s "").

(** [s.includes(sub)] *)
(** Searching and splitting, on the characters of a string.  [sep] is
    always one of the source's non-empty literals. *)
Fixpoint is_prefix (p l : list Ascii.ascii) : bool :=
  match p, l with
  | [], _ => true
  | a :: p', b :: l' => Ascii.eqb a b && is_prefix p' l'
  | _ :: _, [] => false
  end.

(** The text before the first occurrence of [sep] and the text after it. *)
Fixpoint split_first_l (sep l : list Ascii.ascii) : option (list Ascii.ascii * list Ascii.ascii) :=
  if is_prefix sep l then Some ([], drop (length sep) l)
  else match l with
       | [] => None
       | c :: l' => (fun ab => (c :: ab.1, ab.2)) <$> split_first_l sep l'
       end.

Definition chars (s : string) : list Ascii.ascii := String.list_ascii_of_string s.
Definition of_chars (l : list Ascii.ascii) : string := String.string_of_list_ascii l.

(** [s.includes(sub)] *)
Definition js_includes (s sub : string) : bool :=
  match split_first_l (chars sub) (chars s) with Some _ => true | None => false end.

(** [s.split(sep)[n]], [None] for [undefined]. *)
Fixpoint js_split_l (sep l : list Ascii.ascii) (n : nat) : option (list Ascii.ascii) :=
  match split_first_l sep l, n with
  | Some (a, _), O => Some a
  | None, O => Some l
  | Some (_, b), S n => js_split_l sep b n
  | None, S _ => None
  end.

Definition js_split_nth (s sep : string) (n : nat) : option string :=
  of_chars <$> js_split_l (chars sep) (chars s) n.

(** [s.toLowerCase()] on the UTF-8 bytes of [s]: ASCII capitals, the
    Latin-1 capitals (U+00C0 to U+00DE but U+00D7) and the Turkish capitals
    Ğ and Ş are lowered; İ becomes i followed by U+0307, as in JS.  Other
    capitals outside these ranges are left as they are. *)
Fixpoint lower_l (l : list Ascii.ascii) : list Ascii.ascii :=
  match l with
  | [] => []
  | c :: l' =>
      let n := Ascii.nat_of_ascii c in
      if (65 <=? n) && (n <=? 90) then Ascii.ascii_of_nat (n + 32) :: lower_l l'
      else match n, l' with
           | 195, d :: l'' =>
               let m := Ascii.nat_of_ascii d in
               if (128 <=? m) && (m <=? 158) && negb (m =? 151)
               then c :: Ascii.ascii_of_nat (m + 32) :: lower_l l''
               else c :: d :: lower_l l''
           | 196, d :: l'' =>
               let m := Ascii.nat_of_ascii d in
               if m =? 158 then c :: Ascii.ascii_of_nat 159 :: lower_l l''
               else if m =? 176
               then Ascii.ascii_of_nat 105 :: Ascii.ascii_of_nat 204 :: Ascii.ascii_of_nat 135 :: lower_l l''
               else c :: d :: lower_l l''
           | 197, d :: l'' =>
               if Ascii.nat_of_ascii d =? 158 then c :: Ascii.ascii_of_nat 159 :: lower_l l''
               else c :: d :: lower_l l''
           | _, _ => c :: lower_l l'
           end
  end.

Definition js_toLowerCase (s : string) : string := of_chars (lower_l (chars s)).

(** [String.prototype.toUpperCase] on UTF-8 text, for ASCII, Latin-1 and
    the Turkish letters ğ, ı, ş (as [lower_l]): [ı] becomes the ASCII [I],
    and the ASCII [i] becomes [I], never [İ]. *)
Fixpoint upper_l (l : list Ascii.ascii) : list Ascii.ascii :=
  match l with
  | [] => []
  | c :: l' =>
      let n := Ascii.nat_of_ascii c in
      if (97 <=? n) && (n <=? 122) then Ascii.ascii_of_nat (n - 32) :: upper_l l'
      else match n, l' with
           | 195, d :: l'' =>
               let m := Ascii.nat_of_ascii d in
               if (160 <=? m) && (m <=? 190) && negb (m =? 183)
               then c :: Ascii.ascii_of_nat (m - 32) :: upper_l l''
               else if m =? 191
               then Ascii.ascii_of_nat 197 :: Ascii.ascii_of_nat 184 :: upper_l l''
               else c :: d :: upper_l l''
           | 196, d :: l'' =>
               let m := Ascii.nat_of_ascii d in
               if m =? 159 then c :: Ascii.ascii_of_nat 158 :: upper_l l''
               else if m =? 177 then Ascii.ascii_of_nat 73 :: upper_l l''
               else c :: d :: upper_l l''
           | 197, d :: l'' =>
               if Ascii.nat_of_ascii d =? 159 then c :: Ascii.ascii_of_nat 158 :: upper_l l''
               else c :: d :: upper_l l''
           | _, _ => c :: upper_l l'
           end
  end.

Definition js_toUpperCase (s : string) : string := of_chars (upper_l (chars s)).

(** A continuation byte of UTF-8 (10xxxxxx). *)
Definition is_cont (c : Ascii.ascii) : bool :=
  (128 <=? Ascii.nat_of_ascii c) && (Ascii.nat_of_ascii c <=? 191).

(** The bytes of the character at the head of [l]: its lead byte and the
    continuation bytes after it. *)
Fixpoint cont_prefix (l : list Ascii.ascii) : nat :=
  match l with
  | c :: l' => if is_cont c then S (cont_prefix l') else 0
  | [] => 0
  end.

Definition char_bytes (l : list Ascii.ascii) : nat :=
  match l with [] => 0 | _ :: l' => S (cont_prefix l') end.

(** The ASCII characters of JavaScript's white space and line terminators. *)
Definition is_js_space (c : Ascii.ascii) : bool :=
  match Ascii.nat_of_ascii c with
  | 9 | 10 | 11 | 12 | 13 | 32 => true
  | _ => false
  end.

(** The bytes of a white-space or line-terminator character at the head of
    [l] (the set [trim] removes and [\s] matches), 0 if there is none: the
    ASCII blanks, U+00A0, U+1680, U+2000 to U+200A, U+2028, U+2029,
    U+202F, U+205F, U+3000 and U+FEFF. *)
Definition ws_bytes (l : list Ascii.ascii) : nat :=
  match Ascii.nat_of_ascii <$> l with
  | c :: _ => if is_js_space (Ascii.ascii_of_nat c) then 1 else
      match Ascii.nat_of_ascii <$> l with
      | 194 :: 160 :: _ => 2
      | 225 :: 154 :: 128 :: _ => 3
      | 226 :: 128 :: d :: _ =>
          if (128 <=? d) && (d <=? 138) || (d =? 168) || (d =? 169) || (d =? 175) then 3 else 0
      | 226 :: 129 :: 159 :: _ => 3
      | 227 :: 128 :: 128 :: _ => 3
      | 239 :: 187 :: 191 :: _ => 3
      | _ => 0
      end
  | [] => 0
  end.

(** The white space at the head of [l] dropped; [fuel] is the length of
    [l], and each step drops a byte or more. *)
Fixpoint skip_ws (fuel : nat) (l : list Ascii.ascii) : list Ascii.ascii :=
  match fuel with
  | O => l
  | S f => match ws_bytes l with O => l | n => skip_ws f (drop n l) end
  end.

(** The white space at the end of [l] dropped, reading [l] character by
    character: a white-space character is kept only when something other
    than white space follows it. *)
Fixpoint trim_end (fuel : nat) (l : list Ascii.ascii) : list Ascii.ascii :=
  match fuel, l with
  | _, [] => []
  | O, _ => l
  | S f, _ =>
      match ws_bytes l with
      | O => take (char_bytes l) l ++ trim_end f (drop (char_bytes l) l)
      | n => match trim_end f (drop n l) with [] => [] | r => take n l ++ r end
      end
  end.

(** [s.trim()] *)
Definition js_trim (s : string) : string :=
  let l := skip_ws (length (chars s)) (chars s) in of_chars (trim_end (length l) l).

(** UTF-16 code units of the character a leading byte starts: two for a
    four-byte sequence, one otherwise. *)
Definition lead_units (c : Ascii.ascii) : nat :=
  if 240 <=? Ascii.nat_of_ascii c then 2 else 1.

Fixpoint utf16_units (l : list Ascii.ascii) : nat :=
  match l with
  | [] => 0
  | c :: l' => (if is_cont c then 0 else lead_units c) + utf16_units l'
  end.

(** [s.length]: JS counts UTF-16 code units. *)
Definition js_length (s : string) : nat := utf16_units (chars s).

(** The characters of the first [n] code units.  A four-byte character
    that does not fit is dropped whole (JS would keep half of its
    surrogate pair). *)
Fixpoint take_units (n : nat) (l : list Ascii.ascii) : list Ascii.ascii :=
  match l with
  | [] => []
  | c :: l' =>
      if is_cont c then c :: take_units n l'
      else if lead_units c <=? n then c :: take_units (n - lead_units c) l'
      else []
  end.

(** [s.substring(0, n)] *)
Definition js_substring0 (s : string) (n : nat) : string := of_chars (take_units n (chars s)).

(** [xs.join(sep)] *)
Fixpoint js_join (sep : string) (xs : list string) : string :=
  match xs with
  | [] => ""
  | [x] => x
  | x :: xs' => x +:+ sep +:+ js_join sep xs'
  end.

(** Decimal digits of [n], [fuel] bounding their count. *)
Fixpoint N_digits (fuel : nat) (n : N) (acc : list Ascii.ascii) : list Ascii.ascii :=
  match fuel with
  | O => acc
  | S f =>
      let acc' := Ascii.ascii_of_N (48 + N.modulo n 10) :: acc in
      if (n <? 10)%N then acc' else N_digits f (N.div n 10) acc'
  end.

(** [String(z)] of an integral number; [N.size_nat n] (its bit count) is
    at least its number of decimal digits. *)
Definition js_number_to_string (z : Z) : string :=
  if (z <? 0)%Z
  then of_chars (Ascii.ascii_of_nat 45 :: N_digits (N.size_nat (Z.to_N (- z))) (Z.to_N (- z)) [])
  else of_chars (N_digits (N.size_nat (Z.to_N z)) (Z.to_N z) []).

(** [s.split(sep)], every piece; [fuel] bounds the number of pieces, and
    [S (length l)] is enough for a non-empty [sep]. *)
Fixpoint js_split_all_l (fuel : nat) (sep l : list Ascii.ascii) : list (list Ascii.ascii) :=
  match fuel with
  | O => [l]
  | S f =>
      match split_first_l sep l with
      | Some (a, b) => a :: js_split_all_l f sep b
      | None => [l]
      end
  end.

Definition js_split (s sep : string) : list string :=
  of_chars <$> js_split_all_l (S (length (chars s))) (chars sep) (chars s).

(** The double quote character, for JSON text. *)
Definition dq : string := String.String (Ascii.ascii_of_nat 34) String.EmptyString.

Definition js_slice_last {A} (n : nat) (xs : list A) : list A :=
  drop (length xs - n) xs.

(** ** Shared lemmas *)

Lemma bind_ok {S A B} (c : M S A) (k : A -> M S B) s a s' :
  c s = (Ok a, s') -> (c ≫= k) s = k a s'.
Proof. intros H. unfold mbind, M_bind. by rewrite H. Qed.

Lemma bind_thrown {S A B} (c : M S A) (k : A -> M S B) s e s' :
  c s = (Thrown e, s') -> (c ≫= k) s = (Thrown e, s').
Proof. intros H. unfold mbind, M_bind. by rewrite H. Qed.

Lemma ret_run {S A} (a : A) (s : S) : (mret a : M S A) s = (Ok a, s).
Proof. reflexivity. Qed.

(** [trim] removes the Unicode white space of both ends, here a no-break
    space (U+00A0) and an ideographic space (U+3000), and keeps the space
    inside. *)
Lemma js_trim_examples :
  js_trim "  ad soyad　 " = "ad soyad"%string /\ js_trim "  " = ""%string.
Proof. vm_compute. split; reflexivity. Qed.

(** ** Splitting a known prefix off a string *)

Lemma chars_app s1 s2 : chars (s1 +:+ s2) = chars s1 ++ chars s2.
Proof.
  unfold chars. induction s1 as [|c s1 IH]; [done|].
  change (String.String c s1 +:+ s2) with (String.String c (s1 +:+ s2)). cbn. f_equal. exact IH.
Qed.

Lemma of_chars_chars s : of_chars (chars s) = s.
Proof. apply String.string_of_list_ascii_of_string. Qed.

Lemma is_prefix_length p l : is_prefix p l = true -> length p <= length l.
Proof.
  revert l. induction p as [|a p IH]; intros [|b l]; cbn; try done; [lia|].
  intros [_ H]%andb_prop. specialize (IH _ H). lia.
Qed.

Lemma is_prefix_app p l v : is_prefix p l = true -> is_prefix p (l ++ v) = true.
Proof.
  revert l. induction p as [|a p IH]; intros [|b l]; cbn; try done.
  intros [-> H]%andb_prop. by apply IH.
Qed.

Lemma is_prefix_app_false p l v :
  length p <= length l -> is_prefix p l = false -> is_prefix p (l ++ v) = false.
Proof.
  revert l. induction p as [|a p IH]; intros [|b l]; cbn; try done; [lia|].
  intros Hl. destruct (Ascii.eqb a b); cbn; [|done]. apply IH. lia.
Qed.

Lemma split_first_l_length sep l a b :
  split_first_l sep l = Some (a, b) -> length a + length sep + length b = length l.
Proof.
  revert a b. induction l as [|c l IH]; intros a b; cbn.
  - destruct (is_prefix sep []) eqn:E; [|done]. intros [= <- <-].
    apply is_prefix_length in E. rewrite length_drop. cbn in *. lia.
  - destruct (is_prefix sep (c :: l)) eqn:E.
    + intros [= <- <-]. apply is_prefix_length in E. rewrite length_drop. cbn in *. lia.
    + destruct (split_first_l sep l) as [[a' b']|] eqn:Hs; [|done]. cbn. intros [= <- <-].
      specialize (IH _ _ eq_refl). cbn. lia.
Qed.

(** When the first occurrence of [sep] in [l] ends [l], what follows [l]
    is the text after the first occurrence in [l ++ v]. *)
Lemma split_first_l_app sep l a v :
  split_first_l sep l = Some (a, []) -> split_first_l sep (l ++ v) = Some (a, v).
Proof.
  revert a. induction l as [|c l IH]; intros a Hs.
  - cbn in Hs. destruct (is_prefix sep []) eqn:E; [|done]. injection Hs as <-.
    destruct sep; [destruct v; by cbn|discriminate].
  - pose proof (split_first_l_length _ _ _ _ Hs) as Hlen.
    cbn in Hs |- *. destruct (is_prefix sep (c :: l)) eqn:E.
    + injection Hs as <- Hd. pose proof (is_prefix_app _ _ v E) as E'. cbn in E'.
      rewrite E'. f_equal. f_equal.
      apply is_prefix_length in E. apply (f_equal length) in Hd.
      rewrite length_drop in Hd. cbn in *.
      replace (length sep) with (S (length l)) by lia. cbn. apply drop_app_length.
    + destruct (split_first_l sep l) as [[a' b']|] eqn:Hs'; [|done].
      cbn in Hs. injection Hs as <- ->.
      pose proof (split_first_l_length _ _ _ _ Hs') as Hlen'.
      pose proof (is_prefix_app_false sep (c :: l) v ltac:(cbn; lia) E) as E'. cbn in E'.
      rewrite E'.
      by rewrite (IH a' eq_refl).
Qed.

(** A string that is a prefix [p] ending in its first [sep], then [v]. *)
Lemma js_includes_prefix p v sep a :
  split_first_l (chars sep) (chars p) = Some (a, []) -> js_includes (p +:+ v) sep = true.
Proof.
  intros Hp. unfold js_includes. rewrite chars_app. by rewrite (split_first_l_app _ _ _ _ Hp).
Qed.

Lemma js_split_nth_prefix p v sep a :
  split_first_l (chars sep) (chars p) = Some (a, []) ->
  js_includes v sep = false ->
  js_split_nth (p +:+ v) sep 1 = Some v.
Proof.
  intros Hp Hv. unfold js_split_nth, js_includes in *. rewrite chars_app. cbn.
  rewrite (split_first_l_app _ _ _ _ Hp). cbn.
  destruct (split_first_l (chars sep) (chars v)); [done|]. cbn. by rewrite of_chars_chars.
Qed.

Lemma js_split_nth_absent v sep :
  js_includes v sep = false -> js_split_nth v sep 0 = Some v.
Proof.
  unfold js_split_nth, js_includes. intros Hv. cbn.
  destruct (split_first_l (chars sep) (chars v)); [done|]. cbn. by rewrite of_chars_chars.
Qed.

(** ** Folds that build a map, as [forEach] filling a JS object *)

Lemma take_units_bound n l : utf16_units (take_units n l) <= n.
Proof.
  revert n. induction l as [|c l IH]; intros n; cbn; [lia|].
  destruct (is_cont c) eqn:Hc; cbn; rewrite ?Hc; [apply IH|].
  destruct (Nat.leb_spec (lead_units c) n); cbn; rewrite ?Hc; [|lia].
  specialize (IH (n - lead_units c)). lia.
Qed.

Lemma js_substring0_length s n : js_length (js_substring0 s n) <= n.
Proof.
  unfold js_length, js_substring0, chars, of_chars.
  rewrite String.list_ascii_of_string_of_list_ascii. apply take_units_bound.
Qed.

Lemma utf16_units_app l1 l2 : utf16_units (l1 ++ l2) = utf16_units l1 + utf16_units l2.
Proof. induction l1 as [|c l IH]; cbn; lia. Qed.

Lemma js_length_app s1 s2 : js_length (s1 +:+ s2) = js_length s1 + js_length s2.
Proof. unfold js_length. by rewrite chars_app, utf16_units_app. Qed.

Lemma foldl_ext_in {A B} (f g : A -> B -> A) (l : list B) (a : A) :
  (forall acc x, x ∈ l -> f acc x = g acc x) -> foldl f a l = foldl g a l.
Proof.
  revert a. induction l as [|x l IH]; intros a Hfg; [done|]. cbn.
  rewrite Hfg by set_solver. apply IH. intros acc y Hy. apply Hfg. set_solver.
Qed.

Section FoldInsert.
Context {K V X : Type} `{Countable K} (key : X -> K) (g : X -> option V).

(** [acc[key(x)] = v] for each [x] that has a [v]. *)
Definition fold_insert (acc : gmap K V) (l : list X) : gmap K V :=
  foldl (fun acc y => match g y with Some v => <[key y := v]> acc | None => acc end) acc l.

Lemma fold_insert_notin acc l k :
  k ∉ key <$> l -> fold_insert acc l !! k = acc !! k.
Proof.
  unfold fold_insert. revert acc. induction l as [|y l IH]; intros acc Hk; [done|].
  cbn. rewrite IH by set_solver. destruct (g y); [|done].
  rewrite lookup_insert_ne; set_solver.
Qed.

Lemma fold_insert_lookup acc l x :
  NoDup (key <$> l) -> x ∈ l ->
  fold_insert acc l !! key x = match g x with Some v => Some v | None => acc !! key x end.
Proof.
  unfold fold_insert. revert acc. induction l as [|y l IH]; intros acc Hnd Hx;
    [set_solver|].
  cbn in Hnd |- *. apply NoDup_cons in Hnd as [Hy Hnd].
  apply elem_of_cons in Hx as [<-|Hx].
  - fold (fold_insert (match g x with Some v => <[key x:=v]> acc | None => acc end) l).
    rewrite fold_insert_notin by done. destruct (g x); [by rewrite lookup_insert_eq|done].
  - rewrite IH by done. destruct (g x); [done|]. destruct (g y); [|done].
    rewrite lookup_insert_ne; [done|]. intros Heq. apply Hy. rewrite Heq.
    by apply list_elem_of_fmap_2.
Qed.
End FoldInsert.

Create HintDb app discriminated.
Create Rewrite HintDb app_rw.
#[export] Hint Resolve bind_ok bind_thrown : app.
#[export] Hint Rewrite @ret_run : app_rw.

(** Unfold the monad's plumbing of a concrete handler run. *)
Ltac munfold :=
  repeat first [ progress unfold bindM in * | progress unfold mbind in *
               | progress unfold mret in * | progress unfold M_bind in *
               | progress unfold M_ret in * | progress unfold get in *
               | progress unfold put in * | progress unfold modify in *
               | progress unfold gets in * | progress unfold throw in *
               | progress unfold try_catch in * | progress unfold try_finally in *
               | progress unfold guard_msg in * | progress unfold zoom in *
               | progress unfold on_snd in * | progress unfold on_fst in *
               | progress unfold setL in * | progress unfold getL in * ].

Ltac mrun := repeat progress (munfold; cbn -[js_trim js_includes] in *).

(** ** Stable predicates: what a handler never changes

    [stable P c]: whatever [c] does, from a state satisfying [P] it ends in
    a state satisfying [P], on every path, thrown exceptions included. *)

Section Stable.
Context {S : Type} (P : S -> Prop).

Definition stable {A} (c : M S A) : Prop := forall s, P s -> P (c s).2.

Lemma stable_ret {A} (a : A) : stable (mret a).
Proof. by intros s. Qed.

Lemma stable_bind {A B} (c : M S A) (k : A -> M S B) :
  stable c -> (forall a, stable (k a)) -> stable (bindM c k).
Proof.
  intros Hc Hk s Hs. unfold bindM, mbind, M_bind.
  specialize (Hc s Hs). destruct (c s) as [[a|e] s']; [by apply Hk|done].
Qed.

Lemma stable_try {A} (c : M S A) (h : exn -> M S A) :
  stable c -> (forall e, stable (h e)) -> stable (try_catch c h).
Proof.
  intros Hc Hh s Hs. unfold try_catch.
  specialize (Hc s Hs). destruct (c s) as [[a|e] s']; [done|by apply Hh].
Qed.

Lemma stable_finally {A} (c : M S A) (f : M S unit) :
  stable c -> stable f -> stable (try_finally c f).
Proof.
  intros Hc Hf s Hs. unfold try_finally.
  specialize (Hc s Hs). destruct (c s) as [r s'].
  specialize (Hf s' Hc). destruct (f s') as [[?|?] ?]; done.
Qed.

Lemma stable_guard_msg b msg : stable (guard_msg b msg).
Proof. unfold guard_msg. destruct b; by intros s. Qed.

Lemma stable_get : stable get.
Proof. by intros s. Qed.

Lemma stable_gets {A} (f : S -> A) : stable (gets f).
Proof. by intros s. Qed.

Lemma stable_throw {A} e : stable (throw (A:=A) e).
Proof. by intros s. Qed.
End Stable.

(** A predicate on the world part is kept by every change of the
    component's own part. *)
Lemma stable_on_snd {L W A} (Q : W -> Prop) (c : M W A) :
  stable Q c -> stable (fun p : L * W => Q p.2) (on_snd c).
Proof.
  intros Hc [l w] Hw. unfold on_snd, zoom. cbn in *.
  specialize (Hc w Hw). by destruct (c w).
Qed.

Lemma stable_setL {L W} (Q : W -> Prop) (f : L -> L) :
  stable (fun p : L * W => Q p.2) (setL f).
Proof. by intros [l w]. Qed.

Lemma stable_getL {L W} (Q : W -> Prop) : stable (fun p : L * W => Q p.2) getL.
Proof. by intros [l w]. Qed.

(** A predicate on the component's own part is kept by every world
    action, and by the changes of its part that keep it. *)
Lemma stable_on_snd_fst {L W A} (Q : L -> Prop) (c : M W A) :
  stable (fun p : L * W => Q p.1) (on_snd c).
Proof.
  intros [l w] Hl. unfold on_snd, zoom. cbn in *. by destruct (c w).
Qed.

Lemma stable_setL_fst {L W} (Q : L -> Prop) (f : L -> L) :
  (forall l, Q l -> Q (f l)) -> stable (fun p : L * W => Q p.1) (setL f).
Proof. intros Hf [l w] Hl. by apply Hf. Qed.

Lemma stable_getL_fst {L W} (Q : L -> Prop) : stable (fun p : L * W => Q p.1) getL.
Proof. by intros [l w]. Qed.

Create HintDb stable discriminated.
#[export] Hint Resolve stable_ret stable_get stable_gets stable_throw stable_setL stable_getL
  stable_on_snd : stable.

(** Split a handler into its steps, and case on the values it tests. *)
Ltac stable_step :=
  match goal with
  | |- stable ?P (bindM ?c ?k) => refine (stable_bind P c k _ _); [|intros ?]
  | |- stable ?P (mbind ?k ?c) => refine (stable_bind P c k _ _); [|intros ?]
  | |- stable _ (try_catch _ _) => apply stable_try; [|intros ?]
  | |- stable _ (try_finally _ _) => apply stable_finally
  | |- stable _ (if ?b then _ else _) => destruct b
  | |- stable _ (match ?x with _ => _ end) => destruct x
  end.

Ltac stable_auto := repeat (stable_step || eauto with stable).

(** ** Handlers that never throw

    [total c]: from every state, [c] returns a value.  A [catch] whose
    handler never throws makes any body total. *)

Section Total.
Context {S : Type}.

Definition total {A} (c : M S A) : Prop := forall s, exists a, (c s).1 = Ok a.

Lemma total_ret {A} (a : A) : total (mret a).
Proof. intros s. by exists a. Qed.

Lemma total_gets {A} (f : S -> A) : total (gets f).
Proof. intros s. by exists (f s). Qed.

Lemma total_get : total get.
Proof. intros s. by exists s. Qed.

Lemma total_modify (f : S -> S) : total (modify f).
Proof. intros s. by exists tt. Qed.

Lemma total_bind {A B} (c : M S A) (k : A -> M S B) :
  total c -> (forall a, total (k a)) -> total (bindM c k).
Proof.
  intros Hc Hk s. unfold bindM, mbind, M_bind.
  destruct (Hc s) as [a Ha]. destruct (c s) as [r s']. cbn in Ha. subst r. apply Hk.
Qed.

Lemma total_try {A} (c : M S A) (h : exn -> M S A) :
  (forall e, total (h e)) -> total (try_catch c h).
Proof.
  intros Hh s. unfold try_catch. destruct (c s) as [[a|e] s']; [by exists a|apply Hh].
Qed.

Lemma total_finally {A} (c : M S A) (f : M S unit) :
  total c -> total f -> total (try_finally c f).
Proof.
  intros Hc Hf s. unfold try_finally. destruct (Hc s) as [a Ha].
  destruct (c s) as [r s']. cbn in Ha. subst r.
  destruct (Hf s') as [u Hu]. destruct (f s') as [r' s'']. cbn in Hu. subst r'. by exists a.
Qed.
End Total.

Lemma total_zoom {S T A} (view : S -> T) (upd : T -> S -> S) (c : M T A) :
  total c -> total (zoom view upd c).
Proof.
  intros Hc s. unfold zoom. destruct (Hc (view s)) as [a Ha].
  destruct (c (view s)) as [r t']. cbn in Ha. subst r. by exists a.
Qed.

Create HintDb total discriminated.
#[export] Hint Resolve total_ret total_gets total_get total_modify total_try total_zoom : total.

Ltac total_step :=
  match goal with
  | |- total (bindM ?c ?k) => refine (total_bind c k _ _); [|intros ?]
  | |- total (mbind ?k ?c) => refine (total_bind c k _ _); [|intros ?]
  | |- total (try_catch _ _) => apply total_try; intros ?
  | |- total (try_finally _ _) => apply total_finally
  | |- total (if ?b then _ else _) => destruct b
  | |- total (match ?x with _ => _ end) => destruct x
  end.

Ltac total_auto := repeat (total_step || eauto with total).
