(* ===== verification/Backend.v ===== *)
(** * The row store behind [supabase.from(..)]

    The hosted store is not code of this repository: its tables, its
    filtered select/update/delete, its upsert by primary key and its change
    feed are modelled here from the way the client calls them (and from
    src/proje/types/supabase.ts for the tables that file declares).  A
    [world] holds the tables, the clock, the id generator, the signed-in
    user, a fault schedule and the change log.  Every call first consumes
    one entry of the fault schedule: [true] makes it answer with a transient
    error object, so theorems quantify over every failure pattern, and
    [w_faults = []] is a store that never fails. *)

From S2P Require Import Core.

Abbreviation uuid := N.
Abbreviation timestamp := Z.

(** ** Rows *)

(** [study_rooms]: the shape StudyRoom.tsx receives and useStudyRooms
    inserts. *)
Record study_room := {
  sr_name : string;
  sr_description : string;
  sr_is_private : bool;
  sr_password_hash : option string;
  sr_created_by : uuid;
  sr_created_at : timestamp;
}.

(** [study_room_members], keyed by (room_id, user_id). *)
Record study_member := {
  sm_joined_at : timestamp;
  sm_current_session_id : option uuid;
}.

(** [study_sessions] *)
Record study_session := {
  ss_user_id : uuid;
  ss_duration : Z;
  ss_created_at : timestamp;
  ss_ended_at : option timestamp;
}.

(** [watch_rooms] (types/supabase.ts) *)
Record watch_room := {
  wr_name : string;
  wr_description : string;
  wr_video_url : string;
  wr_is_private : bool;
  wr_password_hash : option string;
  wr_created_by : uuid;
  wr_created_at : timestamp;
}.

(** [watch_room_members] and [chat_room_members], keyed by (room_id, user_id). *)
Record member := { m_joined_at : timestamp }.

(** [video_states], keyed by room_id. *)
Record video_state := {
  vs_is_playing : bool;
  vs_playback_time : Z;
  vs_updated_at : option timestamp;
}.

(** [watch_room_messages] and [chat_messages] *)
Record message := {
  msg_room_id : uuid;
  msg_user_id : uuid;
  msg_content : string;
  msg_created_at : timestamp;
}.

(** [chat_rooms] (types/supabase.ts) *)
Record chat_room := {
  cr_name : string;
  cr_description : option string;
  cr_is_private : bool;
  cr_password_hash : option string;
  cr_created_by : option uuid;
  cr_created_at : timestamp;
}.

(** [users] (types/supabase.ts): the columns the code reads.  [exam_score]
    is a JS number; it is kept as an integer. *)
Record user_row := {
  u_name : option string;
  u_avatar_url : option string;
  u_is_pro : bool;
  u_grade : option string;
  u_target_profession : option string;
  u_exam_score : option Z;
  u_strong_subjects : option (list string);
  u_weak_subjects : option (list string);
}.

(** [user_assignments] (types/supabase.ts) *)
Record assignment := {
  as_user_id : uuid;
  as_description : string;
  as_subject : string;
  as_due_date : timestamp;
  as_is_completed : bool;
  as_created_at : timestamp;
}.

(** [profile_photos], keyed by user_id. *)
Record profile_photo := { pp_photo_url : string }.

(** [ai_chat_history] (types/supabase.ts) *)
Record ai_row := {
  ai_user_id : uuid;
  ai_role : string;
  ai_content : string;
  ai_created_at : timestamp;
}.

(** [study_leaderboard], keyed by user_id: the column profile.tsx reads.
    Neither this table nor [ai_chat_messages] is declared in
    types/supabase.ts; both are modelled from the calls of profile.tsx. *)
Record leaderboard_row := { lb_total_duration : option Z }.

(** ** The database *)

Record db := {
  study_rooms : gmap uuid study_room;
  study_room_members : gmap (uuid * uuid) study_member;
  study_sessions : gmap uuid study_session;
  watch_rooms : gmap uuid watch_room;
  watch_room_members : gmap (uuid * uuid) member;
  video_states : gmap uuid video_state;
  watch_room_messages : gmap uuid message;
  chat_rooms : gmap uuid chat_room;
  chat_room_members : gmap (uuid * uuid) member;
  chat_messages : gmap uuid message;
  users : gmap uuid user_row;
  ai_chat_history : gmap uuid ai_row;
  user_assignments : gmap uuid assignment;
  profile_photos : gmap uuid profile_photo;
  study_leaderboard : gmap uuid leaderboard_row;
  ai_chat_messages : gmap uuid ai_row;
}.

Definition empty_db : db := Build_db ∅ ∅ ∅ ∅ ∅ ∅ ∅ ∅ ∅ ∅ ∅ ∅ ∅ ∅ ∅ ∅.

(** A table of the database: how to read it and how to replace it. *)
Record table (K R : Type) `{Countable K} := {
  tget : db -> gmap K R;
  tset : gmap K R -> db -> db;
  tget_tset : forall m d, tget (tset m d) = m;
}.
Arguments tget {K R _ _} t d.
Arguments tset {K R _ _} t m d.
Arguments tget_tset {K R _ _} t m d.

Definition T_study_rooms : table uuid study_room :=
  {| tget := study_rooms;
     tset := fun m d => {| study_rooms := m; study_room_members := study_room_members d;
         study_sessions := study_sessions d; watch_rooms := watch_rooms d;
         watch_room_members := watch_room_members d; video_states := video_states d;
         watch_room_messages := watch_room_messages d; chat_rooms := chat_rooms d;
         chat_room_members := chat_room_members d; chat_messages := chat_messages d;
         users := users d; ai_chat_history := ai_chat_history d;
         user_assignments := user_assignments d; profile_photos := profile_photos d;
         study_leaderboard := study_leaderboard d; ai_chat_messages := ai_chat_messages d |};
     tget_tset := ltac:(intros ? []; reflexivity) |}.
Definition T_study_room_members : table (uuid * uuid) study_member :=
  {| tget := study_room_members;
     tset := fun m d => {| study_rooms := study_rooms d; study_room_members := m;
         study_sessions := study_sessions d; watch_rooms := watch_rooms d;
         watch_room_members := watch_room_members d; video_states := video_states d;
         watch_room_messages := watch_room_messages d; chat_rooms := chat_rooms d;
         chat_room_members := chat_room_members d; chat_messages := chat_messages d;
         users := users d; ai_chat_history := ai_chat_history d;
         user_assignments := user_assignments d; profile_photos := profile_photos d;
         study_leaderboard := study_leaderboard d; ai_chat_messages := ai_chat_messages d |};
     tget_tset := ltac:(intros ? []; reflexivity) |}.
Definition T_study_sessions : table uuid study_session :=
  {| tget := study_sessions;
     tset := fun m d => {| study_rooms := study_rooms d; study_room_members := study_room_members d;
         study_sessions := m; watch_rooms := watch_rooms d;
         watch_room_members := watch_room_members d; video_states := video_states d;
         watch_room_messages := watch_room_messages d; chat_rooms := chat_rooms d;
         chat_room_members := chat_room_members d; chat_messages := chat_messages d;
         users := users d; ai_chat_history := ai_chat_history d;
         user_assignments := user_assignments d; profile_photos := profile_photos d;
         study_leaderboard := study_leaderboard d; ai_chat_messages := ai_chat_messages d |};
     tget_tset := ltac:(intros ? []; reflexivity) |}.
Definition T_watch_rooms : table uuid watch_room :=
  {| tget := watch_rooms;
     tset := fun m d => {| study_rooms := study_rooms d; study_room_members := study_room_members d;
         study_sessions := study_sessions d; watch_rooms := m;
         watch_room_members := watch_room_members d; video_states := video_states d;
         watch_room_messages := watch_room_messages d; chat_rooms := chat_rooms d;
         chat_room_members := chat_room_members d; chat_messages := chat_messages d;
         users := users d; ai_chat_history := ai_chat_history d;
         user_assignments := user_assignments d; profile_photos := profile_photos d;
         study_leaderboard := study_leaderboard d; ai_chat_messages := ai_chat_messages d |};
     tget_tset := ltac:(intros ? []; reflexivity) |}.
Definition T_watch_room_members : table (uuid * uuid) member :=
  {| tget := watch_room_members;
     tset := fun m d => {| study_rooms := study_rooms d; study_room_members := study_room_members d;
         study_sessions := study_sessions d; watch_rooms := watch_rooms d;
         watch_room_members := m; video_states := video_states d;
         watch_room_messages := watch_room_messages d; chat_rooms := chat_rooms d;
         chat_room_members := chat_room_members d; chat_messages := chat_messages d;
         users := users d; ai_chat_history := ai_chat_history d;
         user_assignments := user_assignments d; profile_photos := profile_photos d;
         study_leaderboard := study_leaderboard d; ai_chat_messages := ai_chat_messages d |};
     tget_tset := ltac:(intros ? []; reflexivity) |}.
Definition T_video_states : table uuid video_state :=
  {| tget := video_states;
     tset := fun m d => {| study_rooms := study_rooms d; study_room_members := study_room_members d;
         study_sessions := study_sessions d; watch_rooms := watch_rooms d;
         watch_room_members := watch_room_members d; video_states := m;
         watch_room_messages := watch_room_messages d; chat_rooms := chat_rooms d;
         chat_room_members := chat_room_members d; chat_messages := chat_messages d;
         users := users d; ai_chat_history := ai_chat_history d;
         user_assignments := user_assignments d; profile_photos := profile_photos d;
         study_leaderboard := study_leaderboard d; ai_chat_messages := ai_chat_messages d |};
     tget_tset := ltac:(intros ? []; reflexivity) |}.
Definition T_watch_room_messages : table uuid message :=
  {| tget := watch_room_messages;
     tset := fun m d => {| study_rooms := study_rooms d; study_room_members := study_room_members d;
         study_sessions := study_sessions d; watch_rooms := watch_rooms d;
         watch_room_members := watch_room_members d; video_states := video_states d;
         watch_room_messages := m; chat_rooms := chat_rooms d;
         chat_room_members := chat_room_members d; chat_messages := chat_messages d;
         users := users d; ai_chat_history := ai_chat_history d;
         user_assignments := user_assignments d; profile_photos := profile_photos d;
         study_leaderboard := study_leaderboard d; ai_chat_messages := ai_chat_messages d |};
     tget_tset := ltac:(intros ? []; reflexivity) |}.
Definition T_chat_rooms : table uuid chat_room :=
  {| tget := chat_rooms;
     tset := fun m d => {| study_rooms := study_rooms d; study_room_members := study_room_members d;
         study_sessions := study_sessions d; watch_rooms := watch_rooms d;
         watch_room_members := watch_room_members d; video_states := video_states d;
         watch_room_messages := watch_room_messages d; chat_rooms := m;
         chat_room_members := chat_room_members d; chat_messages := chat_messages d;
         users := users d; ai_chat_history := ai_chat_history d;
         user_assignments := user_assignments d; profile_photos := profile_photos d;
         study_leaderboard := study_leaderboard d; ai_chat_messages := ai_chat_messages d |};
     tget_tset := ltac:(intros ? []; reflexivity) |}.
Definition T_chat_room_members : table (uuid * uuid) member :=
  {| tget := chat_room_members;
     tset := fun m d => {| study_rooms := study_rooms d; study_room_members := study_room_members d;
         study_sessions := study_sessions d; watch_rooms := watch_rooms d;
         watch_room_members := watch_room_members d; video_states := video_states d;
         watch_room_messages := watch_room_messages d; chat_rooms := chat_rooms d;
         chat_room_members := m; chat_messages := chat_messages d; users := users d;
         ai_chat_history := ai_chat_history d; user_assignments := user_assignments d;
         profile_photos := profile_photos d; study_leaderboard := study_leaderboard d;
         ai_chat_messages := ai_chat_messages d |};
     tget_tset := ltac:(intros ? []; reflexivity) |}.
Definition T_chat_messages : table uuid message :=
  {| tget := chat_messages;
     tset := fun m d => {| study_rooms := study_rooms d; study_room_members := study_room_members d;
         study_sessions := study_sessions d; watch_rooms := watch_rooms d;
         watch_room_members := watch_room_members d; video_states := video_states d;
         watch_room_messages := watch_room_messages d; chat_rooms := chat_rooms d;
         chat_room_members := chat_room_members d; chat_messages := m; users := users d;
         ai_chat_history := ai_chat_history d; user_assignments := user_assignments d;
         profile_photos := profile_photos d; study_leaderboard := study_leaderboard d;
         ai_chat_messages := ai_chat_messages d |};
     tget_tset := ltac:(intros ? []; reflexivity) |}.
Definition T_users : table uuid user_row :=
  {| tget := users;
     tset := fun m d => {| study_rooms := study_rooms d; study_room_members := study_room_members d;
         study_sessions := study_sessions d; watch_rooms := watch_rooms d;
         watch_room_members := watch_room_members d; video_states := video_states d;
         watch_room_messages := watch_room_messages d; chat_rooms := chat_rooms d;
         chat_room_members := chat_room_members d; chat_messages := chat_messages d;
         users := m; ai_chat_history := ai_chat_history d;
         user_assignments := user_assignments d; profile_photos := profile_photos d;
         study_leaderboard := study_leaderboard d; ai_chat_messages := ai_chat_messages d |};
     tget_tset := ltac:(intros ? []; reflexivity) |}.
Definition T_ai_chat_history : table uuid ai_row :=
  {| tget := ai_chat_history;
     tset := fun m d => {| study_rooms := study_rooms d; study_room_members := study_room_members d;
         study_sessions := study_sessions d; watch_rooms := watch_rooms d;
         watch_room_members := watch_room_members d; video_states := video_states d;
         watch_room_messages := watch_room_messages d; chat_rooms := chat_rooms d;
         chat_room_members := chat_room_members d; chat_messages := chat_messages d;
         users := users d; ai_chat_history := m; user_assignments := user_assignments d;
         profile_photos := profile_photos d; study_leaderboard := study_leaderboard d;
         ai_chat_messages := ai_chat_messages d |};
     tget_tset := ltac:(intros ? []; reflexivity) |}.
Definition T_user_assignments : table uuid assignment :=
  {| tget := user_assignments;
     tset := fun m d => {| study_rooms := study_rooms d; study_room_members := study_room_members d;
         study_sessions := study_sessions d; watch_rooms := watch_rooms d;
         watch_room_members := watch_room_members d; video_states := video_states d;
         watch_room_messages := watch_room_messages d; chat_rooms := chat_rooms d;
         chat_room_members := chat_room_members d; chat_messages := chat_messages d;
         users := users d; ai_chat_history := ai_chat_history d; user_assignments := m;
         profile_photos := profile_photos d; study_leaderboard := study_leaderboard d;
         ai_chat_messages := ai_chat_messages d |};
     tget_tset := ltac:(intros ? []; reflexivity) |}.
Definition T_profile_photos : table uuid profile_photo :=
  {| tget := profile_photos;
     tset := fun m d => {| study_rooms := study_rooms d; study_room_members := study_room_members d;
         study_sessions := study_sessions d; watch_rooms := watch_rooms d;
         watch_room_members := watch_room_members d; video_states := video_states d;
         watch_room_messages := watch_room_messages d; chat_rooms := chat_rooms d;
         chat_room_members := chat_room_members d; chat_messages := chat_messages d;
         users := users d; ai_chat_history := ai_chat_history d;
         user_assignments := user_assignments d; profile_photos := m;
         study_leaderboard := study_leaderboard d; ai_chat_messages := ai_chat_messages d |};
     tget_tset := ltac:(intros ? []; reflexivity) |}.
Definition T_study_leaderboard : table uuid leaderboard_row :=
  {| tget := study_leaderboard;
     tset := fun m d => {| study_rooms := study_rooms d; study_room_members := study_room_members d;
         study_sessions := study_sessions d; watch_rooms := watch_rooms d;
         watch_room_members := watch_room_members d; video_states := video_states d;
         watch_room_messages := watch_room_messages d; chat_rooms := chat_rooms d;
         chat_room_members := chat_room_members d; chat_messages := chat_messages d;
         users := users d; ai_chat_history := ai_chat_history d;
         user_assignments := user_assignments d; profile_photos := profile_photos d;
         study_leaderboard := m; ai_chat_messages := ai_chat_messages d |};
     tget_tset := ltac:(intros ? []; reflexivity) |}.
Definition T_ai_chat_messages : table uuid ai_row :=
  {| tget := ai_chat_messages;
     tset := fun m d => {| study_rooms := study_rooms d; study_room_members := study_room_members d;
         study_sessions := study_sessions d; watch_rooms := watch_rooms d;
         watch_room_members := watch_room_members d; video_states := video_states d;
         watch_room_messages := watch_room_messages d; chat_rooms := chat_rooms d;
         chat_room_members := chat_room_members d; chat_messages := chat_messages d;
         users := users d; ai_chat_history := ai_chat_history d;
         user_assignments := user_assignments d; profile_photos := profile_photos d;
         study_leaderboard := study_leaderboard d; ai_chat_messages := m |};
     tget_tset := ltac:(intros ? []; reflexivity) |}.

(** Proofs rewrite with [tget_tset] rather than unfold a table. *)
Arguments T_study_rooms : simpl never.
Arguments T_study_room_members : simpl never.
Arguments T_study_sessions : simpl never.
Arguments T_watch_rooms : simpl never.
Arguments T_watch_room_members : simpl never.
Arguments T_video_states : simpl never.
Arguments T_watch_room_messages : simpl never.
Arguments T_chat_rooms : simpl never.
Arguments T_chat_room_members : simpl never.
Arguments T_chat_messages : simpl never.
Arguments T_users : simpl never.
Arguments T_ai_chat_history : simpl never.
Arguments T_user_assignments : simpl never.
Arguments T_profile_photos : simpl never.
Arguments T_study_leaderboard : simpl never.
Arguments T_ai_chat_messages : simpl never.

(** ** The world *)

Inductive change_op := OpInsert | OpUpdate | OpDelete.

(** One entry of the change feed: which table, which operation. *)
Record change := { ch_table : string; ch_op : change_op }.

Record world := {
  w_db : db;
  w_now : timestamp;
  w_next_id : uuid;
  w_auth : option uuid;
  w_faults : list bool;
  w_log : list change;
}.

Definition set_db (d : db) (w : world) : world :=
  {| w_db := d; w_now := w_now w; w_next_id := w_next_id w; w_auth := w_auth w;
     w_faults := w_faults w; w_log := w_log w |}.

Definition log_change (c : change) (w : world) : world :=
  {| w_db := w_db w; w_now := w_now w; w_next_id := w_next_id w; w_auth := w_auth w;
     w_faults := w_faults w; w_log := w_log w ++ [c] |}.

(** The clock advances (the effects' one-second intervals). *)
Definition advance (ms : Z) (w : world) : world :=
  {| w_db := w_db w; w_now := (w_now w + ms)%Z; w_next_id := w_next_id w; w_auth := w_auth w;
     w_faults := w_faults w; w_log := w_log w |}.

(** The answer of a store call: [{ data }] or [{ error }]. *)
Inductive resp (A : Type) := Data (a : A) | DbError (e : dberr).
Arguments Data {A} a.
Arguments DbError {A} e.

(** [if (error) throw error; ... data ...] *)
Definition or_throw {St A : Type} (r : resp A) : M St A :=
  match r with Data a => mret a | DbError e => throw (ExnDb e) end.

(** ** Store calls *)

(** Every call consumes one entry of the fault schedule. *)
Definition next_fault : M world bool := fun w =>
  match w_faults w with
  | [] => (Ok false, w)
  | f :: fs => (Ok f, {| w_db := w_db w; w_now := w_now w; w_next_id := w_next_id w;
                         w_auth := w_auth w; w_faults := fs; w_log := w_log w |})
  end.

Definition call {A} (body : M world (resp A)) : M world (resp A) :=
  f <- next_fault ;; if f then mret (DbError DbUnavailable) else body.

(** [supabase.auth.getUser()]: the signed-in user, [null] on failure. *)
Definition get_user : M world (option uuid) :=
  f <- next_fault ;; if f then mret None else gets w_auth.

Section Calls.
Context {K R : Type} `{Countable K} (t : table K R) (name : string).

Definition write (m : gmap K R) (op : change_op) : M world unit :=
  modify (fun w => log_change {| ch_table := name; ch_op := op |}
                     (set_db (tset t m (w_db w)) w)).

(** [.select('*').eq('id', k).single()] *)
Definition select_single (k : K) : M world (resp R) :=
  call (w <- get ;;
        match tget t (w_db w) !! k with
        | Some r => mret (Data r)
        | None => mret (DbError DbNoRows)
        end).

(** [.select(..).eq(..).maybeSingle()] *)
Definition select_maybe (k : K) : M world (resp (option R)) :=
  call (w <- get ;; mret (Data (tget t (w_db w) !! k))).

(** [.select(..)] with a filter, as a list of keyed rows. *)
Definition select_where (p : K -> R -> bool) : M world (resp (list (K * R))) :=
  call (w <- get ;; mret (Data (filter (fun kr => p kr.1 kr.2 = true)
                                    (map_to_list (tget t (w_db w)))))).

(** [.select('*', { count: 'exact', head: true })] with a filter: the
    number of matching rows. *)
Definition select_count (p : K -> R -> bool) : M world (resp nat) :=
  call (w <- get ;; mret (Data (length (filter (fun kr => p kr.1 kr.2 = true)
                                              (map_to_list (tget t (w_db w))))))).

(** [.insert(row)] at a given primary key; a duplicate key is an error. *)
Definition insert_at (k : K) (r : R) : M world (resp unit) :=
  call (w <- get ;;
        match tget t (w_db w) !! k with
        | Some _ => mret (DbError DbConflict)
        | None => write (<[k := r]> (tget t (w_db w))) OpInsert;; mret (Data ())
        end).

(** [.update(f).eq(..)...]: every matching row is changed; no match is no
    error. *)
Definition update_where (p : K -> R -> bool) (f : R -> R) : M world (resp unit) :=
  call (w <- get ;;
        write (map_imap (fun k r => Some (if p k r then f r else r)) (tget t (w_db w)))
              OpUpdate;;
        mret (Data ())).

(** [.upsert(row)] on the primary key: a new row, or the existing one with
    the given columns merged in. *)
Definition upsert (k : K) (fresh : R) (merge : R -> R) : M world (resp unit) :=
  call (w <- get ;;
        let m := tget t (w_db w) in
        match m !! k with
        | Some r => write (<[k := merge r]> m) OpUpdate
        | None => write (<[k := fresh]> m) OpInsert
        end;;
        mret (Data ())).

(** [.delete().eq(..)...] *)
Definition delete_where (p : K -> R -> bool) : M world (resp unit) :=
  call (w <- get ;;
        write (filter (fun kr => p kr.1 kr.2 = false) (tget t (w_db w))) OpDelete;;
        mret (Data ())).
End Calls.

(** [.insert(row).select().single()] on a table with a generated id and a
    [created_at] default: the row is built from the new id and the time. *)
Definition insert_fresh {R} (t : table uuid R) (name : string)
    (mk : uuid -> timestamp -> R) : M world (resp (uuid * R)) :=
  call (w <- get ;;
        let id := w_next_id w in
        let r := mk id (w_now w) in
        modify (fun w => {| w_db := w_db w; w_now := w_now w; w_next_id := N.succ id;
                            w_auth := w_auth w; w_faults := w_faults w; w_log := w_log w |});;
        write t name (<[id := r]> (tget t (w_db w))) OpInsert;;
        mret (Data (id, r))).

(** ** Calls in a store that does not fail *)

Definition calm (w : world) : Prop := w_faults w = [].

(** The world after a fresh row: the id counter moved on, the row written. *)
Definition bump_id (w : world) : world :=
  {| w_db := w_db w; w_now := w_now w; w_next_id := N.succ (w_next_id w);
     w_auth := w_auth w; w_faults := w_faults w; w_log := w_log w |}.

Section CalmCalls.
Context {K R : Type} `{Countable K} (t : table K R) (name : string) (w : world).
Hypothesis Hcalm : calm w.

Lemma next_fault_calm : next_fault w = (Ok false, w).
Proof. unfold next_fault. by rewrite Hcalm. Qed.

Lemma call_calm {A} (body : M world (resp A)) : call body w = body w.
Proof. unfold call, bindM, mbind, M_bind. by rewrite next_fault_calm. Qed.

Lemma get_user_calm : get_user w = (Ok (w_auth w), w).
Proof. unfold get_user, bindM, mbind, M_bind. by rewrite next_fault_calm. Qed.

Lemma select_single_calm k :
  select_single t k w =
    (Ok (match tget t (w_db w) !! k with Some r => Data r | None => DbError DbNoRows end), w).
Proof.
  unfold select_single. rewrite call_calm. unfold bindM, mbind, M_bind, get.
  by destruct (tget t (w_db w) !! k).
Qed.

Lemma select_maybe_calm k :
  select_maybe t k w = (Ok (Data (tget t (w_db w) !! k)), w).
Proof. unfold select_maybe. by rewrite call_calm. Qed.

Lemma select_where_calm p :
  select_where t p w =
    (Ok (Data (filter (fun kr => p kr.1 kr.2 = true) (map_to_list (tget t (w_db w))))), w).
Proof. unfold select_where. by rewrite call_calm. Qed.

Lemma select_count_calm p :
  select_count t p w =
    (Ok (Data (length (filter (fun kr => p kr.1 kr.2 = true) (map_to_list (tget t (w_db w)))))), w).
Proof. unfold select_count. by rewrite call_calm. Qed.

Lemma update_where_calm p f :
  update_where t name p f w =
    (Ok (Data ()), log_change {| ch_table := name; ch_op := OpUpdate |}
       (set_db (tset t (map_imap (fun k r => Some (if p k r then f r else r))
                                 (tget t (w_db w))) (w_db w)) w)).
Proof. unfold update_where. by rewrite call_calm. Qed.

Lemma upsert_calm k fresh merge :
  upsert t name k fresh merge w =
    (Ok (Data ()),
     let m := tget t (w_db w) in
     match m !! k with
     | Some r => log_change {| ch_table := name; ch_op := OpUpdate |}
                   (set_db (tset t (<[k := merge r]> m) (w_db w)) w)
     | None => log_change {| ch_table := name; ch_op := OpInsert |}
                   (set_db (tset t (<[k := fresh]> m) (w_db w)) w)
     end).
Proof.
  unfold upsert. rewrite call_calm. unfold bindM, mbind, M_bind, get.
  by destruct (tget t (w_db w) !! k).
Qed.

Lemma delete_where_calm p :
  delete_where t name p w =
    (Ok (Data ()), log_change {| ch_table := name; ch_op := OpDelete |}
       (set_db (tset t (filter (fun kr => p kr.1 kr.2 = false) (tget t (w_db w))) (w_db w)) w)).
Proof. unfold delete_where. by rewrite call_calm. Qed.
End CalmCalls.

Lemma insert_fresh_calm {R} (t : table uuid R) name mk w :
  calm w ->
  insert_fresh t name mk w =
    (Ok (Data (w_next_id w, mk (w_next_id w) (w_now w))),
     log_change {| ch_table := name; ch_op := OpInsert |}
       (set_db (tset t (<[w_next_id w := mk (w_next_id w) (w_now w)]> (tget t (w_db w)))
                  (w_db w)) (bump_id w))).
Proof. intros Hc. unfold insert_fresh. by rewrite call_calm. Qed.

(** A failing call answers with an error object and changes nothing else. *)
Lemma call_fault {A} (body : M world (resp A)) w fs :
  w_faults w = true :: fs ->
  call body w = (Ok (DbError DbUnavailable),
                 {| w_db := w_db w; w_now := w_now w; w_next_id := w_next_id w;
                    w_auth := w_auth w; w_faults := fs; w_log := w_log w |}).
Proof. intros Hf. unfold call, bindM, mbind, M_bind, next_fault. by rewrite Hf. Qed.

(** What the world's bookkeeping functions leave alone. *)
Lemma calm_set_db d w : calm w -> calm (set_db d w).
Proof. done. Qed.
Lemma calm_log_change c w : calm w -> calm (log_change c w).
Proof. done. Qed.
Lemma calm_bump_id w : calm w -> calm (bump_id w).
Proof. done. Qed.
Lemma calm_advance ms w : calm w -> calm (advance ms w).
Proof. done. Qed.

Lemma w_db_set_db d w : w_db (set_db d w) = d.
Proof. done. Qed.
Lemma w_db_log_change c w : w_db (log_change c w) = w_db w.
Proof. done. Qed.
Lemma w_db_bump_id w : w_db (bump_id w) = w_db w.
Proof. done. Qed.
Lemma w_db_advance ms w : w_db (advance ms w) = w_db w.
Proof. done. Qed.

(** An update changes exactly the rows it matches. *)
Lemma lookup_update_rows {K R} `{Countable K} (m : gmap K R) (p : K -> R -> bool) (f : R -> R) k :
  map_imap (fun k r => Some (if p k r then f r else r)) m !! k =
  (fun r => if p k r then f r else r) <$> m !! k.
Proof. rewrite map_lookup_imap. by destruct (m !! k). Qed.

(** A delete keeps exactly the rows it does not match. *)
Lemma lookup_delete_rows {K R} `{Countable K} (m : gmap K R) (p : K -> R -> bool) k :
  filter (fun kr => p kr.1 kr.2 = false) m !! k =
  match m !! k with Some r => if p k r then None else Some r | None => None end.
Proof.
  rewrite map_lookup_filter. destruct (m !! k) as [r|]; simpl; [|done].
  case_guard as Hg; simpl in *; destruct (p k r); naive_solver.
Qed.

(** ** Calls under any fault schedule *)

(** The world once a call has consumed its fault-schedule entry. *)
Definition pop (w : world) : world :=
  {| w_db := w_db w; w_now := w_now w; w_next_id := w_next_id w; w_auth := w_auth w;
     w_faults := tail (w_faults w); w_log := w_log w |}.
Definition head_fault (w : world) : bool := hd false (w_faults w).

Lemma next_fault_pop w : next_fault w = (Ok (head_fault w), pop w).
Proof. destruct w as [? ? ? ? [|f fs] ?]; reflexivity. Qed.

Lemma call_pop {A} (body : M world (resp A)) w :
  call body w = if head_fault w then (Ok (DbError DbUnavailable), pop w) else body (pop w).
Proof. unfold call, bindM, mbind, M_bind. rewrite next_fault_pop. by destruct (head_fault w). Qed.

Lemma w_db_pop w : w_db (pop w) = w_db w.
Proof. done. Qed.

Lemma pop_calm w : calm w -> pop w = w.
Proof. destruct w; unfold calm, pop; cbn; intros ->; done. Qed.

Section AnyCalls.
Context {K R : Type} `{Countable K} (t : table K R) (name : string).

(** A read changes nothing but the fault schedule. *)
Lemma select_single_state k w : (select_single t k w).2 = pop w.
Proof.
  unfold select_single. rewrite call_pop. destruct (head_fault w); [done|].
  unfold bindM, mbind, M_bind, get. by destruct (tget t (w_db (pop w)) !! k).
Qed.

Lemma select_single_run k w :
  select_single t k w =
    if head_fault w then (Ok (DbError DbUnavailable), pop w)
    else (Ok (match tget t (w_db w) !! k with Some r => Data r | None => DbError DbNoRows end),
          pop w).
Proof.
  unfold select_single. rewrite call_pop. destruct (head_fault w); [done|].
  unfold bindM, mbind, M_bind, get. cbn. by destruct (tget t (w_db w) !! k).
Qed.

Lemma select_maybe_state k w : (select_maybe t k w).2 = pop w.
Proof. unfold select_maybe. rewrite call_pop. by destruct (head_fault w). Qed.

(** An upsert fails without writing, or writes its row. *)
Lemma upsert_run k fresh merge w :
  upsert t name k fresh merge w =
    if head_fault w then (Ok (DbError DbUnavailable), pop w)
    else (Ok (Data ()),
          let m := tget t (w_db w) in
          log_change {| ch_table := name; ch_op := match m !! k with
                                                   | Some _ => OpUpdate | None => OpInsert end |}
            (set_db (tset t (match m !! k with
                             | Some r => <[k := merge r]> m
                             | None => <[k := fresh]> m end) (w_db w)) (pop w))).
Proof.
  unfold upsert. rewrite call_pop. destruct (head_fault w); [done|].
  unfold bindM, mbind, M_bind, get. cbn. by destruct (tget t (w_db w) !! k).
Qed.

Lemma update_where_run p f w :
  update_where t name p f w =
    if head_fault w then (Ok (DbError DbUnavailable), pop w)
    else (Ok (Data ()), log_change {| ch_table := name; ch_op := OpUpdate |}
       (set_db (tset t (map_imap (fun k r => Some (if p k r then f r else r))
                                 (tget t (w_db w))) (w_db w)) (pop w))).
Proof. unfold update_where. rewrite call_pop. by destruct (head_fault w). Qed.

Lemma delete_where_run p w :
  delete_where t name p w =
    if head_fault w then (Ok (DbError DbUnavailable), pop w)
    else (Ok (Data ()), log_change {| ch_table := name; ch_op := OpDelete |}
       (set_db (tset t (filter (fun kr => p kr.1 kr.2 = false) (tget t (w_db w))) (w_db w))
               (pop w))).
Proof. unfold delete_where. rewrite call_pop. by destruct (head_fault w). Qed.
End AnyCalls.

Lemma get_user_state w : (get_user w).2 = pop w.
Proof. unfold get_user, bindM, mbind, M_bind. rewrite next_fault_pop. by destruct (head_fault w). Qed.

(** The same, with the predicate on the (key, row) pair as [cbn] leaves it. *)
(** A count over the listed rows is the size of the filtered table. *)
Lemma length_filter_map_to_list {K R} `{Countable K} (m : gmap K R) (P : K * R -> Prop)
    `{!forall kr, Decision (P kr)} :
  length (filter P (map_to_list m)) = size (filter P m).
Proof.
  rewrite map_filter_alt, <- length_map_to_list. apply Permutation_length. symmetry.
  apply map_to_list_to_map. eapply sublist_NoDup; [apply (NoDup_fst_map_to_list m)|].
  apply fmap_sublist, sublist_filter.
Qed.

Lemma lookup_filter_false {K R} `{Countable K} (m : gmap K R) (P : K * R -> bool) k :
  filter (fun kr => P kr = false) m !! k =
  match m !! k with Some r => if P (k, r) then None else Some r | None => None end.
Proof. apply (lookup_delete_rows m (fun k r => P (k, r))). Qed.

#[export] Hint Resolve calm_set_db calm_log_change calm_bump_id calm_advance : app.
#[export] Hint Rewrite w_db_set_db w_db_log_change w_db_bump_id w_db_advance w_db_pop
  @lookup_update_rows @lookup_delete_rows : app_rw.

(** Read a table after a write: the written table gives the new map, the
    others are unchanged. *)
Ltac simpl_tables :=
  repeat match goal with
  | |- context [tget ?t (tset ?t ?m ?d)] => rewrite (tget_tset t m d)
  | |- context [tget ?t1 (tset ?t2 ?m ?d)] =>
      let H := fresh in
      assert (H : tget t1 (tset t2 m d) = tget t1 d) by (destruct d; reflexivity);
      rewrite H; clear H
  end.

(** ** What a store call leaves alone *)

(** A predicate on the tables only. *)
Definition on_db (D : db -> Prop) (w : world) : Prop := D (w_db w).

(** [D] does not look at table [t]. *)
Definition ignores {K R} `{Countable K} (t : table K R) (D : db -> Prop) : Prop :=
  forall m d, D d -> D (tset t m d).

Section StableCalls.
Context (D : db -> Prop).

Lemma stable_next_fault : stable (on_db D) next_fault.
Proof. intros w Hw. by rewrite next_fault_pop. Qed.

Lemma stable_call {A} (body : M world (resp A)) :
  stable (on_db D) body -> stable (on_db D) (call body).
Proof.
  intros Hb w Hw. rewrite call_pop. destruct (head_fault w); [done|]. by apply Hb.
Qed.

Lemma stable_get_user : stable (on_db D) get_user.
Proof. intros w Hw. by rewrite get_user_state. Qed.

Context {K R : Type} `{Countable K} (t : table K R) (name : string).

Lemma stable_select_single k : stable (on_db D) (select_single t k).
Proof. intros w Hw. by rewrite select_single_state. Qed.

Lemma stable_select_maybe k : stable (on_db D) (select_maybe t k).
Proof. intros w Hw. by rewrite select_maybe_state. Qed.

Lemma stable_select_where p : stable (on_db D) (select_where t p).
Proof. apply stable_call. intros w Hw. done. Qed.

Lemma stable_select_count p : stable (on_db D) (select_count t p).
Proof. apply stable_call. intros w Hw. done. Qed.

Lemma stable_write m op : (forall d, D d -> D (tset t m d)) -> stable (on_db D) (write t name m op).
Proof. intros Hm w Hw. by apply Hm. Qed.

Context (Hign : ignores t D).

Lemma stable_insert_at k r : stable (on_db D) (insert_at t name k r).
Proof.
  apply stable_call. intros w Hw. unfold bindM, mbind, M_bind, get. cbn.
  destruct (tget t (w_db w) !! k); [done|]. by apply Hign.
Qed.

Lemma stable_update_where p f : stable (on_db D) (update_where t name p f).
Proof. apply stable_call. intros w Hw. by apply Hign. Qed.

Lemma stable_upsert k fresh merge : stable (on_db D) (upsert t name k fresh merge).
Proof.
  apply stable_call. intros w Hw. unfold bindM, mbind, M_bind, get. cbn.
  destruct (tget t (w_db w) !! k); by apply Hign.
Qed.

Lemma stable_delete_where p : stable (on_db D) (delete_where t name p).
Proof. apply stable_call. intros w Hw. by apply Hign. Qed.
End StableCalls.

Lemma stable_insert_fresh {R} (t : table uuid R) name mk D :
  ignores t D -> stable (on_db D) (insert_fresh t name mk).
Proof. intros Hign. apply stable_call. intros w Hw. by apply Hign. Qed.

(** An insert at a key that is taken writes nothing, so a predicate that
    pins the row at that key is kept. *)
Lemma stable_insert_at_taken {K R} `{Countable K} (t : table K R) name k r m0 :
  is_Some (m0 !! k) -> stable (on_db (fun d => tget t d = m0)) (insert_at t name k r).
Proof.
  intros [r0 Hk]. apply stable_call. intros w Hw. unfold on_db in Hw.
  unfold bindM, mbind, M_bind, get. cbn. by rewrite Hw, Hk.
Qed.

#[export] Hint Resolve stable_next_fault stable_get_user stable_select_single stable_select_maybe
  stable_select_where stable_select_count stable_insert_at stable_update_where stable_upsert stable_delete_where
  stable_insert_fresh : stable.

(** [ignores] for two distinct tables. *)
Ltac prove_ignores := let m := fresh in let d := fresh in intros m d ?; destruct d; assumption.
