(* ===== verification/StudyTimer.v ===== *)
(** * The study timer: src/proje/hooks/useStudyTimer.ts

    The hook's four [useState] cells are the record [timer]; each callback
    is a handler of [M (timer * world)]: it reads the signed-in user and
    writes [study_sessions] / [study_room_members] through the store, and
    sets the cells.  The interval effect (lines 122-136) is [tick]: one
    second more while [isRunning].  The module [StudyScreen] holds the
    timer buttons of app/(tabs)/study.tsx, which call these callbacks. *)

From S2P Require Import Core Backend.

Module StudyTimer.

Record timer := {
  isRunning : bool;
  isPaused : bool;
  elapsedTime : Z;
  currentSessionId : option uuid;
}.

(** [useState(false)], [useState(false)], [useState(0)], [useState(null)] *)
Definition init : timer :=
  {| isRunning := false; isPaused := false; elapsedTime := 0; currentSessionId := None |}.

Definition setRunPause (r p : bool) (t : timer) : timer :=
  {| isRunning := r; isPaused := p; elapsedTime := elapsedTime t;
     currentSessionId := currentSessionId t |}.
Definition setSession (s : option uuid) (t : timer) : timer :=
  {| isRunning := isRunning t; isPaused := isPaused t; elapsedTime := elapsedTime t;
     currentSessionId := s |}.

Abbreviation TM := (M (timer * world)).

(** The row [startTimer] inserts: [{ user_id, duration: 0 }], the store
    filling [created_at]. *)
Definition new_session (u : uuid) (now : timestamp) : study_session :=
  {| ss_user_id := u; ss_duration := 0; ss_created_at := now; ss_ended_at := None |}.

(** [.update({ duration: elapsedTime, ended_at: now })] *)
Definition close_session (elapsed : Z) (now : timestamp) (s : study_session) : study_session :=
  {| ss_user_id := ss_user_id s; ss_duration := elapsed; ss_created_at := ss_created_at s;
     ss_ended_at := Some now |}.

Definition session_is (sid : uuid) (k : uuid) (_ : study_session) : bool :=
  bool_decide (k = sid).

(** [startTimer]: no user, no change; otherwise the timer runs before the
    insert is awaited, and an insert error returns [null] with the timer
    left running. *)
Definition startTimer : TM (option (uuid * study_session)) :=
  try! (
    user <- on_snd get_user ;;
    match user with
    | None => mret None
    | Some u =>
        setL (setRunPause true false) ;;
        r <- on_snd (insert_fresh T_study_sessions "study_sessions"
                       (fun _ now => new_session u now)) ;;
        match r with
        | DbError _ => mret None
        | Data (id, s) => setL (setSession (Some id)) ;; mret (Some (id, s))
        end
    end)
  catch! _ => mret None.

(** [stopTimer]: returns at once without a session; otherwise pauses and
    writes the elapsed seconds and the end time onto the session. *)
Definition stopTimer : TM unit :=
  try! (
    t <- getL ;;
    match currentSessionId t with
    | None => mret ()
    | Some sid =>
        setL (setRunPause false true) ;;
        now <- on_snd (gets w_now) ;;
        _ <- on_snd (update_where T_study_sessions "study_sessions" (session_is sid)
                       (close_session (elapsedTime t) now)) ;;
        mret ()
    end)
  catch! _ => mret ().

Definition resumeTimer : TM unit := setL (setRunPause true false).

Definition resetTimer : TM unit := setL (fun _ => init).

(** [saveSession]: [stopTimer]'s write without touching the cells. *)
Definition saveSession : TM unit :=
  try! (
    t <- getL ;;
    match currentSessionId t with
    | None => mret ()
    | Some sid =>
        now <- on_snd (gets w_now) ;;
        _ <- on_snd (update_where T_study_sessions "study_sessions" (session_is sid)
                       (close_session (elapsedTime t) now)) ;;
        mret ()
    end)
  catch! _ => mret ().

(** The member row of (room, user) with [current_session_id] replaced. *)
Definition member_is (roomId u : uuid) (k : uuid * uuid) (_ : study_member) : bool :=
  bool_decide (k = (roomId, u)).
Definition set_current (sid : option uuid) (m : study_member) : study_member :=
  {| sm_joined_at := sm_joined_at m; sm_current_session_id := sid |}.

(** [updateSession(roomId, sessionId)] *)
Definition updateSession (roomId : uuid) (sessionId : option uuid) : TM unit :=
  try! (
    user <- on_snd get_user ;;
    match user with
    | None => mret ()
    | Some u =>
        _ <- on_snd (update_where T_study_room_members "study_room_members"
                       (member_is roomId u) (set_current sessionId)) ;;
        mret ()
    end)
  catch! _ => mret ().

(** One period of the interval effect: [setElapsedTime(time => time + 1)]
    while running (the interval exists only then). *)
Definition tick (t : timer) : timer :=
  if isRunning t then
    {| isRunning := true; isPaused := isPaused t; elapsedTime := elapsedTime t + 1;
       currentSessionId := currentSessionId t |}
  else t.

(** One second of wall time: the clock advances and the interval fires. *)
Definition second (s : timer * world) : timer * world := (tick s.1, advance 1000 s.2).

Fixpoint seconds (n : nat) (s : timer * world) : timer * world :=
  match n with O => s | S n => seconds n (second s) end.

(** ** The timer's cells as a state machine *)

Inductive timer_event := EvStart | EvStop | EvResume | EvReset | EvSave | EvTick.

Definition run_event (e : timer_event) (s : timer * world) : timer * world :=
  match e with
  | EvStart => (startTimer s).2
  | EvStop => (stopTimer s).2
  | EvResume => (resumeTimer s).2
  | EvReset => (resetTimer s).2
  | EvSave => (saveSession s).2
  | EvTick => second s
  end.

(** States the hook can reach: any sequence of callbacks and ticks, with the
    store changed by other clients at any point. *)
Inductive reachable : timer * world -> Prop :=
  | reach_init w : reachable (init, w)
  | reach_event e s : reachable s -> reachable (run_event e s)
  | reach_env t w w' : reachable (t, w) -> reachable (t, w').

(** The cells' invariant: never running and paused at once, paused only
    with a session, and a non-negative count. *)
Definition timer_inv (t : timer) : Prop :=
  ~ (isRunning t = true /\ isPaused t = true) /\
  (isPaused t = true -> currentSessionId t <> None) /\
  (0 <= elapsedTime t)%Z.

(** ** Lemmas *)

Lemma advance_advance a b w : advance a (advance b w) = advance (b + a) w.
Proof. unfold advance. cbn. by rewrite Z.add_assoc. Qed.

Definition with_elapsed (e : Z) (t : timer) : timer :=
  {| isRunning := isRunning t; isPaused := isPaused t; elapsedTime := e;
     currentSessionId := currentSessionId t |}.

Lemma seconds_running n t w :
  isRunning t = true ->
  seconds n (t, w) = (with_elapsed (elapsedTime t + Z.of_nat n) t, advance (1000 * Z.of_nat n) w).
Proof.
  revert t w. induction n as [|n IH]; intros t w Hr; cbn [seconds].
  - destruct t, w; unfold with_elapsed, advance; cbn; f_equal; f_equal; lia.
  - unfold second, tick; cbn. rewrite Hr, IH by done. rewrite advance_advance.
    destruct t; cbn in *; subst. unfold with_elapsed; cbn. f_equal; [f_equal; lia|f_equal; lia].
Qed.

Lemma seconds_stopped n t w :
  isRunning t = false -> seconds n (t, w) = (t, advance (1000 * Z.of_nat n) w).
Proof.
  revert w. induction n as [|n IH]; intros w Hr; cbn [seconds].
  - destruct w; unfold advance; cbn; do 2 f_equal; lia.
  - unfold second, tick; cbn. rewrite Hr, IH by done. rewrite advance_advance. do 2 f_equal. lia.
Qed.

Lemma startTimer_calm t w u :
  calm w -> w_auth w = Some u ->
  startTimer (t, w) =
    (Ok (Some (w_next_id w, new_session u (w_now w))),
     (setSession (Some (w_next_id w)) (setRunPause true false t),
      log_change {| ch_table := "study_sessions"; ch_op := OpInsert |}
        (set_db (tset T_study_sessions (<[w_next_id w := new_session u (w_now w)]>
                   (tget T_study_sessions (w_db w))) (w_db w)) (bump_id w)))).
Proof.
  intros Hc Ha. unfold startTimer. mrun. rewrite get_user_calm by done. rewrite Ha. cbn.
  by rewrite insert_fresh_calm.
Qed.

Lemma stopTimer_calm t w sid :
  calm w -> currentSessionId t = Some sid ->
  stopTimer (t, w) =
    (Ok (), (setRunPause false true t,
      log_change {| ch_table := "study_sessions"; ch_op := OpUpdate |}
        (set_db (tset T_study_sessions
           (map_imap (fun k r => Some (if session_is sid k r
                                       then close_session (elapsedTime t) (w_now w) r else r))
                     (tget T_study_sessions (w_db w))) (w_db w)) w))).
Proof.
  intros Hc Hs. unfold stopTimer. mrun. rewrite Hs. cbn. by rewrite update_where_calm.
Qed.

Lemma updateSession_calm roomId sid t w u :
  calm w -> w_auth w = Some u ->
  updateSession roomId sid (t, w) =
    (Ok (), (t, log_change {| ch_table := "study_room_members"; ch_op := OpUpdate |}
      (set_db (tset T_study_room_members
         (map_imap (fun k r => Some (if member_is roomId u k r then set_current sid r else r))
                   (tget T_study_room_members (w_db w))) (w_db w)) w))).
Proof.
  intros Hc Ha. unfold updateSession. mrun. rewrite get_user_calm by done. rewrite Ha. mrun.
  by rewrite update_where_calm.
Qed.

Lemma startTimer_shape t w :
  let t' := (startTimer (t, w)).2.1 in
  t' = t \/ t' = setRunPause true false t \/
  exists id, t' = setSession (Some id) (setRunPause true false t).
Proof. unfold startTimer. mrun. repeat case_match; simplify_eq/=; eauto. Qed.

Lemma stopTimer_shape t w :
  let t' := (stopTimer (t, w)).2.1 in
  t' = t \/ (currentSessionId t <> None /\ t' = setRunPause false true t).
Proof. unfold stopTimer. mrun. repeat case_match; simplify_eq/=; eauto. Qed.

Lemma saveSession_timer t w : (saveSession (t, w)).2.1 = t.
Proof. unfold saveSession. mrun. repeat case_match; simplify_eq/=; done. Qed.

Lemma run_event_inv e t w : timer_inv t -> timer_inv (run_event e (t, w)).1.
Proof.
  intros Hinv. pose proof Hinv as (Hx & Hp & He). destruct e; cbn [run_event].
  - destruct (startTimer_shape t w) as [->|[->|[id ->]]]; [exact Hinv| |];
      unfold timer_inv; cbn; repeat split; try naive_solver; intros; congruence.
  - destruct (stopTimer_shape t w) as [->|[Hs ->]]; [exact Hinv|].
    unfold timer_inv; cbn. repeat split; naive_solver.
  - unfold timer_inv; cbn. repeat split; naive_solver.
  - unfold timer_inv; cbn. repeat split; [naive_solver|naive_solver|lia].
  - by rewrite saveSession_timer.
  - unfold second, tick; cbn. destruct (isRunning t) eqn:E; [|exact Hinv].
    unfold timer_inv; cbn. repeat split; [naive_solver|naive_solver|lia].
Qed.

(** Start, [n] seconds, stop, in a store that does not fail. *)
Lemma start_stop_run w u n :
  calm w -> w_auth w = Some u ->
  let '(r1, s1) := startTimer (init, w) in
  let '(_, s3) := stopTimer (seconds n s1) in
  r1 = Ok (Some (w_next_id w, new_session u (w_now w))) /\
  tget T_study_sessions (w_db s3.2) !! w_next_id w =
    Some {| ss_user_id := u; ss_duration := Z.of_nat n; ss_created_at := w_now w;
            ss_ended_at := Some (w_now w + 1000 * Z.of_nat n)%Z |} /\
  isRunning s3.1 = false /\ isPaused s3.1 = true /\ calm s3.2.
Proof.
  intros Hc Ha. rewrite (startTimer_calm _ _ _ Hc Ha). cbn.
  rewrite seconds_running by done.
  rewrite (stopTimer_calm _ _ (w_next_id w)) by done. cbn.
  split; [done|]. split; [|split_and!; [done|done|]].
  - rewrite tget_tset, lookup_update_rows. cbn. rewrite tget_tset, lookup_insert_eq. cbn.
    unfold session_is. rewrite bool_decide_eq_true_2 by done. done.
  - apply calm_log_change, calm_set_db, calm_advance, calm_log_change, calm_set_db, calm_bump_id, Hc.
Qed.

(** ** Theorems *)

(** C11: starting the timer from its initial state, letting it run [n]
    seconds and stopping it writes exactly [n] as the session's duration,
    with the stop time as [ended_at], and leaves the timer paused; the
    store is assumed not to fail and a user to be signed in. *)
Theorem stop_records_elapsed w u n :
  calm w -> w_auth w = Some u ->
  let '(r1, s1) := startTimer (init, w) in
  let '(_, s3) := stopTimer (seconds n s1) in
  r1 = Ok (Some (w_next_id w, new_session u (w_now w))) /\
  tget T_study_sessions (w_db s3.2) !! w_next_id w =
    Some {| ss_user_id := u; ss_duration := Z.of_nat n; ss_created_at := w_now w;
            ss_ended_at := Some (w_now w + 1000 * Z.of_nat n)%Z |} /\
  isRunning s3.1 = false /\ isPaused s3.1 = true.
Proof.
  intros Hc Ha. pose proof (start_stop_run w u n Hc Ha) as H.
  destruct (startTimer (init, w)) as [r1 s1]. destruct (stopTimer (seconds n s1)) as [r3 s3]. tauto.
Qed.

Example stop_records_elapsed_witness :
  let w := {| w_db := empty_db; w_now := 1000; w_next_id := 7; w_auth := Some 3%N;
              w_faults := []; w_log := [] |} in
  calm w /\ w_auth w = Some 3%N /\
  (let '(r1, s1) := startTimer (init, w) in
   let '(_, s3) := stopTimer (seconds 65 s1) in
   r1 = Ok (Some (w_next_id w, new_session 3 (w_now w))) /\
   tget T_study_sessions (w_db s3.2) !! w_next_id w =
     Some {| ss_user_id := 3; ss_duration := Z.of_nat 65; ss_created_at := w_now w;
             ss_ended_at := Some (w_now w + 1000 * Z.of_nat 65)%Z |} /\
   isRunning s3.1 = false /\ isPaused s3.1 = true).
Proof. cbn zeta. split; [reflexivity|]. split; [reflexivity|]. apply stop_records_elapsed; reflexivity. Defined.

(** C16: when the store rejects the session insert, [startTimer] returns
    [null] but leaves the timer running with no session, and from then on
    [stopTimer] returns before it clears [isRunning]: however long the
    user waits, pressing stop neither stops the timer nor writes a row. *)
Theorem failed_start_cannot_stop w u fs n :
  w_auth w = Some u -> w_faults w = false :: true :: fs ->
  let '(r1, s1) := startTimer (init, w) in
  let '(_, s2) := stopTimer (seconds n s1) in
  r1 = Ok None /\ isRunning s1.1 = true /\ currentSessionId s1.1 = None /\
  isRunning s2.1 = true /\ w_db s2.2 = w_db w.
Proof.
  intros Ha Hf. unfold startTimer. mrun.
  unfold get_user, bindM, mbind, M_bind, next_fault at 1. rewrite Hf. cbn. rewrite Ha. cbn.
  unfold insert_fresh. rewrite (call_fault _ _ fs) by done. cbn.
  rewrite seconds_running by done. cbn.
  unfold stopTimer. mrun. done.
Qed.

Example failed_start_cannot_stop_witness :
  let w := {| w_db := empty_db; w_now := 0; w_next_id := 1; w_auth := Some 2%N;
              w_faults := [false; true]; w_log := [] |} in
  w_auth w = Some 2%N /\ w_faults w = false :: true :: [] /\
  (let '(r1, s1) := startTimer (init, w) in
   let '(_, s2) := stopTimer (seconds 30 s1) in
   r1 = Ok None /\ isRunning s1.1 = true /\ currentSessionId s1.1 = None /\
   isRunning s2.1 = true /\ w_db s2.2 = w_db w).
Proof. cbn zeta. split; [reflexivity|]. split; [reflexivity|]. apply (failed_start_cannot_stop _ 2 [] 30); reflexivity. Defined.

(** C17: in every state the hook can reach, the timer is never running and
    paused at once, it is paused only while it holds a session, and its
    count is non-negative. *)
Theorem reachable_timer_inv s : reachable s -> timer_inv s.1.
Proof.
  induction 1 as [w|e [t w] _ IH|t w w' _ IH]; cbn in *.
  - unfold timer_inv; cbn. repeat split; [naive_solver|naive_solver|lia].
  - by apply run_event_inv.
  - exact IH.
Qed.

Example reachable_timer_inv_witness :
  let w := {| w_db := empty_db; w_now := 0; w_next_id := 1; w_auth := Some 2%N;
              w_faults := []; w_log := [] |} in
  reachable (run_event EvStop (run_event EvTick (run_event EvStart (init, w)))) /\
  timer_inv (run_event EvStop (run_event EvTick (run_event EvStart (init, w)))).1.
Proof.
  cbn zeta. assert (H : reachable (run_event EvStop (run_event EvTick (run_event EvStart
    (init, {| w_db := empty_db; w_now := 0; w_next_id := 1; w_auth := Some 2%N;
              w_faults := []; w_log := [] |}))))) by (do 3 apply reach_event; apply reach_init).
  split; [exact H|]. apply reachable_timer_inv. exact H.
Defined.

End StudyTimer.
