(* ===== verification/RoomJoin.v ===== *)
(** * Joining a room: the join logic shared by useStudyRooms.ts and useChat.ts

    [joinRoom] is written twice in the sources, once per room kind
    (hooks/useStudyRooms.ts lines 125-162 and hooks/useChat.ts lines
    97-131), with the same statements over different tables.  It is written
    once here over the interface [RoomTable]: which table holds the rooms,
    which holds the members, how a room says it is private and what its
    stored password is, and which row an upsert of [{ room_id, user_id }]
    creates.  The theorems are proved against the interface; StudyRooms.v
    and Chat.v give the instances.  The hooks' state is [hook]: the rooms
    list, the loading flag and the error message cell. *)

From S2P Require Import Core Backend.

(** What a room kind provides to the join logic. *)
Class RoomTable (Room Mem : Type) := {
  rt_rooms : table uuid Room;
  rt_members : table (uuid * uuid) Mem;
  rt_members_name : string;
  rt_is_private : Room -> bool;
  rt_password_hash : Room -> option string;
  rt_fresh_member : timestamp -> Mem;
  (** Writing the member table leaves the room table alone. *)
  rt_rooms_members : forall m d, tget rt_rooms (tset rt_members m d) = tget rt_rooms d;
}.

Module RoomJoin.

(** The hook's [useState] cells. *)
Record hook (Room : Type) := {
  rooms : list (uuid * Room);
  loading : bool;
  error : option string;
}.
Arguments rooms {Room} h.
Arguments loading {Room} h.
Arguments error {Room} h.

Definition with_error {Room} (e : option string) (h : hook Room) : hook Room :=
  {| rooms := rooms h; loading := loading h; error := e |}.

(** [!password] is false only for a non-empty string. *)
Definition password_given (p : option string) : bool :=
  match p with Some s => js_truthy s | None => false end.

(** [password !== room.password_hash] is false only for the same string. *)
Definition password_matches (p : option string) (h : option string) : bool :=
  match p, h with Some s, Some t => String.eqb s t | _, _ => false end.

Section Join.
Context {Room Mem : Type} `{RT : RoomTable Room Mem}.

Abbreviation HM := (M (hook Room * world)).

Definition setError (msg : string) : HM unit := setL (with_error (Some msg)).

(** [if (!user) throw new Error('Oturum açmanız gerekiyor')] *)
Definition require_user (user : option uuid) : HM uuid :=
  match user with
  | None => throw (ExnMsg "Oturum açmanız gerekiyor")
  | Some u => mret u
  end.

(** The password check of a private room. *)
Definition check_password (room : Room) (password : option string) : HM unit :=
  when! rt_is_private room then
    (guard_msg (negb (password_given password)) "Bu oda için şifre gerekli" ;;
     guard_msg (negb (password_matches password (rt_password_hash room))) "Yanlış şifre").

(** [joinRoom(roomId, password)]: read the room, check the password of a
    private room, upsert the member row; any error is stored in the hook's
    [error] cell and rethrown. *)
Definition joinRoom (user : option uuid) (roomId : uuid) (password : option string) : HM Room :=
  try! (
    u <- require_user user ;;
    r <- on_snd (select_single rt_rooms roomId) ;;
    room <- or_throw r ;;
    check_password room password ;;
    now <- on_snd (gets w_now) ;;
    r2 <- on_snd (upsert rt_members rt_members_name (roomId, u) (rt_fresh_member now)
                    (fun m => m)) ;;
    _ <- or_throw r2 ;;
    mret room)
  catch! e => setError (exn_message e) ;; throw e.

(** Whether a join with this password gets past the check. *)
Definition admits (room : Room) (password : option string) : bool :=
  negb (rt_is_private room) ||
  (password_given password && password_matches password (rt_password_hash room)).

(** ** Lemmas *)

Lemma check_password_run room password s :
  check_password room password s =
    if admits room password then (Ok (), s)
    else (Thrown (ExnMsg (if password_given password then "Yanlış şifre"
                           else "Bu oda için şifre gerekli")), s).
Proof.
  unfold check_password, admits, guard_msg. mrun.
  destruct (rt_is_private room), (password_given password),
    (password_matches password (rt_password_hash room)); done.
Qed.

Lemma members_after_upsert k fresh merge w :
  calm w ->
  tget rt_members (w_db (upsert rt_members rt_members_name k fresh merge w).2) =
    match tget rt_members (w_db w) !! k with
    | Some r => <[k := merge r]> (tget rt_members (w_db w))
    | None => <[k := fresh]> (tget rt_members (w_db w))
    end.
Proof.
  intros Hc. rewrite upsert_calm by done. cbn.
  destruct (tget rt_members (w_db w) !! k); cbn; by rewrite tget_tset.
Qed.

(** A join that throws wrote no member row; one that returns has the
    member row in place.  This holds whatever the store answers. *)
Lemma joinRoom_atomic user roomId password h w :
  match joinRoom user roomId password (h, w) with
  | (Thrown _, (_, w')) => tget rt_members (w_db w') = tget rt_members (w_db w)
  | (Ok _, (_, w')) => exists u, user = Some u /\
                         is_Some (tget rt_members (w_db w') !! (roomId, u))
  end.
Proof.
  unfold joinRoom, require_user. mrun.
  destruct user as [u|]; cbn; [|done].
  pose proof (select_single_state rt_rooms roomId w) as Hst.
  destruct (select_single rt_rooms roomId w) as [[[room|e]|e] w1] eqn:Hs; cbn in *; subst w1;
    try done.
  rewrite check_password_run.
  destruct (admits room password); cbn; [|done].
  rewrite upsert_run. destruct (head_fault (pop w)); cbn; [done|].
  eexists; split; [done|]. rewrite tget_tset.
  destruct (tget rt_members (w_db w) !! (roomId, u)); by rewrite lookup_insert_eq.
Qed.

Lemma calm_upsert k fresh merge w :
  calm w -> calm (upsert rt_members rt_members_name k fresh merge w).2.
Proof. intros Hc. rewrite upsert_calm by done. cbn. by destruct (_ !! k). Qed.

Lemma rooms_after_upsert k fresh merge w :
  calm w ->
  tget rt_rooms (w_db (upsert rt_members rt_members_name k fresh merge w).2) =
  tget rt_rooms (w_db w).
Proof.
  intros Hc. rewrite upsert_calm by done. cbn.
  destruct (_ !! k); cbn; by rewrite rt_rooms_members.
Qed.

(** In a store that does not fail, a join returns exactly when the room
    exists and admits the password; it then leaves the hook alone and
    has upserted the member row. *)
Lemma joinRoom_calm_ok user roomId password h w room h' w' :
  calm w ->
  joinRoom user roomId password (h, w) = (Ok room, (h', w')) ->
  exists u, user = Some u /\ tget rt_rooms (w_db w) !! roomId = Some room /\
    admits room password = true /\ h' = h /\
    w' = (upsert rt_members rt_members_name (roomId, u) (rt_fresh_member (w_now w))
            (fun m => m) w).2.
Proof.
  intros Hc. unfold joinRoom, require_user. mrun.
  destruct user as [u|]; cbn; [|done].
  rewrite select_single_calm by done. cbn.
  destruct (tget rt_rooms (w_db w) !! roomId) as [r|] eqn:Hr; cbn; [|done].
  rewrite check_password_run. destruct (admits r password) eqn:Ha; cbn; [|done].
  rewrite upsert_calm by done. cbn. intros [= <- <- <-].
  exists u. rewrite upsert_calm by done. cbn. repeat split; done.
Qed.

Lemma joinRoom_calm_admitted u roomId password h w room :
  calm w -> tget rt_rooms (w_db w) !! roomId = Some room -> admits room password = true ->
  joinRoom (Some u) roomId password (h, w) =
    (Ok room, (h, (upsert rt_members rt_members_name (roomId, u) (rt_fresh_member (w_now w))
                   (fun m => m) w).2)).
Proof.
  intros Hc Hr Ha. unfold joinRoom, require_user. mrun.
  rewrite select_single_calm by done. rewrite Hr. cbn.
  rewrite check_password_run, Ha. cbn. rewrite upsert_calm by done. cbn.
  by destruct (tget rt_members (w_db w) !! (roomId, u)).
Qed.

(** ** Theorems *)

(** C9: joining a room a second time, with the same user and password,
    succeeds again and leaves the member table exactly as the first join
    left it: the upsert on (room_id, user_id) never adds a second row. *)
Theorem join_idempotent user roomId password h w room h1 w1 :
  calm w ->
  joinRoom user roomId password (h, w) = (Ok room, (h1, w1)) ->
  exists w2, joinRoom user roomId password (h1, w1) = (Ok room, (h1, w2)) /\
    tget rt_members (w_db w2) = tget rt_members (w_db w1).
Proof.
  intros Hc Hj. destruct (joinRoom_calm_ok _ _ _ _ _ _ _ _ Hc Hj)
    as (u & -> & Hr & Ha & -> & ->).
  set (w1 := (upsert rt_members rt_members_name (roomId, u) _ _ w).2).
  assert (Hc1 : calm w1) by (apply calm_upsert, Hc).
  assert (Hr1 : tget rt_rooms (w_db w1) !! roomId = Some room)
    by (unfold w1; rewrite rooms_after_upsert; done).
  eexists; split; [by apply joinRoom_calm_admitted|].
  rewrite members_after_upsert by done.
  assert (Hin : is_Some (tget rt_members (w_db w1) !! (roomId, u))).
  { unfold w1. rewrite members_after_upsert by done.
    destruct (tget rt_members (w_db w) !! (roomId, u)); by rewrite lookup_insert_eq. }
  destruct Hin as [mrow Hm]. rewrite Hm. by apply insert_id.
Qed.

(** C10: a join with a missing, empty or wrong password on a private room
    never adds a member row, whatever the store answers; when the store
    answers the room read, the thrown error is the password message and
    the hook's [error] cell shows it. *)
Theorem join_rejects_bad_password user roomId password h w room :
  tget rt_rooms (w_db w) !! roomId = Some room ->
  admits room password = false ->
  match joinRoom user roomId password (h, w) with
  | (Ok _, _) => False
  | (Thrown e, (h', w')) =>
      tget rt_members (w_db w') = tget rt_members (w_db w) /\
      (user <> None -> head_fault w = false ->
       e = ExnMsg (if password_given password then "Yanlış şifre"
                   else "Bu oda için şifre gerekli") /\
       error h' = Some (exn_message e))
  end.
Proof.
  intros Hr Ha. unfold joinRoom, require_user. mrun.
  destruct user as [u|]; cbn; [|split; [done|by intros []]].
  rewrite select_single_run. destruct (head_fault w) eqn:Hf; cbn; [split; [done|discriminate]|].
  rewrite Hr. cbn. rewrite check_password_run, Ha. cbn. done.
Qed.

(** C20: joining a room id the store has no row for throws the store's
    "no rows" error, shows its message, and adds no member row. *)
Theorem join_missing_room u roomId password h w :
  calm w -> tget rt_rooms (w_db w) !! roomId = None ->
  joinRoom (Some u) roomId password (h, w) =
    (Thrown (ExnDb DbNoRows), (with_error (Some (dberr_message DbNoRows)) h, w)).
Proof.
  intros Hc Hr. unfold joinRoom, require_user. mrun.
  rewrite select_single_calm by done. rewrite Hr. done.
Qed.

End Join.

End RoomJoin.
