(* ===== verification/StudyRooms.v ===== *)
(** * Study rooms: hooks/useStudyRooms.ts, the study modals, app/(tabs)/study.tsx

    [StudyRoomTable] instantiates the join interface of RoomJoin.v with the
    [study_rooms] and [study_room_members] tables.  The hook's other
    callbacks ([createRoom], [leaveRoom], [deleteRoom], [updateSession])
    work on the hook's cells and the world.  The create and join modals
    (components/Study/CreateRoomModal.tsx, JoinRoomModal.tsx) each own a
    hook instance and call back into the study screen, whose cells are the
    record [screen]; [handleCreate] and [handleJoin] run on the modal's
    cells, the screen's cells, the modal's hook and the world together. *)

From S2P Require Import Core Backend RoomJoin.

Module StudyRooms.

#[export] Instance StudyRoomTable : RoomTable study_room study_member := {|
  rt_rooms := T_study_rooms;
  rt_members := T_study_room_members;
  rt_members_name := "study_room_members";
  rt_is_private := sr_is_private;
  rt_password_hash := sr_password_hash;
  rt_fresh_member := fun now => {| sm_joined_at := now; sm_current_session_id := None |};
  rt_rooms_members := ltac:(intros ? []; reflexivity);
|}.

Abbreviation hook := (RoomJoin.hook study_room).
Abbreviation HM := (M (hook * world)).

(** [joinRoom(roomId, password)] of the hook. *)
Definition joinRoom (user : option uuid) (roomId : uuid) (password : option string)
    : HM study_room :=
  RoomJoin.joinRoom user roomId password.

(** [createRoom(name, description, isPrivate, password?)]: insert the room
    with the password as given, then join it with the same password. *)
Definition createRoom (user : option uuid) (name description : string) (isPrivate : bool)
    (password : option string) : HM (uuid * study_room) :=
  try! (
    u <- RoomJoin.require_user user ;;
    r <- on_snd (insert_fresh T_study_rooms "study_rooms" (fun _ now =>
           {| sr_name := name; sr_description := description; sr_is_private := isPrivate;
              sr_password_hash := password; sr_created_by := u; sr_created_at := now |})) ;;
    data <- or_throw r ;;
    _ <- joinRoom user data.1 password ;;
    mret data)
  catch! e => RoomJoin.setError (exn_message e) ;; throw e.

(** [leaveRoom(roomId)]: delete this user's member row. *)
Definition leaveRoom (user : option uuid) (roomId : uuid) : HM unit :=
  try! (
    u <- RoomJoin.require_user user ;;
    r <- on_snd (delete_where T_study_room_members "study_room_members"
                   (fun k _ => bool_decide (k = (roomId, u)))) ;;
    or_throw r)
  catch! e => RoomJoin.setError (exn_message e) ;; throw e.

(** [deleteRoom(roomId)]: delete the room if this user created it. *)
Definition deleteRoom (user : option uuid) (roomId : uuid) : HM unit :=
  try! (
    u <- RoomJoin.require_user user ;;
    r <- on_snd (delete_where T_study_rooms "study_rooms"
                   (fun k room => bool_decide (k = roomId) && bool_decide (sr_created_by room = u))) ;;
    or_throw r)
  catch! e => RoomJoin.setError (exn_message e) ;; throw e.

(** ** The study screen and its modals *)

(** The screen's room cells (app/(tabs)/study.tsx lines 124-128). *)
Record screen := {
  showCreateModal : bool;
  showJoinModal : bool;
  selectedRoomId : option uuid;
  selectedRoom : option study_room;
  selectedRoomForJoin : option (uuid * string);
}.

Definition screen0 : screen :=
  {| showCreateModal := false; showJoinModal := false; selectedRoomId := None;
     selectedRoom := None; selectedRoomForJoin := None |}.

(** [handleJoinRoom(roomId, isPrivate, name)]: a private room opens the
    join modal; a public room is opened at once, with the row the list
    holds, and no store call. *)
Definition handleJoinRoom (user : option uuid) (rooms : list (uuid * study_room))
    (roomId : uuid) (isPrivate : bool) (name : string) (s : screen) : screen :=
  match user with
  | None => s
  | Some _ =>
      let room := (fun p => p.2.2) <$> list_find (fun r => r.1 = roomId) rooms in
      if isPrivate then
        {| showCreateModal := showCreateModal s; showJoinModal := true;
           selectedRoomId := selectedRoomId s; selectedRoom := selectedRoom s;
           selectedRoomForJoin := Some (roomId, name) |}
      else
        {| showCreateModal := showCreateModal s; showJoinModal := showJoinModal s;
           selectedRoomId := Some roomId; selectedRoom := room;
           selectedRoomForJoin := selectedRoomForJoin s |}
  end.

(** The create modal's cells (CreateRoomModal.tsx lines 21-26). *)
Record create_modal := {
  cm_name : string;
  cm_description : string;
  cm_isPrivate : bool;
  cm_password : string;
  cm_loading : bool;
  cm_error : option string;
}.

Definition cm_set (loading : bool) (err : option string) (m : create_modal) : create_modal :=
  {| cm_name := cm_name m; cm_description := cm_description m; cm_isPrivate := cm_isPrivate m;
     cm_password := cm_password m; cm_loading := loading; cm_error := err |}.

Abbreviation CS := (create_modal * screen * hook * world)%type.

Definition on_cm {A} (c : M create_modal A) : M CS A :=
  zoom (fun s => s.1.1.1) (fun m s => (m, s.1.1.2, s.1.2, s.2)) c.
Definition on_screen {A} (c : M screen A) : M CS A :=
  zoom (fun s => s.1.1.2) (fun x s => (s.1.1.1, x, s.1.2, s.2)) c.
Definition on_hook {A} (c : HM A) : M CS A :=
  zoom (fun s => (s.1.2, s.2)) (fun x s => (s.1.1.1, s.1.1.2, x.1, x.2)) c.

(** The screen's [onSuccess] for the create modal (study.tsx lines 311-315):
    it hides the modal, then reads [newRoom.id]; the modal calls it with no
    argument, so [newRoom] is [undefined] and the read throws. *)
Definition create_onSuccess (newRoom : option (uuid * study_room)) : M screen unit :=
  modify (fun s => {| showCreateModal := false; showJoinModal := showJoinModal s;
                      selectedRoomId := selectedRoomId s; selectedRoom := selectedRoom s;
                      selectedRoomForJoin := selectedRoomForJoin s |}) ;;
  match newRoom with
  | None => throw (ExnType "Cannot read properties of undefined (reading 'id')")
  | Some (id, room) =>
      modify (fun s => {| showCreateModal := showCreateModal s; showJoinModal := showJoinModal s;
                          selectedRoomId := Some id; selectedRoom := Some room;
                          selectedRoomForJoin := selectedRoomForJoin s |})
  end.

(** [handleClose] of the create modal: clear the inputs, then [onClose]. *)
Definition create_handleClose : M CS unit :=
  on_cm (modify (fun m => {| cm_name := ""; cm_description := ""; cm_isPrivate := false;
                             cm_password := ""; cm_loading := cm_loading m; cm_error := None |})) ;;
  on_screen (modify (fun s => {| showCreateModal := false; showJoinModal := showJoinModal s;
                                 selectedRoomId := selectedRoomId s; selectedRoom := selectedRoom s;
                                 selectedRoomForJoin := selectedRoomForJoin s |})).

(** [handleCreate] (CreateRoomModal.tsx lines 28-45), with the screen's
    callback. *)
Definition handleCreate (user : option uuid) : M CS unit :=
  try_finally (
    try! (
      on_cm (modify (cm_set true None)) ;;
      m <- on_cm get ;;
      on_cm (guard_msg (negb (js_truthy (js_trim (cm_name m)))) "Oda adı gerekli") ;;
      _ <- on_hook (createRoom user (cm_name m) (cm_description m) (cm_isPrivate m)
                      (if cm_isPrivate m then Some (cm_password m) else None)) ;;
      on_screen (create_onSuccess None) ;;
      create_handleClose)
    catch! e => on_cm (modify (fun m => cm_set (cm_loading m) (Some (exn_message e)) m)))
    (on_cm (modify (fun m => cm_set false (cm_error m) m))).

(** ** Theorems *)

Definition new_room (name description : string) (isPrivate : bool) (password : option string)
    (u : uuid) (now : timestamp) : study_room :=
  {| sr_name := name; sr_description := description; sr_is_private := isPrivate;
     sr_password_hash := password; sr_created_by := u; sr_created_at := now |}.

(** C15: creating a private study room with an empty password (the create
    modal allows it) stores the room, then the creator's own join is
    refused with "Bu oda için şifre gerekli": the call throws, no member row
    is written, and no password at all lets anyone join the room. *)
Theorem private_empty_password_locks_room u name description h w :
  calm w ->
  let '(r, (h', w')) := createRoom (Some u) name description true (Some "") (h, w) in
  r = Thrown (ExnMsg "Bu oda için şifre gerekli") /\
  RoomJoin.error h' = Some "Bu oda için şifre gerekli" /\
  tget T_study_rooms (w_db w') !! w_next_id w =
    Some (new_room name description true (Some "") u (w_now w)) /\
  tget T_study_room_members (w_db w') = tget T_study_room_members (w_db w) /\
  forall password,
    RoomJoin.admits (new_room name description true (Some "") u (w_now w)) password = false.
Proof.
  intros Hc. unfold createRoom, joinRoom, RoomJoin.joinRoom, RoomJoin.require_user. mrun.
  rewrite insert_fresh_calm by done. mrun.
  rewrite select_single_calm by done. mrun. rewrite tget_tset, lookup_insert_eq. mrun.
  simpl_tables. repeat split; [apply lookup_insert_eq|].
  intros [p|]; cbn; [|done]. unfold js_truthy.
  by destruct (String.eqb_spec p "").
Qed.
(** C26: [deleteRoom] removes a room only for its creator: the creator's
    call deletes the row, anyone else's call succeeds without deleting it,
    and no other room is touched. *)
Theorem deleteRoom_only_creator u roomId room h w :
  calm w -> tget T_study_rooms (w_db w) !! roomId = Some room ->
  let '(r, (h', w')) := deleteRoom (Some u) roomId (h, w) in
  r = Ok () /\ h' = h /\
  tget T_study_rooms (w_db w') !! roomId =
    (if bool_decide (sr_created_by room = u) then None else Some room) /\
  (forall k, k <> roomId -> tget T_study_rooms (w_db w') !! k = tget T_study_rooms (w_db w) !! k).
Proof.
  intros Hc Hr. unfold deleteRoom, RoomJoin.require_user. mrun.
  rewrite delete_where_calm by done. mrun. simpl_tables.
  repeat split.
  - rewrite lookup_filter_false, Hr. cbn. rewrite bool_decide_eq_true_2 by done. cbn.
    by destruct (bool_decide (sr_created_by room = u)).
  - intros k Hk. rewrite lookup_filter_false.
    destruct (tget T_study_rooms (w_db w) !! k); [|done]. cbn.
    by rewrite bool_decide_eq_false_2.
Qed.

(** C25: a successful create through the study modal does not open the new
    room: the modal calls the screen's [onSuccess] with no argument, the
    screen hides the modal and then fails on [newRoom.id]; the modal catches
    the [TypeError] and keeps it as its error, and its inputs are never
    cleared.  The room and the creator's member row are in the store. *)
Theorem create_modal_success_not_opened u m sc h w :
  calm w -> js_truthy (js_trim (cm_name m)) = true -> cm_isPrivate m = false ->
  let '(r, (m', sc', h', w')) := handleCreate (Some u) (m, sc, h, w) in
  r = Ok () /\ showCreateModal sc' = false /\ selectedRoomId sc' = selectedRoomId sc /\
  cm_error m' = Some "Cannot read properties of undefined (reading 'id')" /\
  cm_name m' = cm_name m /\ cm_password m' = cm_password m /\ cm_loading m' = false /\
  tget T_study_rooms (w_db w') !! w_next_id w =
    Some (new_room (cm_name m) (cm_description m) false None u (w_now w)) /\
  is_Some (tget T_study_room_members (w_db w') !! (w_next_id w, u)).
Proof.
  intros Hc Hn Hp. unfold handleCreate, create_onSuccess, on_cm, on_screen, on_hook,
    createRoom, joinRoom, RoomJoin.joinRoom, RoomJoin.require_user. mrun.
  rewrite Hn, Hp. mrun.
  rewrite insert_fresh_calm by done. mrun.
  rewrite select_single_calm by done. mrun. simpl_tables. rewrite lookup_insert_eq. mrun.
  rewrite upsert_calm by done. mrun. simpl_tables.
  destruct (tget T_study_room_members (w_db w) !! (w_next_id w, u)); mrun; simpl_tables;
    repeat split; rewrite ?lookup_insert_eq; done.
Qed.

(** ** Witnesses: the scenario of a private room "xyz" created by user 1 *)

Definition demo_room : study_room :=
  {| sr_name := "Fizik"; sr_description := ""; sr_is_private := true;
     sr_password_hash := Some "xyz"; sr_created_by := 1; sr_created_at := 0 |}.

Definition demo_world : world :=
  {| w_db := tset T_study_rooms {[5%N := demo_room]} empty_db; w_now := 100;
     w_next_id := 10; w_auth := Some 2%N; w_faults := []; w_log := [] |}.

Definition demo_hook : hook :=
  {| RoomJoin.rooms := []; RoomJoin.loading := false; RoomJoin.error := None |}.

Definition demo_screen : screen := screen0.

Example join_idempotent_witness :
  calm demo_world /\
  joinRoom (Some 2%N) 5 (Some "xyz") (demo_hook, demo_world) =
    (Ok demo_room, (demo_hook, (joinRoom (Some 2%N) 5 (Some "xyz") (demo_hook, demo_world)).2.2)) /\
  exists w2,
    RoomJoin.joinRoom (Some 2%N) 5 (Some "xyz")
      (demo_hook, (joinRoom (Some 2%N) 5 (Some "xyz") (demo_hook, demo_world)).2.2) =
      (Ok demo_room, (demo_hook, w2)) /\
    tget rt_members (w_db w2) =
    tget rt_members (w_db (joinRoom (Some 2%N) 5 (Some "xyz") (demo_hook, demo_world)).2.2).
Proof.
  assert (H : joinRoom (Some 2%N) 5 (Some "xyz") (demo_hook, demo_world) =
    (Ok demo_room, (demo_hook, (joinRoom (Some 2%N) 5 (Some "xyz") (demo_hook, demo_world)).2.2)))
    by (vm_compute; reflexivity).
  split; [reflexivity|]. split; [exact H|].
  exact (RoomJoin.join_idempotent (Some 2%N) 5 (Some "xyz") demo_hook demo_world demo_room
    demo_hook _ eq_refl H).
Defined.

Example join_rejects_bad_password_witness :
  tget rt_rooms (w_db demo_world) !! 5%N = Some demo_room /\
  RoomJoin.admits demo_room (Some "abc") = false /\
  match RoomJoin.joinRoom (Some 2%N) 5 (Some "abc") (demo_hook, demo_world) with
  | (Ok _, _) => False
  | (Thrown e, (h', w')) =>
      tget rt_members (w_db w') = tget rt_members (w_db demo_world) /\
      (Some 2%N <> None -> head_fault demo_world = false ->
       e = ExnMsg (if RoomJoin.password_given (Some "abc") then "Yanlış şifre"
                   else "Bu oda için şifre gerekli") /\
       RoomJoin.error h' = Some (exn_message e))
  end.
Proof.
  split; [reflexivity|]. split; [reflexivity|].
  apply (RoomJoin.join_rejects_bad_password _ _ _ _ _ demo_room); reflexivity.
Defined.

Example join_missing_room_witness :
  calm demo_world /\ tget rt_rooms (w_db demo_world) !! 6%N = None /\
  RoomJoin.joinRoom (Some 2%N) 6 (Some "xyz") (demo_hook, demo_world) =
    (Thrown (ExnDb DbNoRows),
     (RoomJoin.with_error (Some (dberr_message DbNoRows)) demo_hook, demo_world)).
Proof.
  split; [reflexivity|]. split; [reflexivity|].
  apply RoomJoin.join_missing_room; reflexivity.
Defined.

Example private_empty_password_locks_room_witness :
  calm demo_world /\
  (let '(r, (h', w')) := createRoom (Some 2%N) "Kimya" "" true (Some "") (demo_hook, demo_world) in
   r = Thrown (ExnMsg "Bu oda için şifre gerekli") /\
   RoomJoin.error h' = Some "Bu oda için şifre gerekli" /\
   tget T_study_rooms (w_db w') !! w_next_id demo_world =
     Some (new_room "Kimya" "" true (Some "") 2 (w_now demo_world)) /\
   tget T_study_room_members (w_db w') = tget T_study_room_members (w_db demo_world) /\
   forall password,
     RoomJoin.admits (new_room "Kimya" "" true (Some "") 2 (w_now demo_world)) password = false).
Proof. split; [reflexivity|]. apply private_empty_password_locks_room. reflexivity. Defined.

Example deleteRoom_only_creator_witness :
  calm demo_world /\ tget T_study_rooms (w_db demo_world) !! 5%N = Some demo_room /\
  (let '(r, (h', w')) := deleteRoom (Some 2%N) 5 (demo_hook, demo_world) in
   r = Ok () /\ h' = demo_hook /\
   tget T_study_rooms (w_db w') !! 5%N =
     (if bool_decide (sr_created_by demo_room = 2%N) then None else Some demo_room) /\
   (forall k, k <> 5%N -> tget T_study_rooms (w_db w') !! k =
                          tget T_study_rooms (w_db demo_world) !! k)).
Proof.
  split; [reflexivity|]. split; [reflexivity|].
  apply (deleteRoom_only_creator _ _ demo_room); reflexivity.
Defined.

Definition demo_modal : create_modal :=
  {| cm_name := "Matematik"; cm_description := "TYT"; cm_isPrivate := false; cm_password := "";
     cm_loading := false; cm_error := None |}.

Example create_modal_success_not_opened_witness :
  calm demo_world /\ js_truthy (js_trim (cm_name demo_modal)) = true /\
  cm_isPrivate demo_modal = false /\
  (let '(r, (m', sc', h', w')) := handleCreate (Some 2%N) (demo_modal, demo_screen, demo_hook, demo_world) in
   r = Ok () /\ showCreateModal sc' = false /\ selectedRoomId sc' = selectedRoomId demo_screen /\
   cm_error m' = Some "Cannot read properties of undefined (reading 'id')" /\
   cm_name m' = cm_name demo_modal /\ cm_password m' = cm_password demo_modal /\
   cm_loading m' = false /\
   tget T_study_rooms (w_db w') !! w_next_id demo_world =
     Some (new_room (cm_name demo_modal) (cm_description demo_modal) false None 2 (w_now demo_world)) /\
   is_Some (tget T_study_room_members (w_db w') !! (w_next_id demo_world, 2%N))).
Proof.
  split; [reflexivity|]. split; [vm_compute; reflexivity|]. split; [reflexivity|].
  apply create_modal_success_not_opened; [reflexivity|vm_compute; reflexivity|reflexivity].
Defined.

End StudyRooms.
