(* ===== verification/Chat.v ===== *)
(** * Chat rooms: hooks/useChat.ts, components/Chat/ChatRoom.tsx, app/(tabs)/chat.tsx

    [ChatRoomTable] instantiates the join interface of RoomJoin.v with the
    [chat_rooms] and [chat_room_members] tables, so [joinRoom] of the chat
    hook is RoomJoin's, and its theorems hold here as they do for study
    rooms.  The hook's other callbacks ([fetchRooms], [createRoom],
    [deleteRoom], [sendMessage], [fetchMessages]) run on the hook's cells
    and the world.  The room screen (ChatRoom.tsx) owns its own hook
    instance: its handlers run on [(room_screen * hook) * world].  The list
    screen (chat.tsx) adds a search box, a pro-only room and the join
    modal. *)

From stdpp Require Import sorting.
From S2P Require Import Core Backend RoomJoin.

Module Chat.

#[export] Instance ChatRoomTable : RoomTable chat_room member := {|
  rt_rooms := T_chat_rooms;
  rt_members := T_chat_room_members;
  rt_members_name := "chat_room_members";
  rt_is_private := cr_is_private;
  rt_password_hash := cr_password_hash;
  (** [.upsert({ room_id, user_id })]: [joined_at] takes its default. *)
  rt_fresh_member := fun now => {| m_joined_at := now |};
  rt_rooms_members := ltac:(intros ? []; reflexivity);
|}.

Abbreviation hook := (RoomJoin.hook chat_room).
Abbreviation HM := (M (hook * world)).

Definition setError (msg : string) : HM unit := RoomJoin.setError msg.

(** [catch (err) { setError(err.message); throw err; }] *)
Definition report {A} (c : HM A) : HM A :=
  try! c catch! e => setError (exn_message e) ;; throw e.

(** [.order('created_at', { ascending: false })] on rooms. *)
Definition room_newer (a b : uuid * chat_room) : Prop := (cr_created_at b.2 <= cr_created_at a.2)%Z.
#[export] Instance room_newer_dec : RelDecision room_newer.
Proof. intros a b. unfold room_newer. apply _. Defined.

(** [.order('created_at', { ascending: true })] on messages. *)
Definition message_older (a b : uuid * message) : Prop := (msg_created_at a.2 <= msg_created_at b.2)%Z.
#[export] Instance message_older_dec : RelDecision message_older.
Proof. intros a b. unfold message_older. apply _. Defined.

Definition with_rooms (x : list (uuid * chat_room)) (h : hook) : hook :=
  {| RoomJoin.rooms := x; RoomJoin.loading := RoomJoin.loading h; RoomJoin.error := RoomJoin.error h |}.
Definition with_loading (x : bool) (h : hook) : hook :=
  {| RoomJoin.rooms := RoomJoin.rooms h; RoomJoin.loading := x; RoomJoin.error := RoomJoin.error h |}.

(** [fetchRooms] *)
Definition fetchRooms : HM unit :=
  try_finally
    (try! (
       r <- on_snd (select_where T_chat_rooms (fun _ _ => true)) ;;
       data <- or_throw r ;;
       setL (with_rooms (merge_sort room_newer data)))
     catch! e => setError (exn_message e))
    (setL (with_loading false)).

(** [joinRoom(roomId, password)] of the hook. *)
Definition joinRoom (user : option uuid) (roomId : uuid) (password : option string)
    : HM chat_room :=
  RoomJoin.joinRoom user roomId password.

(** The row [createRoom] inserts: [password_hash] is the given password,
    whether the room is private or not. *)
Definition new_chat_room (name description : string) (isPrivate : bool) (password : option string)
    (u : uuid) (now : timestamp) : chat_room :=
  {| cr_name := name; cr_description := Some description; cr_is_private := isPrivate;
     cr_password_hash := password; cr_created_by := Some u; cr_created_at := now |}.

(** [createRoom(name, description, isPrivate, password)]: insert the room,
    then join it with the same password. *)
Definition createRoom (user : option uuid) (name description : string) (isPrivate : bool)
    (password : option string) : HM (uuid * chat_room) :=
  report (
    u <- RoomJoin.require_user user ;;
    r <- on_snd (insert_fresh T_chat_rooms "chat_rooms"
                   (fun _ now => new_chat_room name description isPrivate password u now)) ;;
    data <- or_throw r ;;
    _ <- joinRoom user data.1 password ;;
    mret data).

(** [deleteRoom(roomId)]: only a row the user created matches. *)
Definition deleteRoom (user : option uuid) (roomId : uuid) : HM unit :=
  report (
    u <- RoomJoin.require_user user ;;
    r <- on_snd (delete_where T_chat_rooms "chat_rooms"
                   (fun k room => bool_decide (k = roomId /\ cr_created_by room = Some u))) ;;
    or_throw r).

(** [sendMessage(roomId, content)] *)
Definition sendMessage (user : option uuid) (roomId : uuid) (content : string) : HM unit :=
  report (
    u <- RoomJoin.require_user user ;;
    r <- on_snd (insert_fresh T_chat_messages "chat_messages"
                   (fun _ now => {| msg_room_id := roomId; msg_user_id := u;
                                    msg_content := content; msg_created_at := now |})) ;;
    _ <- or_throw r ;;
    mret ()).

(** [fetchMessages(roomId)] *)
Definition fetchMessages (roomId : uuid) : HM (list (uuid * message)) :=
  report (
    r <- on_snd (select_where T_chat_messages (fun _ m => bool_decide (msg_room_id m = roomId))) ;;
    data <- or_throw r ;;
    mret (merge_sort message_older data)).

(** The hook's callbacks, as its callers invoke them. *)
Inductive hook_call :=
  | HFetchRooms
  | HCreateRoom (name description : string) (isPrivate : bool) (password : option string)
  | HDeleteRoom (roomId : uuid)
  | HJoinRoom (roomId : uuid) (password : option string)
  | HSendMessage (roomId : uuid) (content : string)
  | HFetchMessages (roomId : uuid).

Definition run_hook_call (user : option uuid) (c : hook_call) : HM unit :=
  match c with
  | HFetchRooms => fetchRooms
  | HCreateRoom n d p pw => _ <- createRoom user n d p pw ;; mret ()
  | HDeleteRoom id => deleteRoom user id
  | HJoinRoom id pw => _ <- joinRoom user id pw ;; mret ()
  | HSendMessage id c => sendMessage user id c
  | HFetchMessages id => _ <- fetchMessages id ;; mret ()
  end.

(** A sequence of calls, each awaited by a caller that catches what it
    throws (the screens all do). *)
Fixpoint run_hook_calls (user : option uuid) (cs : list hook_call) : HM unit :=
  match cs with
  | [] => mret ()
  | c :: cs' => (try! run_hook_call user c catch! _ => mret ()) ;; run_hook_calls user cs'
  end.

(** ** The room screen: components/Chat/ChatRoom.tsx *)

(** An entry of the [users] map: [{ name, photoUrl }]. *)
Record user_info := {
  ui_name : string;
  ui_photoUrl : option string;
}.

(** The screen's [useState] cells. *)
Record room_screen := {
  messages : list (uuid * message);
  newMessage : string;
  loading : bool;
  room : option chat_room;
  memberCount : Z;
  users : gmap uuid user_info;
}.

Definition room_screen0 : room_screen :=
  {| messages := []; newMessage := ""; loading := false; room := None;
     memberCount := 0; users := ∅ |}.

Definition set_messages (x : list (uuid * message)) (s : room_screen) : room_screen :=
  {| messages := x; newMessage := newMessage s; loading := loading s; room := room s;
     memberCount := memberCount s; users := users s |}.
Definition set_newMessage (x : string) (s : room_screen) : room_screen :=
  {| messages := messages s; newMessage := x; loading := loading s; room := room s;
     memberCount := memberCount s; users := users s |}.
Definition set_loading (x : bool) (s : room_screen) : room_screen :=
  {| messages := messages s; newMessage := newMessage s; loading := x; room := room s;
     memberCount := memberCount s; users := users s |}.
Definition set_room (x : option chat_room) (s : room_screen) : room_screen :=
  {| messages := messages s; newMessage := newMessage s; loading := loading s; room := x;
     memberCount := memberCount s; users := users s |}.
Definition set_memberCount (x : Z) (s : room_screen) : room_screen :=
  {| messages := messages s; newMessage := newMessage s; loading := loading s; room := room s;
     memberCount := x; users := users s |}.
Definition set_users (x : gmap uuid user_info) (s : room_screen) : room_screen :=
  {| messages := messages s; newMessage := newMessage s; loading := loading s; room := room s;
     memberCount := memberCount s; users := x |}.

(** The screen, the [useChat()] instance it owns, and the world. *)
Abbreviation RM := (M ((room_screen * hook) * world)).

Definition setS (f : room_screen -> room_screen) : RM unit :=
  modify (fun p => ((f p.1.1, p.1.2), p.2)).
Definition getS : RM room_screen := gets (fun p => p.1.1).

(** A call of the screen's own hook instance. *)
Definition on_hook {A} (c : HM A) : RM A :=
  zoom (fun p => (p.1.2, p.2)) (fun hw p => ((p.1.1, hw.1), hw.2)) c.

(** [user.name || 'Anonim Kullanıcı'] and
    [photoData?.find(p => p.user_id === user.id)?.photo_url || null]. *)
Definition user_entry (photos : list (uuid * profile_photo)) (u : uuid * user_row) : user_info :=
  {| ui_name := match u_name u.2 with
                | Some n => if js_truthy n then n else "Anonim Kullanıcı"
                | None => "Anonim Kullanıcı"
                end;
     ui_photoUrl := match list_find (fun p => p.1 = u.1) photos with
                    | Some (_, p) => if js_truthy (pp_photo_url p.2) then Some (pp_photo_url p.2) else None
                    | None => None
                    end |}.

(** [loadUsers]: every user, with the photo of the profile_photos table. *)
Definition loadUsers : RM unit :=
  try! (
    r <- on_snd (select_where T_users (fun _ _ => true)) ;;
    userData <- or_throw r ;;
    r2 <- on_snd (select_where T_profile_photos (fun _ _ => true)) ;;
    photoData <- or_throw r2 ;;
    setS (set_users (fold_insert fst (fun u => Some (user_entry photoData u)) ∅ userData)))
  catch! _ => mret ().

(** A message bubble as the list renders it. *)
Record bubble := {
  b_id : uuid;
  b_own : bool;
  b_showAvatar : bool;
  (** [userInfo?.photoUrl || default], shown with the avatar. *)
  b_avatar : string;
  (** [userInfo?.name]: [None] for [undefined]. *)
  b_sender : option string;
  b_content : string;
}.

Definition default_avatar : string :=
  "https://images.pexels.com/photos/771742/pexels-photo-771742.jpeg?auto=compress&cs=tinysrgb&w=1260&h=750&dpr=1".

(** [messages.map((message, index) => ...)]: [prev] is [messages[index - 1]]. *)
Fixpoint render_messages (user : option uuid) (us : gmap uuid user_info)
    (prev : option message) (ms : list (uuid * message)) : list bubble :=
  match ms with
  | [] => []
  | (k, m) :: ms' =>
      let own := bool_decide (Some (msg_user_id m) = user) in
      let showAvatar := negb own &&
        match prev with None => true | Some p => bool_decide (msg_user_id p <> msg_user_id m) end in
      let info := us !! msg_user_id m in
      {| b_id := k; b_own := own; b_showAvatar := showAvatar;
         b_avatar := match info with
                     | Some i => match ui_photoUrl i with Some url => url | None => default_avatar end
                     | None => default_avatar
                     end;
         b_sender := ui_name <$> info;
         b_content := msg_content m |}
      :: render_messages user us (Some m) ms'
  end.

(** The header: [room?.name || 'Yükleniyor...'] and the member count. *)
Definition room_title (s : room_screen) : string :=
  match room s with
  | Some r => if js_truthy (cr_name r) then cr_name r else "Yükleniyor..."
  | None => "Yükleniyor..."
  end.

(** The [profile_photos] subscription: any change reloads the users. *)
Definition onPhotosChange : RM unit := loadUsers.

Section Room.
Context (roomId : uuid) (user : option uuid).

(** [loadRoomDetails]: the room row, then the exact count of its members. *)
Definition loadRoomDetails : RM unit :=
  try! (
    r <- on_snd (select_single T_chat_rooms roomId) ;;
    roomData <- or_throw r ;;
    setS (set_room (Some roomData)) ;;
    r2 <- on_snd (select_where T_chat_room_members (fun k _ => bool_decide (k.1 = roomId))) ;;
    rows <- or_throw r2 ;;
    setS (set_memberCount (Z.of_nat (length rows))))
  catch! _ => mret ().

(** [loadMessages]: the hook's [fetchMessages] replaces the list. *)
Definition loadMessages : RM unit :=
  try! (
    data <- on_hook (fetchMessages roomId) ;;
    setS (set_messages data))
  catch! _ => mret ().

(** The [chat_messages] INSERT subscription: [payload.new] is appended. *)
Definition onMessageInsert (payload : uuid * message) : RM unit :=
  setS (fun s => set_messages (messages s ++ [payload]) s).

(** [handleSend]: no guard on [loading] in the handler (the button is
    disabled while it is set); a failure is only logged. *)
Definition handleSend : RM unit :=
  s <- getS ;;
  if negb (js_truthy (js_trim (newMessage s))) then mret () else
  try_finally
    (try! (
       setS (set_loading true) ;;
       on_hook (sendMessage user roomId (js_trim (newMessage s))) ;;
       setS (set_newMessage ""))
     catch! _ => mret ())
    (setS (set_loading false)).

(** The [chat_room_members] subscription of the room: any change reloads
    the room's details. *)
Definition onMembersChange : RM unit := loadRoomDetails.

(** What can happen on the screen: the mount effect's three loads, the
    three subscriptions' callbacks, typing and the send button. *)
Inductive room_event :=
  | RLoadMessages
  | RLoadRoomDetails
  | RLoadUsers
  | RMessageInsert (payload : uuid * message)
  | RMembersChanged
  | RPhotosChanged
  | RType (text : string)
  | RSend.

Definition run_room_event (e : room_event) : RM unit :=
  match e with
  | RLoadMessages => loadMessages
  | RLoadRoomDetails => loadRoomDetails
  | RLoadUsers => loadUsers
  | RMessageInsert p => onMessageInsert p
  | RMembersChanged => onMembersChange
  | RPhotosChanged => onPhotosChange
  | RType text => setS (set_newMessage text)
  | RSend => handleSend
  end.

Fixpoint run_room_events (es : list room_event) : RM unit :=
  match es with
  | [] => mret ()
  | e :: es' => run_room_event e ;; run_room_events es'
  end.

(** The mount effect: [loadMessages(); loadRoomDetails(); loadUsers();]. *)
Definition mount : list room_event := [RLoadMessages; RLoadRoomDetails; RLoadUsers].

End Room.

(** ** The room list: app/(tabs)/chat.tsx *)

(** The screen's [useState] cells, and the paths given to [router.push],
    most recent first. *)
Record list_screen := {
  searchQuery : string;
  showCreateModal : bool;
  showJoinModal : bool;
  selectedRoomId : option uuid;
  selectedRoomForJoin : option (uuid * string);
  userData : option user_row;
  routes : list string;
}.

Definition list_screen0 : list_screen :=
  {| searchQuery := ""; showCreateModal := false; showJoinModal := false;
     selectedRoomId := None; selectedRoomForJoin := None; userData := None; routes := [] |}.

Definition ls_set_selected (x : option uuid) (s : list_screen) : list_screen :=
  {| searchQuery := searchQuery s; showCreateModal := showCreateModal s;
     showJoinModal := showJoinModal s; selectedRoomId := x;
     selectedRoomForJoin := selectedRoomForJoin s; userData := userData s; routes := routes s |}.
Definition ls_set_forJoin (x : option (uuid * string)) (s : list_screen) : list_screen :=
  {| searchQuery := searchQuery s; showCreateModal := showCreateModal s;
     showJoinModal := showJoinModal s; selectedRoomId := selectedRoomId s;
     selectedRoomForJoin := x; userData := userData s; routes := routes s |}.
Definition ls_set_showJoin (x : bool) (s : list_screen) : list_screen :=
  {| searchQuery := searchQuery s; showCreateModal := showCreateModal s;
     showJoinModal := x; selectedRoomId := selectedRoomId s;
     selectedRoomForJoin := selectedRoomForJoin s; userData := userData s; routes := routes s |}.
Definition ls_set_showCreate (x : bool) (s : list_screen) : list_screen :=
  {| searchQuery := searchQuery s; showCreateModal := x;
     showJoinModal := showJoinModal s; selectedRoomId := selectedRoomId s;
     selectedRoomForJoin := selectedRoomForJoin s; userData := userData s; routes := routes s |}.
Definition ls_set_userData (x : option user_row) (s : list_screen) : list_screen :=
  {| searchQuery := searchQuery s; showCreateModal := showCreateModal s;
     showJoinModal := showJoinModal s; selectedRoomId := selectedRoomId s;
     selectedRoomForJoin := selectedRoomForJoin s; userData := x; routes := routes s |}.
Definition ls_push (path : string) (s : list_screen) : list_screen :=
  {| searchQuery := searchQuery s; showCreateModal := showCreateModal s;
     showJoinModal := showJoinModal s; selectedRoomId := selectedRoomId s;
     selectedRoomForJoin := selectedRoomForJoin s; userData := userData s;
     routes := path :: routes s |}.

Abbreviation LM := (M ((list_screen * hook) * world)).

Definition setLS (f : list_screen -> list_screen) : LM unit :=
  modify (fun p => ((f p.1.1, p.1.2), p.2)).
Definition on_list_hook {A} (c : HM A) : LM A :=
  zoom (fun p => (p.1.2, p.2)) (fun hw p => ((p.1.1, hw.1), hw.2)) c.

(** [fetchUserData]: the signed-in user's row; errors are logged. *)
Definition fetchUserData (user : option uuid) : LM unit :=
  try! (
    match user with
    | None => mret ()
    | Some u =>
        r <- on_snd (select_single T_users u) ;;
        data <- or_throw r ;;
        setLS (ls_set_userData (Some data))
    end)
  catch! _ => mret ().

(** The search predicate: [room.name.toLowerCase().includes(q) ||
    room.description?.toLowerCase().includes(q)] with [q] the lowered
    query; a null description gives [undefined], which is falsy. *)
Definition room_matches (searchQuery : string) (r : uuid * chat_room) : bool :=
  let q := js_toLowerCase searchQuery in
  js_includes (js_toLowerCase (cr_name r.2)) q ||
  match cr_description r.2 with
  | Some d => js_includes (js_toLowerCase d) q
  | None => false
  end.

Definition publicRooms (rooms : list (uuid * chat_room)) : list (uuid * chat_room) :=
  filter (fun r => cr_is_private r.2 = false) rooms.
Definition privateRooms (rooms : list (uuid * chat_room)) : list (uuid * chat_room) :=
  filter (fun r => cr_is_private r.2 = true) rooms.
Definition filteredPublicRooms (q : string) (rooms : list (uuid * chat_room)) : list (uuid * chat_room) :=
  filter (fun r => room_matches q r = true) (publicRooms rooms).
Definition filteredPrivateRooms (q : string) (rooms : list (uuid * chat_room)) : list (uuid * chat_room) :=
  filter (fun r => room_matches q r = true) (privateRooms rooms).

(** The pro-only room's name. *)
Definition pro_room_name : string := "Eğitim Koçum".

(** [handleJoinRoom(roomId, isPrivate, name)]: no store call. *)
Definition handleJoinRoom (roomId : uuid) (isPrivate : bool) (name : string)
    (s : list_screen) : list_screen :=
  if String.eqb name pro_room_name then
    if negb (default false (u_is_pro <$> userData s)) then ls_push "/pro-upgrade" s
    else ls_set_selected (Some roomId) s
  else if isPrivate then ls_set_showJoin true (ls_set_forJoin (Some (roomId, name)) s)
  else ls_set_selected (Some roomId) s.

(** [handleCreateRoom] *)
Definition handleCreateRoom (s : list_screen) : list_screen := ls_set_showCreate true s.

(** [handleDeleteRoom(roomId)]: the hook's error is logged here. *)
Definition handleDeleteRoom (user : option uuid) (roomId : uuid) : LM unit :=
  try! on_list_hook (deleteRoom user roomId) catch! _ => mret ().

(** The join modal's [onClose] and [onSuccess]. *)
Definition join_onClose (s : list_screen) : list_screen :=
  ls_set_forJoin None (ls_set_showJoin false s).
Definition join_onSuccess (s : list_screen) : list_screen :=
  match selectedRoomForJoin s with
  | Some (id, _) => ls_set_forJoin None (ls_set_selected (Some id) (ls_set_showJoin false s))
  | None => s
  end.

(** The create modal's [onClose] and [onSuccess]: both hide it. *)
Definition create_onClose (s : list_screen) : list_screen := ls_set_showCreate false s.

(** A room card of [RoomSection]. *)
Record room_card := {
  rc_id : uuid;
  rc_name : string;
  (** [room.is_private && !isProRoom] *)
  rc_lock : bool;
  (** [isProRoom] *)
  rc_crown : bool;
  rc_description : option string;
  (** [user?.id === room.created_by] *)
  rc_delete : bool;
}.

Definition room_card_of (user : option uuid) (r : uuid * chat_room) : room_card :=
  let isProRoom := String.eqb (cr_name r.2) pro_room_name in
  {| rc_id := r.1; rc_name := cr_name r.2; rc_lock := cr_is_private r.2 && negb isProRoom;
     rc_crown := isProRoom; rc_description := cr_description r.2;
     rc_delete := match user, cr_created_by r.2 with
                  | Some u, Some c => bool_decide (u = c)
                  | _, _ => false
                  end |}.

(** [RoomSection]: its cards, and whether it shows "Bu kategoride henüz
    oda yok". *)
Definition RoomSection (user : option uuid) (rooms : list (uuid * chat_room)) : list room_card * bool :=
  (room_card_of user <$> rooms, bool_decide (rooms = [])).

(** What the screen shows. *)
Inductive list_view :=
  | ShowRoom (roomId : uuid)
  | ShowLoading
  | ShowError (msg : string)
  | ShowSections (privates publics : list (uuid * chat_room)).

Definition list_render (s : list_screen) (h : hook) : list_view :=
  match selectedRoomId s with
  | Some id => ShowRoom id
  | None =>
      if RoomJoin.loading h then ShowLoading
      else match RoomJoin.error h with
           | Some e => if js_truthy e then ShowError e
                       else ShowSections (filteredPrivateRooms (searchQuery s) (RoomJoin.rooms h))
                                         (filteredPublicRooms (searchQuery s) (RoomJoin.rooms h))
           | None => ShowSections (filteredPrivateRooms (searchQuery s) (RoomJoin.rooms h))
                                  (filteredPublicRooms (searchQuery s) (RoomJoin.rooms h))
           end
  end.

(** ** Lemmas *)

(** The rows [fetchMessages] returns for a room. *)
Definition room_rows (roomId : uuid) (d : db) : list (uuid * message) :=
  merge_sort message_older
    (filter (fun kr => bool_decide (msg_room_id kr.2 = roomId) = true)
            (map_to_list (tget T_chat_messages d))).

(** The hook's error cell is set and its loading flag is down. *)
Definition error_shown (h : hook) : Prop :=
  is_Some (RoomJoin.error h) /\ RoomJoin.loading h = false.

#[local] Hint Resolve stable_guard_msg stable_on_snd_fst stable_getL_fst : stable.

Lemma run_hook_call_error_shown user c :
  stable (fun p : hook * world => error_shown p.1) (run_hook_call user c).
Proof.
  destruct c; cbn; unfold createRoom, deleteRoom, sendMessage, fetchMessages, fetchRooms,
    joinRoom, RoomJoin.joinRoom, RoomJoin.require_user, RoomJoin.check_password, report,
    setError, RoomJoin.setError, or_throw;
  repeat (stable_step || eauto with stable ||
          (apply stable_setL_fst; intros [] [? ?]; unfold error_shown; cbn in *; naive_solver)).
Qed.

Lemma run_hook_calls_error_shown user cs :
  stable (fun p : hook * world => error_shown p.1) (run_hook_calls user cs).
Proof.
  induction cs as [|c cs IH]; cbn; [apply stable_ret|].
  refine (stable_bind _ _ _ _ _); [|intros _; exact IH].
  apply stable_try; [apply run_hook_call_error_shown|intros _; apply stable_ret].
Qed.

(** ** Theorems *)

(** C6: a private room opens from the list without its password exactly
    when it is named "Eğitim Koçum" and the user is pro: [handleJoinRoom]
    then selects it with no join and no member row, while a user who is
    not pro is sent to "/pro-upgrade" whatever the room's privacy. *)
Theorem private_room_opens_only_as_pro_room roomId isPrivate name s :
  selectedRoomId s = None ->
  (selectedRoomId (handleJoinRoom roomId true name s) = Some roomId <->
   name = pro_room_name /\ default false (u_is_pro <$> userData s) = true) /\
  routes (handleJoinRoom roomId isPrivate pro_room_name s) =
    (if default false (u_is_pro <$> userData s) then routes s else "/pro-upgrade" :: routes s).
Proof.
  intros Hs. unfold handleJoinRoom. rewrite String.eqb_refl.
  split; [|by destruct (default false _)].
  destruct (String.eqb_spec name pro_room_name) as [->|Hn];
    destruct (default false _); cbn; rewrite ?Hs; naive_solver.
Qed.

(** C8: the room screen can show a message twice: when the feed delivers
    a row that the mount's [loadMessages] already read (the row was
    inserted between the subscription and the query), the list holds it
    twice, since the INSERT callback appends without checking ids. *)
Theorem feed_after_load_duplicates roomId user k m s h w :
  calm w -> tget T_chat_messages (w_db w) !! k = Some m -> msg_room_id m = roomId ->
  let '(r, ((s', _), w')) :=
    run_room_events roomId user [RLoadMessages; RMessageInsert (k, m)] ((s, h), w) in
  r = Ok () /\ w' = w /\
  messages s' = room_rows roomId (w_db w) ++ [(k, m)] /\ (k, m) ∈ room_rows roomId (w_db w).
Proof.
  intros Hc Hk Hr. cbn. unfold loadMessages, on_hook, fetchMessages, report, onMessageInsert, setS.
  mrun. rewrite select_where_calm by done. mrun. split_and!; [done|done|done|].
  unfold room_rows. rewrite merge_sort_Permutation, list_elem_of_filter, elem_of_map_to_list.
  cbn. by rewrite bool_decide_eq_true_2.
Qed.

(** C7: the hook's error cell is never cleared: once a call has failed
    and the first load is over, every later call of the hook ([fetchRooms]
    included) leaves an error in the cell, so the room list shows an error
    in place of the rooms until the screen is mounted again. *)
Theorem hook_error_sticky user cs h w :
  error_shown h ->
  let '(_, (h', _)) := run_hook_calls user cs (h, w) in
  exists e, RoomJoin.error h' = Some e /\ RoomJoin.loading h' = false /\
    forall s, selectedRoomId s = None -> js_truthy e = true -> list_render s h' = ShowError e.
Proof.
  intros He. pose proof (run_hook_calls_error_shown user cs (h, w) He) as [[e He'] Hl].
  destruct (run_hook_calls user cs (h, w)) as [r [h' w']]. cbn in *.
  exists e. split_and!; [done|done|]. intros s Hs Ht. unfold list_render.
  by rewrite Hs, Hl, He', Ht.
Qed.

(** ** Witnesses *)

(** Room 7 "Eğitim Koçum" is private; message 3 of user 2 is in it. *)
Definition demo_chat_room : chat_room :=
  {| cr_name := pro_room_name; cr_description := Some "Koçluk"; cr_is_private := true;
     cr_password_hash := Some "xyz"; cr_created_by := Some 1%N; cr_created_at := 0 |}.

Definition demo_msg : message :=
  {| msg_room_id := 7; msg_user_id := 2; msg_content := "merhaba"; msg_created_at := 150 |}.

Definition demo_chat_world : world :=
  {| w_db := tset T_chat_messages {[3%N := demo_msg]}
               (tset T_chat_rooms {[7%N := demo_chat_room]} empty_db);
     w_now := 200; w_next_id := 10; w_auth := Some 2%N; w_faults := []; w_log := [] |}.

Definition demo_hook : hook :=
  {| RoomJoin.rooms := [(7%N, demo_chat_room)]; RoomJoin.loading := false; RoomJoin.error := None |}.

Definition pro_user : user_row :=
  {| u_name := Some "Ayşe"; u_avatar_url := None; u_is_pro := true; u_grade := None;
     u_target_profession := None; u_exam_score := None; u_strong_subjects := None;
     u_weak_subjects := None |}.

Definition demo_list : list_screen := ls_set_userData (Some pro_user) list_screen0.

Example private_room_opens_only_as_pro_room_witness :
  selectedRoomId demo_list = None /\
  (selectedRoomId (handleJoinRoom 7 true pro_room_name demo_list) = Some 7%N <->
   pro_room_name = pro_room_name /\ default false (u_is_pro <$> userData demo_list) = true) /\
  routes (handleJoinRoom 7 false pro_room_name demo_list) =
    (if default false (u_is_pro <$> userData demo_list) then routes demo_list
     else "/pro-upgrade" :: routes demo_list).
Proof.
  split; [reflexivity|]. apply (private_room_opens_only_as_pro_room 7 false pro_room_name demo_list).
  reflexivity.
Defined.

Example feed_after_load_duplicates_witness :
  calm demo_chat_world /\ tget T_chat_messages (w_db demo_chat_world) !! 3%N = Some demo_msg /\
  msg_room_id demo_msg = 7%N /\
  (let '(r, ((s', _), w')) :=
     run_room_events 7 (Some 2%N) [RLoadMessages; RMessageInsert (3%N, demo_msg)]
       ((room_screen0, demo_hook), demo_chat_world) in
   r = Ok () /\ w' = demo_chat_world /\
   messages s' = room_rows 7 (w_db demo_chat_world) ++ [(3%N, demo_msg)] /\
   (3%N, demo_msg) ∈ room_rows 7 (w_db demo_chat_world)).
Proof.
  split; [reflexivity|]. split; [reflexivity|]. split; [reflexivity|].
  apply feed_after_load_duplicates; reflexivity.
Defined.

(** The hook after a failed fetch; the user then refetches and deletes. *)
Definition failed_hook : hook :=
  {| RoomJoin.rooms := []; RoomJoin.loading := false;
     RoomJoin.error := Some (dberr_message DbUnavailable) |}.

Example hook_error_sticky_witness :
  error_shown failed_hook /\
  (let '(_, (h', _)) :=
     run_hook_calls (Some 1%N) [HFetchRooms; HDeleteRoom 7] (failed_hook, demo_chat_world) in
   exists e, RoomJoin.error h' = Some e /\ RoomJoin.loading h' = false /\
     forall s, selectedRoomId s = None -> js_truthy e = true -> list_render s h' = ShowError e).
Proof.
  split; [split; [exists (dberr_message DbUnavailable); reflexivity|reflexivity]|].
  apply hook_error_sticky. split; [exists (dberr_message DbUnavailable); reflexivity|reflexivity].
Defined.

End Chat.
