(* ===== verification/StudyPresence.v ===== *)
(** * Study-room presence: components/Study/StudyRoom.tsx

    The room screen keeps the member rows it fetched ([members]) and one
    timer per member with a session ([memberTimers]); its own
    [useStudyTimer] instance is the [timer] of StudyTimer.v.  The state of
    the screen is [view * (timer * world)], so the timer's callbacks run on
    the second component unchanged.

    - [fetchMembers] (lines 46-91) reads the room's member rows joined with
      their current session and rebuilds the timer map: a remote member's
      count is the whole seconds since the session's [created_at]; the
      signed-in user's is the local count that the mounting render saw.
    - [mergeTick] is one period of the interval effect (lines 156-185): a
      remote member's count goes up by one, the user's is reset to the
      local count, and members without a session or without a previous
      entry are dropped.  [room_second] is one second of the room: the
      timer's tick, and the interval's period only when the tick left the
      local count unchanged (the effect's deps re-create the interval at
      every change).
    - [display] is the member card's timer text (lines 310-322), with
      [formatTime] (lines 187-198).
    - [handleTimerAction] and [handleReset] (lines 200-221) drive the timer
      and the member row's [current_session_id]. *)

From stdpp Require Import pretty.
From S2P Require Import Core Backend StudyTimer StudyRooms.

Module StudyPresence.
Import StudyTimer.

(** A row of the members query: [user_id], [current_session_id] and the
    joined [session]. *)
Record member_row := {
  mr_user_id : uuid;
  mr_current_session_id : option uuid;
  mr_session : option study_session;
}.

(** [interface MemberTimer] *)
Record member_timer := {
  mt_startTime : timestamp;
  mt_elapsedTime : Z;
}.

Record view := {
  members : list member_row;
  memberTimers : gmap uuid member_timer;
}.

Definition view0 : view := {| members := []; memberTimers := ∅ |}.

Abbreviation RM := (M (view * (timer * world))).

(** The query of lines 48-65: the room's member rows, each with the session
    its [current_session_id] points to (the foreign-key join). *)
Definition members_of (roomId : uuid) (d : db) : list member_row :=
  (fun kr : (uuid * uuid) * study_member =>
     {| mr_user_id := kr.1.2; mr_current_session_id := sm_current_session_id kr.2;
        mr_session := sm_current_session_id kr.2 ≫= fun sid => tget T_study_sessions d !! sid |})
  <$> filter (fun kr : (uuid * uuid) * study_member => kr.1.1 = roomId)
             (map_to_list (tget T_study_room_members d)).

(** [Math.floor((now - startTime) / 1000)] *)
Definition elapsed_since (now start : timestamp) : Z := ((now - start) `div` 1000)%Z.

(** The timer map [fetchMembers] builds (lines 70-90). *)
Definition newTimers (self : option uuid) (localElapsed : Z) (now : timestamp)
    (rows : list member_row) : gmap uuid member_timer :=
  foldl (fun acc m =>
    match mr_current_session_id m, mr_session m with
    | Some _, Some s =>
        <[mr_user_id m := {| mt_startTime := ss_created_at s;
                             mt_elapsedTime := if bool_decide (Some (mr_user_id m) = self)
                                               then localElapsed
                                               else elapsed_since now (ss_created_at s) |}]> acc
    | _, _ => acc
    end) ∅ rows.

(** [fetchMembers]: on a store error nothing changes.  Every caller holds
    the closure of the render that mounted the screen (the mount effect and
    the three subscriptions, deps [[roomId]]), so [user] and [elapsedTime]
    are that render's: [captured] is the local count it saw. *)
Definition fetchMembers (self : option uuid) (roomId : uuid) (captured : Z) : RM unit :=
  try! (
    r <- on_snd (on_snd (call (w <- get ;; mret (Data (members_of roomId (w_db w)))))) ;;
    match r with
    | DbError _ => mret ()
    | Data rows =>
        now <- on_snd (on_snd (gets w_now)) ;;
        setL (fun _ => {| members := rows;
                          memberTimers := newTimers self captured now rows |})
    end)
  catch! _ => mret ().

(** One period of the interval effect (lines 157-182). *)
Definition mergeTick (self : option uuid) (localElapsed : Z) (v : view) : view :=
  {| members := members v;
     memberTimers :=
       foldl (fun acc m =>
         match mr_current_session_id m with
         | Some _ =>
             match memberTimers v !! mr_user_id m with
             | Some prev =>
                 <[mr_user_id m := {| mt_startTime := mt_startTime prev;
                                      mt_elapsedTime :=
                                        if bool_decide (Some (mr_user_id m) = self)
                                        then localElapsed
                                        else (mt_elapsedTime prev + 1)%Z |}]> acc
             | None => acc
             end
         | None => acc
         end) ∅ (members v) |}.

(** [formatTime(seconds)]: [Math.floor] is [Z.div] and JS's [%] keeps
    the sign of the dividend, as [Z.rem] does. *)
Definition formatTime (seconds : Z) : string :=
  let hours := (seconds `div` 3600)%Z in
  let minutes := (Z.rem seconds 3600 `div` 60)%Z in
  let secs := Z.rem seconds 60 in
  if bool_decide (0 < hours)%Z then pretty hours +:+ "s " +:+ pretty minutes +:+ "d " +:+ pretty secs +:+ "sn"
  else if bool_decide (0 < minutes)%Z then pretty minutes +:+ "d " +:+ pretty secs +:+ "sn"
  else pretty secs +:+ "sn".

(** What a member card shows under the name. *)
Inductive member_status := Timing (text : string) | Waiting.

Definition display (self : option uuid) (localElapsed : Z) (v : view) (m : member_row)
    : member_status :=
  match mr_current_session_id m with
  | Some _ =>
      Timing (formatTime (if bool_decide (Some (mr_user_id m) = self) then localElapsed
                          else match memberTimers v !! mr_user_id m with
                               | Some t => mt_elapsedTime t
                               | None => 0
                               end))
  | None => Waiting
  end.

(** [handleTimerAction]: pause (stop, clear the member's session), resume
    (resume, then start a new session and attach it), or start. *)
Definition handleTimerAction (roomId : uuid) : RM unit :=
  t <- on_snd getL ;;
  if isRunning t then
    on_snd stopTimer ;; on_snd (updateSession roomId None)
  else if isPaused t then
    on_snd resumeTimer ;;
    s <- on_snd startTimer ;;
    match s with Some (id, _) => on_snd (updateSession roomId (Some id)) | None => mret () end
  else
    s <- on_snd startTimer ;;
    match s with Some (id, _) => on_snd (updateSession roomId (Some id)) | None => mret () end.

(** [handleReset] *)
Definition handleReset (roomId : uuid) : RM unit :=
  on_snd resetTimer ;; on_snd (updateSession roomId None).

(** One second in the room.  The interval effect has the deps
    [[members, elapsedTime]] (line 185).  When the timer's interval fires,
    [elapsedTime] changes, the screen renders again and the effect clears
    the room's interval and sets a new one.  The new interval's first period
    ends one second after that render, so after the timer's next tick,
    which clears it again.  So the room's interval fires, with the local
    count its render captured, only in a second where the local count does
    not change. *)
Definition room_second (self : option uuid) (s : view * (timer * world)) : view * (timer * world) :=
  let t' := StudyTimer.tick s.2.1 in
  (if (elapsedTime t' =? elapsedTime s.2.1)%Z then mergeTick self (elapsedTime s.2.1) s.1 else s.1,
   StudyTimer.second s.2).

Fixpoint room_seconds (self : option uuid) (n : nat) (s : view * (timer * world))
    : view * (timer * world) :=
  match n with O => s | S n => room_seconds self n (room_second self s) end.

(** ** Lemmas *)

Lemma room_seconds_timer self n s : (room_seconds self n s).2 = StudyTimer.seconds n s.2.
Proof. revert s. induction n as [|n IH]; intros s; [done|]. cbn. by rewrite IH. Qed.

(** The member rows after [updateSession roomId sid] by user [u]. *)
Definition with_member_session (roomId u : uuid) (sid : option uuid)
    (m : gmap (uuid * uuid) study_member) : gmap (uuid * uuid) study_member :=
  map_imap (fun k r => Some (if member_is roomId u k r then set_current sid r else r)) m.

Lemma lookup_with_member_session roomId u sid m k :
  with_member_session roomId u sid m !! k =
  (if bool_decide (k = (roomId, u)) then set_current sid <$> m !! k else m !! k).
Proof.
  unfold with_member_session. rewrite lookup_update_rows. unfold member_is.
  destruct (m !! k); cbn; by case_bool_decide.
Qed.

(** What a store step of the room leaves in the world. *)
Definition world_facts (u : uuid) (w : world) : Prop := calm w /\ w_auth w = Some u.

(** The rows [stopTimer] leaves in [study_sessions]. *)
Definition with_session_closed (sid : uuid) (elapsed : Z) (now : timestamp)
    (m : gmap uuid study_session) : gmap uuid study_session :=
  map_imap (fun k r => Some (if session_is sid k r then close_session elapsed now r else r)) m.

Lemma lookup_with_session_closed sid e now m k :
  with_session_closed sid e now m !! k =
  (if bool_decide (k = sid) then close_session e now <$> m !! k else m !! k).
Proof.
  unfold with_session_closed. rewrite lookup_update_rows. unfold session_is.
  destruct (m !! k); cbn; by case_bool_decide.
Qed.

(** Starting (from a stopped timer) and resuming (from a paused one) in a
    store that answers: a session row is inserted at the next id and the
    member row points at it. *)
Lemma room_start_or_resume v t w u roomId :
  world_facts u w -> isRunning t = false ->
  exists w', handleTimerAction roomId (v, (t, w)) =
      (Ok (), (v, (setSession (Some (w_next_id w)) (setRunPause true false t), w'))) /\
    world_facts u w' /\ w_now w' = w_now w /\ w_next_id w' = N.succ (w_next_id w) /\
    tget T_study_sessions (w_db w') =
      <[w_next_id w := new_session u (w_now w)]> (tget T_study_sessions (w_db w)) /\
    tget T_study_room_members (w_db w') =
      with_member_session roomId u (Some (w_next_id w)) (tget T_study_room_members (w_db w)).
Proof.
  intros [Hc Ha] Hr. unfold handleTimerAction, resumeTimer. mrun. rewrite Hr.
  destruct (isPaused t); mrun;
    rewrite (startTimer_calm _ _ _ Hc Ha); mrun;
    rewrite (updateSession_calm _ _ _ _ u) by done; mrun;
    (eexists; split; [reflexivity|]); unfold world_facts; cbn; simpl_tables; done.
Qed.

(** Pausing a running timer: its session row is closed with the local
    count and the member row no longer points at a session. *)
Lemma room_pause v t w u roomId sid :
  world_facts u w -> isRunning t = true -> currentSessionId t = Some sid ->
  exists w', handleTimerAction roomId (v, (t, w)) = (Ok (), (v, (setRunPause false true t, w'))) /\
    world_facts u w' /\ w_now w' = w_now w /\ w_next_id w' = w_next_id w /\
    tget T_study_sessions (w_db w') =
      with_session_closed sid (elapsedTime t) (w_now w) (tget T_study_sessions (w_db w)) /\
    tget T_study_room_members (w_db w') =
      with_member_session roomId u None (tget T_study_room_members (w_db w)).
Proof.
  intros [Hc Ha] Hr Hs. unfold handleTimerAction. mrun. rewrite Hr. mrun.
  rewrite (stopTimer_calm _ _ _ Hc Hs). mrun.
  rewrite (updateSession_calm _ _ _ _ u) by done. mrun.
  eexists; split; [reflexivity|]. unfold world_facts; cbn; simpl_tables; done.
Qed.

(** While the timer runs, the room's interval never fires: the seconds
    count locally and move the clock, the view is left as it was. *)
Lemma room_seconds_running self n v t w :
  isRunning t = true ->
  room_seconds self n (v, (t, w)) =
    (v, (with_elapsed (elapsedTime t + Z.of_nat n) t, advance (1000 * Z.of_nat n) w)).
Proof.
  revert t w. induction n as [|n IH]; intros t w Hr; cbn [room_seconds].
  - rewrite <- (seconds_running 0 t w Hr). done.
  - unfold room_second, StudyTimer.second, StudyTimer.tick. cbn [fst snd]. rewrite Hr.
    cbn [elapsedTime]. rewrite (proj2 (Z.eqb_neq _ _)) by lia.
    rewrite IH by done. rewrite advance_advance. unfold with_elapsed. cbn. rewrite Hr.
    do 2 f_equal; [f_equal; lia|f_equal; lia].
Qed.

(** While it is stopped, the room's interval fires every second with the
    local count, which stays put. *)
Lemma room_seconds_idle self n v t w :
  isRunning t = false ->
  room_seconds self n (v, (t, w)) =
    (Nat.iter n (mergeTick self (elapsedTime t)) v, (t, advance (1000 * Z.of_nat n) w)).
Proof.
  revert v w. induction n as [|n IH]; intros v w Hr; cbn [room_seconds].
  - by rewrite <- (seconds_stopped 0 t w Hr).
  - unfold room_second, StudyTimer.second, StudyTimer.tick. cbn [fst snd]. rewrite Hr, Z.eqb_refl.
    rewrite IH by done. rewrite advance_advance, (Nat.iter_succ_r n).
    do 3 f_equal. lia.
Qed.

Lemma world_facts_advance u ms w : world_facts u w -> world_facts u (advance ms w).
Proof. done. Qed.

(** The entry [fetchMembers] writes for a row, and the one a tick writes
    from the previous map [prev]. *)
Definition timer_entry (self : option uuid) (le : Z) (now : timestamp) (m : member_row)
    : option member_timer :=
  match mr_current_session_id m, mr_session m with
  | Some _, Some s =>
      Some {| mt_startTime := ss_created_at s;
              mt_elapsedTime := if bool_decide (Some (mr_user_id m) = self) then le
                                else elapsed_since now (ss_created_at s) |}
  | _, _ => None
  end.

Definition tick_entry (self : option uuid) (le : Z) (prev : gmap uuid member_timer)
    (m : member_row) : option member_timer :=
  match mr_current_session_id m with
  | Some _ => (fun p => {| mt_startTime := mt_startTime p;
                           mt_elapsedTime := if bool_decide (Some (mr_user_id m) = self) then le
                                             else (mt_elapsedTime p + 1)%Z |}) <$>
                prev !! mr_user_id m
  | None => None
  end.

Lemma newTimers_fold self le now rows :
  newTimers self le now rows = fold_insert mr_user_id (timer_entry self le now) ∅ rows.
Proof.
  apply foldl_ext_in. intros acc m _. unfold timer_entry.
  by destruct (mr_current_session_id m), (mr_session m).
Qed.

Lemma mergeTick_fold self le v :
  memberTimers (mergeTick self le v) =
  fold_insert mr_user_id (tick_entry self le (memberTimers v)) ∅ (members v).
Proof.
  apply foldl_ext_in. intros acc m _. unfold tick_entry.
  destruct (mr_current_session_id m); [|done]. by destruct (memberTimers v !! mr_user_id m).
Qed.

(** A second after the count [(now - start) / 1000], the count is one more. *)
Lemma elapsed_since_next now start :
  elapsed_since (now + 1000) start = (elapsed_since now start + 1)%Z.
Proof.
  unfold elapsed_since. rewrite <- Z.div_add by lia. f_equal. lia.
Qed.

(** One tick of the counts [fetchMembers] computed gives the counts a fetch
    one second later would compute: the counts do not drift. *)
Lemma mergeTick_newTimers self le le' now rows :
  NoDup (mr_user_id <$> rows) ->
  memberTimers (mergeTick self le' {| members := rows; memberTimers := newTimers self le now rows |})
  = newTimers self le' (now + 1000) rows.
Proof.
  intros Hnd. rewrite mergeTick_fold, !newTimers_fold. cbn [members memberTimers].
  apply foldl_ext_in. intros acc m Hm. unfold tick_entry.
  rewrite fold_insert_lookup by done. rewrite lookup_empty.
  unfold timer_entry. destruct (mr_current_session_id m), (mr_session m); try done.
  cbn. case_bool_decide; [done|]. by rewrite elapsed_since_next.
Qed.

(** The members query returns one row per user. *)
Lemma members_of_NoDup roomId d : NoDup (mr_user_id <$> members_of roomId d).
Proof.
  unfold members_of. rewrite <- list_fmap_compose.
  apply NoDup_fmap_2_strong; [|apply NoDup_filter, NoDup_map_to_list].
  intros [[r1 u1] m1] [[r2 u2] m2] H1 H2. cbn. intros ->.
  apply list_elem_of_filter in H1 as [Hr1 H1], H2 as [Hr2 H2]. cbn in Hr1, Hr2. subst r1 r2.
  apply elem_of_map_to_list in H1, H2. congruence.
Qed.

(** A user appears in the members query exactly when the room has the
    user's member row. *)
Lemma members_of_user roomId d u :
  u ∈ mr_user_id <$> members_of roomId d <-> is_Some (tget T_study_room_members d !! (roomId, u)).
Proof.
  unfold members_of. rewrite <- list_fmap_compose, list_elem_of_fmap. split.
  - intros ([[r u'] m] & Hu & Hin). apply list_elem_of_filter in Hin as [Hr Hin].
    cbn in Hu, Hr. subst. apply elem_of_map_to_list in Hin. by eexists.
  - intros [m Hm]. exists ((roomId, u), m). split; [done|].
    apply list_elem_of_filter. split; [done|]. by apply elem_of_map_to_list.
Qed.

(** In a store that answers, [fetchMembers] installs the rows and the
    counts computed at the current time. *)
Lemma fetchMembers_calm self roomId captured v t w :
  calm w ->
  fetchMembers self roomId captured (v, (t, w)) =
    (Ok (), ({| members := members_of roomId (w_db w);
                memberTimers := newTimers self captured (w_now w)
                                  (members_of roomId (w_db w)) |}, (t, w))).
Proof. intros Hc. unfold fetchMembers. mrun. by rewrite call_calm. Qed.

(** Periods of the interval from the counts of a fetch give the counts a
    fetch [k] seconds later would compute: the interval alone does not
    drift. *)
Lemma mergeTicks_newTimers self le le' now rows k :
  NoDup (mr_user_id <$> rows) ->
  exists le'', Nat.iter k (mergeTick self le')
                 {| members := rows; memberTimers := newTimers self le now rows |} =
               {| members := rows; memberTimers := newTimers self le'' (now + 1000 * Z.of_nat k) rows |}.
Proof.
  intros Hnd. induction k as [|k [le'' IH]].
  - exists le. cbn. by rewrite Z.add_0_r.
  - exists le'. rewrite Nat.iter_succ, IH.
    change (mergeTick self le' ?v) with
      {| members := members v; memberTimers := memberTimers (mergeTick self le' v) |}.
    rewrite mergeTick_newTimers by done. cbn [members]. do 2 f_equal. lia.
Qed.

Lemma seconds_now n s :
  w_now (StudyTimer.seconds n s).2 = (w_now s.2 + 1000 * Z.of_nat n)%Z.
Proof.
  revert s. induction n as [|n IH]; intros s; cbn [StudyTimer.seconds]; [lia|].
  rewrite IH. cbn. lia.
Qed.

Lemma room_seconds_now self n s :
  w_now (room_seconds self n s).2.2 = (w_now s.2.2 + 1000 * Z.of_nat n)%Z.
Proof. by rewrite room_seconds_timer, seconds_now. Qed.


(** Symbolic execution of a start and of a pause; lookups in the tables a
    sequence of steps produced. *)
Ltac bd_simpl :=
  repeat match goal with
  | |- context [bool_decide (?a = ?a)] => rewrite (bool_decide_eq_true_2 (a = a)) by done
  | |- context [bool_decide (?a = N.succ ?a)] =>
      rewrite (bool_decide_eq_false_2 (a = N.succ a)) by lia
  | |- context [bool_decide (N.succ ?a = ?a)] =>
      rewrite (bool_decide_eq_false_2 (N.succ a = a)) by lia
  end.

Ltac lookup_simpl :=
  repeat first [ progress bd_simpl | rewrite lookup_insert_eq | rewrite lookup_insert_ne by lia
               | rewrite lookup_with_session_closed | rewrite lookup_with_member_session ].

Ltac start_step w' Hw Hw' Hn Hi Hs Hm :=
  match goal with
  | |- context [handleTimerAction ?r (?v, (?t, ?w))] =>
      destruct (room_start_or_resume v t w _ r Hw eq_refl)
        as (w' & -> & Hw' & Hn & Hi & Hs & Hm); cbn [snd]
  end.

Ltac pause_step w' Hw sid Hw' Hn Hi Hs Hm :=
  match goal with
  | |- context [handleTimerAction ?r (?v, (?t, advance ?ms ?w))] =>
      destruct (room_pause v t (advance ms w) _ r sid (world_facts_advance _ _ _ Hw)
                  eq_refl eq_refl) as (w' & -> & Hw' & Hn & Hi & Hs & Hm); cbn [snd]
  end.

(** ** Theorems *)

(** C14: in a room, start, [n1] seconds, pause, resume, [n2] seconds, pause:
    the first session row is closed with [n1] seconds, but the second one,
    opened at the resume, is closed with [n1 + n2] seconds, because the
    local count is not reset when a new session is opened.  The first
    [n1] seconds are recorded twice; the member row points at no session. *)
Theorem resume_session_double_counts v w u roomId n1 n2 :
  world_facts u w ->
  let s1 := (handleTimerAction roomId (v, (init, w))).2 in
  let s2 := (handleTimerAction roomId (room_seconds (Some u) n1 s1)).2 in
  let s3 := (handleTimerAction roomId s2).2 in
  let s4 := (handleTimerAction roomId (room_seconds (Some u) n2 s3)).2 in
  let d := w_db s4.2.2 in
  let t1 := (w_now w + 1000 * Z.of_nat n1)%Z in
  let t2 := (t1 + 1000 * Z.of_nat n2)%Z in
  tget T_study_sessions d !! w_next_id w =
    Some (close_session (Z.of_nat n1) t1 (new_session u (w_now w))) /\
  tget T_study_sessions d !! N.succ (w_next_id w) =
    Some (close_session (Z.of_nat n1 + Z.of_nat n2) t2 (new_session u t1)) /\
  tget T_study_room_members d !! (roomId, u) =
    set_current None <$> tget T_study_room_members (w_db w) !! (roomId, u).
Proof.
  intros Hw. cbv zeta.
  start_step w1 Hw Hw1 Hn1 Hi1 Hs1 Hm1.
  rewrite room_seconds_running by done.
  pause_step w3 Hw1 (w_next_id w) Hw3 Hn3 Hi3 Hs3 Hm3.
  start_step w4 Hw3 Hw4 Hn4 Hi4 Hs4 Hm4.
  rewrite room_seconds_running by done.
  pause_step w6 Hw4 (w_next_id w3) Hw6 Hn6 Hi6 Hs6 Hm6.
  rewrite Hs6, Hm6, !w_db_advance, Hs4, Hm4, Hs3, Hm3, !w_db_advance, Hs1, Hm1.
  cbn in Hn3, Hi3, Hn4, Hi4 |- *. rewrite Hn4, Hi3, Hn3, Hn1, Hi1.
  lookup_simpl. cbn.
  split; [|split]; [do 2 f_equal; lia|do 2 f_equal; lia|].
  by destruct (tget T_study_room_members (w_db w) !! (roomId, u)).
Qed.

(** C18: after the room fetched its members, the counts shown for the
    other members depend on the local timer.  While it is stopped, [n]
    seconds later they are exactly those a fresh fetch at the current time
    would compute: for every other member, the whole seconds since its
    session's [created_at].  While it runs, the room's interval never
    fires, so they stay those of the fetch, [n] seconds behind the clock. *)
Theorem presence_counts_freeze_while_timing self roomId captured v t w n :
  calm w ->
  let s := room_seconds self n (fetchMembers self roomId captured (v, (t, w))).2 in
  members s.1 = members_of roomId (w_db w) /\
  w_now s.2.2 = (w_now w + 1000 * Z.of_nat n)%Z /\
  (isRunning t = true ->
   memberTimers s.1 = newTimers self captured (w_now w) (members_of roomId (w_db w))) /\
  (isRunning t = false -> exists le,
   memberTimers s.1 = newTimers self le (w_now w + 1000 * Z.of_nat n) (members_of roomId (w_db w))).
Proof.
  intros Hc. cbv zeta. rewrite fetchMembers_calm by done. cbn [snd].
  destruct (isRunning t) eqn:Hr.
  - rewrite room_seconds_running by done. cbn. split_and!; [done|lia|done|discriminate].
  - rewrite room_seconds_idle by done.
    destruct (mergeTicks_newTimers self captured (elapsedTime t) (w_now w)
                (members_of roomId (w_db w)) n (members_of_NoDup _ _)) as [le ->].
    cbn. split_and!; [done|lia|discriminate|by exists le].
Qed.

(** C21: opening a public room from the study screen makes no store call,
    so a user who never joined it has no member row; starting the timer
    there inserts the user's session, but the member update matches no row,
    and the members query of the room still does not list the user. *)
Theorem public_room_start_invisible u rooms roomId name sc v t w :
  world_facts u w -> isRunning t = false ->
  tget T_study_room_members (w_db w) !! (roomId, u) = None ->
  StudyRooms.selectedRoomId (StudyRooms.handleJoinRoom (Some u) rooms roomId false name sc)
    = Some roomId /\
  let w' := (handleTimerAction roomId (v, (t, w))).2.2.2 in
  tget T_study_sessions (w_db w') !! w_next_id w = Some (new_session u (w_now w)) /\
  u ∉ mr_user_id <$> members_of roomId (w_db w').
Proof.
  intros Hw Hr Hm. split; [done|]. cbv zeta.
  destruct (room_start_or_resume v t w u roomId Hw Hr) as (w' & -> & _ & _ & _ & Hs & Hm').
  cbn [fst snd]. rewrite Hs, lookup_insert_eq. split; [done|].
  rewrite members_of_user, Hm', lookup_with_member_session, Hm.
  case_bool_decide; by intros [? ?].
Qed.

(** C28: for a count of seconds [x >= 0], the text of [formatTime x]
    shows hours [h], minutes [m] and seconds [s] with [3600 h + 60 m + s = x],
    [m] and [s] below 60; hours are left out only below an hour, and
    minutes only below a minute, so the text loses nothing of [x]. *)
Theorem formatTime_parts x :
  (0 <= x)%Z ->
  exists h m s, (3600 * h + 60 * m + s = x)%Z /\ (0 <= m < 60)%Z /\ (0 <= s < 60)%Z /\
    ((3600 <= x)%Z /\ formatTime x = pretty h +:+ "s " +:+ pretty m +:+ "d " +:+ pretty s +:+ "sn" \/
     (60 <= x < 3600)%Z /\ formatTime x = pretty m +:+ "d " +:+ pretty s +:+ "sn" \/
     (x < 60)%Z /\ formatTime x = pretty s +:+ "sn").
Proof.
  intros Hx. unfold formatTime.
  rewrite !Z.rem_mod_nonneg by lia.
  exists (x `div` 3600)%Z, ((x `mod` 3600) `div` 60)%Z, (x `mod` 60)%Z.
  pose proof (Z.div_mod x 3600 ltac:(lia)). pose proof (Z.mod_pos_bound x 3600 ltac:(lia)).
  pose proof (Z.div_mod (x `mod` 3600) 60 ltac:(lia)).
  pose proof (Z.mod_pos_bound (x `mod` 3600) 60 ltac:(lia)).
  pose proof (Z.div_pos x 3600 ltac:(lia) ltac:(lia)).
  assert (Hs : (x `mod` 60 = (x `mod` 3600) `mod` 60)%Z).
  { symmetry. apply (Z.mod_unique _ _ (60 * (x `div` 3600) + (x `mod` 3600) `div` 60)); lia. }
  rewrite Hs. split; [lia|]. split; [split; [apply Z.div_pos|apply Z.div_lt_upper_bound]; lia|].
  split; [lia|].
  case_bool_decide; [left; split; [lia|done]|right].
  case_bool_decide; [left; split; [lia|done]|right; split; [lia|done]].
Qed.

(** ** Witnesses *)

(** A room 5 with user 2 as a member and user 3 timing session 7, opened
    at time 0; the clock at 0 and ids from 10. *)
Definition demo_world : world :=
  {| w_db := tset T_study_sessions
               {[7%N := {| ss_user_id := 3; ss_duration := 0; ss_created_at := 0;
                           ss_ended_at := None |}]}
             (tset T_study_room_members
               {[(5%N, 2%N) := {| sm_joined_at := 0; sm_current_session_id := None |};
                 (5%N, 3%N) := {| sm_joined_at := 0; sm_current_session_id := Some 7%N |}]}
               empty_db);
     w_now := 0; w_next_id := 10; w_auth := Some 2%N; w_faults := []; w_log := [] |}.

Example resume_session_double_counts_witness :
  world_facts 2 demo_world /\
  tget T_study_sessions (w_db (handleTimerAction 5
    (room_seconds (Some 2%N) 20 (handleTimerAction 5 (handleTimerAction 5
      (room_seconds (Some 2%N) 30 (handleTimerAction 5 (view0, (init, demo_world))).2)).2).2)).2.2.2)
    !! 11%N =
  Some (close_session 50 50000 (new_session 2 30000)).
Proof.
  split; [done|].
  apply (resume_session_double_counts view0 demo_world 2 5 30 20); done.
Defined.

(** User 2 in room 5 with the timer running: three seconds after the
    fetch, user 3's count still shows the 0 seconds of the fetch. *)
Definition demo_running : timer :=
  {| isRunning := true; isPaused := false; elapsedTime := 0; currentSessionId := Some 9%N |}.

Example presence_counts_freeze_while_timing_witness :
  calm demo_world /\
  memberTimers (room_seconds (Some 2%N) 3
                  (fetchMembers (Some 2%N) 5 0 (view0, (demo_running, demo_world))).2).1 !! 3%N =
    Some {| mt_startTime := 0; mt_elapsedTime := 0 |}.
Proof.
  split; [done|].
  destruct (presence_counts_freeze_while_timing (Some 2%N) 5 0 view0 demo_running demo_world 3
              eq_refl) as (_ & _ & Hrun & _).
  rewrite (Hrun eq_refl). vm_compute. reflexivity.
Defined.

(** User 4 opens public room 5, where only users 2 and 3 have rows. *)
Definition demo_world4 : world :=
  {| w_db := w_db demo_world; w_now := 0; w_next_id := 10; w_auth := Some 4%N;
     w_faults := []; w_log := [] |}.

Example public_room_start_invisible_witness :
  world_facts 4 demo_world4 /\
  4%N ∉ mr_user_id <$> members_of 5 (w_db (handleTimerAction 5 (view0, (init, demo_world4))).2.2.2).
Proof.
  split; [done|].
  apply (public_room_start_invisible 4 [] 5 "" StudyRooms.screen0 view0 init demo_world4);
    [done|done|vm_compute; reflexivity].
Defined.

Example formatTime_parts_witness :
  (0 <= 3725)%Z /\ formatTime 3725 = "1s 2d 5sn"%string /\
  exists h m s, (3600 * h + 60 * m + s = 3725)%Z /\ (0 <= m < 60)%Z /\ (0 <= s < 60)%Z.
Proof.
  split; [lia|]. split; [vm_compute; reflexivity|].
  destruct (formatTime_parts 3725 ltac:(lia)) as (h & m & s & Hx & Hm & Hs & _).
  by exists h, m, s.
Defined.

End StudyPresence.
