(* ===== verification/WatchRoom.v ===== *)
(** * The watch room: components/Watch/WatchRoom.tsx

    The room screen of a watch room.  The creator's client is the only one
    that writes the room's [video_states] row ([updateVideoState], called
    by the player's state-change messages and by the play button); every
    other client applies the rows the change feed delivers
    ([onVideoStateUpdate], the [video_states] UPDATE subscription).  The
    screen also reads the messages and the members and sends messages.

    The screen's [useState] cells are the record [screen]; the props
    [roomId], [room] and the signed-in [user] are the Section's variables.
    [playback_time] is a JS number of seconds; it is kept as an integer
    here, since no statement depends on its fractional part. *)

From stdpp Require Import sorting.
From S2P Require Import Core Backend.

Module WatchRoom.

(** [interface VideoState] *)
Record VideoState := {
  is_playing : bool;
  playback_time : Z;
}.

Definition vstate_of (r : video_state) : VideoState :=
  {| is_playing := vs_is_playing r; playback_time := vs_playback_time r |}.

(** A message of the list, with the [userName] it is shown with. *)
Record room_message := {
  rm_id : uuid;
  rm_row : message;
  rm_userName : string;
}.

Record screen := {
  messages : list room_message;
  newMessage : string;
  members : list (uuid * user_row);
  loading : bool;
  videoState : VideoState;
  error : option string;
}.

Definition screen0 : screen :=
  {| messages := []; newMessage := ""; members := []; loading := false;
     videoState := {| is_playing := false; playback_time := 0 |}; error := None |}.

Definition set_messages (x : list room_message) (s : screen) : screen :=
  {| messages := x; newMessage := newMessage s; members := members s; loading := loading s;
     videoState := videoState s; error := error s |}.
Definition set_newMessage (x : string) (s : screen) : screen :=
  {| messages := messages s; newMessage := x; members := members s; loading := loading s;
     videoState := videoState s; error := error s |}.
Definition set_members (x : list (uuid * user_row)) (s : screen) : screen :=
  {| messages := messages s; newMessage := newMessage s; members := x; loading := loading s;
     videoState := videoState s; error := error s |}.
Definition set_loading (x : bool) (s : screen) : screen :=
  {| messages := messages s; newMessage := newMessage s; members := members s; loading := x;
     videoState := videoState s; error := error s |}.
Definition set_videoState (x : VideoState) (s : screen) : screen :=
  {| messages := messages s; newMessage := newMessage s; members := members s;
     loading := loading s; videoState := x; error := error s |}.
Definition set_error (x : option string) (s : screen) : screen :=
  {| messages := messages s; newMessage := newMessage s; members := members s;
     loading := loading s; videoState := videoState s; error := x |}.

Abbreviation RM := (M (screen * world)).

(** What the player's page posts: a [stateChange] with the YouTube player
    state and time, or another message; [None] is a message [JSON.parse]
    rejects. *)
Inductive player_message :=
  | StateChange (state : Z) (time : Z)
  | OtherMessage.

(** [.order('created_at', { ascending: true })] *)
Definition created_le (a b : uuid * message) : Prop := (msg_created_at a.2 <= msg_created_at b.2)%Z.
#[export] Instance created_le_dec : RelDecision created_le.
Proof. intros a b. unfold created_le. apply _. Defined.

(** [userMap.get(message.user_id) || 'Anonim Kullanıcı'] *)
Definition user_name (users : list (uuid * user_row)) (id : uuid) : string :=
  match list_find (fun kr => kr.1 = id) users with
  | Some (_, (_, r)) =>
      match u_name r with
      | Some n => if js_truthy n then n else "Anonim Kullanıcı"
      | None => "Anonim Kullanıcı"
      end
  | None => "Anonim Kullanıcı"
  end.

(** The YouTube embed address of a video id. *)
Definition youtube_embed (id : string) : string :=
  "https://www.youtube.com/embed/" +:+ id +:+
  "?enablejsapi=1&playsinline=1&modestbranding=1&rel=0&fs=1".

(** [x?.split(sep)[0] || ''] *)
Definition first_part_or_empty (x : option string) (sep : string) : string :=
  match x ≫= fun x => js_split_nth x sep 0 with
  | Some y => if js_truthy y then y else ""
  | None => ""
  end.

(** [getEmbedUrl(url)]; an [undefined] in the Vimeo template prints as
    ["undefined"]. *)
Definition getEmbedUrl (url : string) : string :=
  let videoId :=
    if js_includes url "youtube.com/watch?v=" then
      first_part_or_empty (js_split_nth url "watch?v=" 1) "&"
    else if js_includes url "youtu.be/" then
      first_part_or_empty (js_split_nth url "youtu.be/" 1) "?"
    else "" in
  if js_truthy videoId then youtube_embed videoId
  else if js_includes url "vimeo.com" then
    "https://player.vimeo.com/video/" +:+
      match js_split_nth url "vimeo.com/" 1 ≫= fun x => js_split_nth x "?" 0 with
      | Some vimeoId => vimeoId
      | None => "undefined"
      end +:+ "?playsinline=1"
  else url.

Section Room.
Context (roomId : uuid) (room : watch_room) (user : option uuid).

(** [user?.id === room.created_by] *)
Definition isCreator : bool := bool_decide (user = Some (wr_created_by room)).

(** [fetchVideoState]: read the room's row, or create it when there is
    none; any error shows a message. *)
Definition fetchVideoState : RM unit :=
  try! (
    r <- on_snd (select_maybe T_video_states roomId) ;;
    data <- or_throw r ;;
    match data with
    | Some d => setL (set_videoState (vstate_of d))
    | None =>
        r2 <- on_snd (insert_at T_video_states "video_states" roomId
                        {| vs_is_playing := false; vs_playback_time := 0;
                           vs_updated_at := None |}) ;;
        or_throw r2
    end)
  catch! _ => setL (set_error (Some "Video durumu alınamadı")).

(** [updateVideoState(newState)]: only the creator writes; the local
    state follows only a write the store accepted. *)
Definition updateVideoState (newState : VideoState) : RM unit :=
  if negb isCreator then mret () else
  try! (
    now <- on_snd (gets w_now) ;;
    r <- on_snd (update_where T_video_states "video_states"
                   (fun k _ => bool_decide (k = roomId))
                   (fun _ => {| vs_is_playing := is_playing newState;
                                vs_playback_time := playback_time newState;
                                vs_updated_at := Some now |})) ;;
    or_throw r ;;
    setL (set_videoState newState))
  catch! _ => setL (set_error (Some "Video durumu güncellenemedi")).

(** The [video_states] UPDATE subscription: [payload.new] replaces the
    local state of every client but the creator's. *)
Definition onVideoStateUpdate (payload : video_state) : RM unit :=
  if negb isCreator then setL (set_videoState (vstate_of payload)) else mret ().

(** [VideoPlayer]'s [handleMessage], with [onStateChange = updateVideoState]. *)
Definition handleMessage (m : option player_message) : RM unit :=
  match m with
  | Some (StateChange st tm) =>
      if isCreator
      then updateVideoState {| is_playing := Z.eqb st 1; playback_time := tm |}
      else mret ()
  | _ => mret ()
  end.

(** The creator's play/pause button. *)
Definition togglePlay : RM unit :=
  s <- getL ;;
  updateVideoState {| is_playing := negb (is_playing (videoState s));
                      playback_time := playback_time (videoState s) |}.

(** [fetchMessages]: the room's messages, oldest first, each with its
    author's name from a second query. *)
Definition fetchMessages : RM unit :=
  try! (
    r <- on_snd (select_where T_watch_room_messages
                   (fun _ m => bool_decide (msg_room_id m = roomId))) ;;
    rows <- or_throw r ;;
    let sorted := merge_sort created_le rows in
    let ids := remove_dups ((fun kr => msg_user_id kr.2) <$> sorted) in
    r2 <- on_snd (select_where T_users (fun k _ => bool_decide (k ∈ ids))) ;;
    users <- or_throw r2 ;;
    setL (set_messages ((fun kr => {| rm_id := kr.1; rm_row := kr.2;
                                      rm_userName := user_name users (msg_user_id kr.2) |})
                          <$> sorted)))
  catch! _ => setL (set_error (Some "Mesajlar alınamadı")).

(** [fetchMembers]: the users with a member row in the room. *)
Definition fetchMembers : RM unit :=
  try! (
    r <- on_snd (select_where T_watch_room_members (fun k _ => bool_decide (k.1 = roomId))) ;;
    rows <- or_throw r ;;
    let ids := (fun kr => kr.1.2) <$> rows in
    r2 <- on_snd (select_where T_users (fun k _ => bool_decide (k ∈ ids))) ;;
    users <- or_throw r2 ;;
    setL (set_members users))
  catch! _ => setL (set_error (Some "Üyeler alınamadı")).

(** [.insert({ room_id, user_id: user?.id, content })]: without a user the
    [user_id] column is null and the store refuses the row. *)
Definition insert_message (content : string) : M world (resp (uuid * message)) :=
  match user with
  | Some u => insert_fresh T_watch_room_messages "watch_room_messages"
                (fun _ now => {| msg_room_id := roomId; msg_user_id := u;
                                 msg_content := content; msg_created_at := now |})
  | None => call (mret (DbError DbNotNull))
  end.

(** [handleSend] *)
Definition handleSend : RM unit :=
  s <- getL ;;
  if negb (js_truthy (js_trim (newMessage s))) || loading s then mret () else
  try_finally
    (try! (
       setL (set_loading true) ;;
       r <- on_snd (insert_message (js_trim (newMessage s))) ;;
       _ <- or_throw r ;;
       setL (set_newMessage ""))
     catch! _ => setL (set_error (Some "Mesaj gönderilemedi")))
    (setL (set_loading false)).

(** The feed of [video_states] rows delivered to this client, in the
    order they arrive. *)
Fixpoint deliver (payloads : list video_state) : RM unit :=
  match payloads with
  | [] => mret ()
  | p :: ps => onVideoStateUpdate p ;; deliver ps
  end.

(** What can happen on the screen: the mount effect's three fetches, the
    feed's refetches and [video_states] rows, the player's messages, the
    play button, typing and the send button. *)
Inductive event :=
  | EvFetchVideoState
  | EvFetchMessages
  | EvFetchMembers
  | EvRemote (payload : video_state)
  | EvPlayer (m : option player_message)
  | EvTogglePlay
  | EvType (text : string)
  | EvSend.

Definition run_event (e : event) : RM unit :=
  match e with
  | EvFetchVideoState => fetchVideoState
  | EvFetchMessages => fetchMessages
  | EvFetchMembers => fetchMembers
  | EvRemote p => onVideoStateUpdate p
  | EvPlayer m => handleMessage m
  | EvTogglePlay => togglePlay
  | EvType text => setL (set_newMessage text)
  | EvSend => handleSend
  end.

Fixpoint run_events (es : list event) : RM unit :=
  match es with
  | [] => mret ()
  | e :: es => run_event e ;; run_events es
  end.
End Room.

(** ** Lemmas *)

Section Follower.
Context (roomId : uuid) (room : watch_room) (user : option uuid).
Context (Hnc : isCreator room user = false).

(** The video table as the client found it, with the room's row. *)
Context (m0 : gmap uuid video_state) (Hrow : is_Some (m0 !! roomId)).

Definition video_table_is (w : world) : Prop := on_db (fun d => tget T_video_states d = m0) w.

Lemma messages_ignores_video : ignores T_watch_room_messages (fun d => tget T_video_states d = m0).
Proof. prove_ignores. Qed.

Lemma stable_insert_message content :
  stable video_table_is (insert_message roomId user content).
Proof.
  unfold insert_message. destruct user.
  - apply stable_insert_fresh, messages_ignores_video.
  - apply stable_call, stable_ret.
Qed.

Lemma stable_fetchVideoState :
  stable (fun p : screen * world => video_table_is p.2) (fetchVideoState roomId).
Proof.
  unfold fetchVideoState, or_throw. stable_auto.
  apply stable_on_snd, stable_insert_at_taken, Hrow.
Qed.

Lemma stable_updateVideoState st :
  stable (fun p : screen * world => video_table_is p.2) (updateVideoState roomId room user st).
Proof. unfold updateVideoState. rewrite Hnc. apply stable_ret. Qed.

Lemma stable_run_event e :
  stable (fun p : screen * world => video_table_is p.2) (run_event roomId room user e).
Proof.
  destruct e; cbn [run_event].
  - apply stable_fetchVideoState.
  - unfold fetchMessages, or_throw. stable_auto.
  - unfold fetchMembers, or_throw. stable_auto.
  - unfold onVideoStateUpdate. stable_auto.
  - unfold handleMessage. rewrite Hnc. stable_auto.
  - unfold togglePlay. stable_auto. apply stable_updateVideoState.
  - stable_auto.
  - unfold handleSend, or_throw. stable_auto. apply stable_on_snd, stable_insert_message.
Qed.
Lemma stable_run_events es :
  stable (fun p : screen * world => video_table_is p.2) (run_events roomId room user es).
Proof.
  induction es as [|e es IH]; cbn [run_events]; [apply stable_ret|].
  refine (stable_bind _ _ _ _ _); [apply stable_run_event|by intros []].
Qed.
End Follower.

Lemma set_videoState_twice x y s : set_videoState x (set_videoState y s) = set_videoState x s.
Proof. by destruct s. Qed.

(** ** Theorems *)

(** C12: a client that is not the room's creator never changes the room's
    [video_states] table once the room's row exists, whatever it does on
    the screen (fetches, feed events, player messages, the play button,
    typing, sending) and whatever the store answers. *)
Theorem nonCreator_keeps_video_state roomId room user es s w :
  isCreator room user = false ->
  is_Some (tget T_video_states (w_db w) !! roomId) ->
  tget T_video_states (w_db (run_events roomId room user es (s, w)).2.2) =
    tget T_video_states (w_db w).
Proof.
  intros Hnc Hrow. exact (stable_run_events roomId room user Hnc _ Hrow es (s, w) eq_refl).
Qed.

(** C13: a follower applies the [video_states] rows the feed delivers in
    the order they arrive: its state is the last row delivered, whatever
    the rows' [updated_at]; no store call is made. *)
Theorem follower_last_delivered_wins room user ps p s w :
  isCreator room user = false -> last ps = Some p ->
  deliver room user ps (s, w) = (Ok (), (set_videoState (vstate_of p) s, w)).
Proof.
  intros Hnc. revert s. induction ps as [|q ps IH]; intros s Hl; [done|].
  cbn [deliver]. unfold onVideoStateUpdate. rewrite Hnc. mrun.
  destruct ps as [|q' ps'].
  - injection Hl as ->. done.
  - rewrite IH by done. by rewrite set_videoState_twice.
Qed.

(** C23: a [youtube.com/watch?v=] address whose video id has no [&] (and
    no second [watch?v=]) is played from the embed address of that id. *)
Theorem getEmbedUrl_watch id :
  js_truthy id = true -> js_includes id "&" = false -> js_includes id "watch?v=" = false ->
  getEmbedUrl ("https://www.youtube.com/watch?v=" +:+ id) = youtube_embed id.
Proof.
  intros Ht Ha Hw. unfold getEmbedUrl, first_part_or_empty.
  rewrite (js_includes_prefix "https://www.youtube.com/watch?v=" id "youtube.com/watch?v="
             (chars "https://www.")) by (vm_compute; reflexivity).
  rewrite (js_split_nth_prefix "https://www.youtube.com/watch?v=" id "watch?v="
             (chars "https://www.youtube.com/")); [|vm_compute; reflexivity|exact Hw]. cbn [mbind option_bind].
  rewrite (js_split_nth_absent id _ Ha), Ht. by rewrite Ht.
Qed.

(** C27: when the store refuses a message, the draft stays in the input,
    the error is shown and the send button is enabled again; nothing is
    written. *)
Theorem send_failure_keeps_draft roomId user s w :
  js_truthy (js_trim (newMessage s)) = true -> loading s = false -> head_fault w = true ->
  exists s', handleSend roomId user (s, w) = (Ok (), (s', pop w)) /\
    newMessage s' = newMessage s /\ error s' = Some "Mesaj gönderilemedi" /\ loading s' = false.
Proof.
  intros Ht Hl Hf. unfold handleSend. mrun. rewrite Ht, Hl. mrun.
  assert (Hi : insert_message roomId user (js_trim (newMessage s)) w =
               (Ok (DbError DbUnavailable), pop w)).
  { unfold insert_message. destruct user; [unfold insert_fresh|]; by rewrite call_pop, Hf. }
  rewrite Hi. mrun. by eexists.
Qed.

(** ** Witnesses *)

(** Room 5, created by user 1; its video row says playing at 42 s, set at
    time 100. *)
Definition demo_room : watch_room :=
  {| wr_name := "Film"; wr_description := ""; wr_video_url := "https://youtu.be/abc";
     wr_is_private := false; wr_password_hash := None; wr_created_by := 1; wr_created_at := 0 |}.

Definition demo_row : video_state :=
  {| vs_is_playing := true; vs_playback_time := 42; vs_updated_at := Some 100%Z |}.

Definition demo_world : world :=
  {| w_db := tset T_video_states {[5%N := demo_row]} empty_db; w_now := 200; w_next_id := 10;
     w_auth := Some 2%N; w_faults := []; w_log := [] |}.

Definition demo_screen : screen := set_newMessage "merhaba" screen0.

(** User 2 fetches, gets a player message, presses play, types and sends. *)
Example nonCreator_keeps_video_state_witness :
  isCreator demo_room (Some 2%N) = false /\
  is_Some (tget T_video_states (w_db demo_world) !! 5%N) /\
  tget T_video_states (w_db (run_events 5 demo_room (Some 2%N)
     [EvFetchVideoState; EvPlayer (Some (StateChange 2 10)); EvTogglePlay; EvSend;
      EvType "selam"; EvSend] (demo_screen, demo_world)).2.2) = {[5%N := demo_row]}.
Proof.
  split; [reflexivity|]. split; [by eexists|].
  rewrite (nonCreator_keeps_video_state 5 demo_room (Some 2%N)); [reflexivity|reflexivity|].
  by eexists.
Defined.

(** The row set at time 200 arrives before the one set at time 100: the
    follower ends on the older one. *)
Definition newer_row : video_state :=
  {| vs_is_playing := true; vs_playback_time := 50; vs_updated_at := Some 200%Z |}.
Definition older_row : video_state :=
  {| vs_is_playing := false; vs_playback_time := 40; vs_updated_at := Some 100%Z |}.

Example follower_last_delivered_wins_witness :
  isCreator demo_room (Some 2%N) = false /\
  deliver demo_room (Some 2%N) [newer_row; older_row] (screen0, demo_world) =
    (Ok (), (set_videoState {| is_playing := false; playback_time := 40 |} screen0, demo_world)).
Proof.
  split; [reflexivity|].
  apply (follower_last_delivered_wins demo_room (Some 2%N) [newer_row; older_row] older_row);
    reflexivity.
Defined.

Example getEmbedUrl_watch_witness :
  js_truthy "dQw4w9WgXcQ" = true /\ js_includes "dQw4w9WgXcQ" "&" = false /\
  js_includes "dQw4w9WgXcQ" "watch?v=" = false /\
  getEmbedUrl "https://www.youtube.com/watch?v=dQw4w9WgXcQ" = youtube_embed "dQw4w9WgXcQ".
Proof.
  split; [reflexivity|]. split; [reflexivity|]. split; [reflexivity|].
  apply (getEmbedUrl_watch "dQw4w9WgXcQ"); reflexivity.
Defined.

(** The same world, whose next store call fails. *)
Definition failing_world : world :=
  {| w_db := w_db demo_world; w_now := 200; w_next_id := 10; w_auth := Some 2%N;
     w_faults := [true]; w_log := [] |}.

Example send_failure_keeps_draft_witness :
  js_truthy (js_trim (newMessage demo_screen)) = true /\ loading demo_screen = false /\
  head_fault failing_world = true /\
  exists s', handleSend 5 (Some 2%N) (demo_screen, failing_world) =
      (Ok (), (s', pop failing_world)) /\
    newMessage s' = "merhaba"%string.
Proof.
  split; [vm_compute; reflexivity|]. split; [reflexivity|]. split; [reflexivity|].
  destruct (send_failure_keeps_draft 5 (Some 2%N) demo_screen failing_world)
    as (s' & Hs & Hd & _); [vm_compute; reflexivity|reflexivity|reflexivity|].
  exists s'. split; [exact Hs|]. rewrite Hd. reflexivity.
Defined.

End WatchRoom.
