(* ===== verification/WatchLobby.v ===== *)
(** * The watch-room list: app/(tabs)/watch.tsx and its two modals

    The list screen holds the rooms and which room or modal is open
    ([lobby]).  The create modal (components/Watch/CreateRoomModal.tsx)
    and the join modal (components/Watch/JoinRoomModal.tsx) talk to the
    store themselves, unlike the study rooms' hook; their [onSuccess] and
    [onClose] callbacks change the list screen.  A modal's handler runs on
    [(modal * lobby) * world].  The list itself ([shown_cards]) shows
    [RoomCard]s whose trash button exists only for the room's creator
    ([isCreator]); [run_lobby_events] runs fetches, taps on cards and on
    trash buttons, and the opened room's [onClose]. *)

From stdpp Require Import sorting.
From S2P Require Import Core Backend.

Module WatchLobby.

(** A row of the list query: the room and its [members(count)]. *)
Record room_item := {
  ri_id : uuid;
  ri_room : watch_room;
  ri_members : nat;
}.

(** The list screen's cells (watch.tsx). *)
Record lobby := {
  rooms : list room_item;
  loading : bool;
  error : option string;
  showCreateModal : bool;
  showJoinModal : bool;
  selectedRoomId : option uuid;
  selectedRoom : option (uuid * watch_room);
  selectedRoomForJoin : option (uuid * string);
}.

Definition lobby0 : lobby :=
  {| rooms := []; loading := true; error := None; showCreateModal := false;
     showJoinModal := false; selectedRoomId := None; selectedRoom := None;
     selectedRoomForJoin := None |}.

Definition with_rooms (x : list room_item) (l : lobby) : lobby :=
  {| rooms := x; loading := loading l; error := error l; showCreateModal := showCreateModal l;
     showJoinModal := showJoinModal l; selectedRoomId := selectedRoomId l;
     selectedRoom := selectedRoom l; selectedRoomForJoin := selectedRoomForJoin l |}.
Definition with_loading (x : bool) (l : lobby) : lobby :=
  {| rooms := rooms l; loading := x; error := error l; showCreateModal := showCreateModal l;
     showJoinModal := showJoinModal l; selectedRoomId := selectedRoomId l;
     selectedRoom := selectedRoom l; selectedRoomForJoin := selectedRoomForJoin l |}.
Definition with_error (x : option string) (l : lobby) : lobby :=
  {| rooms := rooms l; loading := loading l; error := x; showCreateModal := showCreateModal l;
     showJoinModal := showJoinModal l; selectedRoomId := selectedRoomId l;
     selectedRoom := selectedRoom l; selectedRoomForJoin := selectedRoomForJoin l |}.
Definition with_modals (create join : bool) (l : lobby) : lobby :=
  {| rooms := rooms l; loading := loading l; error := error l; showCreateModal := create;
     showJoinModal := join; selectedRoomId := selectedRoomId l;
     selectedRoom := selectedRoom l; selectedRoomForJoin := selectedRoomForJoin l |}.
Definition with_selection (id : option uuid) (r : option (uuid * watch_room))
    (forJoin : option (uuid * string)) (l : lobby) : lobby :=
  {| rooms := rooms l; loading := loading l; error := error l;
     showCreateModal := showCreateModal l; showJoinModal := showJoinModal l;
     selectedRoomId := id; selectedRoom := r; selectedRoomForJoin := forJoin |}.

Abbreviation LM := (M (lobby * world)).

(** [.order('created_at', { ascending: false })] *)
Definition created_ge (a b : room_item) : Prop := (wr_created_at (ri_room b) <= wr_created_at (ri_room a))%Z.
#[export] Instance created_ge_dec : RelDecision created_ge.
Proof. intros a b. unfold created_ge. apply _. Defined.

(** [members:watch_room_members(count)] *)
Definition member_count (d : db) (id : uuid) : nat :=
  length (filter (fun kr : (uuid * uuid) * member => kr.1.1 = id)
                 (map_to_list (tget T_watch_room_members d))).

(** [fetchRooms] *)
Definition fetchRooms : LM unit :=
  try_finally
    (try! (
       r <- on_snd (call (w <- get ;;
                          mret (Data ((fun kr : uuid * watch_room =>
                                         {| ri_id := kr.1; ri_room := kr.2;
                                            ri_members := member_count (w_db w) kr.1 |})
                                      <$> map_to_list (tget T_watch_rooms (w_db w)))))) ;;
       data <- or_throw r ;;
       setL (with_rooms (merge_sort created_ge data)))
     catch! e => setL (with_error (Some (exn_message e))))
    (setL (with_loading false)).

(** [handleJoinRoom(roomId, isPrivate, name)]: a private room opens the
    join modal, a public one is opened at once, with no store call. *)
Definition handleJoinRoom (roomId : uuid) (isPrivate : bool) (name : string) (l : lobby) : lobby :=
  let room := (fun p => (ri_id p.2, ri_room p.2)) <$> list_find (fun r => ri_id r = roomId) (rooms l) in
  if isPrivate
  then with_modals (showCreateModal l) true
         (with_selection (selectedRoomId l) (selectedRoom l) (Some (roomId, name)) l)
  else with_selection (Some roomId) room (selectedRoomForJoin l) l.

(** [handleDeleteRoom(roomId)]: deletes the row with that id; an error is
    only logged. *)
Definition handleDeleteRoom (roomId : uuid) : LM unit :=
  try! (
    r <- on_snd (delete_where T_watch_rooms "watch_rooms" (fun k _ => bool_decide (k = roomId))) ;;
    or_throw r)
  catch! _ => mret ().

(** [RoomCard]'s [isCreator]: [room.created_by === user?.id]. *)
Definition isCreator (user : option uuid) (r : room_item) : bool :=
  bool_decide (Some (wr_created_by (ri_room r)) = user).

(** The two sections of the list (lines 182-183). *)
Definition privateRooms (l : lobby) : list room_item :=
  filter (fun r => wr_is_private (ri_room r) = true) (rooms l).
Definition publicRooms (l : lobby) : list room_item :=
  filter (fun r => wr_is_private (ri_room r) = false) (rooms l).

(** The cards on the screen: none while an opened room replaces the list,
    while loading or after an error; else the private section, then the
    public one. *)
Definition shown_cards (l : lobby) : list room_item :=
  match selectedRoomId l, selectedRoom l with
  | Some _, Some _ => []
  | _, _ => if loading l then [] else
            match error l with Some _ => [] | None => privateRooms l ++ publicRooms l end
  end.

(** A card's trash button: rendered only when [isCreator && onDelete]; it
    calls [onDeleteRoom(room.id)], that is [handleDeleteRoom]. *)
Definition card_onDelete (user : option uuid) (r : room_item) : LM unit :=
  when! isCreator user r then handleDeleteRoom (ri_id r).

(** What happens on the list screen: a fetch (on mount and on every change
    of [watch_rooms]), a tap on the [i]-th card or on its trash button,
    and the opened room's [onClose]. *)
Inductive lobby_event := LFetch | LPressCard (i : nat) | LPressDelete (i : nat) | LCloseRoom.

Definition run_lobby_event (user : option uuid) (e : lobby_event) : LM unit :=
  match e with
  | LFetch => fetchRooms
  | LPressCard i =>
      l <- getL ;;
      match shown_cards l !! i with
      | Some r => setL (handleJoinRoom (ri_id r) (wr_is_private (ri_room r)) (wr_name (ri_room r)))
      | None => mret ()
      end
  | LPressDelete i =>
      l <- getL ;;
      match shown_cards l !! i with Some r => card_onDelete user r | None => mret () end
  | LCloseRoom => setL (fun l => with_selection None None (selectedRoomForJoin l) l)
  end.

Fixpoint run_lobby_events (user : option uuid) (es : list lobby_event) : LM unit :=
  match es with
  | [] => mret ()
  | e :: es' => run_lobby_event user e ;; run_lobby_events user es'
  end.

(** ** The modals *)

(** A modal's handler: its own cells, the list screen, the store. *)
Abbreviation MM X := (M ((X * lobby) * world)).

Definition on_modal {X} (f : X -> X) : MM X unit := setL (fun p => (f p.1, p.2)).
Definition on_lobby {X} (f : lobby -> lobby) : MM X unit := setL (fun p => (p.1, f p.2)).
Definition get_modal {X} : MM X X := p <- getL ;; mret p.1.

(** [if (!user) throw new Error('Oturum açmanız gerekiyor')] *)
Definition require_user {St} (user : option uuid) : M St uuid :=
  match user with
  | None => throw (ExnMsg "Oturum açmanız gerekiyor")
  | Some u => mret u
  end.

(** [.upsert({ room_id, user_id, joined_at: new Date() }, { onConflict })]:
    a new row, or the row with [joined_at] overwritten. *)
Definition join_upsert (roomId u : uuid) : M world (resp unit) :=
  now <- gets w_now ;;
  upsert T_watch_room_members "watch_room_members" (roomId, u) {| m_joined_at := now |}
    (fun _ => {| m_joined_at := now |}).

(** The join modal's cells. *)
Record join_modal := {
  jm_password : string;
  jm_loading : bool;
  jm_error : option string;
}.

Definition jm_set (p : string) (ld : bool) (e : option string) (_ : join_modal) : join_modal :=
  {| jm_password := p; jm_loading := ld; jm_error := e |}.

(** [room.password_hash !== password] is false only for the same string. *)
Definition hash_differs (h : option string) (password : string) : bool :=
  match h with Some s => negb (String.eqb s password) | None => true end.

(** The join modal's [handleClose], with watch.tsx's [onClose]. *)
Definition join_handleClose : MM join_modal unit :=
  on_modal (fun m => jm_set "" (jm_loading m) None m) ;;
  on_lobby (fun l => with_selection (selectedRoomId l) (selectedRoom l) None
                       (with_modals (showCreateModal l) false l)).

(** watch.tsx's [onSuccess(joinedRoom)] for the join modal. *)
Definition join_onSuccess (roomId : uuid) (room : watch_room) : MM join_modal unit :=
  on_lobby (fun l => with_selection (Some roomId) (Some (roomId, room)) None
                       (with_modals (showCreateModal l) false l)).

(** [handleJoin] of the join modal, whose [roomId] prop is
    [selectedRoomForJoin.id]. *)
Definition handleJoin (user : option uuid) (roomId : uuid) : MM join_modal unit :=
  try_finally
    (try! (
       on_modal (fun m => jm_set (jm_password m) true None m) ;;
       m <- get_modal ;;
       guard_msg (negb (js_truthy (js_trim (jm_password m)))) "Şifre gerekli" ;;
       u <- require_user user ;;
       r <- on_snd (select_single T_watch_rooms roomId) ;;
       room <- or_throw r ;;
       guard_msg (hash_differs (wr_password_hash room) (jm_password m)) "Yanlış şifre" ;;
       r2 <- on_snd (join_upsert roomId u) ;;
       _ <- or_throw r2 ;;
       join_onSuccess roomId room ;;
       join_handleClose)
     catch! e => on_modal (fun m => jm_set (jm_password m) (jm_loading m) (Some (exn_message e)) m))
    (on_modal (fun m => jm_set (jm_password m) false (jm_error m) m)).

(** The create modal's cells. *)
Record create_modal := {
  cm_name : string;
  cm_description : string;
  cm_videoUrl : string;
  cm_isPrivate : bool;
  cm_password : string;
  cm_loading : bool;
  cm_error : option string;
}.

Definition cm_with_status (ld : bool) (e : option string) (m : create_modal) : create_modal :=
  {| cm_name := cm_name m; cm_description := cm_description m; cm_videoUrl := cm_videoUrl m;
     cm_isPrivate := cm_isPrivate m; cm_password := cm_password m; cm_loading := ld;
     cm_error := e |}.

(** The create modal's [handleClose], with watch.tsx's [onClose]. *)
Definition create_handleClose : MM create_modal unit :=
  on_modal (fun m => {| cm_name := ""; cm_description := ""; cm_videoUrl := "";
                        cm_isPrivate := false; cm_password := ""; cm_loading := cm_loading m;
                        cm_error := None |}) ;;
  on_lobby (fun l => with_modals false (showJoinModal l) l).

(** watch.tsx's [onSuccess(newRoom)] for the create modal. *)
Definition create_onSuccess (id : uuid) (room : watch_room) : MM create_modal unit :=
  on_lobby (fun l => with_selection (Some id) (Some (id, room)) (selectedRoomForJoin l)
                       (with_modals false (showJoinModal l) l)).

(** The row [handleCreate] inserts. *)
Definition new_watch_room (m : create_modal) (u : uuid) (now : timestamp) : watch_room :=
  {| wr_name := cm_name m; wr_description := cm_description m; wr_video_url := cm_videoUrl m;
     wr_is_private := cm_isPrivate m;
     wr_password_hash := if cm_isPrivate m then Some (cm_password m) else None;
     wr_created_by := u; wr_created_at := now |}.

(** [handleCreate] of the create modal. *)
Definition handleCreate (user : option uuid) : MM create_modal unit :=
  try_finally
    (try! (
       on_modal (cm_with_status true None) ;;
       m <- get_modal ;;
       guard_msg (negb (js_truthy (js_trim (cm_name m)))) "Oda adı gerekli" ;;
       guard_msg (negb (js_truthy (js_trim (cm_videoUrl m)))) "Video URL gerekli" ;;
       u <- require_user user ;;
       r <- on_snd (insert_fresh T_watch_rooms "watch_rooms" (fun _ now => new_watch_room m u now)) ;;
       created <- or_throw r ;;
       r2 <- on_snd (join_upsert created.1 u) ;;
       _ <- or_throw r2 ;;
       create_onSuccess created.1 created.2 ;;
       create_handleClose)
     catch! e => on_modal (fun m => cm_with_status (cm_loading m) (Some (exn_message e)) m))
    (on_modal (fun m => cm_with_status false (cm_error m) m)).

(** ** Lemmas *)

Lemma js_trim_empty : js_trim "" = ""%string.
Proof. reflexivity. Qed.

Lemma hash_differs_empty p :
  js_truthy (js_trim p) = true -> hash_differs (Some "") p = true.
Proof. destruct p; [by rewrite js_trim_empty|done]. Qed.

Lemma join_upsert_calm roomId u w :
  calm w ->
  join_upsert roomId u w =
    (Ok (Data ()), (upsert T_watch_room_members "watch_room_members" (roomId, u)
                      {| m_joined_at := w_now w |} (fun _ => {| m_joined_at := w_now w |}) w).2).
Proof. intros Hc. unfold join_upsert. mrun. rewrite upsert_calm by done. by destruct (tget T_watch_room_members (w_db w) !! (roomId, u)). Qed.

(** A join at a room whose stored password is the empty string never adds
    a member row nor opens the room, whatever the store answers. *)
Lemma join_locked_empty_hash user roomId room jm l w :
  tget T_watch_rooms (w_db w) !! roomId = Some room ->
  wr_password_hash room = Some ""%string ->
  let '(_, ((_, l'), w')) := handleJoin user roomId ((jm, l), w) in
  tget T_watch_room_members (w_db w') = tget T_watch_room_members (w_db w) /\
  selectedRoomId l' = selectedRoomId l.
Proof.
  intros Hr Hh. unfold handleJoin, get_modal, on_modal, require_user. mrun.
  destruct (js_truthy (js_trim (jm_password jm))) eqn:Ht; cbn; [|done].
  destruct user as [u|]; cbn; [|done].
  rewrite select_single_run. destruct (head_fault w); cbn; [done|].
  rewrite Hr. cbn. rewrite Hh, hash_differs_empty by done. done.
Qed.

(** ** The list's invariant: who can delete what

    From the table [m0] the list started with: the store only lost rows,
    the rows of users other than [u] are all kept, and every listed room is
    [m0]'s row at its id. *)
Definition lobby_inv (u : uuid) (m0 : gmap uuid watch_room) (p : lobby * world) : Prop :=
  (forall k r, tget T_watch_rooms (w_db p.2) !! k = Some r -> m0 !! k = Some r) /\
  (forall k r, m0 !! k = Some r -> wr_created_by r <> u -> tget T_watch_rooms (w_db p.2) !! k = Some r) /\
  (forall it, it ∈ rooms p.1 -> m0 !! ri_id it = Some (ri_room it)).

Lemma shown_cards_rooms l : shown_cards l ⊆ rooms l.
Proof.
  unfold shown_cards, privateRooms, publicRooms. intros it.
  repeat case_match; rewrite ?elem_of_nil; try done;
    rewrite elem_of_app, !list_elem_of_filter; naive_solver.
Qed.

Section LobbyInv.
Context (u : uuid) (m0 : gmap uuid watch_room).

(** A change of the screen's cells that keeps the list keeps the invariant. *)
Lemma lobby_inv_setL f :
  (forall l, rooms (f l) = rooms l) -> stable (lobby_inv u m0) (setL f).
Proof. intros Hf [l w] (? & ? & Hl). split_and!; try done. cbn. rewrite Hf. apply Hl. Qed.

Lemma fetchRooms_inv : stable (lobby_inv u m0) fetchRooms.
Proof.
  intros [l w] (Hsub & Hkeep & Hl). unfold fetchRooms, or_throw. munfold. cbn -[merge_sort].
  rewrite call_pop. destruct (head_fault w); cbn -[merge_sort]; [split_and!; done|].
  split_and!; try done. cbn. intros it Hit.
  rewrite merge_sort_Permutation, list_elem_of_fmap in Hit. destruct Hit as ([k r] & -> & Hkr). apply elem_of_map_to_list in Hkr. by apply Hsub.
Qed.

Lemma handleDeleteRoom_inv l w it :
  lobby_inv u m0 (l, w) -> it ∈ rooms l -> wr_created_by (ri_room it) = u ->
  lobby_inv u m0 (handleDeleteRoom (ri_id it) (l, w)).2.
Proof.
  intros (Hsub & Hkeep & Hl) Hit Hcr. cbn [fst snd] in Hsub, Hkeep, Hl.
  unfold handleDeleteRoom, or_throw. munfold. cbn.
  rewrite delete_where_run. destruct (head_fault w); cbn; [split_and!; done|].
  simpl_tables. split_and!; try done; cbn; simpl_tables.
  - intros k r. rewrite lookup_filter_false. destruct (_ !! k) eqn:E; cbn; [|done].
    case_bool_decide; [done|]. intros [= <-]. by apply Hsub.
  - intros k r Hk Hne. rewrite lookup_filter_false, (Hkeep k r Hk Hne). cbn.
    rewrite bool_decide_eq_false_2; [done|]. intros ->. rewrite (Hl it Hit) in Hk.
    injection Hk as <-. by apply Hne.
Qed.

Lemma run_lobby_event_inv e : stable (lobby_inv u m0) (run_lobby_event (Some u) e).
Proof.
  destruct e as [|i|i|]; cbn [run_lobby_event].
  - apply fetchRooms_inv.
  - intros [l w] HQ. unfold getL. munfold. cbn.
    destruct (shown_cards l !! i) as [it|]; [|done].
    apply lobby_inv_setL; [|done]. intros l'. unfold handleJoinRoom. by destruct (wr_is_private _).
  - intros [l w] HQ. unfold getL. munfold. cbn.
    destruct (shown_cards l !! i) as [it|] eqn:E; [|done]. unfold card_onDelete, isCreator.
    case_bool_decide as Hc; [|done]. apply handleDeleteRoom_inv; [done| |congruence].
    apply shown_cards_rooms. by eapply list_elem_of_lookup_2.
  - by apply lobby_inv_setL.
Qed.

Lemma run_lobby_events_inv es : stable (lobby_inv u m0) (run_lobby_events (Some u) es).
Proof.
  induction es as [|e es IH]; cbn [run_lobby_events]; [apply stable_ret|].
  apply stable_bind; [apply run_lobby_event_inv|done].
Qed.
End LobbyInv.

(** ** Theorems *)

(** C24: in a store that answers, a signed-in user who types the room's
    password (not blank) joins: the member row is written with the current
    time, the join modal is closed and emptied, and the list screen opens
    the room with the row it read. *)
Theorem join_with_password_opens_room u roomId room p jm l w :
  calm w ->
  tget T_watch_rooms (w_db w) !! roomId = Some room ->
  wr_password_hash room = Some p -> jm_password jm = p -> js_truthy (js_trim p) = true ->
  let '(r, ((jm', l'), w')) := handleJoin (Some u) roomId ((jm, l), w) in
  r = Ok () /\
  tget T_watch_room_members (w_db w') !! (roomId, u) = Some {| m_joined_at := w_now w |} /\
  selectedRoomId l' = Some roomId /\ selectedRoom l' = Some (roomId, room) /\
  showJoinModal l' = false /\ selectedRoomForJoin l' = None /\
  jm_password jm' = ""%string /\ jm_error jm' = None /\ jm_loading jm' = false.
Proof.
  intros Hc Hr Hh Hp Ht. subst p.
  unfold handleJoin, get_modal, on_modal, require_user, join_onSuccess, join_handleClose,
    on_lobby. mrun. rewrite Ht. cbn.
  rewrite select_single_calm by done. rewrite Hr. cbn. rewrite Hh. cbn.
  rewrite String.eqb_refl. cbn. rewrite join_upsert_calm by done. cbn.
  rewrite upsert_calm by done. cbv zeta.
  destruct (tget T_watch_room_members (w_db w) !! (roomId, u)); cbn;
    simpl_tables; by rewrite lookup_insert_eq.
Qed.

(** C19: a private watch room created with an empty password: the
    creator is made a member and sees the room, but the stored password is
    the empty string, which the join modal can never match (it refuses a
    blank password), so no other user can ever join it. *)
Theorem private_empty_password_watch u m l w :
  calm w -> cm_isPrivate m = true -> cm_password m = ""%string ->
  js_truthy (js_trim (cm_name m)) = true -> js_truthy (js_trim (cm_videoUrl m)) = true ->
  let id := w_next_id w in
  let room := new_watch_room m u (w_now w) in
  let '(r, ((_, l'), w')) := handleCreate (Some u) ((m, l), w) in
  r = Ok () /\ tget T_watch_rooms (w_db w') !! id = Some room /\
  is_Some (tget T_watch_room_members (w_db w') !! (id, u)) /\ selectedRoomId l' = Some id /\
  forall user jm l2 w2,
    tget T_watch_rooms (w_db w2) !! id = Some room ->
    let '(_, ((_, l3), w3)) := handleJoin user id ((jm, l2), w2) in
    tget T_watch_room_members (w_db w3) = tget T_watch_room_members (w_db w2) /\
    selectedRoomId l3 = selectedRoomId l2.
Proof.
  intros Hc Hpriv Hpw Hn Hv. cbv zeta.
  unfold handleCreate, get_modal, on_modal, require_user, create_onSuccess, create_handleClose,
    on_lobby. mrun. rewrite Hn, Hv. cbn.
  rewrite insert_fresh_calm by done. cbn. rewrite join_upsert_calm by done. cbn.
  rewrite upsert_calm by (unfold calm; done). cbv zeta. cbn. simpl_tables.
  destruct (tget T_watch_room_members (w_db w) !! (w_next_id w, u)); cbn; simpl_tables;
    (split; [done|]); (split; [by rewrite lookup_insert_eq|]);
    (split; [by rewrite lookup_insert_eq|]); (split; [done|]);
    intros user jm l2 w2 Hr2; apply (join_locked_empty_hash _ _ _ _ _ _ Hr2);
    unfold new_watch_room; cbn; by rewrite Hpriv, Hpw.
Qed.

(** C22: on the watch-room list, a signed-in user can only delete rooms
    they created: whatever the fetches, taps on cards and on trash buttons,
    and whatever store calls fail, every room of another user that the
    store held is still there.  The store deletes by id alone; the
    protection is [RoomCard]'s [isCreator] test on the row the list
    fetched. *)
Theorem watch_delete_only_own u es w k r :
  tget T_watch_rooms (w_db w) !! k = Some r -> wr_created_by r <> u ->
  tget T_watch_rooms (w_db (run_lobby_events (Some u) es (lobby0, w)).2.2) !! k = Some r.
Proof.
  intros Hk Hu.
  assert (H0 : lobby_inv u (tget T_watch_rooms (w_db w)) (lobby0, w))
    by (split_and!; [done|done|set_solver]).
  apply (run_lobby_events_inv u (tget T_watch_rooms (w_db w)) es) in H0 as (_ & Hkeep & _).
  by apply Hkeep.
Qed.

(** ** Witnesses *)

(** Room 5, private with password "xyz", created by user 1. *)
Definition demo_room : watch_room :=
  {| wr_name := "Film"; wr_description := ""; wr_video_url := "https://youtu.be/abc";
     wr_is_private := true; wr_password_hash := Some "xyz"%string; wr_created_by := 1;
     wr_created_at := 0 |}.

Definition demo_world : world :=
  {| w_db := tset T_watch_rooms {[5%N := demo_room]} empty_db; w_now := 100; w_next_id := 10;
     w_auth := Some 2%N; w_faults := []; w_log := [] |}.

Definition demo_join : join_modal := {| jm_password := "xyz"; jm_loading := false; jm_error := None |}.

Example join_with_password_opens_room_witness :
  calm demo_world /\ tget T_watch_rooms (w_db demo_world) !! 5%N = Some demo_room /\
  selectedRoomId (handleJoin (Some 2%N) 5 ((demo_join, lobby0), demo_world)).2.1.2 = Some 5%N.
Proof.
  split; [reflexivity|]. split; [reflexivity|].
  pose proof (join_with_password_opens_room 2 5 demo_room "xyz" demo_join lobby0 demo_world
                eq_refl eq_refl eq_refl eq_refl eq_refl) as H.
  destruct (handleJoin (Some 2%N) 5 ((demo_join, lobby0), demo_world)) as [r [[jm' l'] w']].
  cbn. apply H.
Defined.

(** User 2 creates a private room with an empty password. *)
Definition demo_create : create_modal :=
  {| cm_name := "Gece"; cm_description := ""; cm_videoUrl := "https://youtu.be/abc";
     cm_isPrivate := true; cm_password := ""; cm_loading := false; cm_error := None |}.

Example private_empty_password_watch_witness :
  calm demo_world /\
  tget T_watch_rooms (w_db (handleCreate (Some 2%N) ((demo_create, lobby0), demo_world)).2.2)
    !! 10%N = Some (new_watch_room demo_create 2 100).
Proof.
  split; [reflexivity|].
  pose proof (private_empty_password_watch 2 demo_create lobby0 demo_world
                eq_refl eq_refl eq_refl eq_refl eq_refl) as H. cbv zeta in H.
  destruct (handleCreate (Some 2%N) ((demo_create, lobby0), demo_world)) as [r [[m' l'] w']].
  cbn. apply H.
Defined.

(** User 2 fetches the list and taps the first card's trash button: the
    card is room 5 of user 1, which has no button, and the room stays. *)
Example watch_delete_only_own_witness :
  tget T_watch_rooms (w_db demo_world) !! 5%N = Some demo_room /\ wr_created_by demo_room <> 2%N /\
  tget T_watch_rooms (w_db (run_lobby_events (Some 2%N) [LFetch; LPressDelete 0]
                              (lobby0, demo_world)).2.2) !! 5%N = Some demo_room.
Proof.
  split; [reflexivity|]. split; [discriminate|].
  apply (watch_delete_only_own 2 _ demo_world 5 demo_room); [reflexivity|discriminate].
Defined.

End WatchLobby.
