(* ===== verification/AiService.v ===== *)
(** * The AI coach's store calls: lib/aiChatService.ts

    Each exported function of the service is one handler on the world.
    Every one of them catches what the store throws and answers with
    [null], [false] or [[]] instead, so none of them throws: this is kept
    as the [try!]/[catch!] of each body.  [UserInfo], [UserAssignment] and
    [ChatMessage] are the service's interfaces; dates are timestamps in
    milliseconds. *)

From stdpp Require Import sorting.
From S2P Require Import Core Backend.

Module AiService.

(** [interface UserAssignment] *)
Record UserAssignment := {
  ua_id : uuid;
  ua_userId : uuid;
  ua_description : string;
  ua_subject : string;
  ua_dueDate : timestamp;
  ua_isCompleted : bool;
  ua_createdAt : timestamp;
}.

(** [interface UserInfo] *)
Record UserInfo := {
  ui_id : uuid;
  ui_name : option string;
  ui_grade : option string;
  ui_targetProfession : option string;
  ui_examScore : option Z;
  ui_strongSubjects : option (list string);
  ui_weakSubjects : option (list string);
  ui_assignments : list UserAssignment;
}.

(** [interface ChatMessage]; [role] is the stored column, cast. *)
Record ChatMessage := {
  cm_id : uuid;
  cm_role : string;
  cm_content : string;
  cm_timestamp : timestamp;
}.

(** [Omit<ChatMessage, 'id'>] *)
Record NewMessage := {
  nm_role : string;
  nm_content : string;
  nm_timestamp : timestamp;
}.

(** [Partial<Omit<UserInfo, 'id' | 'assignments'>>]: [None] is a key that
    is absent ([undefined] is dropped from the update's JSON), [Some v] a
    key given. *)
Record UserPatch := {
  up_name : option (option string);
  up_grade : option (option string);
  up_targetProfession : option (option string);
  up_examScore : option (option Z);
  up_strongSubjects : option (option (list string));
  up_weakSubjects : option (option (list string));
}.

(** [.order('due_date', { ascending: false })] *)
Definition due_later (a b : uuid * assignment) : Prop := (as_due_date b.2 <= as_due_date a.2)%Z.
#[export] Instance due_later_dec : RelDecision due_later.
Proof. intros a b. unfold due_later. apply _. Defined.

(** [.order('created_at', { ascending: true })] *)
Definition created_before (a b : uuid * ai_row) : Prop := (ai_created_at a.2 <= ai_created_at b.2)%Z.
#[export] Instance created_before_dec : RelDecision created_before.
Proof. intros a b. unfold created_before. apply _. Defined.

Definition to_assignment (a : uuid * assignment) : UserAssignment :=
  {| ua_id := a.1; ua_userId := as_user_id a.2; ua_description := as_description a.2;
     ua_subject := as_subject a.2; ua_dueDate := as_due_date a.2;
     ua_isCompleted := as_is_completed a.2; ua_createdAt := as_created_at a.2 |}.

(** [getUserInfo(userId)]: the user's row and assignments, latest due
    date first; [null] on any error. *)
Definition getUserInfo (userId : uuid) : M world (option UserInfo) :=
  try! (
    r <- select_single T_users userId ;;
    userData <- or_throw r ;;
    r2 <- select_where T_user_assignments (fun _ a => bool_decide (as_user_id a = userId)) ;;
    assignmentsData <- or_throw r2 ;;
    mret (Some {| ui_id := userId; ui_name := u_name userData; ui_grade := u_grade userData;
                  ui_targetProfession := u_target_profession userData;
                  ui_examScore := u_exam_score userData;
                  ui_strongSubjects := u_strong_subjects userData;
                  ui_weakSubjects := u_weak_subjects userData;
                  ui_assignments := to_assignment <$> merge_sort due_later assignmentsData |}))
  catch! _ => mret None.

Definition patch_field {A} (p : option A) (old : A) : A :=
  match p with Some v => v | None => old end.

(** The row [.update({ name, grade, ... })] leaves. *)
Definition apply_patch (p : UserPatch) (u : user_row) : user_row :=
  {| u_name := patch_field (up_name p) (u_name u);
     u_avatar_url := u_avatar_url u;
     u_is_pro := u_is_pro u;
     u_grade := patch_field (up_grade p) (u_grade u);
     u_target_profession := patch_field (up_targetProfession p) (u_target_profession u);
     u_exam_score := patch_field (up_examScore p) (u_exam_score u);
     u_strong_subjects := patch_field (up_strongSubjects p) (u_strong_subjects u);
     u_weak_subjects := patch_field (up_weakSubjects p) (u_weak_subjects u) |}.

(** [updateUserInfo(userId, userInfo)] *)
Definition updateUserInfo (userId : uuid) (p : UserPatch) : M world bool :=
  try! (
    r <- update_where T_users "users" (fun k _ => bool_decide (k = userId)) (apply_patch p) ;;
    or_throw r ;;
    mret true)
  catch! _ => mret false.

(** [Omit<UserAssignment, 'id' | 'userId' | 'createdAt'>] *)
Record AssignmentInput := {
  ai_description : string;
  ai_subject : string;
  ai_dueDate : timestamp;
  ai_isCompleted : bool;
}.

(** [createAssignment(userId, assignment)]: the new row's id. *)
Definition createAssignment (userId : uuid) (a : AssignmentInput) : M world (option uuid) :=
  try! (
    r <- insert_fresh T_user_assignments "user_assignments"
           (fun _ now => {| as_user_id := userId; as_description := ai_description a;
                            as_subject := ai_subject a; as_due_date := ai_dueDate a;
                            as_is_completed := ai_isCompleted a; as_created_at := now |}) ;;
    data <- or_throw r ;;
    mret (Some data.1))
  catch! _ => mret None.

(** [updateAssignmentStatus(assignmentId, isCompleted)] *)
Definition updateAssignmentStatus (assignmentId : uuid) (isCompleted : bool) : M world bool :=
  try! (
    r <- update_where T_user_assignments "user_assignments"
           (fun k _ => bool_decide (k = assignmentId))
           (fun a => {| as_user_id := as_user_id a; as_description := as_description a;
                        as_subject := as_subject a; as_due_date := as_due_date a;
                        as_is_completed := isCompleted; as_created_at := as_created_at a |}) ;;
    or_throw r ;;
    mret true)
  catch! _ => mret false.

Definition to_message (r : uuid * ai_row) : ChatMessage :=
  {| cm_id := r.1; cm_role := ai_role r.2; cm_content := ai_content r.2;
     cm_timestamp := ai_created_at r.2 |}.

(** The user's rows, oldest first. *)
Definition user_history (userId : uuid) (d : db) : list (uuid * ai_row) :=
  merge_sort created_before
    (filter (fun kr => bool_decide (ai_user_id kr.2 = userId) = true)
            (map_to_list (tget T_ai_chat_history d))).

(** [getChatHistory(userId, limit = 50)]: ascending order, then the
    limit: the OLDEST [limit] rows. *)
Definition getChatHistory (userId : uuid) (limit : nat) : M world (list ChatMessage) :=
  try! (
    r <- select_where T_ai_chat_history (fun _ m => bool_decide (ai_user_id m = userId)) ;;
    data <- or_throw r ;;
    mret (to_message <$> take limit (merge_sort created_before data)))
  catch! _ => mret [].

(** [addChatMessage(userId, message)]: [created_at] is the message's own
    timestamp. *)
Definition addChatMessage (userId : uuid) (m : NewMessage) : M world (option uuid) :=
  try! (
    r <- insert_fresh T_ai_chat_history "ai_chat_history"
           (fun _ _ => {| ai_user_id := userId; ai_role := nm_role m; ai_content := nm_content m;
                          ai_created_at := nm_timestamp m |}) ;;
    data <- or_throw r ;;
    mret (Some data.1))
  catch! _ => mret None.

Definition greeting_text : string :=
  "Merhaba! Ben senin yapay zeka destekli eğitim koçunum. Ders çalışma, sınavlara hazırlanma veya herhangi bir konuda sana yardımcı olabilirim. Seni daha iyi tanıyabilir miyim?".

(** [clearChatHistory(userId)]: delete the user's rows whose role is not
    'greeting', then add a greeting stamped now. *)
Definition clearChatHistory (userId : uuid) : M world bool :=
  try! (
    r <- delete_where T_ai_chat_history "ai_chat_history"
           (fun _ m => bool_decide (ai_user_id m = userId) && negb (String.eqb (ai_role m) "greeting")) ;;
    or_throw r ;;
    now <- gets w_now ;;
    _ <- addChatMessage userId {| nm_role := "assistant"; nm_content := greeting_text;
                                  nm_timestamp := now |} ;;
    mret true)
  catch! _ => mret false.

(** ** Lemmas *)

(** Every function of the service answers; none throws. *)
Lemma getChatHistory_total u n : total (getChatHistory u n).
Proof. unfold getChatHistory. total_auto. Qed.
Lemma addChatMessage_total u m : total (addChatMessage u m).
Proof. unfold addChatMessage. total_auto. Qed.
Lemma getUserInfo_total u : total (getUserInfo u).
Proof. unfold getUserInfo. total_auto. Qed.
Lemma updateUserInfo_total u p : total (updateUserInfo u p).
Proof. unfold updateUserInfo. total_auto. Qed.
Lemma createAssignment_total u a : total (createAssignment u a).
Proof. unfold createAssignment. total_auto. Qed.
Lemma updateAssignmentStatus_total i b : total (updateAssignmentStatus i b).
Proof. unfold updateAssignmentStatus. total_auto. Qed.
Lemma clearChatHistory_total u : total (clearChatHistory u).
Proof. unfold clearChatHistory. total_auto. Qed.

#[export] Hint Resolve getChatHistory_total addChatMessage_total getUserInfo_total
  updateUserInfo_total createAssignment_total updateAssignmentStatus_total
  clearChatHistory_total : total.

Lemma getChatHistory_calm u n w :
  calm w -> getChatHistory u n w = (Ok (to_message <$> take n (user_history u (w_db w))), w).
Proof.
  intros Hc. unfold getChatHistory, try_catch, bindM, mbind, M_bind.
  rewrite select_where_calm by done. reflexivity.
Qed.

Lemma addChatMessage_calm u m w :
  calm w ->
  addChatMessage u m w =
    (Ok (Some (w_next_id w)),
     log_change {| ch_table := "ai_chat_history"; ch_op := OpInsert |}
       (set_db (tset T_ai_chat_history
                  (<[w_next_id w := {| ai_user_id := u; ai_role := nm_role m;
                                       ai_content := nm_content m; ai_created_at := nm_timestamp m |}]>
                     (tget T_ai_chat_history (w_db w))) (w_db w)) (bump_id w))).
Proof.
  intros Hc. unfold addChatMessage, try_catch, bindM, mbind, M_bind.
  rewrite insert_fresh_calm by done. reflexivity.
Qed.

Lemma user_history_NoDup u d : NoDup (fst <$> user_history u d).
Proof.
  unfold user_history. rewrite merge_sort_Permutation.
  eapply sublist_NoDup; [apply (NoDup_fst_map_to_list (tget T_ai_chat_history d))|].
  apply fmap_sublist, sublist_filter.
Qed.

Lemma last_not_in_take {A} (l : list A) n x :
  NoDup l -> n < length l -> last l = Some x -> x ∉ take n l.
Proof.
  intros Hnd Hn Hl. apply last_Some in Hl as [l' ->].
  rewrite length_app in Hn. cbn in Hn. rewrite take_app_le by lia.
  intros Hx. apply NoDup_app in Hnd as (_ & Hd & _).
  apply (Hd x); [by apply (subseteq_take n l')|by left].
Qed.

(** The row a greeting stamped [t] leaves. *)
Definition greeting_row (u : uuid) (t : timestamp) : ai_row :=
  {| ai_user_id := u; ai_role := "assistant"; ai_content := greeting_text; ai_created_at := t |}.

Lemma clearChatHistory_calm u w :
  calm w ->
  exists w', clearChatHistory u w = (Ok true, w') /\ calm w' /\
    w_next_id w' = N.succ (w_next_id w) /\ w_now w' = w_now w /\
    tget T_ai_chat_history (w_db w') =
      <[w_next_id w := greeting_row u (w_now w)]>
        (filter (fun kr => (bool_decide (ai_user_id kr.2 = u) &&
                            negb (String.eqb (ai_role kr.2) "greeting")) = false)
                (tget T_ai_chat_history (w_db w))).
Proof.
  intros Hc. unfold clearChatHistory, try_catch, bindM, mbind, M_bind.
  rewrite delete_where_calm by done. cbn.
  rewrite addChatMessage_calm by done. cbn. eexists. split; [reflexivity|].
  split_and!; [done|done|done|]. by rewrite !tget_tset.
Qed.

(** ** Theorems *)

(** C3: [getChatHistory(userId)] returns the user's OLDEST 50 messages:
    the query sorts ascending and then applies the limit, so once the
    history holds more than 50 messages the newest one is never loaded. *)
Theorem getChatHistory_oldest userId w :
  calm w ->
  (getChatHistory userId 50 w).1 = Ok (to_message <$> take 50 (user_history userId (w_db w))) /\
  (50 < length (user_history userId (w_db w)) ->
   forall k r, last (user_history userId (w_db w)) = Some (k, r) ->
   k ∉ cm_id <$> (to_message <$> take 50 (user_history userId (w_db w)))).
Proof.
  intros Hc. rewrite getChatHistory_calm by done. split; [done|].
  intros Hlen k r Hl. rewrite <-list_fmap_compose, fmap_take.
  apply last_not_in_take; [apply user_history_NoDup|by rewrite length_fmap|].
  by rewrite fmap_last, Hl.
Qed.

(** ** Witnesses *)

Definition demo_row (i : nat) : ai_row :=
  {| ai_user_id := 1; ai_role := if Nat.even i then "user" else "assistant";
     ai_content := "mesaj"; ai_created_at := Z.of_nat i |}.

(** User 1 has 51 messages, created at times 0 to 50. *)
Definition history_world : world :=
  {| w_db := tset T_ai_chat_history (list_to_map ((fun i => (N.of_nat i, demo_row i)) <$> seq 0 51))
               empty_db;
     w_now := 100; w_next_id := 100; w_auth := Some 1%N; w_faults := []; w_log := [] |}.

Example getChatHistory_oldest_witness :
  calm history_world /\ 50 < length (user_history 1 (w_db history_world)) /\
  last (user_history 1 (w_db history_world)) = Some (50%N, demo_row 50) /\
  ((getChatHistory 1 50 history_world).1 =
     Ok (to_message <$> take 50 (user_history 1 (w_db history_world))) /\
   (50 < length (user_history 1 (w_db history_world)) ->
    forall k r, last (user_history 1 (w_db history_world)) = Some (k, r) ->
    k ∉ cm_id <$> (to_message <$> take 50 (user_history 1 (w_db history_world))))).
Proof.
  split; [reflexivity|]. split; [vm_compute; lia|]. split; [vm_compute; reflexivity|].
  apply getChatHistory_oldest. reflexivity.
Defined.

End AiService.
