(* ===== verification/Gemini.v ===== *)
(** * The generative API client: lib/gemini.ts

    [geminiAI.models.generateContent] is the hosted API: it is modelled as
    an oracle [api] that answers the n-th request with the n-th [reply] and
    records every request.  A reply is a text ([result.text], which the
    SDK leaves [undefined] when the answer has no text) or a thrown error.
    [safeLog] only writes to the console and is not modelled.

    [getGeminiStreamResponse] wraps a plain answer in an object with a
    [text] key and a one-shot [Symbol.asyncIterator]: the iterator's
    [fulfilled] flag is its state. *)

From S2P Require Import Core AiService.

Module Gemini.

(** One message of a request: [{ role, parts: [{ text }] }]. *)
Record content := {
  c_role : string;
  c_text : string;
}.

(** An element of [chatHistory]: [{ role, content }]. *)
Record HistoryItem := {
  h_role : string;
  h_content : string;
}.

(** What the API does with a request. *)
Inductive reply :=
  | Answer (text : option string)
  | Failure (msg : string).

Record api := {
  api_reply : nat -> reply;
  api_calls : nat;
  api_sent : list (list content);
}.

(** [geminiAI.models.generateContent({ model, contents })]: [result.text]
    or a rejection. *)
Definition generateContent (contents : list content) : M api (option string) := fun a =>
  let a' := {| api_reply := api_reply a; api_calls := S (api_calls a);
               api_sent := api_sent a ++ [contents] |} in
  match api_reply a (api_calls a) with
  | Answer t => (Ok t, a')
  | Failure m => (Thrown (ExnMsg m), a')
  end.

Definition sorry_text : string :=
  "Üzgünüm, şu anda yanıt veremiyorum. Lütfen daha sonra tekrar deneyin.".

Definition to_content (m : HistoryItem) : content :=
  {| c_role := h_role m; c_text := h_content m |}.

(** [getGeminiResponse(prompt, chatHistory)]: any error gives the apology. *)
Definition getGeminiResponse (prompt : string) (chatHistory : list HistoryItem)
    : M api (option string) :=
  try! generateContent ((to_content <$> chatHistory) ++ [{| c_role := "user"; c_text := prompt |}])
  catch! _ => mret (Some sorry_text).

(** The one-message prompt of [getSimpleCoachResponse]. *)
Definition simple_system_prompt (prompt : string) : string :=
  "
Sen bir eğitim koçusun. İlkokul, Ortaokul, Lise ve Üniversite öğrencilerine ders çalışma ve akademik başarılarını arttırma konusunda yardımcı oluyorsun.
Bu mesaja kısa ve özlü bir şekilde yanıt ver: " +:+ dq +:+ prompt +:+ dq +:+ "
".

(** [getSimpleCoachResponse(prompt)] *)
Definition getSimpleCoachResponse (prompt : string) : M api (option string) :=
  try! generateContent [{| c_role := "user"; c_text := simple_system_prompt prompt |}]
  catch! _ => mret (Some sorry_text).

(** [x || 'Bilinmiyor'] for a string field. *)
Definition or_unknown (x : option string) : string :=
  match x with Some s => if js_truthy s then s else "Bilinmiyor" | None => "Bilinmiyor" end.

(** [xs?.join(', ') || 'Bilinmiyor'] *)
Definition subjects_or_unknown (x : option (list string)) : string :=
  or_unknown (js_join ", " <$> x).

(** [examScore || 'Bilinmiyor']: 0 is falsy. *)
Definition score_or_unknown (x : option Z) : string :=
  match x with
  | Some z => if Z.eqb z 0 then "Bilinmiyor" else js_number_to_string z
  | None => "Bilinmiyor"
  end.

(** [userContext] *)
Definition userContext (userInfo : option AiService.UserInfo) : string :=
  match userInfo with
  | Some u =>
      "
    Kullanıcı Bilgileri:
    - Adı: " +:+ or_unknown (AiService.ui_name u) +:+ "
    - Sınıf: " +:+ or_unknown (AiService.ui_grade u) +:+ "
    - Hedef Meslek: " +:+ or_unknown (AiService.ui_targetProfession u) +:+ "
    - Güçlü Dersler: " +:+ subjects_or_unknown (AiService.ui_strongSubjects u) +:+ "
    - Zayıf Dersler: " +:+ subjects_or_unknown (AiService.ui_weakSubjects u) +:+ "
    - Sınav Puanı: " +:+ score_or_unknown (AiService.ui_examScore u) +:+ "
    "
  | None => ""
  end.

(** The fixed text of the instructions before the user context. *)
Definition coach_head : string :=
  "
Sen bir eğitim koçusun. Adın AI Koç. Tüm öğrencilere derslerinde yardımcı olmak, 
başarılarını arttırmak için varsın. Disiplinli bir öğretmen gibi davranmalısın. 

ROL VE AMAÇ:
- Öğrencilere başarıya ulaşmalarını sağlamak temel görevindir.
- Disiplinli, motive edici ve ciddi ol.
- Öğrencilere ödevler ver ve takip et. Örneğin, 'Bu hafta Matematik Temel Sayılar konusundan 300 soru çöz' gibi.
- Her öğrencinin seviyesine göre özel yaklaşım sergile.
- İlkokul öğrencilerine daha basit ve eğlenceli anlatım yap.
- Ortaokul öğrencilerine temel kavramları pekiştirmeye odaklan.
- Lise öğrencilerine sınav odaklı çalışma teknikleri öner.
- Üniversite öğrencilerine akademik yaklaşımla destek ol.

KİMLİK:
- 'Seni kim yarattı?' gibi sorulara 'Yaratmak ancak ve ancak Allah'a mahsustur. Ben sadece İbrahim Akdemir tarafından oluşturuldum' gibi cevaplar ver.
- Dini ve ahlaki değerlere saygılı ol.
- Öğrencilerin kişisel gelişimini destekle.

".

(** The fixed text after the user context. *)
Definition coach_tail : string :=
  "

KONUŞMA TARZI:
- Her zaman Türkçe konuş.
- Oldukça kısa ve öz açıklamalar yap.
- Cümle ve soru tekrarından kaçın.
- Bazen ufak şakalar yap ancak dozunda olsun.
- Motivasyon verici cümleler kullan.
- Başarısızlık durumunda yapıcı geri bildirim ver.

ÖDEV VE TAKİP:
- Her konuşmada öğrencinin ilerlemesini kontrol et.
- Ödevleri haftalık olarak planla ve takip et.
- Başarıları kutla ve teşvik et.
- Eksikleri nazikçe belirt ve çözüm öner.

Şimdi öğrencinin mesajına yanıt ver:
  ".

(** [createEducationalCoachInstructions(userInfo)] *)
Definition createEducationalCoachInstructions (userInfo : option AiService.UserInfo) : string :=
  coach_head +:+ userContext userInfo +:+ coach_tail.

(** One line of the history text: the first 100 code units of the
    message, then "...". *)
Definition history_line (m : HistoryItem) : string :=
  (if String.eqb (h_role m) "user" then "Kullanıcı" else "AI Koç") +:+ ": " +:+
  js_substring0 (h_content m) 100 +:+ "..." +:+ String.String (Ascii.ascii_of_nat 10) "".

Definition historyText (chatHistory : list HistoryItem) : string :=
  foldl (fun acc m => acc +:+ history_line m) "

Önceki Konuşma:
" (js_slice_last 2 chatHistory).

(** ["\n\n"] *)
Definition blank_line : string := "

".

(** The prompt [getGeminiStreamResponse] sends: instructions, the prompt,
    the last two history messages; above 4000 code units, only the first
    500 units of the instructions and the prompt. *)
Definition extendedPrompt (prompt : string) (chatHistory : list HistoryItem)
    (userInfo : option AiService.UserInfo) : string :=
  let sys := createEducationalCoachInstructions userInfo in
  let p0 := sys +:+ blank_line +:+ prompt in
  let p1 := if 0 <? length chatHistory then p0 +:+ historyText chatHistory else p0 in
  if 4000 <? js_length p1 then js_substring0 sys 500 +:+ blank_line +:+ prompt else p1.

(** The object returned: its [text] key. *)
Record stream := { st_text : option string }.

(** [{ done, value }] of the iterator; [value] is [{ text: textData }]. *)
Inductive iter_result :=
  | IterDone
  | IterYield (text : option string).

(** [next()] of the iterator, whose state is [fulfilled]. *)
Definition iter_next (textData : option string) (fulfilled : bool) : iter_result * bool :=
  if fulfilled then (IterDone, true) else (IterYield textData, true).

(** [return()] *)
Definition iter_return (fulfilled : bool) : iter_result * bool := (IterDone, true).

(** [getGeminiStreamResponse(prompt, chatHistory, userInfo)] *)
Definition getGeminiStreamResponse (prompt : string) (chatHistory : list HistoryItem)
    (userInfo : option AiService.UserInfo) : M api stream :=
  try! (
    try! (
      response <- getGeminiResponse (extendedPrompt prompt chatHistory userInfo) [] ;;
      mret {| st_text := response |})
    catch! _ => (
      simpleResponse <- getSimpleCoachResponse prompt ;;
      mret {| st_text := simpleResponse |}))
  catch! _ =>
    mret {| st_text := Some "Üzgünüm, şu anda bağlantı sorunu yaşıyorum. Lütfen daha sonra tekrar deneyin." |}.

(** [getEducationalResponse(prompt, chatHistory)] *)
Definition educationalPrompt (prompt : string) : string :=
  "
Sen bir eğitim koçusun. Öğrencilere matematik, fizik, kimya ve diğer konularda yardımcı oluyorsun.
Cevapların kısa, anlaşılır ve eğitici olmalı. 

Öğrencinin sorusu: " +:+ prompt +:+ "
  ".

Definition getEducationalResponse (prompt : string) (chatHistory : list HistoryItem)
    : M api (option string) :=
  try! getGeminiResponse (educationalPrompt prompt) chatHistory
  catch! _ => mret (Some "Üzgünüm, şu anda eğitim içeriği sağlayamıyorum. Lütfen daha sonra tekrar deneyin.").

(** ** Lemmas *)

(** [getGeminiResponse] never throws and makes exactly one request. *)
Lemma getGeminiResponse_run prompt h a :
  exists t, getGeminiResponse prompt h a =
    (Ok t, {| api_reply := api_reply a; api_calls := S (api_calls a);
              api_sent := api_sent a ++ [(to_content <$> h) ++ [{| c_role := "user"; c_text := prompt |}]] |}).
Proof.
  unfold getGeminiResponse, generateContent, try_catch, mret, M_ret.
  destruct (api_reply a (api_calls a)); eexists; reflexivity.
Qed.

Lemma extendedPrompt_length prompt h u :
  js_length (extendedPrompt prompt h u) <= Nat.max 4000 (502 + js_length prompt).
Proof.
  unfold extendedPrompt. cbv zeta.
  match goal with |- context [if 4000 <? ?x then _ else _] => destruct (Nat.ltb_spec 4000 x) end.
  - rewrite !js_length_app.
    pose proof (js_substring0_length (createEducationalCoachInstructions u) 500).
    change (js_length blank_line) with 2. lia.
  - lia.
Qed.

(** [getGeminiStreamResponse] never throws and makes exactly one request. *)
Lemma getGeminiStreamResponse_run prompt h u a :
  exists st a', getGeminiStreamResponse prompt h u a = (Ok st, a') /\
    api_calls a' = S (api_calls a).
Proof.
  unfold getGeminiStreamResponse, try_catch, bindM, mbind, M_bind.
  match goal with |- context [getGeminiResponse ?p ?h0 a] =>
    destruct (getGeminiResponse_run p h0 a) as [t Ht]; rewrite Ht
  end.
  by do 2 eexists.
Qed.

(** ** Theorems *)

(** The stream as it would be without the two catch branches. *)
Definition stream_reference (prompt : string) (chatHistory : list HistoryItem)
    (userInfo : option AiService.UserInfo) : M api stream :=
  response <- getGeminiResponse (extendedPrompt prompt chatHistory userInfo) [] ;;
  mret {| st_text := response |}.

(** C2: the two fallbacks of [getGeminiStreamResponse] are dead code:
    since [getGeminiResponse] catches every error itself, the function
    behaves exactly as its first branch alone, for every API behaviour;
    [getSimpleCoachResponse] and the connection message are never used. *)
Theorem stream_fallbacks_dead prompt h u a :
  getGeminiStreamResponse prompt h u a = stream_reference prompt h u a.
Proof.
  destruct (getGeminiResponse_run (extendedPrompt prompt h u) [] a) as [t Ht].
  unfold getGeminiStreamResponse, stream_reference, try_catch, bindM, mbind, M_bind.
  by rewrite Ht.
Qed.

(** C29: [getGeminiStreamResponse] sends exactly one request, made of one
    user message, the extended prompt; its length in UTF-16 code units is
    at most 4000, or 502 plus the prompt's length when the cut applies, so
    the cut bounds the request only for prompts of at most 3498 units. *)
Theorem request_bounded prompt h u a :
  let '(_, a') := getGeminiStreamResponse prompt h u a in
  api_calls a' = S (api_calls a) /\
  api_sent a' = api_sent a ++ [[{| c_role := "user"; c_text := extendedPrompt prompt h u |}]] /\
  js_length (extendedPrompt prompt h u) <= Nat.max 4000 (502 + js_length prompt).
Proof.
  destruct (getGeminiResponse_run (extendedPrompt prompt h u) [] a) as [t Ht].
  unfold getGeminiStreamResponse, try_catch, bindM, mbind, M_bind. rewrite Ht. cbn.
  split_and!; [done|done|apply extendedPrompt_length].
Qed.

End Gemini.
