(* ===== verification/AiText.v ===== *)
(** * Reading the profile out of a conversation: the text tests of
    [processAIResponseForUserInfo] (app/ai-chat.tsx)

    The handler guesses the user's name and grade from the question and an
    assignment from the answer, with [includes], [split] and three regular
    expressions.  Each regular expression is written here as the matcher
    it denotes on UTF-8 text:
    - [/^[A-ZĞÜŞİÖÇÂÎÛa-zğüşıöçâîû]+$/] is [name_chars];
    - [/(\d+)\s*\.?\s*sınıf/i] is [grade_match]: the leftmost digit run
      followed by blanks, an optional dot, blanks and "sınıf" (under the
      [i] flag without [u], "ı" only matches itself, since its upper case
      is ASCII);
    - the six subject expressions are tested on lowered text, where each
      is the same as [includes] of one of its words. *)

From S2P Require Import Core.

Module AiText.

Definition code (c : Ascii.ascii) : nat := Ascii.nat_of_ascii c.

Definition ascii_letter (c : Ascii.ascii) : bool :=
  ((65 <=? code c) && (code c <=? 90)) || ((97 <=? code c) && (code c <=? 122)).

(** The two-byte letters of the class: Ğ Ü Ş İ Ö Ç Â Î Û ğ ü ş ı ö ç â î û. *)
Definition turkish_letter (c d : Ascii.ascii) : bool :=
  match code c with
  | 195 => existsb (Nat.eqb (code d)) [156; 150; 135; 130; 142; 155; 188; 182; 167; 162; 174; 187]
  | 196 => existsb (Nat.eqb (code d)) [158; 176; 159; 177]
  | 197 => existsb (Nat.eqb (code d)) [158; 159]
  | _ => false
  end.

(** [/^[A-ZĞÜŞİÖÇÂÎÛa-zğüşıöçâîû]+$/] without the [+]'s non-emptiness. *)
Fixpoint name_chars (l : list Ascii.ascii) : bool :=
  match l with
  | [] => true
  | c :: l' =>
      if ascii_letter c then name_chars l'
      else match l' with
           | d :: l'' => turkish_letter c d && name_chars l''
           | [] => false
           end
  end.

(** [word.length > 2 && /^[...]+$/.test(word)] *)
Definition name_word (w : string) : bool :=
  (2 <? js_length w) && name_chars (chars w).

(** [userQuestion.split(" ").filter(...)] *)
Definition possibleNames (userQuestion : string) : list string :=
  filter (fun w => name_word w = true) (js_split userQuestion " ").

(** The name the handler stores, if any: the question mentions "adım", is
    shorter than 50 code units, has a candidate word, and the profile has
    no name yet; the LAST candidate is taken. *)
Definition name_update (userQuestion : string) (name : option string) : option string :=
  if js_includes (js_toLowerCase userQuestion) "adım" && (js_length userQuestion <? 50) then
    match last (possibleNames userQuestion) with
    | Some n => if default false (js_truthy <$> name) then None else Some n
    | None => None
    end
  else None.

Definition is_digit (c : Ascii.ascii) : bool := (48 <=? code c) && (code c <=? 57).

Fixpoint span_digits (l : list Ascii.ascii) : list Ascii.ascii * list Ascii.ascii :=
  match l with
  | c :: l' => if is_digit c then let '(ds, r) := span_digits l' in (c :: ds, r) else ([], l)
  | [] => ([], [])
  end.

(** "sınıf" under the [i] flag: s/S, ı, n/N, ı, f/F. *)
Definition sinif_prefix (l : list Ascii.ascii) : bool :=
  match code <$> take 7 l with
  | [s; 196; 177; n; 196; 177; f] =>
      ((s =? 115) || (s =? 83)) && ((n =? 110) || (n =? 78)) && ((f =? 102) || (f =? 70))
  | _ => false
  end.

(** The match of [(\d+)\s*\.?\s*sınıf] starting at the head of [l]: the
    digits of its group. *)
Definition grade_match_at (l : list Ascii.ascii) : option (list Ascii.ascii) :=
  let '(ds, r) := span_digits l in
  match ds with
  | [] => None
  | _ =>
      let r1 := skip_ws (length r) r in
      let r2 := match r1 with c :: r' => if code c =? 46 then r' else r1 | [] => r1 end in
      if sinif_prefix (skip_ws (length r2) r2) then Some ds else None
  end.

(** The leftmost match. *)
Fixpoint grade_match_l (l : list Ascii.ascii) : option (list Ascii.ascii) :=
  match l with
  | [] => None
  | c :: l' => match grade_match_at l with Some ds => Some ds | None => grade_match_l l' end
  end.

(** [userQuestion.match(/(\d+)\s*\.?\s*sınıf/i)?.[1]] *)
Definition grade_match (userQuestion : string) : option string :=
  of_chars <$> grade_match_l (chars userQuestion).

(** The grade the handler stores, if any. *)
Definition grade_update (userQuestion : string) (grade : option string) : option string :=
  if js_includes (js_toLowerCase userQuestion) "sınıf" && negb (default false (js_truthy <$> grade))
  then (fun g => g +:+ ". Sınıf") <$> grade_match userQuestion
  else None.

(** [subjectMatches], in order. *)
Definition subjectMatches : list (list string * string) :=
  [(["matematik"; "trigonometri"; "integral"; "türev"; "fonksiyon"], "Matematik");
   (["fizik"; "mekanik"; "elektrik"; "manyetik"; "termodinamik"], "Fizik");
   (["kimya"; "element"; "periyodik"; "asit"; "baz"; "mol"], "Kimya");
   (["biyoloji"; "hücre"; "organ"; "sistem"; "genetik"], "Biyoloji");
   (["tarih"; "devlet"; "imparatorluk"; "savaş"; "dönem"], "Tarih");
   (["edebiyat"; "şiir"; "roman"; "yazar"; "eser"], "Edebiyat")].

(** The [for ... break] over [subjectMatches], on the lowered answer. *)
Definition detectedSubject (aiResponse : string) : string :=
  let lower := js_toLowerCase aiResponse in
  match list_find (fun m => existsb (js_includes lower) m.1 = true) subjectMatches with
  | Some (_, m) => m.2
  | None => "Genel"
  end.

(** [aiResponse.toLowerCase().includes("ödev") && aiResponse.includes("hafta")] *)
Definition mentions_assignment (aiResponse : string) : bool :=
  js_includes (js_toLowerCase aiResponse) "ödev" && js_includes aiResponse "hafta".

(** [assignmentLines]: note that the test of each line swaps which word is
    lowered. *)
Definition assignmentLines (aiResponse : string) : list string :=
  filter (fun line => (js_includes (js_toLowerCase line) "hafta" && js_includes line "ödev") = true)
         (js_split aiResponse (String.String (Ascii.ascii_of_nat 10) "")).

End AiText.
