(* ===== verification/AiChat.v ===== *)
(** * The AI coach screen: app/ai-chat.tsx

    The screen keeps the conversation in [messages], sends the trimmed
    draft with the service's [addChatMessage], asks the API through
    [getGeminiStreamResponse] and reads the answer with
    [processStreamResponse], which also updates the profile from the
    exchange ([processAIResponseForUserInfo]).  Its handlers run on the
    screen, the world and the API oracle: [(screen * (world * api))].

    The signed-in [user] and [loaded_at], the time the module was loaded
    (when the constant [GREETING_MESSAGE] took its [new Date()]), are the
    Section's variables.  [generateUUID]'s random digits are abstracted as
    the counter [next_uuid].  The typing and dot animations, scrolling
    and the 500 ms and 1000 ms waits (modelled as the clock advancing) are
    presentation.  [processStreamResponse] is written for the object
    [getGeminiStreamResponse] returns, which always has a [text] key and
    an async iterator: its branches for other shapes (a [response] key, a
    promise, a string) are not reachable from this screen and are not
    modelled. *)

From S2P Require Import Core Backend AiService Gemini AiText.

Module AiChat.

Import AiService.

Record screen := {
  isReady : bool;
  messages : list ChatMessage;
  persistedMessages : list ChatMessage;
  newMessage : string;
  isLoading : bool;
  streamingContent : string;
  userInfo : option UserInfo;
  isLoadingHistory : bool;
  next_uuid : N;
}.

Definition screen0 : screen :=
  {| isReady := false; messages := []; persistedMessages := []; newMessage := "";
     isLoading := false; streamingContent := ""; userInfo := None; isLoadingHistory := true;
     next_uuid := 0 |}.

Definition set_isReady (x : bool) (s : screen) : screen :=
  {| isReady := x; messages := messages s; persistedMessages := persistedMessages s;
     newMessage := newMessage s; isLoading := isLoading s; streamingContent := streamingContent s;
     userInfo := userInfo s; isLoadingHistory := isLoadingHistory s; next_uuid := next_uuid s |}.
Definition set_messages (x : list ChatMessage) (s : screen) : screen :=
  {| isReady := isReady s; messages := x; persistedMessages := persistedMessages s;
     newMessage := newMessage s; isLoading := isLoading s; streamingContent := streamingContent s;
     userInfo := userInfo s; isLoadingHistory := isLoadingHistory s; next_uuid := next_uuid s |}.
Definition set_persistedMessages (x : list ChatMessage) (s : screen) : screen :=
  {| isReady := isReady s; messages := messages s; persistedMessages := x;
     newMessage := newMessage s; isLoading := isLoading s; streamingContent := streamingContent s;
     userInfo := userInfo s; isLoadingHistory := isLoadingHistory s; next_uuid := next_uuid s |}.
Definition set_newMessage (x : string) (s : screen) : screen :=
  {| isReady := isReady s; messages := messages s; persistedMessages := persistedMessages s;
     newMessage := x; isLoading := isLoading s; streamingContent := streamingContent s;
     userInfo := userInfo s; isLoadingHistory := isLoadingHistory s; next_uuid := next_uuid s |}.
Definition set_isLoading (x : bool) (s : screen) : screen :=
  {| isReady := isReady s; messages := messages s; persistedMessages := persistedMessages s;
     newMessage := newMessage s; isLoading := x; streamingContent := streamingContent s;
     userInfo := userInfo s; isLoadingHistory := isLoadingHistory s; next_uuid := next_uuid s |}.
Definition set_streamingContent (x : string) (s : screen) : screen :=
  {| isReady := isReady s; messages := messages s; persistedMessages := persistedMessages s;
     newMessage := newMessage s; isLoading := isLoading s; streamingContent := x;
     userInfo := userInfo s; isLoadingHistory := isLoadingHistory s; next_uuid := next_uuid s |}.
Definition set_userInfo (x : option UserInfo) (s : screen) : screen :=
  {| isReady := isReady s; messages := messages s; persistedMessages := persistedMessages s;
     newMessage := newMessage s; isLoading := isLoading s; streamingContent := streamingContent s;
     userInfo := x; isLoadingHistory := isLoadingHistory s; next_uuid := next_uuid s |}.
Definition set_isLoadingHistory (x : bool) (s : screen) : screen :=
  {| isReady := isReady s; messages := messages s; persistedMessages := persistedMessages s;
     newMessage := newMessage s; isLoading := isLoading s; streamingContent := streamingContent s;
     userInfo := userInfo s; isLoadingHistory := x; next_uuid := next_uuid s |}.
Definition set_next_uuid (x : N) (s : screen) : screen :=
  {| isReady := isReady s; messages := messages s; persistedMessages := persistedMessages s;
     newMessage := newMessage s; isLoading := isLoading s; streamingContent := streamingContent s;
     userInfo := userInfo s; isLoadingHistory := isLoadingHistory s; next_uuid := x |}.

Abbreviation AM := (M (screen * (world * Gemini.api))).

Definition setS (f : screen -> screen) : AM unit := modify (fun p => (f p.1, p.2)).
Definition getS : AM screen := gets fst.
Definition on_world {A} (c : M world A) : AM A :=
  zoom (fun p => p.2.1) (fun w p => (p.1, (w, p.2.2))) c.
Definition on_api {A} (c : M Gemini.api A) : AM A :=
  zoom (fun p => p.2.2) (fun a p => (p.1, (p.2.1, a))) c.

(** [new Date()] *)
Definition now : AM timestamp := gets (fun p => w_now p.2.1).

(** [generateUUID()] *)
Definition generateUUID : AM uuid :=
  s <- getS ;; setS (set_next_uuid (N.succ (next_uuid s))) ;; mret (next_uuid s).

Definition append_message (m : ChatMessage) (s : screen) : screen :=
  set_messages (messages s ++ [m]) s.

(** [message.role === 'user' ? ... ] history of the last 10 messages. *)
Definition getChatHistory (ms : list ChatMessage) : list Gemini.HistoryItem :=
  (fun m => {| Gemini.h_role := cm_role m; Gemini.h_content := cm_content m |}) <$> js_slice_last 10 ms.

(** [JSON.stringify(chunk).substring(0, 100)] for a chunk [{ text }]
    whose text is falsy: [undefined] is left out, [""] is written. *)
Definition chunk_json (t : option string) : string :=
  match t with
  | Some s => "{" +:+ dq +:+ "text" +:+ dq +:+ ":" +:+ dq +:+ s +:+ dq +:+ "}"
  | None => "{}"
  end.

(** What one chunk [{ text: t }] adds to [fullResponse]: the text when it
    is truthy; otherwise the object has no [response] and no [content],
    so its JSON text is used. *)
Definition chunk_text (t : option string) : string :=
  match t with
  | Some s => if js_truthy s then s else js_substring0 (chunk_json t) 100
  | None => js_substring0 (chunk_json t) 100
  end.

(** [for await (const chunk of stream)] over the stream's iterator, from
    its state [fulfilled]; [None] when [fuel] runs out. *)
Fixpoint for_await (fuel : nat) (textData : option string) (fulfilled : bool) (acc : string)
    : option string :=
  match fuel with
  | O => None
  | S f =>
      match Gemini.iter_next textData fulfilled with
      | (Gemini.IterDone, _) => Some acc
      | (Gemini.IterYield t, st) => for_await f textData st (acc +:+ chunk_text t)
      end
  end.

(** The assignment due a week from [now]: [setDate(getDate() + 7)]. *)
Definition week_ms : Z := 7 * 86400000.

(** [error.toString()] *)
Definition error_string (e : exn) : string :=
  match e with
  | ExnType m => "TypeError: " +:+ m
  | _ => "Error: " +:+ exn_message e
  end.

Section Screen.
Context (user : option uuid) (loaded_at : timestamp).

(** [GREETING_MESSAGE] *)
Definition GREETING_MESSAGE : NewMessage :=
  {| nm_role := "assistant"; nm_content := greeting_text; nm_timestamp := loaded_at |}.

(** [{ ...GREETING_MESSAGE, id: Date.now().toString() }] *)
Definition greeting_at (t : timestamp) : ChatMessage :=
  {| cm_id := Z.to_N t; cm_role := "assistant"; cm_content := greeting_text;
     cm_timestamp := loaded_at |}.

(** [loadChatHistory] *)
Definition loadChatHistory : AM unit :=
  match user with
  | None => mret ()
  | Some u =>
      setS (set_isLoadingHistory true) ;;
      try_finally
        (try! (
           history <- on_world (AiService.getChatHistory u 50) ;;
           if 0 <? length history then
             setS (set_messages history) ;; setS (set_persistedMessages history)
           else
             t <- now ;;
             setS (set_messages [greeting_at t]) ;;
             _ <- on_world (addChatMessage u GREETING_MESSAGE) ;;
             mret ())
         catch! _ => mret ())
        (setS (set_isLoadingHistory false))
  end.

(** [loadUserInfo] *)
Definition loadUserInfo : AM unit :=
  match user with
  | None => mret ()
  | Some u =>
      try! (
        info <- on_world (getUserInfo u) ;;
        match info with Some i => setS (set_userInfo (Some i)) | None => mret () end)
      catch! _ => mret ()
  end.

(** [{ ...prev, name }] and [{ ...prev, grade }] *)
Definition with_name (n : string) (i : UserInfo) : UserInfo :=
  {| ui_id := ui_id i; ui_name := Some n; ui_grade := ui_grade i;
     ui_targetProfession := ui_targetProfession i; ui_examScore := ui_examScore i;
     ui_strongSubjects := ui_strongSubjects i; ui_weakSubjects := ui_weakSubjects i;
     ui_assignments := ui_assignments i |}.
Definition with_grade (g : string) (i : UserInfo) : UserInfo :=
  {| ui_id := ui_id i; ui_name := ui_name i; ui_grade := Some g;
     ui_targetProfession := ui_targetProfession i; ui_examScore := ui_examScore i;
     ui_strongSubjects := ui_strongSubjects i; ui_weakSubjects := ui_weakSubjects i;
     ui_assignments := ui_assignments i |}.

Definition name_patch (n : string) : UserPatch :=
  {| up_name := Some (Some n); up_grade := None; up_targetProfession := None;
     up_examScore := None; up_strongSubjects := None; up_weakSubjects := None |}.
Definition grade_patch (g : string) : UserPatch :=
  {| up_name := None; up_grade := Some (Some g); up_targetProfession := None;
     up_examScore := None; up_strongSubjects := None; up_weakSubjects := None |}.

(** [setUserInfo(prev => prev ? f(prev) : null)] *)
Definition update_info (f : UserInfo -> UserInfo) (s : screen) : screen :=
  set_userInfo (f <$> userInfo s) s.

(** [processAIResponseForUserInfo(aiResponse, userQuestion)]: [info0] is
    the [userInfo] of the render the send started from. *)
Definition processAIResponseForUserInfo (info0 : option UserInfo)
    (aiResponse userQuestion : string) : AM unit :=
  match user, info0 with
  | Some u, Some info =>
      (match AiText.name_update userQuestion (ui_name info) with
       | Some n => _ <- on_world (updateUserInfo u (name_patch n)) ;; setS (update_info (with_name n))
       | None => mret ()
       end) ;;
      (match AiText.grade_update userQuestion (ui_grade info) with
       | Some g => _ <- on_world (updateUserInfo u (grade_patch g)) ;; setS (update_info (with_grade g))
       | None => mret ()
       end) ;;
      (if AiText.mentions_assignment aiResponse then
         match AiText.assignmentLines aiResponse with
         | line :: _ =>
             t <- now ;;
             _ <- on_world (createAssignment u
                    {| ai_description := js_trim line; ai_subject := AiText.detectedSubject aiResponse;
                       ai_dueDate := t + week_ms; ai_isCompleted := false |}) ;;
             loadUserInfo
         | [] => mret ()
         end
       else mret ())
  | _, _ => mret ()
  end.

Definition connection_text : string :=
  "İnternet bağlantı sorunu yaşanıyor. Lütfen bağlantınızı kontrol edip tekrar deneyin.".
Definition problem_text : string :=
  "Üzgünüm, yanıt alırken bir sorun oluştu. Lütfen tekrar deneyin.".
Definition too_short_text : string := "Geçerli bir yanıt alınamadı (çok kısa)".

(** The text read from the stream: its [text] when truthy, otherwise the
    [for await] loop; two iterations are enough (see the termination
    theorem), and [""] stands for the unreachable end of fuel. *)
Definition stream_text (st : Gemini.stream) : string :=
  match Gemini.st_text st with
  | Some t => if js_truthy t then t else default "" (for_await 2 (Gemini.st_text st) false "")
  | None => default "" (for_await 2 (Gemini.st_text st) false "")
  end.

(** [processStreamResponse(stream)]: never throws; [false] after showing
    an error message. *)
Definition processStreamResponse (info0 : option UserInfo) (userQuestion : string)
    (st : Gemini.stream) : AM bool :=
  try! (
    setS (set_streamingContent "") ;;
    let fullResponse := stream_text st in
    setS (set_streamingContent fullResponse) ;;
    if negb (js_truthy fullResponse) || (js_length fullResponse <? 5)
    then throw (ExnMsg too_short_text)
    else
      uniqueId <- generateUUID ;;
      t <- now ;;
      setS (append_message {| cm_id := uniqueId; cm_role := "assistant";
                              cm_content := fullResponse; cm_timestamp := t |}) ;;
      setS (set_streamingContent "") ;;
      (match user with
       | Some u => try! (_ <- on_world (addChatMessage u {| nm_role := "assistant";
                                        nm_content := fullResponse; nm_timestamp := t |}) ;;
                         mret ())
                   catch! _ => mret ()
       | None => mret ()
       end) ;;
      (try! processAIResponseForUserInfo info0 fullResponse userQuestion catch! _ => mret ()) ;;
      mret true)
  catch! e =>
    setS (set_streamingContent "") ;;
    id <- generateUUID ;;
    t <- now ;;
    let text := if js_includes (error_string e) "network" || js_includes (error_string e) "bağlantı"
                then connection_text else problem_text in
    setS (append_message {| cm_id := id; cm_role := "assistant"; cm_content := text;
                            cm_timestamp := t |}) ;;
    mret false.

(** [messageText.length > 500 ? messageText.substring(0, 500) + "..." : messageText] *)
Definition truncatedMessage (messageText : string) : string :=
  if 500 <? js_length messageText then js_substring0 messageText 500 +:+ "..." else messageText.

(** [attemptGetResponse]: [s0] is the render the send started from. *)
Definition attemptGetResponse (s0 : screen) (messageText : string) : AM bool :=
  try! (
    stream <- on_api (Gemini.getGeminiStreamResponse (truncatedMessage messageText)
                        (getChatHistory (messages s0)) (userInfo s0)) ;;
    _ <- processStreamResponse (userInfo s0) (newMessage s0) stream ;;
    mret true)
  catch! _ => mret false.

(** [while (!success && retryCount < maxRetries)], with [k] retries left. *)
Fixpoint retry_loop (s0 : screen) (messageText : string) (k : nat) (success : bool) : AM bool :=
  match k with
  | O => mret success
  | S k' =>
      if success then mret true
      else on_world (modify (advance 1000)) ;;
           success' <- attemptGetResponse s0 messageText ;;
           retry_loop s0 messageText k' success'
  end.

Definition maxRetries : nat := 2.

Definition no_reply_text : string :=
  "Üzgünüm, şu anda yanıt alamıyorum. Lütfen internet bağlantınızı kontrol edip tekrar deneyin.".

(** [handleSend] *)
Definition handleSend : AM unit :=
  s0 <- getS ;;
  match user with
  | None => mret ()
  | Some u =>
      if negb (js_truthy (js_trim (newMessage s0))) || isLoading s0 then mret () else
      let messageText := js_trim (newMessage s0) in
      messageId <- generateUUID ;;
      t <- now ;;
      setS (append_message {| cm_id := messageId; cm_role := "user"; cm_content := messageText;
                              cm_timestamp := t |}) ;;
      setS (set_newMessage "") ;;
      setS (set_isLoading true) ;;
      (try! (_ <- on_world (addChatMessage u {| nm_role := "user"; nm_content := messageText;
                                                nm_timestamp := t |}) ;; mret ())
       catch! _ => mret ()) ;;
      on_world (modify (advance 500)) ;;
      success <- attemptGetResponse s0 messageText ;;
      success <- retry_loop s0 messageText maxRetries success ;;
      (if success then mret () else
         id <- generateUUID ;;
         t' <- now ;;
         setS (append_message {| cm_id := id; cm_role := "assistant"; cm_content := no_reply_text;
                                 cm_timestamp := t' |})) ;;
      setS (set_isLoading false)
  end.

(** [handleClearChat] *)
Definition handleClearChat : AM unit :=
  match user with
  | None => mret ()
  | Some u =>
      try! (
        _ <- on_world (clearChatHistory u) ;;
        t <- now ;;
        setS (set_messages [greeting_at t]) ;;
        _ <- on_world (addChatMessage u GREETING_MESSAGE) ;;
        mret ())
      catch! _ => mret ()
  end.

(** An assignment's status button. *)
Definition toggleAssignment (a : UserAssignment) : AM unit :=
  _ <- on_world (updateAssignmentStatus (ua_id a) (negb (ua_isCompleted a))) ;;
  loadUserInfo.

(** What can happen on the screen. *)
Inductive event :=
  | EvFocus
  | EvType (text : string)
  | EvSend
  | EvClear
  | EvToggle (a : UserAssignment).

Definition run_event (e : event) : AM unit :=
  match e with
  | EvFocus => loadChatHistory ;; loadUserInfo
  | EvType text => setS (set_newMessage text)
  | EvSend => handleSend
  | EvClear => handleClearChat
  | EvToggle a => toggleAssignment a
  end.

End Screen.

(** The header's subtitle. *)
Definition subtitle (s : screen) : string :=
  match userInfo s with
  | Some i => match ui_name i with
              | Some n => if js_truthy n then "Merhaba, " +:+ n else "Size nasıl yardımcı olabilirim?"
              | None => "Size nasıl yardımcı olabilirim?"
              end
  | None => "Size nasıl yardımcı olabilirim?"
  end.

(** The assignments listed: the first two of [userInfo.assignments], which
    [getUserInfo] orders by due date, latest first; each with its
    subject's first three code units. *)
Definition shownAssignments (s : screen) : list (string * UserAssignment) :=
  match userInfo s with
  | Some i => (fun a => (js_substring0 (ua_subject a) 3, a)) <$> take 2 (ui_assignments i)
  | None => []
  end.

(** ** Lemmas *)

(** The run of a screen handler keeps the message list, the loading flag,
    the API and the history table: [kept]. *)
Definition hist_is (m0 : gmap uuid ai_row) (d : db) : Prop := tget T_ai_chat_history d = m0.

Definition kept (ms : list ChatMessage) (b : bool) (nm : string) (a : Gemini.api)
    (m0 : gmap uuid ai_row) (p : screen * (world * Gemini.api)) : Prop :=
  messages p.1 = ms /\ isLoading p.1 = b /\ newMessage p.1 = nm /\ p.2.2 = a /\
  on_db (hist_is m0) p.2.1.

Lemma stable_on_world_kept ms b nm a m0 {A} (c : M world A) :
  stable (on_db (hist_is m0)) c -> stable (kept ms b nm a m0) (on_world c).
Proof.
  intros Hc [s [w a']] (Hm & Hb & Hn & Ha & Hw). unfold on_world, zoom. cbn in *.
  specialize (Hc w Hw). destruct (c w) as [r w']. by repeat split.
Qed.

Lemma stable_setS_kept ms b nm a m0 (f : screen -> screen) :
  (forall s, messages (f s) = messages s /\ isLoading (f s) = isLoading s /\
             newMessage (f s) = newMessage s) ->
  stable (kept ms b nm a m0) (setS f).
Proof.
  intros Hf [s [w a']] (Hm & Hb & Hn & Ha & Hw). cbn in *. destruct (Hf s) as (H1 & H2 & H3).
  unfold kept. cbn. by rewrite H1, H2, H3.
Qed.

Lemma stable_now {P : screen * (world * Gemini.api) -> Prop} : stable P now.
Proof. apply stable_gets. Qed.

Lemma users_ignore_hist m0 : ignores T_users (hist_is m0).
Proof. prove_ignores. Qed.
Lemma assignments_ignore_hist m0 : ignores T_user_assignments (hist_is m0).
Proof. prove_ignores. Qed.

#[local] Hint Resolve stable_now users_ignore_hist assignments_ignore_hist : stable.
#[local] Hint Extern 1 (stable (kept _ _ _ _ _) (setS _)) =>
  apply stable_setS_kept; intros; split_and!; reflexivity : stable.
#[local] Hint Extern 1 (stable (kept _ _ _ _ _) (on_world _)) => apply stable_on_world_kept : stable.

(** The service calls the profile update makes leave the history alone. *)
Lemma getUserInfo_hist m0 u : stable (on_db (hist_is m0)) (getUserInfo u).
Proof. unfold getUserInfo, or_throw. stable_auto. Qed.
Lemma updateUserInfo_hist m0 u p : stable (on_db (hist_is m0)) (updateUserInfo u p).
Proof. unfold updateUserInfo, or_throw. stable_auto. Qed.
Lemma createAssignment_hist m0 u x : stable (on_db (hist_is m0)) (createAssignment u x).
Proof. unfold createAssignment, or_throw. stable_auto. Qed.
#[local] Hint Resolve getUserInfo_hist updateUserInfo_hist createAssignment_hist : stable.

Lemma loadUserInfo_kept user ms b nm a m0 : stable (kept ms b nm a m0) (loadUserInfo user).
Proof. unfold loadUserInfo. stable_auto. Qed.
#[local] Hint Resolve loadUserInfo_kept : stable.

Lemma processAI_kept user info0 ai q ms b nm a m0 :
  stable (kept ms b nm a m0) (processAIResponseForUserInfo user info0 ai q).
Proof. unfold processAIResponseForUserInfo. stable_auto. Qed.

Lemma total_on_world {A} (c : M world A) : total c -> total (on_world c).
Proof. apply total_zoom. Qed.
Lemma total_on_api {A} (c : M Gemini.api A) : total c -> total (on_api c).
Proof. apply total_zoom. Qed.
Lemma total_setS f : total (setS f).
Proof. apply total_modify. Qed.
Lemma total_now : total now.
Proof. apply total_gets. Qed.
#[local] Hint Resolve total_on_world total_on_api total_setS total_now : total.

Lemma loadUserInfo_total user : total (loadUserInfo user).
Proof. unfold loadUserInfo. total_auto. Qed.
#[local] Hint Resolve loadUserInfo_total : total.

Lemma processAI_total user info0 ai q : total (processAIResponseForUserInfo user info0 ai q).
Proof. unfold processAIResponseForUserInfo. total_auto. Qed.

Ltac arun := repeat progress (munfold; unfold setS, getS, now, on_world, on_api, generateUUID in *;
  cbn -[js_trim js_includes js_length js_truthy stream_text processAIResponseForUserInfo
        addChatMessage getUserInfo clearChatHistory Gemini.getGeminiStreamResponse
        processStreamResponse attemptGetResponse] in *).

(** What [processStreamResponse] shows. *)
Definition reply_content (st : Gemini.stream) : string :=
  if negb (js_truthy (stream_text st)) || (js_length (stream_text st) <? 5)
  then problem_text else stream_text st.

Lemma too_short_not_network :
  js_includes ("Error: " +:+ too_short_text) "network" ||
  js_includes ("Error: " +:+ too_short_text) "bağlantı" = false.
Proof. vm_compute. reflexivity. Qed.

Lemma processStreamResponse_run user info0 q st p :
  exists p', processStreamResponse user info0 q st p =
    (Ok (negb (negb (js_truthy (stream_text st)) || (js_length (stream_text st) <? 5))), p') /\
    messages p'.1 = messages p.1 ++ [{| cm_id := next_uuid p.1; cm_role := "assistant";
                                        cm_content := reply_content st; cm_timestamp := w_now p.2.1 |}] /\
    isLoading p'.1 = isLoading p.1 /\ newMessage p'.1 = newMessage p.1 /\ p'.2.2 = p.2.2.
Proof.
  destruct p as [s [w a]]. unfold processStreamResponse, reply_content.
  destruct (negb _ || _) eqn:G; arun.
  - rewrite too_short_not_network. eexists. split; [reflexivity|]. done.
  - destruct user as [u|]; [destruct (addChatMessage _ _ _) as [[?|?] w1]|];
    cbn -[processAIResponseForUserInfo addChatMessage];
    match goal with
    | |- context [processAIResponseForUserInfo ?us ?i ?f ?q' ?p0] =>
        pose proof (processAI_kept us i f q' (messages p0.1) (isLoading p0.1) (newMessage p0.1)
                      p0.2.2 (tget T_ai_chat_history (w_db p0.2.1)) p0
                      (conj eq_refl (conj eq_refl (conj eq_refl (conj eq_refl eq_refl))))) as K;
        destruct (processAIResponseForUserInfo us i f q' p0) as [[?|?] [s2 [w2 a2]]]
    end; destruct K as (K1 & K2 & K4 & K3 & _); cbn in *;
    eexists; (split; [reflexivity|]); split_and!; cbn; congruence.
Qed.

Lemma attemptGetResponse_run user s0 text p :
  exists p', attemptGetResponse user s0 text p = (Ok true, p') /\
    (exists m, messages p'.1 = messages p.1 ++ [m] /\ cm_role m = "assistant") /\
    isLoading p'.1 = isLoading p.1 /\ newMessage p'.1 = newMessage p.1 /\
    Gemini.api_calls p'.2.2 = S (Gemini.api_calls p.2.2).
Proof.
  destruct p as [s [w a]]. unfold attemptGetResponse. arun.
  match goal with |- context [Gemini.getGeminiStreamResponse ?x ?y ?z a] =>
    destruct (Gemini.getGeminiStreamResponse_run x y z a) as (st & a' & Hst & Hc); rewrite Hst
  end. cbn -[processStreamResponse].
  match goal with |- context [processStreamResponse ?us ?i ?q st ?p0] =>
    destruct (processStreamResponse_run us i q st p0) as (p' & E & Hm & Hl & Hn & Ha); rewrite E
  end. cbn in *.
  eexists. split; [reflexivity|]. split_and!; [eexists; split; [exact Hm|reflexivity]|done|done|].
  by rewrite Ha.
Qed.

(** ** Theorems *)

(** C1: a send always ends with exactly one answer: when the trimmed
    draft is not empty and no send is running, [handleSend] appends the
    user's message and exactly one assistant message (the answer or an
    error text), clears the draft, ends loading, and calls the API exactly
    once, whatever the API and the store do: the retry loop never runs,
    since [attemptGetResponse] cannot fail. *)
Theorem handleSend_answers_once u s w a :
  js_truthy (js_trim (newMessage s)) = true -> isLoading s = false ->
  let '(r, (s', (_, a'))) := handleSend (Some u) (s, (w, a)) in
  r = Ok () /\ isLoading s' = false /\ newMessage s' = "" /\
  Gemini.api_calls a' = S (Gemini.api_calls a) /\
  exists m, cm_role m = "assistant" /\
    messages s' = messages s ++ [{| cm_id := next_uuid s; cm_role := "user";
                                    cm_content := js_trim (newMessage s);
                                    cm_timestamp := w_now w |}; m].
Proof.
  intros Ht Hl. unfold handleSend. arun. rewrite Ht, Hl. arun.
  destruct (addChatMessage _ _ _) as [[?|?] w1]; arun;
  match goal with |- context [attemptGetResponse ?us ?s0 ?t ?p0] =>
    destruct (attemptGetResponse_run us s0 t p0) as ([s' [w' a']] & E & (m & Hm & Hr) & Hl' & Hn & Hc);
    rewrite E
  end; cbn in *; split_and!; try done.
  all: exists m; split; [done|]; rewrite Hm; cbn; by rewrite <-app_assoc.
Qed.

Lemma stream_text_empty : stream_text {| Gemini.st_text := Some "" |} = chunk_json (Some "").
Proof. reflexivity. Qed.

Lemma stream_text_none : stream_text {| Gemini.st_text := None |} = "{}".
Proof. reflexivity. Qed.

(** C4: an answer whose text is empty or missing is not recognised: an
    empty text is read through the iterator branch, where the chunk
    [{ text: "" }] is turned into its JSON text, so the chat shows and
    stores the 11 characters [{"text":""}] as the coach's answer; a
    missing text gives [{}], too short, and the apology is shown, with
    nothing stored. *)
Theorem empty_answer_shown_as_json u info0 q s w a :
  calm w ->
  (let '(r, (s', (w', _))) :=
     processStreamResponse (Some u) info0 q {| Gemini.st_text := Some "" |} (s, (w, a)) in
   r = Ok true /\
   messages s' = messages s ++ [{| cm_id := next_uuid s; cm_role := "assistant";
                                   cm_content := chunk_json (Some ""); cm_timestamp := w_now w |}] /\
   tget T_ai_chat_history (w_db w') !! w_next_id w =
     Some {| ai_user_id := u; ai_role := "assistant"; ai_content := chunk_json (Some "");
             ai_created_at := w_now w |}) /\
  (let '(r, (s', (w', _))) :=
     processStreamResponse (Some u) info0 q {| Gemini.st_text := None |} (s, (w, a)) in
   r = Ok false /\ w' = w /\
   messages s' = messages s ++ [{| cm_id := next_uuid s; cm_role := "assistant";
                                   cm_content := problem_text; cm_timestamp := w_now w |}]).
Proof.
  intros Hc. split.
  - unfold processStreamResponse. rewrite stream_text_empty.
    change (negb (js_truthy (chunk_json (Some ""))) || (js_length (chunk_json (Some "")) <? 5))
      with false. arun.
    rewrite addChatMessage_calm by done. arun.
    match goal with
    | |- context [processAIResponseForUserInfo ?us ?i ?f ?q' ?p0] =>
        pose proof (processAI_kept us i f q' (messages p0.1) (isLoading p0.1) (newMessage p0.1)
                      p0.2.2 (tget T_ai_chat_history (w_db p0.2.1)) p0
                      (conj eq_refl (conj eq_refl (conj eq_refl (conj eq_refl eq_refl))))) as K;
        destruct (processAIResponseForUserInfo us i f q' p0) as [[?|?] [s2 [w2 a2]]]
    end; destruct K as (K1 & _ & _ & _ & K5); unfold on_db, hist_is in K5; cbn in *.
    all: split_and!; [done|done|]; rewrite K5, tget_tset; apply lookup_insert_eq.
  - unfold processStreamResponse. rewrite stream_text_none.
    change (negb (js_truthy "{}") || (js_length "{}" <? 5)) with true. arun.
    rewrite too_short_not_network. by split_and!.
Qed.

(** The fuel of [for_await]: the loop over the one-shot stream ends after
    its one chunk, with the same result for any fuel from 2 on (the
    handler gives 2), while 1 is not enough (the second [next] is what
    reports [done]). *)
Lemma for_await_one_chunk fuel t acc :
  2 <= fuel ->
  for_await fuel t false acc = Some (acc +:+ chunk_text t) /\ for_await 1 t false acc = None.
Proof. intros H. destruct fuel as [|[|f]]; [lia|lia|]. split; reflexivity. Qed.

(** C5: clearing the chat leaves two stored greetings: the service's
    [clearChatHistory] deletes every row of the user whose role is not
    'greeting' (no row has that role: greetings are stored as
    'assistant') and stores a greeting, then [handleClearChat] stores
    [GREETING_MESSAGE] again; the screen shows one greeting. *)
Theorem clear_chat_stores_two_greetings u loaded_at s w a :
  calm w ->
  map_Forall (fun _ r => ai_user_id r = u -> ai_role r <> "greeting")
             (tget T_ai_chat_history (w_db w)) ->
  let '(r, (s', (w', _))) := handleClearChat (Some u) loaded_at (s, (w, a)) in
  r = Ok () /\ messages s' = [greeting_at loaded_at (w_now w)] /\
  tget T_ai_chat_history (w_db w') !! w_next_id w = Some (greeting_row u (w_now w)) /\
  tget T_ai_chat_history (w_db w') !! N.succ (w_next_id w) = Some (greeting_row u loaded_at) /\
  forall k r, tget T_ai_chat_history (w_db w') !! k = Some r -> ai_user_id r = u ->
              k = w_next_id w \/ k = N.succ (w_next_id w).
Proof.
  intros Hc Hg. unfold handleClearChat. arun.
  destruct (clearChatHistory_calm u w Hc) as (w1 & E & Hc1 & Hn & Ht & Hh). rewrite E. arun.
  rewrite addChatMessage_calm by done. arun. rewrite !tget_tset, Hn, Ht, Hh.
  split_and!; [done|done| |apply lookup_insert_eq|].
  - rewrite lookup_insert_ne by lia. apply lookup_insert_eq.
  - intros k r Hk Hu. destruct (decide (k = N.succ (w_next_id w))) as [->|Hk1]; [by right|].
    rewrite lookup_insert_ne in Hk by done.
    destruct (decide (k = w_next_id w)) as [->|Hk2]; [by left|].
    rewrite lookup_insert_ne, lookup_filter_false in Hk by done.
    destruct (tget T_ai_chat_history (w_db w) !! k) as [r0|] eqn:E0; [|done].
    cbn in Hk. pose proof (map_Forall_lookup_1 _ _ k r0 Hg E0) as Hg0.
    destruct (bool_decide (ai_user_id r0 = u)) eqn:Hb; cbn in Hk.
    + apply bool_decide_eq_true in Hb. destruct (String.eqb_spec (ai_role r0) "greeting"); [by exfalso; apply Hg0|done].
    + destruct (String.eqb (ai_role r0) "greeting"); simplify_eq/=; apply bool_decide_eq_false in Hb; congruence.
Qed.

(** ** Witnesses *)

Definition demo_api (answer : option string) : Gemini.api :=
  {| Gemini.api_reply := fun _ => Gemini.Answer answer; Gemini.api_calls := 0;
     Gemini.api_sent := [] |}.

Definition demo_world : world :=
  {| w_db := empty_db; w_now := 1000; w_next_id := 1; w_auth := Some 1%N; w_faults := [];
     w_log := [] |}.

Definition demo_screen : screen := set_newMessage " Merhaba " screen0.

Example handleSend_answers_once_witness :
  js_truthy (js_trim (newMessage demo_screen)) = true /\ isLoading demo_screen = false /\
  (let '(r, (s', (_, a'))) := handleSend (Some 1%N) (demo_screen, (demo_world, demo_api None)) in
   r = Ok () /\ isLoading s' = false /\ newMessage s' = "" /\
   Gemini.api_calls a' = S (Gemini.api_calls (demo_api None)) /\
   exists m, cm_role m = "assistant" /\
     messages s' = messages demo_screen ++
       [{| cm_id := next_uuid demo_screen; cm_role := "user";
           cm_content := js_trim (newMessage demo_screen); cm_timestamp := w_now demo_world |}; m]).
Proof.
  split; [vm_compute; reflexivity|]. split; [reflexivity|].
  apply handleSend_answers_once; [vm_compute; reflexivity|reflexivity].
Defined.

Example empty_answer_shown_as_json_witness :
  calm demo_world /\
  (let '(r, (s', (w', _))) :=
     processStreamResponse (Some 1%N) None "Merhaba" {| Gemini.st_text := Some "" |}
       (demo_screen, (demo_world, demo_api (Some ""))) in
   r = Ok true /\
   messages s' = messages demo_screen ++
     [{| cm_id := next_uuid demo_screen; cm_role := "assistant";
         cm_content := chunk_json (Some ""); cm_timestamp := w_now demo_world |}] /\
   tget T_ai_chat_history (w_db w') !! w_next_id demo_world =
     Some {| ai_user_id := 1; ai_role := "assistant"; ai_content := chunk_json (Some "");
             ai_created_at := w_now demo_world |}) /\
  (let '(r, (s', (w', _))) :=
     processStreamResponse (Some 1%N) None "Merhaba" {| Gemini.st_text := None |}
       (demo_screen, (demo_world, demo_api (Some ""))) in
   r = Ok false /\ w' = demo_world /\
   messages s' = messages demo_screen ++
     [{| cm_id := next_uuid demo_screen; cm_role := "assistant";
         cm_content := problem_text; cm_timestamp := w_now demo_world |}]).
Proof. split; [reflexivity|]. apply empty_answer_shown_as_json. reflexivity. Defined.

Example clear_chat_stores_two_greetings_witness :
  calm history_world /\
  map_Forall (fun _ r => ai_user_id r = 1%N -> ai_role r <> "greeting")
             (tget T_ai_chat_history (w_db history_world)) /\
  (let '(r, (s', (w', _))) := handleClearChat (Some 1%N) 5 (demo_screen, (history_world, demo_api None)) in
   r = Ok () /\ messages s' = [greeting_at 5 (w_now history_world)] /\
   tget T_ai_chat_history (w_db w') !! w_next_id history_world =
     Some (greeting_row 1 (w_now history_world)) /\
   tget T_ai_chat_history (w_db w') !! N.succ (w_next_id history_world) = Some (greeting_row 1 5) /\
   forall k r, tget T_ai_chat_history (w_db w') !! k = Some r -> ai_user_id r = 1%N ->
               k = w_next_id history_world \/ k = N.succ (w_next_id history_world)).
Proof.
  split; [reflexivity|]. split; [apply (bool_decide_unpack _); vm_compute; reflexivity|].
  apply clear_chat_stores_two_greetings; [reflexivity|apply (bool_decide_unpack _); vm_compute; reflexivity].
Defined.

End AiChat.
