(* ===== verification/Profile.v ===== *)
(** * The profile tab (app/(tabs)/profile.tsx)

    [ProfileScreen] keeps the signed-in user's statistics in React state
    ([totalStudyTime], [messageCount], [userData], [profilePhotoUrl],
    [unlockedAchievements]); [fetchUserStats], [fetchProfilePhoto] and
    [checkAchievements] fill it from the store, on mount and on four change
    feeds.  The feeds are subscribed in a [useEffect] keyed on [user?.id],
    so every callback, and the mount itself, runs the handlers of the render
    in which the effect ran: [checkAchievements] reads the [totalStudyTime]
    of that render, not the current one.  The model makes that captured
    value an argument of [checkAchievements].

    The screen's state is [profile_screen] paired with the store's [world];
    [SettingsItem]'s own [showNotification] state (only the Pro item ever
    sets it) is a field of the screen. *)

From stdpp Require Import sorting.
From S2P Require Import Core Backend StudyTimer.

Module Profile.

(** ** [ACHIEVEMENTS] and [getRankInfo] *)

Inductive achievement := STUDY_MASTER | BRAIN_POWER | BOOKWORM | FOCUSED.

(** [Object.values(ACHIEVEMENTS)], in declaration order. *)
Definition ACHIEVEMENTS : list achievement := [STUDY_MASTER; BRAIN_POWER; BOOKWORM; FOCUSED].

Inductive color := MedalGold | MedalSilver | MedalBronze | TextSecondary | Primary400.

Definition achievement_id (a : achievement) : string :=
  match a with
  | STUDY_MASTER => "study_master" | BRAIN_POWER => "brain_power"
  | BOOKWORM => "bookworm" | FOCUSED => "focused"
  end.

Definition achievement_title (a : achievement) : string :=
  match a with
  | STUDY_MASTER => "Çalışma Ustası" | BRAIN_POWER => "Beyin Gücü"
  | BOOKWORM => "Kitap Kurdu" | FOCUSED => "Odaklanmış"
  end.

Definition achievement_description (a : achievement) : string :=
  match a with
  | STUDY_MASTER => "10 saat kesintisiz çalışma" | BRAIN_POWER => "100 soru çözümü"
  | BOOKWORM => "50 saat toplam çalışma" | FOCUSED => "5 gün üst üste çalışma"
  end.

Definition achievement_color (a : achievement) : color :=
  match a with
  | STUDY_MASTER => MedalGold | BRAIN_POWER => MedalSilver
  | BOOKWORM => MedalBronze | FOCUSED => Primary400
  end.

(** [getRankInfo(messageCount)]: the rank's title and colour. *)
Definition getRankInfo (messageCount : nat) : string * color :=
  if 200 <=? messageCount then ("Profesör", MedalGold)
  else if 100 <=? messageCount then ("Doçent", MedalSilver)
  else if 20 <=? messageCount then ("Öğrenci", MedalBronze)
  else ("Çaylak", TextSecondary).

(** ** The screen's state *)

Record profile_screen := {
  totalStudyTime : Z;
  messageCount : nat;
  userData : option user_row;
  profilePhotoUrl : option string;
  unlockedAchievements : list string;
  showNotification : bool;
  routes : list string;
}.

(** The state of the first render: every [useState] initial value. *)
Definition profile_screen0 : profile_screen :=
  {| totalStudyTime := 0; messageCount := 0; userData := None; profilePhotoUrl := None;
     unlockedAchievements := []; showNotification := false; routes := [] |}.

Definition set_totalStudyTime (x : Z) (s : profile_screen) : profile_screen :=
  {| totalStudyTime := x; messageCount := messageCount s; userData := userData s;
     profilePhotoUrl := profilePhotoUrl s; unlockedAchievements := unlockedAchievements s;
     showNotification := showNotification s; routes := routes s |}.
Definition set_messageCount (x : nat) (s : profile_screen) : profile_screen :=
  {| totalStudyTime := totalStudyTime s; messageCount := x; userData := userData s;
     profilePhotoUrl := profilePhotoUrl s; unlockedAchievements := unlockedAchievements s;
     showNotification := showNotification s; routes := routes s |}.
Definition set_userData (x : option user_row) (s : profile_screen) : profile_screen :=
  {| totalStudyTime := totalStudyTime s; messageCount := messageCount s; userData := x;
     profilePhotoUrl := profilePhotoUrl s; unlockedAchievements := unlockedAchievements s;
     showNotification := showNotification s; routes := routes s |}.
Definition set_profilePhotoUrl (x : option string) (s : profile_screen) : profile_screen :=
  {| totalStudyTime := totalStudyTime s; messageCount := messageCount s; userData := userData s;
     profilePhotoUrl := x; unlockedAchievements := unlockedAchievements s;
     showNotification := showNotification s; routes := routes s |}.
Definition set_unlockedAchievements (x : list string) (s : profile_screen) : profile_screen :=
  {| totalStudyTime := totalStudyTime s; messageCount := messageCount s; userData := userData s;
     profilePhotoUrl := profilePhotoUrl s; unlockedAchievements := x;
     showNotification := showNotification s; routes := routes s |}.
Definition set_showNotification (x : bool) (s : profile_screen) : profile_screen :=
  {| totalStudyTime := totalStudyTime s; messageCount := messageCount s; userData := userData s;
     profilePhotoUrl := profilePhotoUrl s; unlockedAchievements := unlockedAchievements s;
     showNotification := x; routes := routes s |}.
(** [router.push(path)] *)
Definition push_route (path : string) (s : profile_screen) : profile_screen :=
  {| totalStudyTime := totalStudyTime s; messageCount := messageCount s; userData := userData s;
     profilePhotoUrl := profilePhotoUrl s; unlockedAchievements := unlockedAchievements s;
     showNotification := showNotification s; routes := path :: routes s |}.

Abbreviation PM := (M (profile_screen * world)).

(** [const { data } = await ...] without looking at [error]: [null] on an
    error. *)
Definition data_of {A} (r : resp A) : option A :=
  match r with Data a => Some a | DbError _ => None end.

(** ** The queries' orders *)

(** [.order('duration', { ascending: false })] *)
Definition longest_first (a b : uuid * study_session) : Prop :=
  (ss_duration b.2 <= ss_duration a.2)%Z.
#[export] Instance longest_first_dec : RelDecision longest_first.
Proof. intros a b. unfold longest_first. apply _. Defined.

(** [.order('created_at', { ascending: false })] *)
Definition newest_first (a b : uuid * study_session) : Prop :=
  (ss_created_at b.2 <= ss_created_at a.2)%Z.
#[export] Instance newest_first_dec : RelDecision newest_first.
Proof. intros a b. unfold newest_first. apply _. Defined.

(** ** The streak of [checkAchievements] *)

(** [1000 * 60 * 60 * 24] *)
Definition day_ms : Z := 1000 * 60 * 60 * 24.

(** [Math.floor((lastDate.getTime() - currentDate.getTime()) / day_ms)] *)
Definition diffDays (lastDate currentDate : timestamp) : Z :=
  ((lastDate - currentDate) / day_ms)%Z.

(** The [for (let i = 1; ...)] loop from [streak] and [lastDate] over the
    remaining dates: [true] when it pushes [FOCUSED] (and breaks). *)
Fixpoint streak_loop (streak : nat) (lastDate : timestamp) (rest : list timestamp) : bool :=
  match rest with
  | [] => false
  | currentDate :: rest' =>
      let d := diffDays lastDate currentDate in
      if (d =? 1)%Z then
        if 5 <=? S streak then true else streak_loop (S streak) currentDate rest'
      else if (1 <? d)%Z then streak_loop 1 currentDate rest'
      else streak_loop streak currentDate rest'
  end.

(** [let streak = 1; let lastDate = new Date(consecutiveDays[0]?.created_at)]
    and the loop; an empty list runs no iteration. *)
Definition focused_check (consecutiveDays : list timestamp) : bool :=
  match consecutiveDays with
  | [] => false
  | d0 :: ds => streak_loop 1 d0 ds
  end.

(** ** The handlers *)

Section Screen.
Variable user : option uuid.

(** [fetchProfilePhoto]: [data?.photo_url || null]; errors are logged. *)
Definition fetchProfilePhoto : PM unit :=
  match user with
  | None => mret ()
  | Some u =>
      try! (
        r <- on_snd (select_maybe T_profile_photos u) ;;
        data <- or_throw r ;;
        setL (set_profilePhotoUrl
                match data with
                | Some p => if js_truthy (pp_photo_url p) then Some (pp_photo_url p) else None
                | None => None
                end))
      catch! _ => mret ()
  end.

(** [fetchUserStats]: the three reads ignore their [error]s. *)
Definition fetchUserStats : PM unit :=
  match user with
  | None => mret ()
  | Some u =>
      try! (
        userProfile <- on_snd (select_single T_users u) ;;
        setL (set_userData (data_of userProfile)) ;;
        fetchProfilePhoto ;;
        studyData <- on_snd (select_maybe T_study_leaderboard u) ;;
        setL (set_totalStudyTime
                match mjoin (data_of studyData) with
                | Some row => default 0%Z (lb_total_duration row)
                | None => 0%Z
                end) ;;
        count <- on_snd (select_count T_chat_messages (fun _ m => bool_decide (msg_user_id m = u))) ;;
        setL (set_messageCount (default 0 (data_of count))))
      catch! _ => mret ()
  end.

(** The user's sessions, [.eq('user_id', user.id)]. *)
Definition own_session (u : uuid) (_ : uuid) (s : study_session) : bool :=
  bool_decide (ss_user_id s = u).

(** [checkAchievements], with [totalStudyTime] the value of the render whose
    handler runs; [unlocked.push(..)] appends. *)
Definition checkAchievements (totalStudyTime : Z) : PM unit :=
  match user with
  | None => mret ()
  | Some u =>
      try! (
        sessions <- on_snd (select_where T_study_sessions (own_session u)) ;;
        let longestSession := data_of sessions ≫= fun rows => head (merge_sort longest_first rows) in
        let unlocked :=
          match longestSession with
          | Some (_, s) => if (600 <=? ss_duration s)%Z then [achievement_id STUDY_MASTER] else []
          | None => []
          end in
        let unlocked :=
          if (3000 <=? totalStudyTime)%Z then unlocked ++ [achievement_id BOOKWORM] else unlocked in
        solved <- on_snd (select_count T_ai_chat_messages (fun _ m => bool_decide (ai_user_id m = u))) ;;
        let unlocked :=
          match data_of solved with
          | Some n => if 100 <=? n then unlocked ++ [achievement_id BRAIN_POWER] else unlocked
          | None => unlocked
          end in
        days <- on_snd (select_where T_study_sessions (own_session u)) ;;
        let unlocked :=
          match data_of days with
          | Some rows =>
              if focused_check ((fun r => ss_created_at r.2) <$> merge_sort newest_first rows)
              then unlocked ++ [achievement_id FOCUSED] else unlocked
          | None => unlocked
          end in
        setL (set_unlockedAchievements unlocked))
      catch! _ => mret ()
  end.

(** [router.push] of the four settings handlers. *)
Definition handleAccountSettings : PM unit := setL (push_route "/account-settings").
Definition handleNotificationSettings : PM unit := setL (push_route "/notification-settings").
Definition handleUpgradePro : PM unit := setL (push_route "/pro-upgrade").
Definition handleHelpSupport : PM unit := setL (push_route "/help-support").

(** The four [SettingsItem]s of the screen. *)
Inductive item := AccountItem | NotificationItem | ProItem | HelpItem.

Definition item_onPress (i : item) : PM unit :=
  match i with
  | AccountItem => handleAccountSettings
  | NotificationItem => handleNotificationSettings
  | ProItem => handleUpgradePro
  | HelpItem => handleHelpSupport
  end.

(** [showProBadge={userData?.is_pro}]: only the Pro item has it. *)
Definition item_showProBadge (s : profile_screen) (i : item) : bool :=
  match i with
  | ProItem => default false (u_is_pro <$> userData s)
  | _ => false
  end.

(** [SettingsItem]'s [handlePress]: with the badge, the notification shows
    (a timer hides it after 2500 ms); otherwise [onPress]. *)
Definition handlePress (showProBadge : bool) (onPress : PM unit) : PM unit :=
  if showProBadge then setL (set_showNotification true) else onPress.

Definition pressItem (i : item) : PM unit :=
  s <- getL ;; handlePress (item_showProBadge s i) (item_onPress i).

(** What reaches the mounted screen: the four change feeds, the header's
    settings button, a settings item, the notification's timer. *)
Inductive event :=
  | UserUpdate | StudyUpdate | MessageUpdate | PhotoUpdate
  | SettingsButton | Press (i : item) | NotificationTimeout.

(** The effect's callbacks, with the effect render's [totalStudyTime]. *)
Definition run_event (captured : Z) (e : event) : PM unit :=
  match e with
  | UserUpdate | MessageUpdate => fetchUserStats
  | StudyUpdate => fetchUserStats ;; checkAchievements captured
  | PhotoUpdate => fetchProfilePhoto
  | SettingsButton => handleAccountSettings
  | Press i => pressItem i
  | NotificationTimeout => setL (set_showNotification false)
  end.

Fixpoint run_events (captured : Z) (es : list event) : PM unit :=
  match es with
  | [] => mret ()
  | e :: es' => run_event captured e ;; run_events captured es'
  end.

(** The effect body: [fetchUserStats(); checkAchievements();].  Both only
    read the store and set state the other does not read, so their
    interleaving at [await]s changes nothing but which call meets which
    entry of the fault schedule; they are run one after the other. *)
Definition mount (captured : Z) : PM unit :=
  fetchUserStats ;; checkAchievements captured.

(** The screen's life: the effect runs after the first render and never
    again, since [user?.id] is fixed. *)
Definition profile_session (es : list event) : PM unit :=
  mount (totalStudyTime profile_screen0) ;; run_events (totalStudyTime profile_screen0) es.
End Screen.

(** ** What the screen shows *)

Definition default_photo : string :=
  "https://images.pexels.com/photos/771742/pexels-photo-771742.jpeg?auto=compress&cs=tinysrgb&w=1260&h=750&dpr=1".

(** [formatStudyTime]: whole hours of a duration in minutes. *)
Definition formatStudyTime (minutes : Z) : string :=
  js_number_to_string (minutes / 60)%Z.

Record profile_view := {
  pv_photo : string;
  pv_crowns : bool;
  pv_name : string;
  pv_stats : list (string * string);
  pv_rank_color : color;
  pv_achievements : list (string * string * bool);
  pv_settings : list string;
}.

Definition is_pro (s : profile_screen) : bool := default false (u_is_pro <$> userData s).

(** The title of a [SettingsItem]. *)
Definition item_title (s : profile_screen) (i : item) : string :=
  match i with
  | AccountItem => "Hesap Ayarları"
  | NotificationItem => "Bildirimler"
  | ProItem => if is_pro s then "Pro Kullanıcı" else "Pro'ya Yükselt"
  | HelpItem => "Yardım & Destek"
  end.

(** The JSX of [ProfileScreen]: the photo or the default one, the name or
    "Misafir" between two crowns for a Pro user, the three stat cards, an
    [AchievementCard] per achievement, the four settings items. *)
Definition profile_render (s : profile_screen) : profile_view :=
  let rankInfo := getRankInfo (messageCount s) in
  {| pv_photo := match profilePhotoUrl s with
                 | Some url => if js_truthy url then url else default_photo
                 | None => default_photo
                 end;
     pv_crowns := is_pro s;
     pv_name := match userData s ≫= u_name with
                | Some n => if js_truthy n then n else "Misafir"
                | None => "Misafir"
                end;
     pv_stats := [("Çalışma Saati", formatStudyTime (totalStudyTime s));
                  ("Mesajlar", js_number_to_string (Z.of_nat (messageCount s)));
                  ("Rütbe", rankInfo.1)];
     pv_rank_color := rankInfo.2;
     pv_achievements :=
       (fun a => (achievement_title a, achievement_description a,
                  bool_decide (achievement_id a ∈ unlockedAchievements s))) <$> ACHIEVEMENTS;
     pv_settings := item_title s <$> [AccountItem; NotificationItem; ProItem; HelpItem] |}.

(** ** Lemmas *)

(** The ids [checkAchievements] can push, in push order, for a given
    captured [totalStudyTime]. *)
Definition pushable (captured : Z) : list string :=
  [achievement_id STUDY_MASTER] ++
  (if (3000 <=? captured)%Z then [achievement_id BOOKWORM] else []) ++
  [achievement_id BRAIN_POWER; achievement_id FOCUSED].

(** Every id in push order. *)
Definition all_ids : list string :=
  achievement_id <$> [STUDY_MASTER; BOOKWORM; BRAIN_POWER; FOCUSED].

Lemma stable_and {S A} (P Q : S -> Prop) (c : M S A) :
  stable P c -> stable Q c -> stable (fun s => P s /\ Q s) c.
Proof. intros HP HQ s [Hp Hq]. split; [by apply HP|by apply HQ]. Qed.

(** A predicate on the screen that every setter but one keeps. *)
Definition unlocked_in (L : list string) (p : profile_screen * world) : Prop :=
  unlockedAchievements p.1 `sublist_of` L.

#[local] Hint Extern 1 (stable (unlocked_in ?L) (on_snd _)) =>
  apply (stable_on_snd_fst (fun s => unlockedAchievements s `sublist_of` L)) : stable.
#[local] Hint Extern 1 (stable (unlocked_in ?L) getL) =>
  apply (stable_getL_fst (fun s => unlockedAchievements s `sublist_of` L)) : stable.
#[local] Hint Extern 1 (stable (unlocked_in ?L) (setL _)) =>
  apply (stable_setL_fst (fun s => unlockedAchievements s `sublist_of` L));
  intros ? ?; assumption : stable.

Lemma fetchProfilePhoto_unlocked user L : stable (unlocked_in L) (fetchProfilePhoto user).
Proof. unfold fetchProfilePhoto, or_throw. stable_auto. Qed.

Lemma fetchUserStats_unlocked user L : stable (unlocked_in L) (fetchUserStats user).
Proof.
  unfold fetchUserStats. stable_auto. apply fetchProfilePhoto_unlocked.
Qed.

(** [checkAchievements] sets a sublist of what it can push. *)
Lemma checkAchievements_unlocked user c L :
  pushable c `sublist_of` L -> stable (unlocked_in L) (checkAchievements user c).
Proof.
  intros HL. unfold checkAchievements. stable_auto.
  apply (stable_setL_fst (fun s => unlockedAchievements s `sublist_of` _)).
  intros ? _. etrans; [|exact HL]. unfold pushable.
  repeat case_match; cbn [app]; repeat constructor.
Qed.

Lemma pushable_all_ids c : pushable c `sublist_of` all_ids.
Proof. unfold pushable. case_match; cbn; repeat constructor. Qed.

Lemma run_events_unlocked user c L es :
  pushable c `sublist_of` L -> stable (unlocked_in L) (run_events user c es).
Proof.
  intros HL. induction es as [|e es IH]; cbn -[pushable]; [auto with stable|].
  apply stable_bind; [|done]. destruct e; cbn -[pushable]; try destruct i;
    unfold pressItem, handlePress, item_onPress, handleAccountSettings, handleNotificationSettings,
      handleUpgradePro, handleHelpSupport;
    stable_auto; auto using fetchUserStats_unlocked, fetchProfilePhoto_unlocked,
      checkAchievements_unlocked.
Qed.

Lemma session_unlocked user c L es :
  pushable c `sublist_of` L -> stable (unlocked_in L) (mount user c;; run_events user c es).
Proof.
  intros HL. apply stable_bind; [|intros; by apply run_events_unlocked].
  apply stable_bind; [apply fetchUserStats_unlocked|intros; by apply checkAchievements_unlocked].
Qed.

(** ** The streak, declaratively *)

(** The whole days between consecutive dates, as the loop computes them. *)
Fixpoint day_gaps (l : list timestamp) : list Z :=
  match l with
  | d1 :: ((d2 :: _) as l') => diffDays d1 d2 :: day_gaps l'
  | _ => []
  end.

(** The gaps of exactly one day. *)
Definition ones (seg : list Z) : nat := length (filter (fun g => g = 1%Z) seg).

(** A first stretch of gaps, none over a day, whose one-day gaps bring a
    streak that starts at [s] to five. *)
Definition prefix_run (s : nat) (gs : list Z) : Prop :=
  exists seg post, gs = seg ++ post /\ Forall (fun g => g <= 1)%Z seg /\ 5 <= s + ones seg.

(** The reference: some stretch of consecutive gaps, none over a day, has
    four gaps of exactly one day. *)
Definition gaps_spec (gs : list Z) : Prop :=
  exists pre seg post, gs = pre ++ seg ++ post /\ Forall (fun g => g <= 1)%Z seg /\ 4 <= ones seg.

Lemma prefix_run_nil s : prefix_run s [] <-> 5 <= s.
Proof.
  split.
  - intros (seg & post & Hs & _ & Hn). symmetry in Hs. apply app_nil in Hs as [-> ->].
    unfold ones in Hn. cbn in Hn. lia.
  - intros Hs. exists [], []. unfold ones. cbn. split_and!; [done|constructor|lia].
Qed.

Lemma prefix_run_cons s g gs :
  prefix_run s (g :: gs) <->
  5 <= s \/ ((g <= 1)%Z /\ prefix_run (s + if bool_decide (g = 1%Z) then 1 else 0) gs).
Proof.
  unfold prefix_run, ones. split.
  - intros ([|g' seg] & post & Hs & Hf & Hn); cbn in Hs; [cbn in Hn; left; lia|right].
    injection Hs as -> ->. apply Forall_cons in Hf as [Hg Hf]. split; [done|].
    exists seg, post. split_and!; [done|done|]. rewrite filter_cons in Hn.
    case_bool_decide; case_decide; cbn in *; lia.
  - intros [Hs|[Hg (seg & post & -> & Hf & Hn)]].
    + exists [], (g :: gs). cbn. split_and!; [done|constructor|lia].
    + exists (g :: seg), post. split_and!; [done|by constructor|]. rewrite filter_cons.
      case_bool_decide; case_decide; cbn in *; lia.
Qed.

Lemma gaps_spec_nil : ~ gaps_spec [].
Proof.
  intros (pre & seg & post & Hs & _ & Hn). symmetry in Hs.
  apply app_nil in Hs as [_ Hs]. apply app_nil in Hs as [-> _]. unfold ones in Hn. cbn in Hn. lia.
Qed.

Lemma gaps_spec_cons g gs : gaps_spec (g :: gs) <-> prefix_run 1 (g :: gs) \/ gaps_spec gs.
Proof.
  split.
  - intros ([|g' pre] & seg & post & Hs & Hf & Hn); cbn in Hs.
    + left. exists seg, post. split_and!; [done|done|lia].
    + right. injection Hs as _ ->. by exists pre, seg, post.
  - intros [(seg & post & Hs & Hf & Hn)|(pre & seg & post & -> & Hf & Hn)].
    + exists [], seg, post. split_and!; [done|done|lia].
    + by exists (g :: pre), seg, post.
Qed.

Lemma prefix_run_mono s s' gs : s <= s' -> prefix_run s gs -> prefix_run s' gs.
Proof. intros ? (seg & post & ? & ? & ?). exists seg, post. split_and!; [done|done|lia]. Qed.

Lemma prefix_run_gaps_spec gs : prefix_run 1 gs -> gaps_spec gs.
Proof. intros (seg & post & ? & ? & ?). exists [], seg, post. split_and!; [done|done|lia]. Qed.

Lemma day_gaps_cons2 d1 d2 l : day_gaps (d1 :: d2 :: l) = diffDays d1 d2 :: day_gaps (d2 :: l).
Proof. reflexivity. Qed.

Lemma streak_loop_cons s last d rest :
  streak_loop s last (d :: rest) =
  if (diffDays last d =? 1)%Z then
    if 5 <=? S s then true else streak_loop (S s) d rest
  else if (1 <? diffDays last d)%Z then streak_loop 1 d rest
  else streak_loop s d rest.
Proof. reflexivity. Qed.

Lemma prefix_run_full s gs : 5 <= s -> prefix_run s gs.
Proof. intros. exists [], gs. unfold ones. cbn. split_and!; [done|constructor|lia]. Qed.

(** The loop from a streak of [s] days. *)
Lemma streak_loop_iff s last rest :
  1 <= s <= 4 ->
  streak_loop s last rest = true <->
  prefix_run s (day_gaps (last :: rest)) \/ gaps_spec (day_gaps (last :: rest)).
Proof.
  revert s last. induction rest as [|d rest IH]; intros s last Hs.
  { cbn. rewrite prefix_run_nil. pose proof gaps_spec_nil. intuition (lia || discriminate). }
  rewrite streak_loop_cons, day_gaps_cons2, gaps_spec_cons, !prefix_run_cons.
  set (gs := day_gaps (d :: rest)).
  destruct (Z.eqb_spec (diffDays last d) 1) as [H1|H1].
  - rewrite bool_decide_true by done.
    pose proof (prefix_run_mono (1 + 1) (s + 1) gs ltac:(lia)).
    destruct (Nat.leb_spec 5 (S s)).
    + pose proof (prefix_run_full (s + 1) gs ltac:(lia)). intuition lia.
    + rewrite IH by lia. replace (S s) with (s + 1) by lia. intuition lia.
  - rewrite bool_decide_false by done.
    pose proof (prefix_run_mono (1 + 0) (s + 0) gs ltac:(lia)).
    destruct (Z.ltb_spec 1 (diffDays last d)).
    + rewrite IH by lia. pose proof (prefix_run_gaps_spec gs). intuition lia.
    + rewrite IH by lia. replace (s + 0) with s in * by lia. intuition lia.
Qed.

Lemma diffDays_from t b : diffDays t (t - b) = (b / day_ms)%Z.
Proof. unfold diffDays. f_equal. lia. Qed.

Lemma diffDays_shift t a b : diffDays (t - a) (t - b) = ((b - a) / day_ms)%Z.
Proof. unfold diffDays. f_equal. lia. Qed.

(** ** Theorems *)

(** C32: [checkAchievements]'s streak loop unlocks FOCUSED exactly when some
    stretch of consecutive gaps between the user's sessions (newest
    first, in whole days rounded down) has no gap over one day and four
    gaps of exactly one day: gaps of zero days neither count nor reset. *)
Theorem focused_check_spec (l : list timestamp) :
  focused_check l = true <-> gaps_spec (day_gaps l).
Proof.
  destruct l as [|d0 ds]; cbn [focused_check].
  - pose proof gaps_spec_nil. split; [discriminate|done].
  - rewrite streak_loop_iff by lia. pose proof (prefix_run_gaps_spec (day_gaps (d0 :: ds))). tauto.
Qed.

(** FOCUSED ("5 gün üst üste çalışma", five days in a row) counts
    24-hour periods between sessions, not calendar days: five sessions 23
    hours apart, which fall on five consecutive days, never unlock it,
    while five sessions 47 hours apart, on every other day, always do. *)
Lemma focused_counts_24h_periods (t : timestamp) :
  focused_check [t; t - 82800000; t - 165600000; t - 248400000; t - 331200000]%Z = false /\
  focused_check [t; t - 169200000; t - 338400000; t - 507600000; t - 676800000]%Z = true.
Proof.
  unfold focused_check. rewrite !streak_loop_cons, !diffDays_from, !diffDays_shift.
  split; reflexivity.
Qed.

(** C33: on every run of the profile screen, whatever [totalStudyTime] its
    handlers captured, the unlocked achievements are ids of ACHIEVEMENTS,
    each at most once, in the order [checkAchievements] pushes them. *)
Theorem unlocked_well_typed user c es s w :
  unlockedAchievements s `sublist_of` all_ids ->
  let u := unlockedAchievements ((mount user c;; run_events user c es) (s, w)).2.1 in
  u `sublist_of` all_ids /\ NoDup u.
Proof.
  intros Hs u. assert (Hu : u `sublist_of` all_ids).
  { apply (session_unlocked user c all_ids es (pushable_all_ids c) (s, w) Hs). }
  split; [done|]. eapply sublist_NoDup; [|exact Hu]. apply (bool_decide_unpack _). vm_compute. reflexivity.
Qed.

(** C30: BOOKWORM ("50 saat toplam çalışma") is never unlocked on the
    profile screen: the mount and the study feed's callback run the
    [checkAchievements] of the first render, whose [totalStudyTime] is the
    initial 0, whatever the study leaderboard holds. *)
Theorem bookworm_never_unlocked user es w :
  achievement_id BOOKWORM ∉ unlockedAchievements (profile_session user es (profile_screen0, w)).2.1.
Proof.
  intros Hin.
  assert (Hu : unlocked_in (pushable 0) (profile_session user es (profile_screen0, w)).2).
  { apply (session_unlocked user 0 (pushable 0) es ltac:(done)). apply sublist_nil_l. }
  apply (elem_of_sublist _ _ _ Hin) in Hu. revert Hu. apply (bool_decide_unpack _). vm_compute. reflexivity.
Qed.

(** [fetchUserStats] in a store that does not fail. *)
Lemma fetchUserStats_run u s w :
  calm w ->
  exists s', fetchUserStats (Some u) (s, w) = (Ok (), (s', w)) /\
    userData s' = users (w_db w) !! u /\
    profilePhotoUrl s' = (profile_photos (w_db w) !! u ≫= fun p =>
                            if js_truthy (pp_photo_url p) then Some (pp_photo_url p) else None) /\
    totalStudyTime s' = default 0%Z (study_leaderboard (w_db w) !! u ≫= lb_total_duration) /\
    messageCount s' = size (filter (fun kr : uuid * message => msg_user_id kr.2 = u)
                                   (chat_messages (w_db w))) /\
    unlockedAchievements s' = unlockedAchievements s /\ routes s' = routes s /\
    showNotification s' = showNotification s.
Proof.
  intros Hc. unfold fetchUserStats, fetchProfilePhoto, or_throw. munfold.
  cbn -[select_single select_maybe select_count].
  rewrite !select_single_calm, !select_maybe_calm, !select_count_calm by exact Hc.
  cbn -[select_single select_maybe select_count]. eexists. split; [reflexivity|].
  cbn. change (tget T_users) with users; change (tget T_profile_photos) with profile_photos;
  change (tget T_study_leaderboard) with study_leaderboard;
  change (tget T_chat_messages) with chat_messages.
  split_and!; try reflexivity.
  - by destruct (users (w_db w) !! u).
  - by destruct (study_leaderboard (w_db w) !! u) as [[[]]|].
  - rewrite <- length_filter_map_to_list. f_equal. apply list_filter_iff.
    intros. apply bool_decide_eq_true.
Qed.

(** ** The longest session *)

#[export] Instance longest_first_total : Total longest_first.
Proof. intros a b. unfold longest_first. lia. Qed.

#[export] Instance longest_first_trans : Transitive longest_first.
Proof. intros a b c. unfold longest_first. lia. Qed.

(** [.order('duration', { ascending: false }).limit(1)] finds a session at
    least as long as any listed one. *)
Lemma merge_sort_longest_head (rows : list (uuid * study_session)) kr :
  kr ∈ rows ->
  exists x, head (merge_sort longest_first rows) = Some x /\ (ss_duration kr.2 <= ss_duration x.2)%Z.
Proof.
  intros Hin. rewrite <- (merge_sort_Permutation longest_first rows) in Hin.
  pose proof (Sorted_StronglySorted longest_first _ (Sorted_merge_sort longest_first rows)) as Hs.
  destruct (merge_sort longest_first rows) as [|x l]; [set_solver|].
  exists x. split; [done|]. apply StronglySorted_inv in Hs as [_ Hf].
  apply elem_of_cons in Hin as [->|Hin]; [lia|]. rewrite Forall_forall in Hf.
  apply (Hf _ Hin).
Qed.

(** A session of the user of at least 600 in a store that does not fail
    unlocks STUDY_MASTER. *)
Lemma checkAchievements_master u c ps w k r :
  calm w -> tget T_study_sessions (w_db w) !! k = Some r -> ss_user_id r = u ->
  (600 <= ss_duration r)%Z ->
  achievement_id STUDY_MASTER ∈ unlockedAchievements (checkAchievements (Some u) c (ps, w)).2.1.
Proof.
  intros Hc Hk Hu Hd. unfold checkAchievements. munfold.
  cbn -[select_where select_count merge_sort Nat.leb Z.leb focused_check].
  rewrite !select_where_calm, !select_count_calm by exact Hc.
  cbn -[merge_sort Nat.leb Z.leb focused_check].
  match goal with |- context [head (merge_sort longest_first ?l)] =>
    destruct (merge_sort_longest_head l (k, r)) as ([kx rx] & Hx & Hle) end.
  { apply list_elem_of_filter. split; [|by apply elem_of_map_to_list].
    cbn. unfold own_session. by apply bool_decide_eq_true_2. }
  rewrite Hx. cbn -[Nat.leb Z.leb focused_check merge_sort] in Hle |- *.
  rewrite (proj2 (Z.leb_le 600 _)) by lia.
  rewrite select_where_calm by exact Hc. cbn -[Nat.leb Z.leb focused_check merge_sort].
  repeat case_match; set_solver.
Qed.

(** ** Handlers that only read: the store is left as it was *)

Section Frozen.
Context (w0 : world) (Hc : calm w0) (R : profile_screen -> Prop).
Hypothesis HR_photo : forall x s, R s -> R (set_profilePhotoUrl x s).
Hypothesis HR_unlocked : forall x s, R s -> R (set_unlockedAchievements x s).

(** The store is [w0], and the screen satisfies [R]. *)
Definition frozen (p : profile_screen * world) : Prop := p.2 = w0 /\ R p.1.

Lemma frozen_on_snd {A} (c : M world A) :
  (c w0).2 = w0 -> stable frozen (on_snd c).
Proof.
  intros Hw [s w] [Hw' Hs]. cbn in Hw'. subst w. unfold on_snd, zoom. cbn.
  destruct (c w0). cbn in *. by subst.
Qed.

Lemma frozen_setL f : (forall s, R s -> R (f s)) -> stable frozen (setL f).
Proof. intros Hf [s w] [Hw Hs]. split; [done|by apply Hf]. Qed.

Lemma frozen_select_single {K A} `{Countable K} (t : table K A) k : (select_single t k w0).2 = w0.
Proof. by rewrite select_single_calm. Qed.
Lemma frozen_select_maybe {K A} `{Countable K} (t : table K A) k : (select_maybe t k w0).2 = w0.
Proof. by rewrite select_maybe_calm. Qed.
Lemma frozen_select_where {K A} `{Countable K} (t : table K A) p : (select_where t p w0).2 = w0.
Proof. by rewrite select_where_calm. Qed.
Lemma frozen_select_count {K A} `{Countable K} (t : table K A) p : (select_count t p w0).2 = w0.
Proof. by rewrite select_count_calm. Qed.

#[local] Hint Extern 1 (stable frozen (on_snd _)) =>
  apply frozen_on_snd; first [ apply frozen_select_single | apply frozen_select_maybe
                             | apply frozen_select_where | apply frozen_select_count ] : stable.
#[local] Hint Extern 1 (stable frozen (setL _)) =>
  apply frozen_setL; first [apply HR_photo | apply HR_unlocked] : stable.

Lemma fetchProfilePhoto_frozen user : stable frozen (fetchProfilePhoto user).
Proof. unfold fetchProfilePhoto, or_throw. stable_auto. Qed.

Lemma checkAchievements_frozen user c : stable frozen (checkAchievements user c).
Proof. unfold checkAchievements. stable_auto. Qed.
End Frozen.

(** What a Pro user's screen keeps once the row is loaded. *)
Definition pro_loaded (r : user_row) (s : profile_screen) : Prop :=
  userData s = Some r /\ "/pro-upgrade" ∉ routes s.

Lemma pro_loaded_push r path s :
  path <> "/pro-upgrade" -> pro_loaded r s -> pro_loaded r (push_route path s).
Proof. intros Hp [Hu Hr]. split; [done|]. cbn. rewrite elem_of_cons. intuition. Qed.

Lemma fetchUserStats_pro u r w :
  calm w -> users (w_db w) !! u = Some r ->
  forall s, "/pro-upgrade" ∉ routes s ->
  frozen w (pro_loaded r) (fetchUserStats (Some u) (s, w)).2.
Proof.
  intros Hc Hu s Hs. destruct (fetchUserStats_run u s w Hc) as (s' & -> & Hd & _ & _ & _ & _ & Hr & _).
  split; [done|]. cbn. unfold pro_loaded. by rewrite Hd, Hr.
Qed.

Lemma run_event_pro u r w c e :
  calm w -> users (w_db w) !! u = Some r -> u_is_pro r = true ->
  stable (frozen w (pro_loaded r)) (run_event (Some u) c e).
Proof.
  intros Hc Hu Hpro. destruct e; cbn [run_event].
  - intros [s w'] [Hw [_ Hs]]. cbn in Hw. subst w'. by apply fetchUserStats_pro.
  - apply stable_bind; [intros [s w'] [Hw [_ Hs]]; cbn in Hw; subst w'; by apply fetchUserStats_pro|].
    intros _. apply checkAchievements_frozen; [done|intros ? ? H; exact H..].
  - intros [s w'] [Hw [_ Hs]]. cbn in Hw. subst w'. by apply fetchUserStats_pro.
  - apply fetchProfilePhoto_frozen; [done|intros ? ? H; exact H..].
  - apply frozen_setL. intros s. by apply pro_loaded_push.
  - intros [s w'] [Hw [Hd Hs]]. cbn in Hw, Hd, Hs. subst w'. unfold pressItem, handlePress, getL. munfold. cbn.
    destruct i; cbn; [| | rewrite Hd; cbn; rewrite Hpro |];
      split; try done; by apply pro_loaded_push.
  - by apply frozen_setL.
Qed.

(** In a store that does not fail, [fetchUserStats] returns, leaves
    the store as it was, and shows the user's row, the photo URL (none for
    an empty one), the leaderboard total (0 without a row or a total) and
    the number of the user's chat messages; the achievements, the routes
    and the notification are untouched. *)
Theorem fetchUserStats_calm u s w :
  calm w ->
  exists s', fetchUserStats (Some u) (s, w) = (Ok (), (s', w)) /\
    userData s' = users (w_db w) !! u /\
    profilePhotoUrl s' = (profile_photos (w_db w) !! u ≫= fun p =>
                            if js_truthy (pp_photo_url p) then Some (pp_photo_url p) else None) /\
    totalStudyTime s' = default 0%Z (study_leaderboard (w_db w) !! u ≫= lb_total_duration) /\
    messageCount s' = size (filter (fun kr : uuid * message => msg_user_id kr.2 = u)
                                   (chat_messages (w_db w))) /\
    unlockedAchievements s' = unlockedAchievements s /\ routes s' = routes s /\
    showNotification s' = showNotification s.
Proof. apply fetchUserStats_run. Qed.

(** C34: a Pro user is never sent to the upgrade screen: in a store that
    does not fail, once the screen has mounted (and loaded the user's
    row), no sequence of feed callbacks, settings presses or timers pushes
    "/pro-upgrade"; the Pro item only shows "Zaten Pro Kullanıcısınız". *)
Theorem pro_user_not_sent_to_upgrade u r es w :
  calm w -> users (w_db w) !! u = Some r -> u_is_pro r = true ->
  "/pro-upgrade" ∉ routes (profile_session (Some u) es (profile_screen0, w)).2.1.
Proof.
  intros Hc Hu Hpro.
  assert (Hs : stable (frozen w (pro_loaded r)) (run_events (Some u) 0 es)).
  { induction es as [|e es IH]; cbn [run_events]; [apply stable_ret|].
    apply stable_bind; [by apply run_event_pro|done]. }
  assert (Hm : frozen w (pro_loaded r) ((mount (Some u) 0) (profile_screen0, w)).2).
  { unfold mount. unfold bindM, mbind, M_bind.
    pose proof (fetchUserStats_pro u r w Hc Hu profile_screen0 ltac:(set_solver)) as Hf.
    destruct (fetchUserStats (Some u) (profile_screen0, w)) as [[] p] eqn:E; [|done].
    apply checkAchievements_frozen; [done|intros ? ? H; exact H..|exact Hf]. }
  unfold profile_session. unfold mbind at 1. unfold M_bind.
  cbn [totalStudyTime profile_screen0].
  destruct (mount (Some u) 0 (profile_screen0, w)) as [[] p] eqn:E;
    [apply (Hs p Hm)|apply Hm].
Qed.

(** C31: STUDY_MASTER ("10 saat kesintisiz çalışma", ten hours without a
    break) is unlocked by ten minutes on the study timer: useStudyTimer
    records a session's duration in seconds, and [checkAchievements]
    compares the longest duration with 600.  Starting the timer, letting it
    run 600 seconds and stopping it, in a store that does not fail, makes
    the next [checkAchievements] unlock it. *)
Theorem ten_minutes_unlock_study_master w u c ps :
  calm w -> w_auth w = Some u ->
  let '(_, s1) := StudyTimer.startTimer (StudyTimer.init, w) in
  let '(_, s3) := StudyTimer.stopTimer (StudyTimer.seconds 600 s1) in
  achievement_id STUDY_MASTER ∈ unlockedAchievements (checkAchievements (Some u) c (ps, s3.2)).2.1.
Proof.
  intros Hc Ha. pose proof (StudyTimer.start_stop_run w u 600 Hc Ha) as H.
  destruct (StudyTimer.startTimer (StudyTimer.init, w)) as [r1 s1].
  destruct (StudyTimer.stopTimer (StudyTimer.seconds 600 s1)) as [r3 s3].
  destruct H as (_ & Hrow & _ & _ & Hc3).
  eapply checkAchievements_master; [exact Hc3|exact Hrow|done|cbn; lia].
Qed.

(** ** Concrete runs *)

Definition demo_session (id : uuid) (duration : Z) (created_at : timestamp) : study_session :=
  {| ss_user_id := id; ss_duration := duration; ss_created_at := created_at; ss_ended_at := None |}.

Definition pro_row : user_row :=
  {| u_name := Some "Ayşe"; u_avatar_url := None; u_is_pro := true; u_grade := None;
     u_target_profession := None; u_exam_score := None; u_strong_subjects := None;
     u_weak_subjects := None |}.

(** User 1, a Pro user with 60 hours on the leaderboard, a ten-hour session, and
    sessions on five days in a row, 25 hours apart. *)
Definition demo_world : world :=
  {| w_db := tset T_users {[1%N := pro_row]} (tset T_study_leaderboard {[1%N := {| lb_total_duration := Some 3600%Z |}]}
               (tset T_study_sessions
                  {[1%N := demo_session 1 600 0; 2%N := demo_session 1 30 90000000;
                    3%N := demo_session 1 30 180000000; 4%N := demo_session 1 30 270000000;
                    5%N := demo_session 1 30 360000000]} empty_db));
     w_now := 400000000; w_next_id := 10; w_auth := Some 1%N; w_faults := []; w_log := [] |}.

Example unlocked_well_typed_witness :
  unlockedAchievements profile_screen0 `sublist_of` all_ids /\
  (let u := unlockedAchievements ((mount (Some 1%N) 5000 ;; run_events (Some 1%N) 5000 [StudyUpdate])
                                     (profile_screen0, demo_world)).2.1 in
   u `sublist_of` all_ids /\ NoDup u).
Proof.
  split; [apply sublist_nil_l|].
  apply (unlocked_well_typed (Some 1%N) 5000 [StudyUpdate] profile_screen0 demo_world).
  apply sublist_nil_l.
Defined.

(** The screen of that user after mount: 60 hours shown, BOOKWORM locked,
    the three other achievements unlocked. *)
Example fetchUserStats_calm_witness :
  calm demo_world /\
  exists s', fetchUserStats (Some 1%N) (profile_screen0, demo_world) = (Ok (), (s', demo_world)) /\
    userData s' = users (w_db demo_world) !! 1%N /\
    profilePhotoUrl s' = (profile_photos (w_db demo_world) !! 1%N ≫= fun p =>
                            if js_truthy (pp_photo_url p) then Some (pp_photo_url p) else None) /\
    totalStudyTime s' = default 0%Z (study_leaderboard (w_db demo_world) !! 1%N ≫= lb_total_duration) /\
    messageCount s' = size (filter (fun kr : uuid * message => msg_user_id kr.2 = 1%N)
                                   (chat_messages (w_db demo_world))) /\
    unlockedAchievements s' = unlockedAchievements profile_screen0 /\
    routes s' = routes profile_screen0 /\ showNotification s' = showNotification profile_screen0.
Proof. split; [reflexivity|]. apply fetchUserStats_calm. reflexivity. Defined.

Example pro_user_not_sent_to_upgrade_witness :
  calm demo_world /\ users (w_db demo_world) !! 1%N = Some pro_row /\ u_is_pro pro_row = true /\
  "/pro-upgrade" ∉ routes (profile_session (Some 1%N) [Press ProItem; Press ProItem]
                             (profile_screen0, demo_world)).2.1.
Proof.
  split_and!; [reflexivity|reflexivity|reflexivity|].
  apply (pro_user_not_sent_to_upgrade 1%N pro_row); reflexivity.
Defined.

Example ten_minutes_unlock_study_master_witness :
  calm demo_world /\ w_auth demo_world = Some 1%N /\
  (let '(_, s1) := StudyTimer.startTimer (StudyTimer.init, demo_world) in
   let '(_, s3) := StudyTimer.stopTimer (StudyTimer.seconds 600 s1) in
   achievement_id STUDY_MASTER ∈
     unlockedAchievements (checkAchievements (Some 1%N) 0 (profile_screen0, s3.2)).2.1).
Proof.
  split_and!; [reflexivity|reflexivity|].
  apply (ten_minutes_unlock_study_master demo_world 1%N 0 profile_screen0); reflexivity.
Defined.

Lemma demo_profile_render :
  let s := (profile_session (Some 1%N) [StudyUpdate] (profile_screen0, demo_world)).2.1 in
  (profile_render s).(pv_stats) !! 0%nat = Some ("Çalışma Saati", "60") /\
  unlockedAchievements s = ["study_master"; "focused"].
Proof. vm_compute. split; reflexivity. Qed.

End Profile.
