(* ===== verification/Home.v ===== *)
(** * The home tab (app/(tabs)/index.tsx)

    [HomeScreen] keeps the signed-in user's row in [userData]: it reads it
    on mount and again whenever the global event emitter
    (lib/eventEmitter.ts) delivers [USER_DATA_UPDATED], which the account
    settings screen emits after a change (Settings.v).  The three feature
    cards navigate 300 ms after a tap ([FeatureCard]'s [setTimeout]); the
    AI card opens the tutor for a Pro user and the upgrade screen
    otherwise.  The screen's state is [home_screen] paired with the store's
    [world]; the pending feature timers are a queue, fired in the order
    they were set (they all wait 300 ms). *)

From S2P Require Import Core Backend.

Module Home.

Record home_screen := {
  userData : option user_row;
  pending : list string;
  routes : list string;
}.

Definition home_screen0 : home_screen := {| userData := None; pending := []; routes := [] |}.

Definition set_userData (x : option user_row) (s : home_screen) : home_screen :=
  {| userData := x; pending := pending s; routes := routes s |}.
Definition set_pending (x : list string) (s : home_screen) : home_screen :=
  {| userData := userData s; pending := x; routes := routes s |}.
(** [router.push(path)] *)
Definition push_route (path : string) (s : home_screen) : home_screen :=
  {| userData := userData s; pending := pending s; routes := path :: routes s |}.

Abbreviation HM := (M (home_screen * world)).

(** Another screen mounted beside the home tab: its state [L], the home
    tab's, the store.  A handler of that screen runs a store call, or the
    home tab's listener, through these lenses. *)
Definition on_world {L A} (c : M world A) : M (L * (home_screen * world)) A :=
  zoom (fun p => p.2.2) (fun w p => (p.1, (p.2.1, w))) c.
Definition on_home {L A} (c : HM A) : M (L * (home_screen * world)) A :=
  zoom snd (fun hw p => (p.1, hw)) c.

(** The three [FeatureCard]s and where their [onPress] goes. *)
Inductive feature := ChatFeature | StudyFeature | WatchFeature.

Definition feature_path (f : feature) : string :=
  match f with
  | ChatFeature => "/(tabs)/chat"
  | StudyFeature => "/(tabs)/study"
  | WatchFeature => "/watch"
  end.

Definition is_pro (s : home_screen) : bool := default false (u_is_pro <$> userData s).

Section Screen.
Variable user : option uuid.

(** [fetchUserData]: [if (error) throw error; setUserData(data)]; errors
    are logged. *)
Definition fetchUserData : HM unit :=
  try! (
    match user with
    | None => mret ()
    | Some u =>
        r <- on_snd (select_single T_users u) ;;
        data <- or_throw r ;;
        setL (set_userData (Some data))
    end)
  catch! _ => mret ().

(** [userDataUpdatedListener]: [if (user) fetchUserData()]. *)
Definition userDataUpdatedListener : HM unit :=
  match user with Some _ => fetchUserData | None => mret () end.

(** The mount effect: the same test, then the listener is registered. *)
Definition mount : HM unit :=
  match user with Some _ => fetchUserData | None => mret () end.

(** [FeatureCard]'s [handlePress]: [setTimeout(() => onPress(), 300)]. *)
Definition feature_handlePress (f : feature) : HM unit :=
  setL (fun s => set_pending (pending s ++ [feature_path f]) s).

(** The oldest pending timer fires and runs its [onPress]. *)
Definition feature_timer : HM unit :=
  s <- getL ;;
  match pending s with
  | [] => mret ()
  | p :: ps => setL (fun s => push_route p (set_pending ps s))
  end.

(** The AI card's [onPress]. *)
Definition aiCard_onPress : HM unit :=
  s <- getL ;;
  if is_pro s then setL (push_route "/ai-chat") else setL (push_route "/pro-upgrade").

(** The "Pro'ya Yükselt" button, rendered only for a user who is not Pro. *)
Definition upgrade_onPress : HM unit :=
  s <- getL ;; when! negb (is_pro s) then setL (push_route "/pro-upgrade").

(** The "Çalışma Odalarını Keşfet" button. *)
Definition explore_onPress : HM unit := setL (push_route "/(tabs)/study").

Inductive event :=
  | UserDataUpdated
  | PressFeature (f : feature)
  | FeatureTimer
  | PressAiCard
  | PressUpgrade
  | PressExplore.

Definition run_event (e : event) : HM unit :=
  match e with
  | UserDataUpdated => userDataUpdatedListener
  | PressFeature f => feature_handlePress f
  | FeatureTimer => feature_timer
  | PressAiCard => aiCard_onPress
  | PressUpgrade => upgrade_onPress
  | PressExplore => explore_onPress
  end.

Fixpoint run_events (es : list event) : HM unit :=
  match es with
  | [] => mret ()
  | e :: es' => run_event e ;; run_events es'
  end.

Definition home_session (es : list event) : HM unit := mount ;; run_events es.
End Screen.

(** ** What the screen shows *)

Record home_view := {
  hv_name : string;
  hv_ai_title : string;
  hv_ai_description : string;
  hv_upgrade_button : bool;
}.

Definition home_render (s : home_screen) : home_view :=
  {| hv_name := match userData s ≫= u_name with
                | Some n => if js_truthy n then n else "Misafir"
                | None => "Misafir"
                end;
     hv_ai_title := if is_pro s then "Eğitim Koçum" else "Yapay Zeka ile Çalış";
     hv_ai_description :=
       if is_pro s
       then "Yapay zeka destekli eğitim asistanınız size yardımcı olmak için hazır"
       else "Yapay zeka destekli eğitim koçu ve soru çözüm asistanı ile çalışmalarını daha verimli hale getir";
     hv_upgrade_button := negb (is_pro s) |}.

(** ** A user who is not Pro never reaches the tutor *)

Section NotPro.
Variable u : uuid.

(** The store's row of [u], if any, is not Pro; so is the loaded one; and
    neither the routes nor the pending taps hold "/ai-chat". *)
Definition not_pro_state (p : home_screen * world) : Prop :=
  (forall r, users (w_db p.2) !! u = Some r -> u_is_pro r = false) /\
  (forall r, userData p.1 = Some r -> u_is_pro r = false) /\
  ("/ai-chat" ∉ routes p.1) /\ ("/ai-chat" ∉ pending p.1).

Lemma not_pro_is_pro s w : not_pro_state (s, w) -> is_pro s = false.
Proof.
  intros (_ & Hd & _). unfold is_pro. destruct (userData s) as [r|] eqn:E; cbn; [by apply Hd|done].
Qed.

Lemma not_pro_push path s w :
  path <> "/ai-chat" -> not_pro_state (s, w) -> not_pro_state (push_route path s, w).
Proof. intros Hp (? & ? & ? & ?). split_and!; try done. cbn. rewrite elem_of_cons. intuition. Qed.

Lemma fetchUserData_not_pro : stable not_pro_state (fetchUserData (Some u)).
Proof.
  intros [s w] HQ. unfold fetchUserData, or_throw. munfold. cbn -[select_single].
  rewrite select_single_run. destruct HQ as (Hw & Hd & Hr & Hp).
  destruct (head_fault w); cbn; [by split_and!|].
  change (tget T_users (w_db w)) with (users (w_db w)).
  destruct (users (w_db w) !! u) as [r|] eqn:E; cbn; split_and!; try done.
  intros r' [= <-]. by apply Hw.
Qed.

Lemma run_event_not_pro e : stable not_pro_state (run_event (Some u) e).
Proof.
  destruct e; cbn [run_event].
  - apply fetchUserData_not_pro.
  - intros [s w] (? & ? & ? & Hp). split_and!; try done. cbn.
    rewrite elem_of_app, list_elem_of_singleton. destruct f; cbn; intuition discriminate.
  - intros [s w] HQ. unfold feature_timer, getL. munfold. cbn.
    destruct (pending s) as [|p ps] eqn:E; [exact HQ|].
    destruct HQ as (? & ? & Hr & Hp). cbn in Hp. rewrite E, elem_of_cons in Hp.
    split_and!; try done; cbn.
    + rewrite elem_of_cons. intuition.
    + intuition.
  - intros [s w] HQ. unfold aiCard_onPress, getL. munfold. cbn.
    rewrite (not_pro_is_pro s w HQ). by apply not_pro_push.
  - intros [s w] HQ. unfold upgrade_onPress, getL. munfold. cbn.
    rewrite (not_pro_is_pro s w HQ). by apply not_pro_push.
  - intros [s w] HQ. by apply not_pro_push.
Qed.

Lemma run_events_not_pro es : stable not_pro_state (run_events (Some u) es).
Proof.
  induction es as [|e es IH]; cbn [run_events]; [apply stable_ret|].
  apply stable_bind; [apply run_event_not_pro|done].
Qed.
End NotPro.

(** The listener in a store that does not fail: the row is loaded. *)
Lemma userDataUpdatedListener_calm u r h w :
  calm w -> users (w_db w) !! u = Some r ->
  userDataUpdatedListener (Some u) (h, w) = (Ok (), (set_userData (Some r) h, w)).
Proof.
  intros Hc Hu. unfold userDataUpdatedListener, fetchUserData, or_throw. munfold.
  cbn -[select_single]. rewrite select_single_calm by exact Hc.
  change (tget T_users (w_db w)) with (users (w_db w)). by rewrite Hu.
Qed.

(** A row after [.update(f).eq('id', u)]: [f] applied to [u]'s row. *)
Lemma users_update_self u f r d :
  users d !! u = Some r ->
  users (tset T_users (map_imap (fun k r => Some (if bool_decide (k = u) then f r else r))
                                (tget T_users d)) d) !! u = Some (f r).
Proof.
  intros Hu. change (users (tset T_users ?m d)) with (tget T_users (tset T_users m d)).
  rewrite tget_tset, lookup_update_rows. change (tget T_users d) with (users d).
  rewrite Hu. cbn. by rewrite bool_decide_eq_true_2.
Qed.

(** ** Theorems *)

(** C36: from the home screen, a user whose row in the store is not Pro
    (or who has no row) never reaches "/ai-chat", whatever the taps,
    timers and update events, and whatever calls of the store fail: the
    screen only reads the row, and shows the upgrade screen instead. *)
Theorem not_pro_never_opens_ai_chat u es w :
  (forall r, users (w_db w) !! u = Some r -> u_is_pro r = false) ->
  "/ai-chat" ∉ routes (home_session (Some u) es (home_screen0, w)).2.1.
Proof.
  intros Hw. unfold home_session, mount.
  assert (H0 : not_pro_state u (home_screen0, w)) by (split_and!; [done|done|set_solver|set_solver]).
  apply (stable_bind _ _ _ (fetchUserData_not_pro u) (fun _ => run_events_not_pro u es)) in H0.
  apply H0.
Qed.

(** ** Concrete runs *)

Definition demo_row : user_row :=
  {| u_name := Some "Ali"; u_avatar_url := None; u_is_pro := false; u_grade := None;
     u_target_profession := None; u_exam_score := None; u_strong_subjects := None;
     u_weak_subjects := None |}.

Definition demo_world : world :=
  {| w_db := tset T_users {[1%N := demo_row]} empty_db; w_now := 0; w_next_id := 1;
     w_auth := Some 1%N; w_faults := [false; true]; w_log := [] |}.

Example not_pro_never_opens_ai_chat_witness :
  (forall r, users (w_db demo_world) !! 1%N = Some r -> u_is_pro r = false) /\
  "/ai-chat" ∉ routes (home_session (Some 1%N) [PressAiCard; UserDataUpdated; PressAiCard]
                          (home_screen0, demo_world)).2.1.
Proof.
  assert (H : forall r, users (w_db demo_world) !! 1%N = Some r -> u_is_pro r = false)
    by (intros r Hr; vm_compute in Hr; injection Hr as <-; reflexivity).
  split; [exact H|]. apply (not_pro_never_opens_ai_chat 1%N); exact H.
Defined.

End Home.
