(* ===== verification/Settings.v ===== *)
(** * The account settings screen (app/account-settings.tsx) and the event
    emitter (lib/eventEmitter.ts)

    [AccountSettingsScreen] edits the user's name and password and uploads
    a profile photo.  After a saved name or photo it emits
    [USER_DATA_UPDATED] on the global emitter, whose listener the home tab
    registered (Home.v): the model runs that listener at the [emit], so the
    two screens share one store.  The chat tab (app/(tabs)/chat.tsx, lines
    34-40) registers a listener too, which reloads the chat list's own copy
    of the row; the state here does not carry that screen, so its listener
    is not run.  The screen's state is [settings_screen];
    the handlers run on [settings_screen * (home_screen * world)].

    The calls outside the row store are modelled from the way the code
    uses them, each as a request that consumes one entry of the fault
    schedule: [fetch(uri)] with [blob()], the storage [upload], and
    [supabase.auth.updateUser].  [getPublicUrl] is the bucket's base URL
    (from the environment) followed by the path; [user.id] is written in
    decimal; the image picker's answer is an argument. *)

From S2P Require Import Core Backend Home.

Module Settings.

Record settings_screen := {
  name : string;
  avatarUrl : option string;
  newPassword : string;
  confirmPassword : string;
  loading : bool;
  error : option string;
  success : option string;
  replaced : option string;
}.

(** The first render's state; [replaced] is [router.replace]'s target. *)
Definition settings_screen0 : settings_screen :=
  {| name := ""; avatarUrl := None; newPassword := ""; confirmPassword := ""; loading := false;
     error := None; success := None; replaced := None |}.

Definition set_name (x : string) (s : settings_screen) : settings_screen :=
  {| name := x; avatarUrl := avatarUrl s; newPassword := newPassword s;
     confirmPassword := confirmPassword s; loading := loading s; error := error s;
     success := success s; replaced := replaced s |}.
Definition set_avatarUrl (x : option string) (s : settings_screen) : settings_screen :=
  {| name := name s; avatarUrl := x; newPassword := newPassword s;
     confirmPassword := confirmPassword s; loading := loading s; error := error s;
     success := success s; replaced := replaced s |}.
Definition set_newPassword (x : string) (s : settings_screen) : settings_screen :=
  {| name := name s; avatarUrl := avatarUrl s; newPassword := x;
     confirmPassword := confirmPassword s; loading := loading s; error := error s;
     success := success s; replaced := replaced s |}.
Definition set_confirmPassword (x : string) (s : settings_screen) : settings_screen :=
  {| name := name s; avatarUrl := avatarUrl s; newPassword := newPassword s;
     confirmPassword := x; loading := loading s; error := error s; success := success s;
     replaced := replaced s |}.
Definition set_loading (x : bool) (s : settings_screen) : settings_screen :=
  {| name := name s; avatarUrl := avatarUrl s; newPassword := newPassword s;
     confirmPassword := confirmPassword s; loading := x; error := error s;
     success := success s; replaced := replaced s |}.
Definition set_error (x : option string) (s : settings_screen) : settings_screen :=
  {| name := name s; avatarUrl := avatarUrl s; newPassword := newPassword s;
     confirmPassword := confirmPassword s; loading := loading s; error := x;
     success := success s; replaced := replaced s |}.
Definition set_success (x : option string) (s : settings_screen) : settings_screen :=
  {| name := name s; avatarUrl := avatarUrl s; newPassword := newPassword s;
     confirmPassword := confirmPassword s; loading := loading s; error := error s;
     success := x; replaced := replaced s |}.
Definition set_replaced (x : option string) (s : settings_screen) : settings_screen :=
  {| name := name s; avatarUrl := avatarUrl s; newPassword := newPassword s;
     confirmPassword := confirmPassword s; loading := loading s; error := error s;
     success := success s; replaced := x |}.

Abbreviation SM := (M (settings_screen * (Home.home_screen * world))).

Definition setS (f : settings_screen -> settings_screen) : SM unit :=
  modify (fun p => (f p.1, p.2)).
Definition getS : SM settings_screen := gets fst.
Definition on_world {A} (c : M world A) : SM A := Home.on_world c.
Definition on_home {A} (c : Home.HM A) : SM A := Home.on_home c.

(** ** Calls outside the row store *)

(** [fetch(uri)] and [response.blob()]: a rejected request throws. *)
Definition fetch_blob (uri : string) : M world unit :=
  r <- call (mret (Data ())) ;; or_throw r.

(** [supabase.storage.from('profile_photos').upload(filePath, blob)] *)
Definition storage_upload (filePath : string) : M world (resp unit) := call (mret (Data ())).

(** [supabase.auth.updateUser({ password })] *)
Definition auth_updateUser (password : string) : M world (resp unit) := call (mret (Data ())).

(** The image picker's answer. *)
Inductive pick := Canceled | Picked (uri : string) | PickerFailed.

(** [Events.USER_DATA_UPDATED] *)
Definition USER_DATA_UPDATED : string := "userDataUpdated".

Definition uuid_string (id : uuid) : string := js_number_to_string (Z.of_N id).

(** [uri.split('.').pop() || 'jpg'] *)
Definition fileExt (uri : string) : string :=
  match last (js_split uri ".") with
  | Some e => if js_truthy e then e else "jpg"
  | None => "jpg"
  end.

(** [users.update({ name })] *)
Definition with_name (n : string) (r : user_row) : user_row :=
  {| u_name := Some n; u_avatar_url := u_avatar_url r; u_is_pro := u_is_pro r;
     u_grade := u_grade r; u_target_profession := u_target_profession r;
     u_exam_score := u_exam_score r; u_strong_subjects := u_strong_subjects r;
     u_weak_subjects := u_weak_subjects r |}.

(** ** The handlers *)

Section Screen.
Variable user : option uuid.
(** The storage bucket's public base URL, from the environment. *)
Variable storage_base : string.
(** [router.canGoBack()] when the screen mounts. *)
Variable canGoBack : bool.

(** [getPublicUrl(filePath)] *)
Definition getPublicUrl (filePath : string) : string := storage_base +:+ filePath.

(** [eventEmitter.emit(Events.USER_DATA_UPDATED)]: the home tab's listener
    (the chat tab's is left out, see the header). *)
Definition emit : SM unit := on_home (Home.userDataUpdatedListener user).

(** [fetchUserProfile] *)
Definition fetchUserProfile : SM unit :=
  match user with
  | None => mret ()
  | Some u =>
      try! (
        r <- on_world (select_single T_users u) ;;
        userData <- or_throw r ;;
        setS (set_name (match u_name userData with
                        | Some n => if js_truthy n then n else ""
                        | None => ""
                        end)) ;;
        r2 <- on_world (select_maybe T_profile_photos u) ;;
        photoData <- or_throw r2 ;;
        match photoData with
        | Some p => setS (set_avatarUrl (Some (pp_photo_url p)))
        | None => mret ()
        end)
      catch! _ => setS (set_error (Some "Profil bilgileri yüklenirken bir hata oluştu"))
  end.

(** [uploadAvatar(uri)]: the photo row is upserted on [user_id]. *)
Definition uploadAvatar (uri : string) : SM unit :=
  match user with
  | None => mret ()
  | Some u =>
      try_finally
        (try! (
           setS (set_loading true) ;;
           setS (set_error None) ;;
           on_world (fetch_blob uri) ;;
           now <- on_world (gets w_now) ;;
           let fileName := uuid_string u +:+ "-" +:+ js_number_to_string now +:+ "." +:+ fileExt uri in
           let filePath := "photos/" +:+ fileName in
           uploadError <- on_world (storage_upload filePath) ;;
           or_throw uploadError ;;
           let publicUrl := getPublicUrl filePath in
           updateError <- on_world (upsert T_profile_photos "profile_photos" u
                                      {| pp_photo_url := publicUrl |}
                                      (fun _ => {| pp_photo_url := publicUrl |})) ;;
           or_throw updateError ;;
           setS (set_avatarUrl (Some publicUrl)) ;;
           setS (set_success (Some "Profil fotoğrafı başarıyla güncellendi")) ;;
           emit)
         catch! _ => setS (set_error (Some "Profil fotoğrafı güncellenirken bir hata oluştu")))
        (setS (set_loading false))
  end.

(** [handleImagePick] *)
Definition handleImagePick (result : pick) : SM unit :=
  try! (
    match result with
    | Canceled => mret ()
    | Picked uri => uploadAvatar uri
    | PickerFailed => throw (ExnMsg "picker")
    end)
  catch! _ => setS (set_error (Some "Resim seçilirken bir hata oluştu")).

(** [handleUpdateProfile]: the name typed in the field is saved. *)
Definition handleUpdateProfile : SM unit :=
  match user with
  | None => mret ()
  | Some u =>
      try_finally
        (try! (
           setS (set_loading true) ;;
           setS (set_error None) ;;
           setS (set_success None) ;;
           s <- getS ;;
           r <- on_world (update_where T_users "users" (fun k _ => bool_decide (k = u))
                                       (with_name (name s))) ;;
           or_throw r ;;
           setS (set_success (Some "Profil başarıyla güncellendi")) ;;
           emit)
         catch! e => setS (set_error (Some (exn_message e))))
        (setS (set_loading false))
  end.

(** [handleUpdatePassword] *)
Definition handleUpdatePassword : SM unit :=
  match user with
  | None => mret ()
  | Some _ =>
      try_finally
        (try! (
           setS (set_loading true) ;;
           setS (set_error None) ;;
           setS (set_success None) ;;
           s <- getS ;;
           guard_msg (negb (String.eqb (newPassword s) (confirmPassword s)))
                     "Yeni şifreler eşleşmiyor" ;;
           r <- on_world (auth_updateUser (newPassword s)) ;;
           or_throw r ;;
           setS (set_success (Some "Şifre başarıyla güncellendi")) ;;
           setS (set_newPassword "") ;;
           setS (set_confirmPassword ""))
         catch! e => setS (set_error (Some (exn_message e))))
        (setS (set_loading false))
  end.

(** The mount effect: without a screen to go back to, the profile tab
    replaces this one; otherwise the profile is read. *)
Definition mount : SM unit :=
  if negb canGoBack then setS (set_replaced (Some "/(tabs)/profile")) else fetchUserProfile.

Inductive event :=
  | NameChanged (t : string)
  | NewPasswordChanged (t : string)
  | ConfirmChanged (t : string)
  | PickImage (result : pick)
  | UpdateProfile
  | UpdatePassword
  | PhotoFeed.

Definition run_event (e : event) : SM unit :=
  match e with
  | NameChanged t => setS (set_name t)
  | NewPasswordChanged t => setS (set_newPassword t)
  | ConfirmChanged t => setS (set_confirmPassword t)
  | PickImage r => handleImagePick r
  | UpdateProfile => handleUpdateProfile
  | UpdatePassword => handleUpdatePassword
  | PhotoFeed => fetchUserProfile
  end.

Fixpoint run_events (es : list event) : SM unit :=
  match es with
  | [] => mret ()
  | e :: es' => run_event e ;; run_events es'
  end.
End Screen.

(** [avatarUrl || default] and the two messages. *)
Definition settings_render (s : settings_screen) : string * option string * option string :=
  (match avatarUrl s with
   | Some url => if js_truthy url then url
                 else "https://images.pexels.com/photos/771742/pexels-photo-771742.jpeg?auto=compress&cs=tinysrgb&w=1260&h=750&dpr=1"
   | None => "https://images.pexels.com/photos/771742/pexels-photo-771742.jpeg?auto=compress&cs=tinysrgb&w=1260&h=750&dpr=1"
   end, error s, success s).

(** ** Lemmas *)

(** [finally { setLoading(false) }] ends every handler with the button
    enabled, whatever the body did. *)
Lemma finally_loading {A} (c : SM A) p :
  loading (try_finally c (setS (set_loading false)) p).2.1 = false.
Proof. unfold try_finally, setS, modify. by destruct (c p). Qed.

Lemma stable_setS (P : settings_screen -> Prop) f :
  (forall s, P s -> P (f s)) -> stable (fun p => P p.1) (setS f).
Proof. intros Hf [s hw] Hs. by apply Hf. Qed.

Lemma stable_on_world_S {A} (P : settings_screen -> Prop) (c : M world A) :
  stable (fun p => P p.1) (on_world c).
Proof. intros [s [h w]] Hs. unfold on_world, Home.on_world, zoom. cbn. by destruct (c w). Qed.

Lemma stable_on_home_S {A} (P : settings_screen -> Prop) (c : Home.HM A) :
  stable (fun p => P p.1) (on_home c).
Proof. intros [s hw] Hs. unfold on_home, Home.on_home, zoom. cbn. by destruct (c hw). Qed.

(** No handler leaves [loading] on: the three that set it reset it in
    their [finally], the others never touch it; for every fault pattern. *)
Lemma run_event_loading user base e :
  stable (fun p => loading p.1 = false) (run_event user base e).
Proof.
  destruct e as [t|t|t|res| | |]; cbn [run_event];
    try (apply (stable_setS (fun s => loading s = false)); by intros).
  - intros p Hp. unfold handleImagePick, try_catch. destruct res as [|uri|].
    + done.
    + assert (H : loading (uploadAvatar user base uri p).2.1 = false).
      { unfold uploadAvatar. destruct user; [apply finally_loading|done]. }
      destruct (uploadAvatar user base uri p) as [[] p']; cbn in *; done.
    + done.
  - intros p Hp. unfold handleUpdateProfile. destruct user; [apply finally_loading|done].
  - intros p Hp. unfold handleUpdatePassword. destruct user; [apply finally_loading|done].
  - unfold fetchUserProfile, or_throw. destruct user; [|apply stable_ret].
    stable_auto; first [apply (stable_on_world_S (fun s => loading s = false))
                     | apply (stable_setS (fun s => loading s = false)); by intros].
Qed.

(** Mismatched passwords: the message shows, no request is sent (the
    store and the fault schedule are as they were), the fields are kept. *)
Lemma handleUpdatePassword_mismatch u s hw :
  newPassword s <> confirmPassword s ->
  handleUpdatePassword (Some u) (s, hw) =
    (Ok (), (set_loading false (set_error (Some "Yeni şifreler eşleşmiyor")
               (set_success None (set_error None (set_loading true s)))), hw)).
Proof.
  intros Hne. unfold handleUpdatePassword, guard_msg, setS, getS. munfold. cbn.
  destruct (String.eqb_spec (newPassword s) (confirmPassword s)); [done|]. reflexivity.
Qed.

(** ** Theorems *)

(** C37: a name saved in the account settings reaches the home tab: in a
    store that does not fail, typing [n] and pressing "Profili Güncelle"
    writes [n] into the user's row, shows the success message with the
    button enabled, and the emitted USER_DATA_UPDATED makes the home
    screen reload the row and greet the user by [n] ("Misafir" when [n]
    is empty). *)
Theorem profile_update_reaches_home u base n s h w r :
  calm w -> users (w_db w) !! u = Some r ->
  let '(res, (s', (h', w'))) :=
    run_events (Some u) base [NameChanged n; UpdateProfile] (s, (h, w)) in
  res = Ok () /\ success s' = Some "Profil başarıyla güncellendi" /\ loading s' = false /\
  users (w_db w') !! u = Some (with_name n r) /\
  Home.userData h' = Some (with_name n r) /\
  (Home.home_render h').(Home.hv_name) = (if js_truthy n then n else "Misafir").
Proof.
  intros Hc Hu.
  unfold run_events, run_event, handleUpdateProfile, emit, or_throw, setS, getS, on_world, on_home,
    Home.on_world, Home.on_home.
  munfold. cbn -[update_where Home.userDataUpdatedListener].
  rewrite update_where_calm by exact Hc. cbn -[update_where Home.userDataUpdatedListener].
  rewrite (Home.userDataUpdatedListener_calm u (with_name n r));
    [|apply calm_log_change, calm_set_db, Hc|cbn; by apply Home.users_update_self].
  cbn. split_and!; try reflexivity. by apply Home.users_update_self.
Qed.

(** ** Concrete runs *)

Definition demo_row : user_row :=
  {| u_name := Some "Ali"; u_avatar_url := None; u_is_pro := false; u_grade := None;
     u_target_profession := None; u_exam_score := None; u_strong_subjects := None;
     u_weak_subjects := None |}.

Definition demo_world : world :=
  {| w_db := tset T_users {[1%N := demo_row]} empty_db; w_now := 0; w_next_id := 1;
     w_auth := Some 1%N; w_faults := []; w_log := [] |}.

Example profile_update_reaches_home_witness :
  calm demo_world /\ users (w_db demo_world) !! 1%N = Some demo_row /\
  (let '(res, (s', (h', w'))) :=
     run_events (Some 1%N) "https://x/" [NameChanged "Ayşe"; UpdateProfile]
       (settings_screen0, (Home.home_screen0, demo_world)) in
   res = Ok () /\ success s' = Some "Profil başarıyla güncellendi" /\ loading s' = false /\
   users (w_db w') !! 1%N = Some (with_name "Ayşe" demo_row) /\
   Home.userData h' = Some (with_name "Ayşe" demo_row) /\
   (Home.home_render h').(Home.hv_name) = (if js_truthy "Ayşe" then "Ayşe" else "Misafir")).
Proof.
  split_and!; [reflexivity|reflexivity|].
  apply (profile_update_reaches_home 1%N "https://x/" "Ayşe" settings_screen0
           Home.home_screen0 demo_world demo_row); reflexivity.
Defined.

(** A failed photo upload after a saved name shows both messages: the
    upload clears the error but not the earlier success. *)
Lemma demo_upload_keeps_stale_success :
  let w := {| w_db := tset T_users {[1%N := demo_row]} empty_db; w_now := 0; w_next_id := 1;
              w_auth := Some 1%N; w_faults := [false; false; false; true]; w_log := [] |} in
  let '(_, (s', _)) :=
    run_events (Some 1%N) "https://x/" [UpdateProfile; PickImage (Picked "file:///a.png")]
      (settings_screen0, (Home.home_screen0, w)) in
  error s' = Some "Profil fotoğrafı güncellenirken bir hata oluştu" /\
  success s' = Some "Profil başarıyla güncellendi".
Proof. vm_compute. split; reflexivity. Qed.

End Settings.
