(* ===== verification/ProUpgrade.v ===== *)
(** * The Pro upgrade screen (app/pro-upgrade.tsx)

    [ProUpgradeScreen] shows the monthly price and two ways to become Pro:
    the upgrade button and a promotion code.  Both write [is_pro = true]
    into the user's row, emit [USER_DATA_UPDATED] (whose listener is the
    home tab's, Home.v) and return to the tabs 300 ms later.  The state is
    [pro_screen * (home_screen * world)]; [timers] counts the pending
    [setTimeout]s of the return, [replaced] the [router.replace] targets. *)

From S2P Require Import Core Backend Home.

Module ProUpgrade.

Record pro_screen := {
  loading : bool;
  showPromoCode : bool;
  promoCode : string;
  error : option string;
  timers : nat;
  replaced : list string;
}.

Definition pro_screen0 : pro_screen :=
  {| loading := false; showPromoCode := false; promoCode := ""; error := None; timers := 0;
     replaced := [] |}.

Definition set_loading (x : bool) (s : pro_screen) : pro_screen :=
  {| loading := x; showPromoCode := showPromoCode s; promoCode := promoCode s;
     error := error s; timers := timers s; replaced := replaced s |}.
Definition set_showPromoCode (x : bool) (s : pro_screen) : pro_screen :=
  {| loading := loading s; showPromoCode := x; promoCode := promoCode s; error := error s;
     timers := timers s; replaced := replaced s |}.
Definition set_promoCode (x : string) (s : pro_screen) : pro_screen :=
  {| loading := loading s; showPromoCode := showPromoCode s; promoCode := x; error := error s;
     timers := timers s; replaced := replaced s |}.
Definition set_error (x : option string) (s : pro_screen) : pro_screen :=
  {| loading := loading s; showPromoCode := showPromoCode s; promoCode := promoCode s;
     error := x; timers := timers s; replaced := replaced s |}.
Definition set_timers (x : nat) (s : pro_screen) : pro_screen :=
  {| loading := loading s; showPromoCode := showPromoCode s; promoCode := promoCode s;
     error := error s; timers := x; replaced := replaced s |}.
Definition set_replaced (x : list string) (s : pro_screen) : pro_screen :=
  {| loading := loading s; showPromoCode := showPromoCode s; promoCode := promoCode s;
     error := error s; timers := timers s; replaced := x |}.

Abbreviation UM := (M (pro_screen * (Home.home_screen * world))).

Definition setP (f : pro_screen -> pro_screen) : UM unit := modify (fun p => (f p.1, p.2)).
Definition getP : UM pro_screen := gets fst.

(** The code [handlePromoCode] compares the upper-cased input with. *)
Definition PROMO_CODE : string := "İBRAHİM100".

(** [.update({ is_pro: true })] *)
Definition with_pro (r : user_row) : user_row :=
  {| u_name := u_name r; u_avatar_url := u_avatar_url r; u_is_pro := true;
     u_grade := u_grade r; u_target_profession := u_target_profession r;
     u_exam_score := u_exam_score r; u_strong_subjects := u_strong_subjects r;
     u_weak_subjects := u_weak_subjects r |}.

Section Screen.
Variable user : option uuid.

(** [eventEmitter.emit(Events.USER_DATA_UPDATED)] *)
Definition emit : UM unit := Home.on_home (Home.userDataUpdatedListener user).

(** [refreshUserDataAndNavigate]: emit, then schedule the return. *)
Definition refreshUserDataAndNavigate : UM unit :=
  try! (emit ;; setP (fun s => set_timers (S (timers s)) s))
  catch! _ => mret ().

(** [handleUpgrade]: no payment step precedes the write. *)
Definition handleUpgrade : UM unit :=
  match user with
  | None => mret ()
  | Some u =>
      try_finally
        (try! (
           setP (set_loading true) ;;
           setP (set_error None) ;;
           r <- Home.on_world (update_where T_users "users" (fun k _ => bool_decide (k = u)) with_pro) ;;
           or_throw r ;;
           refreshUserDataAndNavigate)
         catch! _ => setP (set_error (Some "Pro üyelik yükseltme başarısız oldu. Lütfen tekrar deneyin.")))
        (setP (set_loading false))
  end.

(** [handlePromoCode]: [promoCode.toUpperCase() === 'İBRAHİM100']. *)
Definition handlePromoCode : UM unit :=
  match user with
  | None => mret ()
  | Some u =>
      try_finally
        (try! (
           setP (set_loading true) ;;
           setP (set_error None) ;;
           s <- getP ;;
           if String.eqb (js_toUpperCase (promoCode s)) PROMO_CODE then
             r <- Home.on_world (update_where T_users "users" (fun k _ => bool_decide (k = u)) with_pro) ;;
             or_throw r ;;
             refreshUserDataAndNavigate
           else setP (set_error (Some "Geçersiz promosyon kodu")))
         catch! _ => setP (set_error (Some "Promosyon kodu kullanılamadı. Lütfen tekrar deneyin.")))
        (setP (set_loading false))
  end.

(** The return timer: [router.replace('/(tabs)')]. *)
Definition return_timer : UM unit :=
  s <- getP ;;
  match timers s with
  | O => mret ()
  | S n => setP (fun s => set_replaced ("/(tabs)" :: replaced s) (set_timers n s))
  end.

Inductive event :=
  | PressUpgrade
  | PressShowPromo
  | PromoChanged (t : string)
  | PressPromo
  | ReturnTimer.

Definition run_event (e : event) : UM unit :=
  match e with
  | PressUpgrade => handleUpgrade
  | PressShowPromo => setP (set_showPromoCode true)
  | PromoChanged t => setP (set_promoCode t)
  | PressPromo => handlePromoCode
  | ReturnTimer => return_timer
  end.

Fixpoint run_events (es : list event) : UM unit :=
  match es with
  | [] => mret ()
  | e :: es' => run_event e ;; run_events es'
  end.
End Screen.

(** ** Theorems *)

(** C35: the Pro membership is granted without payment: in a store that
    does not fail, pressing "Pro'ya Yükselt" (priced 59.90 ₺ a month on the
    same screen) writes [is_pro = true] into the user's row with no other
    step, shows no error, ends loading, schedules the return to the tabs,
    and the emitted event makes the home tab see a Pro user, whose AI card
    then opens the tutor. *)
Theorem upgrade_without_payment u s h w r :
  calm w -> users (w_db w) !! u = Some r ->
  let '(res, (s', (h', w'))) := handleUpgrade (Some u) (s, (h, w)) in
  res = Ok () /\ users (w_db w') !! u = Some (with_pro r) /\ Home.is_pro h' = true /\
  error s' = None /\ loading s' = false /\ timers s' = S (timers s).
Proof.
  intros Hc Hu.
  unfold handleUpgrade, refreshUserDataAndNavigate, emit, or_throw, setP, Home.on_world, Home.on_home.
  munfold. cbn -[update_where Home.userDataUpdatedListener].
  rewrite update_where_calm by exact Hc. cbn -[update_where Home.userDataUpdatedListener].
  rewrite (Home.userDataUpdatedListener_calm u (with_pro r));
    [|apply calm_log_change, calm_set_db, Hc|cbn; by apply Home.users_update_self].
  cbn. split_and!; try reflexivity. by apply Home.users_update_self.
Qed.

(** ** Concrete runs *)

Definition demo_row : user_row :=
  {| u_name := Some "Ali"; u_avatar_url := None; u_is_pro := false; u_grade := None;
     u_target_profession := None; u_exam_score := None; u_strong_subjects := None;
     u_weak_subjects := None |}.

Definition demo_world : world :=
  {| w_db := tset T_users {[1%N := demo_row]} empty_db; w_now := 0; w_next_id := 1;
     w_auth := Some 1%N; w_faults := []; w_log := [] |}.

Example upgrade_without_payment_witness :
  calm demo_world /\ users (w_db demo_world) !! 1%N = Some demo_row /\
  (let '(res, (s', (h', w'))) :=
     handleUpgrade (Some 1%N) (pro_screen0, (Home.home_screen0, demo_world)) in
   res = Ok () /\ users (w_db w') !! 1%N = Some (with_pro demo_row) /\ Home.is_pro h' = true /\
   error s' = None /\ loading s' = false /\ timers s' = S (timers pro_screen0)).
Proof.
  split_and!; [reflexivity|reflexivity|].
  apply (upgrade_without_payment 1%N pro_screen0 Home.home_screen0 demo_world demo_row); reflexivity.
Defined.

(** The promotion code is accepted only with the dotted capitals typed as
    such: [toUpperCase] turns "i" into "I", never "İ". *)
Lemma promo_code_needs_dotted_capitals :
  String.eqb (js_toUpperCase "ibrahim100") PROMO_CODE = false /\
  String.eqb (js_toUpperCase "İBRAHIM100") PROMO_CODE = false /\
  String.eqb (js_toUpperCase "İbrahİm100") PROMO_CODE = true.
Proof. vm_compute. split_and!; reflexivity. Qed.

End ProUpgrade.
