(* ===== verification/Auth.v ===== *)
(** * The sign-in and sign-up screens (app/(auth)/sign-in.tsx, sign-up.tsx)

    Both screens validate their form and then call [signIn] or [signUp] of
    AuthContext, a module the repository does not contain: the call's
    outcome is an argument here ([None] when it resolves, [Some msg] when
    it rejects with [msg] as [error.message]).  The e-mail test
    [/\S+@\S+\.\S+/] is written as the automaton it denotes, run over the
    characters of the UTF-8 text ([\S]: any character that does not start
    with one of the [\s] byte sequences of AiText.v).  [email_lang] is the
    expression's language over the kinds of the characters, [utf8_kinds]
    the split of a text into characters; the theorems prove the automaton
    equal to the language, and follow the rate-limit error of sign-up
    through its cooldown. *)

From S2P Require Import Core AiText.

Module Auth.

(** ** The e-mail test *)

Inductive char_kind := Space | AtSign | Dot | Other.

Definition kind_of (l : list Ascii.ascii) : char_kind :=
  if negb (ws_bytes l =? 0) then Space
  else match l with
       | c :: _ => if AiText.code c =? 64 then AtSign else if AiText.code c =? 46 then Dot else Other
       | [] => Other
       end.

(** The states of [\S+@\S+\.\S+] that are active: inside the first run,
    just after the [@], inside the second run, just after the dot, done. *)
Record nfa := { in_user : bool; after_at : bool; in_host : bool; after_dot : bool; found : bool }.

Definition nfa0 : nfa := {| in_user := false; after_at := false; in_host := false;
                            after_dot := false; found := false |}.

Definition nfa_step (st : nfa) (k : char_kind) : nfa :=
  let ns := match k with Space => false | _ => true end in
  let at_ := match k with AtSign => true | _ => false end in
  let dot := match k with Dot => true | _ => false end in
  {| in_user := ns;
     after_at := in_user st && at_;
     in_host := (after_at st || in_host st) && ns;
     after_dot := in_host st && dot;
     found := found st || (after_dot st && ns) |}.

(** Run over the characters; [fuel] bounds the steps by the byte count. *)
Fixpoint nfa_run (fuel : nat) (st : nfa) (l : list Ascii.ascii) : nfa :=
  match fuel, l with
  | _, [] => st
  | O, _ => st
  | S f, _ => nfa_run f (nfa_step st (kind_of l)) (drop (char_bytes l) l)
  end.

(** [/\S+@\S+\.\S+/.test(email)] *)
Definition email_test (email : string) : bool :=
  found (nfa_run (length (chars email)) nfa0 (chars email)).

(** The language of [\S+@\S+\.\S+] over the kinds of the characters, as
    [test] searches it anywhere in the text: some infix is a run of
    non-blank characters, an [@], another run, a dot and a third run. *)
Definition nonblank_run (x : list char_kind) : Prop := x <> [] /\ Forall (fun k => k <> Space) x.

Definition email_lang (ks : list char_kind) : Prop :=
  exists p x y z q, ks = p ++ x ++ AtSign :: y ++ Dot :: z ++ q /\
    nonblank_run x /\ nonblank_run y /\ nonblank_run z.

(** The kinds of the characters of a UTF-8 text, one per character, each
    character being its lead byte and the continuation bytes after it. *)
Inductive utf8_kinds : list Ascii.ascii -> list char_kind -> Prop :=
  | uk_nil : utf8_kinds [] []
  | uk_cons c l ks :
      utf8_kinds (drop (char_bytes (c :: l)) (c :: l)) ks ->
      utf8_kinds (c :: l) (kind_of (c :: l) :: ks).

(** ** Sign in *)

Record signin_errors := { se_email : option string; se_password : option string }.

(** [validateForm] of sign-in.tsx: the errors it sets. *)
Definition signin_validate (email password : string) : signin_errors :=
  {| se_email := if negb (js_truthy email) then Some "E-posta adresi gerekli"
                 else if negb (email_test email) then Some "Geçerli bir e-posta adresi girin"
                 else None;
     se_password := if negb (js_truthy password) then Some "Şifre gerekli" else None |}.

Definition signin_ok (e : signin_errors) : bool :=
  match e with {| se_email := None; se_password := None |} => true | _ => false end.

(** [handleSignIn]: the errors shown afterwards, given [signIn]'s outcome
    (it is called only when the form is valid). *)
Definition handleSignIn (email password : string) (signIn : option string) : signin_errors :=
  let errs := signin_validate email password in
  if negb (signin_ok errs) then errs
  else match signIn with
       | None => errs
       | Some msg =>
           if js_includes msg "invalid_credentials"
           then {| se_email := Some "E-posta adresi veya şifre hatalı";
                   se_password := Some "E-posta adresi veya şifre hatalı" |}
           else {| se_email := None; se_password := Some "Giriş yapılamadı. Lütfen tekrar deneyin." |}
       end.

(** ** Sign up *)

Record signup_screen := {
  su_name : string; su_email : string; su_password : string; su_confirm : string;
  err_name : option string; err_email : option string;
  err_password : option string; err_confirm : option string;
  cooldown : Z;
}.

Definition signup_screen0 : signup_screen :=
  {| su_name := ""; su_email := ""; su_password := ""; su_confirm := "";
     err_name := None; err_email := None; err_password := None; err_confirm := None;
     cooldown := 0 |}.

(** [setErrors(newErrors)] *)
Definition set_errors (n e p c : option string) (s : signup_screen) : signup_screen :=
  {| su_name := su_name s; su_email := su_email s; su_password := su_password s;
     su_confirm := su_confirm s; err_name := n; err_email := e; err_password := p;
     err_confirm := c; cooldown := cooldown s |}.

Definition set_cooldown (x : Z) (s : signup_screen) : signup_screen :=
  {| su_name := su_name s; su_email := su_email s; su_password := su_password s;
     su_confirm := su_confirm s; err_name := err_name s; err_email := err_email s;
     err_password := err_password s; err_confirm := err_confirm s; cooldown := x |}.

(** [validateForm] of sign-up.tsx: sets the errors, returns whether none. *)
Definition signup_validate (s : signup_screen) : bool * signup_screen :=
  let n := if negb (js_truthy (su_name s)) then Some "İsim gerekli" else None in
  let e := if negb (js_truthy (su_email s)) then Some "E-posta adresi gerekli"
           else if negb (email_test (su_email s)) then Some "Geçerli bir e-posta adresi girin"
           else None in
  let p := if negb (js_truthy (su_password s)) then Some "Şifre gerekli"
           else if js_length (su_password s) <? 6 then Some "Şifre en az 6 karakter olmalı"
           else None in
  let c := if String.eqb (su_password s) (su_confirm s) then None else Some "Şifreler eşleşmiyor" in
  (match n, e, p, c with None, None, None, None => true | _, _, _, _ => false end,
   set_errors n e p c s).

(** [parseInt(error.message.match(/\d+/)[0] || '60')]: the first run of
    digits; without one, [match] gives [null] and [[0]] throws. *)
Fixpoint first_digits (l : list Ascii.ascii) : option (list Ascii.ascii) :=
  match l with
  | [] => None
  | c :: l' => if AiText.is_digit c then Some (AiText.span_digits l).1 else first_digits l'
  end.

Fixpoint digits_value (acc : Z) (l : list Ascii.ascii) : Z :=
  match l with
  | [] => acc
  | c :: l' => digits_value (10 * acc + (Z.of_nat (AiText.code c) - 48)) l'
  end.

(** [handleSignUp], given [signUp]'s outcome; it may throw a TypeError
    out of its [catch]. *)
Definition handleSignUp (signUp : option string) : M signup_screen unit :=
  s <- get ;;
  let '(valid, s1) := signup_validate s in
  put s1 ;;
  if negb valid || (0 <? cooldown s1)%Z then mret ()
  else match signUp with
       | None => modify (set_errors None (Some "Kayıt başarılı! Lütfen e-posta adresinizi doğrulayın.") None None)
       | Some msg =>
           if js_includes msg "over_email_send_rate_limit" then
             match first_digits (chars msg) with
             | None => throw (ExnType "Cannot read properties of null (reading '0')")
             | Some ds =>
                 let waitTime := digits_value 0 ds in
                 modify (set_cooldown waitTime) ;;
                 modify (set_errors None
                           (Some ("Güvenlik nedeniyle " +:+ js_number_to_string waitTime +:+
                                  " saniye beklemeniz gerekiyor.")) None None)
             end
           else modify (set_errors None (Some (if js_truthy msg then msg
                                               else "Kayıt başarısız. Lütfen tekrar deneyin."))
                                   None None)
       end.

(** The cooldown effect: [setTimeout(() => setCooldown(c => c - 1), 1000)]
    while it is positive. *)
Definition cooldown_tick : M signup_screen unit :=
  s <- get ;; when! (0 <? cooldown s)%Z then modify (fun s => set_cooldown (cooldown s - 1) s).

(** ** Lemmas *)

(** *** The automaton recognises the language

    After reading the kinds [ks], each flag of the automaton holds exactly
    when [ks] ends as its state says. *)
Definition ends_user (ks : list char_kind) : Prop := exists p k, ks = p ++ [k] /\ k <> Space.
Definition ends_at (ks : list char_kind) : Prop :=
  exists p x, ks = p ++ x ++ [AtSign] /\ nonblank_run x.
Definition ends_host (ks : list char_kind) : Prop :=
  exists p x y, ks = p ++ x ++ AtSign :: y /\ nonblank_run x /\ nonblank_run y.
Definition ends_dot (ks : list char_kind) : Prop :=
  exists p x y, ks = p ++ x ++ AtSign :: y ++ [Dot] /\ nonblank_run x /\ nonblank_run y.

Definition nfa_ok (ks : list char_kind) (st : nfa) : Prop :=
  (in_user st = true <-> ends_user ks) /\ (after_at st = true <-> ends_at ks) /\
  (in_host st = true <-> ends_host ks) /\ (after_dot st = true <-> ends_dot ks) /\
  (found st = true <-> email_lang ks).

(** [E : ks ++ [k] = r] where [r] is [l ++ [b]] up to associativity:
    [ks] is [l] and [k] is [b]. *)
Ltac list_assoc := repeat first [rewrite <- app_assoc | rewrite <- app_comm_cons].

Ltac snoc_split E l b :=
  lazymatch type of E with
  | ?ks ++ [?k] = _ =>
      let E' := fresh in
      assert (E' : ks ++ [k] = l ++ [b]) by (rewrite E; list_assoc; reflexivity);
      apply app_inj_tail in E' as [-> ->]
  end.

(** A non-empty list ends with its last element. *)
Lemma nonempty_snoc {A} (l : list A) : l <> [] -> exists l' a, l = l' ++ [a].
Proof.
  destruct l as [|a l] using rev_ind; [done|]. intros _. by exists l, a.
Qed.

Lemma nonblank_run_snoc x k : nonblank_run (x ++ [k]) <-> Forall (fun k => k <> Space) x /\ k <> Space.
Proof.
  unfold nonblank_run. rewrite Forall_app, Forall_singleton.
  split; [intros [_ ?]; done|intros ?; split; [by destruct x|done]].
Qed.

Lemma ends_user_iff ks k : ends_user (ks ++ [k]) <-> k <> Space.
Proof.
  split; [intros (p & k' & E & Hk); by simplify_list_eq|intros Hk; by exists ks, k].
Qed.

(** A non-blank run ends the text exactly when its last character is not
    blank. *)
Lemma ends_run_iff ks : (exists p x, ks = p ++ x /\ nonblank_run x) <-> ends_user ks.
Proof.
  split.
  - intros (p & x & -> & Hx). destruct (nonempty_snoc x (proj1 Hx)) as (x' & a & ->).
    apply nonblank_run_snoc in Hx as [_ Ha]. exists (p ++ x'), a. by list_assoc.
  - intros (p & k & -> & Hk). exists p, [k]. split; [done|]. split; [done|by constructor].
Qed.

Lemma ends_at_iff ks k : ends_at (ks ++ [k]) <-> ends_user ks /\ k = AtSign.
Proof.
  rewrite <- ends_run_iff. split.
  - intros (p & x & E & Hx). rewrite app_assoc in E. apply app_inj_tail in E as [-> ->]. eauto.
  - intros [(p & x & -> & Hx) ->]. exists p, x. by list_assoc.
Qed.

Lemma ends_host_iff ks k : ends_host (ks ++ [k]) <-> k <> Space /\ (ends_at ks \/ ends_host ks).
Proof.
  split.
  - intros (p & x & y & E & Hx & Hy). destruct (nonempty_snoc y (proj1 Hy)) as (y' & b & ->).
    apply nonblank_run_snoc in Hy as [Hy' Hb].
    snoc_split E (p ++ x ++ AtSign :: y') b.
    split; [done|]. destruct y' as [|c y'].
    + left. exists p, x. by list_assoc.
    + right. exists p, x, (c :: y'). rewrite <- ?app_assoc. done.
  - intros [Hk [(p & x & -> & Hx)|(p & x & y & -> & Hx & Hy)]].
    + exists p, x, [k]. rewrite <- ?app_assoc. split; [done|]. split; [done|].
      split; [done|by constructor].
    + exists p, x, (y ++ [k]). rewrite <- ?app_assoc, <- ?app_comm_cons. split; [done|].
      split; [done|]. apply nonblank_run_snoc. split; [apply Hy|done].
Qed.

Lemma ends_dot_iff ks k : ends_dot (ks ++ [k]) <-> ends_host ks /\ k = Dot.
Proof.
  split.
  - intros (p & x & y & E & Hx & Hy).
    snoc_split E (p ++ x ++ AtSign :: y) Dot.
    split; [|done]. exists p, x, y. by list_assoc.
  - intros [(p & x & y & -> & Hx & Hy) ->]. exists p, x, y. split; [|done].
    by list_assoc.
Qed.

Lemma email_lang_iff ks k : email_lang (ks ++ [k]) <-> email_lang ks \/ (ends_dot ks /\ k <> Space).
Proof.
  split.
  - intros (p & x & y & z & q & E & Hx & Hy & Hz).
    destruct q as [|b q'] using rev_ind.
    + destruct (nonempty_snoc z (proj1 Hz)) as (z' & b & ->).
      apply nonblank_run_snoc in Hz as [Hz' Hb]. rewrite app_nil_r in E.
      snoc_split E (p ++ x ++ AtSign :: y ++ Dot :: z') b. destruct z' as [|c z'].
      * right. split; [|done]. exists p, x, y. split; [|done].
        by list_assoc.
      * left. exists p, x, y, (c :: z'), []. rewrite app_nil_r.
        split; [by list_assoc|done].
    + left. exists p, x, y, z, q'. split; [|done].
      snoc_split E (p ++ x ++ AtSign :: y ++ Dot :: z ++ q') b. by list_assoc.
  - intros [(p & x & y & z & q & -> & Hx & Hy & Hz)|[(p & x & y & -> & Hx & Hy) Hk]].
    + exists p, x, y, z, (q ++ [k]). split; [|done].
      by list_assoc.
    + exists p, x, y, [k], []. split.
      * by list_assoc.
      * split_and!; try done. split; [done|by constructor].
Qed.


Lemma nfa0_ok : nfa_ok [] nfa0.
Proof.
  unfold nfa_ok, ends_user, ends_at, ends_host, ends_dot, email_lang. cbn.
  split_and!; split; try discriminate; intros H; exfalso; destruct_and?;
    repeat match goal with
    | H : ex _ |- _ => destruct H
    | H : _ /\ _ |- _ => destruct H
    | E : [] = _ |- _ => apply (f_equal length) in E; rewrite ?length_app in E; cbn in E; lia
    end.
Qed.

(** One step of the automaton reads one more character. *)
Lemma nfa_step_ok ks st k : nfa_ok ks st -> nfa_ok (ks ++ [k]) (nfa_step st k).
Proof.
  intros (Hu & Ha & Hh & Hd & Hf). unfold nfa_ok, nfa_step. cbn.
  rewrite ends_user_iff, ends_at_iff, ends_host_iff, ends_dot_iff, email_lang_iff,
    <- ?Hu, <- ?Ha, <- ?Hh, <- ?Hd, <- ?Hf.
  destruct k; rewrite ?andb_true_r, ?andb_false_r, ?orb_false_r, ?andb_true_iff, ?orb_true_iff;
    split_and!; split; intuition (try discriminate; try done).
Qed.

Lemma nfa_fold_ok ks : nfa_ok ks (fold_left nfa_step ks nfa0).
Proof.
  induction ks as [|ks k IH] using rev_ind; [apply nfa0_ok|].
  rewrite fold_left_app. by apply nfa_step_ok.
Qed.

(** *** The run visits every character

    Each step drops at least the lead byte, so the byte count is enough
    fuel for [nfa_run] to read all the characters. *)
Lemma nfa_run_fold fuel st l ks :
  utf8_kinds l ks -> length l <= fuel -> nfa_run fuel st l = fold_left nfa_step ks st.
Proof.
  intros Hk. revert fuel st. induction Hk as [|c l ks Hk IH]; intros fuel st Hf.
  - by destruct fuel.
  - destruct fuel as [|f]; [cbn in Hf; lia|]. cbn [nfa_run fold_left]. apply IH.
    cbn [char_bytes drop]. rewrite length_drop. cbn in Hf. lia.
Qed.

Lemma utf8_kinds_total l : exists ks, utf8_kinds l ks.
Proof.
  remember (length l) as n eqn:E. assert (Hl : length l <= n) by lia. clear E.
  revert l Hl. induction n as [|n IH]; intros [|c l] Hl; try by (exists []; constructor).
  - cbn in Hl. lia.
  - destruct (IH (drop (char_bytes (c :: l)) (c :: l))) as [ks Hks].
    + cbn [char_bytes drop]. rewrite length_drop. cbn in Hl. lia.
    + exists (kind_of (c :: l) :: ks). by constructor.
Qed.

Lemma utf8_kinds_det l ks1 ks2 : utf8_kinds l ks1 -> utf8_kinds l ks2 -> ks1 = ks2.
Proof.
  intros H1. revert ks2. induction H1 as [|c l ks1 H1 IH]; intros ks2 H2; inversion H2; subst; [done|].
  f_equal. by apply IH.
Qed.

(** The e-mail test on a few inputs: a blank before the [@], or no dot
    after a character following it, fails; other characters anywhere
    around a matching part do not matter. *)
Lemma email_test_examples :
  email_test "ali@okul.com" = true /\ email_test "a b@c.d" = true /\
  email_test "ali @okul.com" = false /\ email_test "ali@okul" = false /\
  email_test "ali@.com" = false /\ email_test "şule@okul.com.tr" = true.
Proof. vm_compute. split_and!; reflexivity. Qed.

Definition demo_form : signup_screen :=
  {| su_name := "Ali"; su_email := "ali@okul.com"; su_password := "123456"; su_confirm := "123456";
     err_name := None; err_email := None; err_password := None; err_confirm := None;
     cooldown := 0 |}.

(** A rate-limit error whose message carries no number makes the [catch]
    of [handleSignUp] throw a TypeError: no message is shown. *)
Lemma signup_rate_limit_without_number_throws :
  (handleSignUp (Some "over_email_send_rate_limit") demo_form).1 =
    Thrown (ExnType "Cannot read properties of null (reading '0')").
Proof. vm_compute. reflexivity. Qed.

(** *** The rate-limit cooldown *)

Lemma span_digits_digits l : Forall (fun c => AiText.is_digit c = true) (AiText.span_digits l).1.
Proof.
  induction l as [|c l IH]; cbn; [done|].
  destruct (AiText.is_digit c) eqn:E; [|done]. destruct (AiText.span_digits l). by constructor.
Qed.

Lemma first_digits_digits l ds :
  first_digits l = Some ds -> Forall (fun c => AiText.is_digit c = true) ds.
Proof.
  induction l as [|c l IH]; cbn [first_digits]; [done|].
  destruct (AiText.is_digit c); [intros [= <-]; apply (span_digits_digits (c :: l))|exact IH].
Qed.

(** [parseInt] of a run of digits is not negative. *)
Lemma digits_value_nonneg acc ds :
  (0 <= acc)%Z -> Forall (fun c => AiText.is_digit c = true) ds -> (0 <= digits_value acc ds)%Z.
Proof.
  intros Ha Hd. revert acc Ha. induction Hd as [|c ds Hc Hd IH]; intros acc Ha; cbn; [done|].
  apply IH. unfold AiText.is_digit in Hc. apply andb_true_iff in Hc as [Hc _].
  apply Nat.leb_le in Hc. lia.
Qed.

(** Each tick of the cooldown effect takes one second off while it is
    positive. *)
Lemma cooldown_ticks n s :
  (Z.of_nat n <= cooldown s)%Z ->
  cooldown (Nat.iter n (fun s => (cooldown_tick s).2) s) = (cooldown s - Z.of_nat n)%Z.
Proof.
  induction n as [|n IH]; intros Hn; [cbn; lia|]. rewrite Nat.iter_succ.
  unfold cooldown_tick at 1. munfold. cbn. rewrite IH by lia.
  destruct (Z.ltb_spec 0 (cooldown s - Z.of_nat n)); cbn; lia.
Qed.

(** While the cooldown is positive, a press only validates the form again:
    the outcome of [signUp] plays no part, since it is never called. *)
Lemma handleSignUp_cooling o s :
  (0 < cooldown s)%Z -> handleSignUp o s = (Ok (), (signup_validate s).2).
Proof.
  intros Hc. unfold handleSignUp. munfold. cbn -[signup_validate].
  destruct (signup_validate s) as [valid s'] eqn:E. cbn -[signup_validate].
  assert (Hs' : cooldown s' = cooldown s) by (unfold signup_validate in E; injection E as _ <-; done).
  rewrite Hs'. destruct (Z.ltb_spec 0 (cooldown s)); [|lia]. by rewrite orb_true_r.
Qed.

(** ** Theorems *)

(** C38: the e-mail test of both forms is the regular expression
    [/\S+@\S+\.\S+/]: the text splits into its UTF-8 characters in exactly
    one way, and [email_test] holds exactly when their kinds have an infix
    that is a run of non-blank characters, an [@], a second run, a dot and
    a third run.  The automaton, run with the byte count as fuel, reads
    every character. *)
Theorem email_test_spec email :
  exists ks, utf8_kinds (chars email) ks /\
    (forall ks', utf8_kinds (chars email) ks' -> ks' = ks) /\
    (email_test email = true <-> email_lang ks).
Proof.
  destruct (utf8_kinds_total (chars email)) as [ks Hks]. exists ks.
  split; [done|]. split; [intros ks' H'; by eapply utf8_kinds_det|].
  unfold email_test. rewrite (nfa_run_fold _ _ _ ks Hks) by lia. apply nfa_fold_ok.
Qed.

(** C39: a sign-up that the auth service refuses for its e-mail rate limit,
    from a valid form with no cooldown running: when the message carries
    no number, [match(/\d+/)] is [null] and the [catch] itself throws a
    TypeError, so no message is shown; otherwise the first number [wait]
    becomes the cooldown, which goes down by one each second, and while it
    is positive a press never calls [signUp] again; after [wait] seconds it
    is 0. *)
Theorem signup_rate_limit msg s :
  (signup_validate s).1 = true -> cooldown s = 0%Z ->
  js_includes msg "over_email_send_rate_limit" = true ->
  match first_digits (chars msg) with
  | None => (handleSignUp (Some msg) s).1 = Thrown (ExnType "Cannot read properties of null (reading '0')")
  | Some ds =>
      let wait := digits_value 0 ds in
      let s1 := (handleSignUp (Some msg) s).2 in
      cooldown s1 = wait /\
      (forall n o, (Z.of_nat n < wait)%Z ->
         let sn := Nat.iter n (fun s => (cooldown_tick s).2) s1 in
         cooldown sn = (wait - Z.of_nat n)%Z /\ handleSignUp o sn = (Ok (), (signup_validate sn).2)) /\
      cooldown (Nat.iter (Z.to_nat wait) (fun s => (cooldown_tick s).2) s1) = 0%Z
  end.
Proof.
  intros Hv Hc Hm. unfold handleSignUp at 1 3. munfold. cbn -[signup_validate first_digits].
  destruct (signup_validate s) as [valid s'] eqn:E. cbn in Hv. subst valid.
  assert (Hs' : cooldown s' = 0%Z) by (unfold signup_validate in E; injection E as _ <-; done).
  rewrite Hs', Hm. cbn -[first_digits].
  destruct (first_digits (chars msg)) as [ds|] eqn:Hd; [|cbn; reflexivity].
  pose proof (digits_value_nonneg 0 ds ltac:(lia) (first_digits_digits _ _ Hd)) as Hw.
  cbv zeta. cbn. split; [done|]. split.
  - intros n o Hn. rewrite cooldown_ticks by (cbn; lia). cbn.
    split; [done|]. apply handleSignUp_cooling. rewrite cooldown_ticks by (cbn; lia). cbn. lia.
  - rewrite cooldown_ticks by (cbn; lia). cbn. lia.
Qed.

(** ** Witnesses *)

Example email_test_spec_witness :
  exists ks, utf8_kinds (chars "ali@okul.com") ks /\ email_lang ks.
Proof.
  destruct (email_test_spec "ali@okul.com") as (ks & Hks & _ & Hiff).
  exists ks. split; [exact Hks|]. apply Hiff. vm_compute. reflexivity.
Defined.

(** The message "over_email_send_rate_limit: wait 45 seconds": ten
    seconds later the cooldown is 35 and a press does nothing. *)
Example signup_rate_limit_witness :
  (signup_validate demo_form).1 = true /\ cooldown demo_form = 0%Z /\
  cooldown (Nat.iter 10 (fun s => (cooldown_tick s).2)
              (handleSignUp (Some "over_email_send_rate_limit: wait 45 seconds") demo_form).2) = 35%Z.
Proof.
  split; [vm_compute; reflexivity|]. split; [reflexivity|].
  pose proof (signup_rate_limit "over_email_send_rate_limit: wait 45 seconds" demo_form
                ltac:(vm_compute; reflexivity) eq_refl ltac:(vm_compute; reflexivity)) as H.
  vm_compute in H. destruct H as (_ & H & _). exact (proj1 (H 10 None eq_refl)).
Defined.

End Auth.
